(** * arXiv acquisition pipeline: a shallow embedding of the Python sources

    The development follows the layout of [src/scripts]:
    - [Py]                 the fragment of Python's string and number
                           library that the scripts rely on;
    - [ArxivHandler]       [arXiv_handler.py];
    - [World]              the outside world: exceptions, records of the
                           metadata service, tar members, the trace of
                           effects and the monad that threads it;
    - [MetadataCollector]  [metadata_collector.py];
    - [Downloader]         [downloader.py];
    - [ReferenceExtractor] [reference_extractor.py];
    - [Main]               [main.py]: the workers, and the threads and
                           queues as a transition system;
    - [Spec]               the notions of the specification;
    - [Sample]             concrete worlds and runs;
    - [ArxivRange]         [get_IDs_All] of [arXiv_handler.py];
    - [Cleanup]            [cleanup_non_tex_bib_files] of [downloader.py];
    - [Storage]            [download] of [downloader.py] on a disk that
                           is kept track of;
    - [Scholar]            the network and file side of
                           [reference_extractor.py], and the reference
                           worker of [main.py];
    - [Plant]              the threads of [main.py] together with the
                           reference workers;
    - [Cases]              concrete archives and answers.
    The theorems follow the definitions.

    Python [str] values are modelled by [string] (code points below 256),
    Python [int] by [Z], [dict] by [gmap], exceptions by a sum type, and
    the outside world (network, file system, random source, tar reader)
    by oracles collected in an environment record. *)

From Stdlib Require Import ZArith Ascii List Lia QArith Lqa.
From Stdlib Require Import DecimalString DecimalN DecimalPos.
From stdpp Require Import base option strings gmap list.

Open Scope string_scope.
Open Scope Z_scope.

(** [+:+] appends strings; [++] is kept for lists. *)
Disable Notation "_ ++ _" : string_scope.
Arguments String.append !_ _ / : simpl nomatch.

(* ===================================================================== *)
(** * Python strings and numbers *)
(* ===================================================================== *)

Module Py.

(** [len(s)] *)
Fixpoint len (s : string) : nat :=
  match s with
  | EmptyString => O
  | String _ r => S (len r)
  end.

(** [s[i]] for a non-negative index, [None] out of range. *)
Fixpoint get (i : nat) (s : string) : option ascii :=
  match s, i with
  | EmptyString, _ => None
  | String c _, O => Some c
  | String _ r, S j => get j r
  end.

(** [s[:n]] and [s[n:]] *)
Fixpoint take (n : nat) (s : string) : string :=
  match n, s with
  | S m, String c r => String c (take m r)
  | _, _ => EmptyString
  end.

Fixpoint drop (n : nat) (s : string) : string :=
  match n, s with
  | S m, String _ r => drop m r
  | _, _ => s
  end.

(** [list(s)] *)
Fixpoint chars (s : string) : list ascii :=
  match s with
  | EmptyString => []
  | String c r => c :: chars r
  end.

(** [''.join(f(c) for c in s)] with [f] returning one character. *)
Fixpoint map_chars (f : ascii -> ascii) (s : string) : string :=
  match s with
  | EmptyString => EmptyString
  | String c r => String (f c) (map_chars f r)
  end.

Fixpoint all_chars (p : ascii -> bool) (s : string) : bool :=
  match s with
  | EmptyString => true
  | String c r => p c && all_chars p r
  end.

(** [s.startswith(p)] *)
Fixpoint startswith (p s : string) : bool :=
  match p, s with
  | EmptyString, _ => true
  | String a p', String b s' => Ascii.eqb a b && startswith p' s'
  | String _ _, EmptyString => false
  end.

(** [needle in hay] on strings: substring search. *)
Fixpoint contains (needle hay : string) : bool :=
  startswith needle hay ||
  match hay with
  | EmptyString => false
  | String _ r => contains needle r
  end.

(** [s.endswith(p)] *)
Fixpoint endswith (p s : string) : bool :=
  String.eqb p s ||
  match s with
  | EmptyString => false
  | String _ r => endswith p r
  end.

(** [s.replace(a, b)] for single characters [a], [b]. *)
Definition replace_char (a b : ascii) (s : string) : string :=
  map_chars (fun c => if Ascii.eqb c a then b else c) s.

(** [s.split(sep)] for a single-character separator: the pieces between
    the occurrences of [sep], empty pieces included. *)
Fixpoint split (sep : ascii) (s : string) : list string :=
  match s with
  | EmptyString => [EmptyString]
  | String c r =>
      if Ascii.eqb c sep then EmptyString :: split sep r
      else match split sep r with
           | piece :: pieces => String c piece :: pieces
           | [] => [String c EmptyString]
           end
  end.

(** The regular-expression class [\d] on code points below 256. *)
Definition is_digit (c : ascii) : bool :=
  let n := nat_of_ascii c in (48 <=? n)%nat && (n <=? 57)%nat.

(** [string.ascii_letters], [string.digits] *)
Definition ascii_lowercase : string := "abcdefghijklmnopqrstuvwxyz".
Definition ascii_uppercase : string := "ABCDEFGHIJKLMNOPQRSTUVWXYZ".
Definition ascii_letters : string := ascii_lowercase +:+ ascii_uppercase.
Definition digits : string := "0123456789".

(** [str(n)] for a natural number. *)
Definition str_N (n : N) : string := NilEmpty.string_of_uint (N.to_uint n).

(** [str(z)] for an integer. *)
Definition str_Z (z : Z) : string :=
  if z <? 0 then "-" +:+ str_N (Z.to_N (- z)) else str_N (Z.to_N z).

Fixpoint zeros (n : nat) : string :=
  match n with
  | O => EmptyString
  | S m => String "0" (zeros m)
  end.

(** [f"{z:0Wd}"]: decimal, sign first, then zeros up to width [W]. *)
Definition format_0d (width : nat) (z : Z) : string :=
  if z <? 0 then
    let d := str_N (Z.to_N (- z)) in
    "-" +:+ zeros (width - 1 - len d) +:+ d
  else
    let d := str_N (Z.to_N z) in
    zeros (width - len d) +:+ d.

(** [int(s)] on the plain decimal forms: an optional sign followed by one
    or more digits.  The other spellings Python accepts (surrounding white
    space, underscores between digits) do not occur in the identifiers
    handled here and count as a [ValueError] ([None]). *)
Definition int_digits (s : string) : option Z :=
  match s with
  | EmptyString => None
  | _ => if all_chars is_digit s
         then (fun d => Z.of_N (N.of_uint d)) <$> NilEmpty.uint_of_string s
         else None
  end.

Definition int (s : string) : option Z :=
  match s with
  | String "-" r => Z.opp <$> int_digits r
  | String "+" r => int_digits r
  | _ => int_digits s
  end.

(** White space of [str.strip()] among the code points below 256. *)
Definition is_space (c : ascii) : bool :=
  let n := nat_of_ascii c in
  ((9 <=? n) && (n <=? 13) || (28 <=? n) && (n <=? 32)
   || (n =? 133) || (n =? 160))%nat.

Fixpoint lstrip (s : string) : string :=
  match s with
  | String c r => if is_space c then lstrip r else s
  | EmptyString => EmptyString
  end.

(** [s.strip()] *)
Definition strip (s : string) : string :=
  String.rev (lstrip (String.rev (lstrip s))).

(** Truthiness of a string: [bool(s)]. *)
Definition truthy_str (s : string) : bool :=
  match s with EmptyString => false | _ => true end.

(** [os.path.join(a, b)] on POSIX paths. *)
Definition path_join (a b : string) : string :=
  if startswith "/" b then b
  else if String.eqb a "" || endswith "/" a then a +:+ b
  else a +:+ "/" +:+ b.

(** [l[lo:hi]] with Python's treatment of negative and oversized
    bounds. *)
Definition slice_bound (n i : Z) : Z :=
  if i <? 0 then Z.max (n + i) 0 else Z.min i n.

Definition slice {A} (l : list A) (lo hi : Z) : list A :=
  let n := Z.of_nat (length l) in
  let lo := slice_bound n lo in
  let hi := slice_bound n hi in
  firstn (Z.to_nat (hi - lo)) (skipn (Z.to_nat lo) l).

End Py.

(* ===================================================================== *)
(** * arXiv_handler.py *)
(* ===================================================================== *)

Module ArxivHandler.

(** [get_ID(month, year, number)]:
    [f"{year % 100:02d}{month:02d}.{number:05d}"] *)
Definition get_ID (month year number : Z) : string :=
  Py.format_0d 2 (year mod 100) +:+ Py.format_0d 2 month +:+ "."
  +:+ Py.format_0d 5 number.

(** A Python value that is either [None] or an integer. *)
Inductive opt_int : Type :=
  | PyNone
  | PyInt (z : Z).

Section Search.

(** [id_exists]: the archive's existence oracle; the source turns every
    transport error into [False]. *)
Variable id_exists : string -> bool.
Variables (year month : Z).

(** First loop of [find_first_id]:
    [while not id_exists(get_ID(month, year, high)): high *= 2; ...].
    The result is [inl r] when the function returns [r] from inside the
    loop and [inr high] when the loop is left.  [None] is fuel running
    out. *)
Fixpoint first_probe (fuel : nat) (high : Z) : option (opt_int + Z) :=
  match fuel with
  | O => None
  | S f =>
      if negb (id_exists (get_ID month year high)) then
        let high := high * 2 in
        if high >? 99999 then Some (inl PyNone) else first_probe f high
      else Some (inr high)
  end.

(** Second loop of [find_first_id]: [while low + 1 < high: ...]. *)
Fixpoint first_bisect (fuel : nat) (low high : Z) : option Z :=
  match fuel with
  | O => None
  | S f =>
      if low + 1 <? high then
        let mid := (low + high) / 2 in
        if id_exists (get_ID month year mid)
        then first_bisect f low mid
        else first_bisect f mid high
      else Some high
  end.

(** First loop of [find_last_id]:
    [while id_exists(get_ID(month, year, high)): high *= 2; ...]. *)
Fixpoint last_probe (fuel : nat) (high : Z) : option (opt_int + Z) :=
  match fuel with
  | O => None
  | S f =>
      if id_exists (get_ID month year high) then
        let high := high * 2 in
        if high >? 99999 then Some (inl (PyInt 99999)) else last_probe f high
      else Some (inr high)
  end.

(** Second loop of [find_last_id]. *)
Fixpoint last_bisect (fuel : nat) (low high : Z) : option Z :=
  match fuel with
  | O => None
  | S f =>
      if low + 1 <? high then
        let mid := (low + high) / 2 in
        if id_exists (get_ID month year mid)
        then last_bisect f mid high
        else last_bisect f low mid
      else Some low
  end.

(** Seventeen doublings take [high] from 1 past 99999, and a bisection of
    [(low, high)] needs fewer than [high - low] rounds: the fuel below is
    never exhausted (see [find_first_id_total], [find_last_id_total]). *)
Definition probe_fuel : nat := 18.

Definition find_first_id : option opt_int :=
  let low := 1 in
  let high := 1 in
  match first_probe probe_fuel high with
  | None => None
  | Some (inl r) => Some r
  | Some (inr high) => PyInt <$> first_bisect (Z.to_nat high) low high
  end.

Definition find_last_id : option opt_int :=
  let high := 1 in
  match last_probe probe_fuel high with
  | None => None
  | Some (inl r) => Some r
  | Some (inr high) =>
      let low := high / 2 in
      PyInt <$> last_bisect (Z.to_nat high) low high
  end.

End Search.

(** [get_IDs_month]: [[get_ID(month, year, i) for i in range(start, end + 1)]] *)
Definition get_IDs_month (month year start_number end_number : Z) : list string :=
  (fun i => get_ID month year (start_number + Z.of_nat i))
    <$> seq 0 (Z.to_nat (end_number + 1 - start_number)).

(** [get_IDs_network]: the fixed-total enumeration.  The loop visits the
    months from the start to the end month; [fuel] bounds their number and
    [None] is returned when it does not suffice. *)
Fixpoint get_IDs_network_loop (fuel : nat) (y m n_start : Z)
    (start_ID end_month end_year end_ID total_paper : Z) (ids : list string)
    : option (list string) :=
  match fuel with
  | O => None
  | S f =>
      let n_end :=
        if (y =? end_year) && (m =? end_month) then end_ID
        else total_paper - end_ID + start_ID - 1 in
      let ids := if n_start <=? n_end
                 then ids ++ get_IDs_month m y n_start n_end else ids in
      if (y =? end_year) && (m =? end_month) then Some ids
      else
        let m := m + 1 in
        let '(m, y) := if m >? 12 then (1, y + 1) else (m, y) in
        get_IDs_network_loop f y m 1 start_ID end_month end_year end_ID
          total_paper ids
  end.

Definition get_IDs_network (fuel : nat)
    (start_month start_year start_ID end_month end_year end_ID total_paper : Z)
    : option (list string) :=
  get_IDs_network_loop fuel start_year start_month start_ID
    start_ID end_month end_year end_ID total_paper [].

(** The regular expression [^(\d{2})(\d{2})\.(\d{5})$] under [re.match]:
    ten characters, optionally followed by one final newline (which [$]
    lets through). *)
Definition match_yymm_nnnnn (s : string) : option (string * string * string) :=
  let body := Py.take 10 s in
  let rest := Py.drop 10 s in
  let yy := Py.take 2 body in
  let mm := Py.take 2 (Py.drop 2 body) in
  let dot := Py.take 1 (Py.drop 4 body) in
  let id_num := Py.drop 5 body in
  if (Py.len body =? 10)%nat
     && Py.all_chars Py.is_digit yy && Py.all_chars Py.is_digit mm
     && String.eqb dot "." && Py.all_chars Py.is_digit id_num
     && (String.eqb rest "" || String.eqb rest (String "010" ""))
  then Some (yy, mm, id_num) else None.

(** [format_arxiv_id_for_key]: [YYMM.NNNNN] to [20YYMM-NNNNN], anything
    else unchanged. *)
Definition format_arxiv_id_for_key (arxiv_id : string) : string :=
  match match_yymm_nnnnn arxiv_id with
  | Some (yy, mm, id_num) =>
      let yyyy := "20" +:+ yy in
      yyyy +:+ mm +:+ "-" +:+ id_num
  | None => arxiv_id
  end.

End ArxivHandler.

(* ===================================================================== *)
(** * The outside world *)
(* ===================================================================== *)

Module World.

(** Exception classes that the scripts raise, catch or let through. *)
Inductive exn_class : Type :=
  | OSError               (* includes its subclasses other than the next *)
  | FileNotFoundError     (* a subclass of OSError *)
  | ExtractError          (* tarfile.ExtractError *)
  | FilterError           (* tarfile.FilterError, raised by filter="data" *)
  | ReadError             (* tarfile.ReadError *)
  | RequestException      (* requests.RequestException *)
  | HTTPError             (* arxiv.HTTPError *)
  | StopIteration
  | RuntimeError
  | ValueError
  | IndexError
  | TypeError
  | AttributeError.

(** An exception object: its class and [str(e)]. *)
Record exn : Type := Exn { exn_class_of : exn_class; exn_str : string }.

#[export] Instance exn_class_eq_dec : EqDecision exn_class.
Proof. solve_decision. Defined.

(** [isinstance(e, OSError)] *)
Definition is_OSError (e : exn) : bool :=
  match exn_class_of e with
  | OSError | FileNotFoundError => true
  | _ => false
  end.

(** A record of the archive's metadata service ([arxiv.Result]).  The time
    stamps are kept with their [strftime("%Y-%m-%d")] rendering. *)
Record datetime : Type := { ymd : string; seconds : Z }.

#[export] Instance datetime_eq_dec : EqDecision datetime.
Proof. solve_decision. Defined.

Record arxiv_result : Type := {
  short_id : string;               (* get_short_id(), e.g. 2305.00633v4 *)
  title : string;
  authors : list string;           (* [a.name for a in authors] *)
  published : datetime;
  updated : datetime;
  categories : list string;
  summary : string;
  comment : option string;
  doi : option string;
}.

(** Members of a tar archive ([tarfile.TarInfo]). *)
Inductive member_type : Type :=
  | REGTYPE | DIRTYPE | LNKTYPE | SYMTYPE | SPECIAL.

Record tar_member : Type := { name : string; type : member_type }.

Definition islnk (m : tar_member) : bool :=
  match type m with LNKTYPE => true | _ => false end.
Definition issym (m : tar_member) : bool :=
  match type m with SYMTYPE => true | _ => false end.

(** What [requests.get] followed by the copy to disk does in
    [download_url].  A copy that is cut short after the file was made is
    told apart in [Storage]. *)
Inductive http_outcome : Type :=
  | Http200                       (* status 200, body written *)
  | HttpStatus (code : Z)         (* any other status *)
  | HttpRaises (e : exn).         (* an exception on the way *)

(** The metadata file written by [save_metadata]. *)
Record metadata : Type := {
  md_arxiv_id : string;
  md_paper_title : string;
  md_authors : list string;
  md_submission_date : string;
  md_revised_dates : list string;
  md_latest_version : Z;
  md_categories : list string;
  md_abstract : string;
  md_pdf_urls : list string;
  md_publication_venue : option string;
  md_doi : option string;
}.

(** The two queues of [main.py]. *)
Inductive queue_name : Type := IdQueue | DownloadQueue.

(** Observable effects, in the order they happen.  [position] is the
    place of a member in [tar.getmembers()]; [EvSkippedEntry] and
    [EvExtractionFailed] are the two warnings of [safe_extract_tar]. *)
Inductive event : Type :=
  | EvApiCall (paper_id : string)
  | EvSleep (seconds : Q)
  | EvMakedirs (path : string)
  | EvHttpGet (url out_path : string)        (* the request is sent *)
  | EvDownloaded (out_path : string)         (* the body is on disk *)
  | EvExtracted (position : nat) (member_name path : string)
  | EvSkippedEntry (position : nat) (member_name : string) (e : exn)
  | EvExtractionFailed (tar_path : string) (e : exn)
  | EvCleanup (folder : string)
  | EvRemove (path : string)
  | EvSaveMetadata (path : string) (md : metadata)
  | EvPut (q : queue_name) (item : option string).

(** The oracles.  Each takes the number of earlier requests of its kind,
    so that an answer may change from one request to the next. *)
Record env : Type := {
  (* next(client.results(arxiv.Search(id_list=[paper_id]))) *)
  arxiv_results : nat -> string -> exn + arxiv_result;
  (* random.random(), a number of [0, 1) *)
  random_random : nat -> Q;
  (* requests.get(url, stream=True) and the copy into out_path *)
  requests_get : nat -> string -> string -> http_outcome;
  (* tarfile.is_tarfile(path) when it returns; [Storage] follows the
     call that raises *)
  tarfile_is_tarfile : nat -> string -> bool;
  (* tarfile.open(path, "r:gz") and getmembers() *)
  tarfile_open : nat -> string -> exn + list tar_member;
  (* tar.extract(member, path=extract_to, filter="data") *)
  tar_extract : nat -> tar_member -> string -> option exn;
  os_makedirs : nat -> string -> option exn;
  os_remove : nat -> string -> option exn;
  (* open(path, "w") and json.dump *)
  write_json : nat -> string -> option exn;
}.

(** The state threaded through the scripts. *)
Record world : Type := {
  api_calls : nat;
  draws : nat;
  io_ops : nat;
  trace : list event;
}.

Definition start : world :=
  {| api_calls := 0; draws := 0; io_ops := 0; trace := [] |}.

(** Computations that may raise. *)
Definition M (A : Type) : Type := world -> (exn + A) * world.

Definition ret {A} (a : A) : M A := fun w => (inr a, w).

Definition raise {A} (e : exn) : M A := fun w => (inl e, w).

Definition bind {A B} (c : M A) (k : A -> M B) : M B :=
  fun w => match c w with
           | (inr a, w') => k a w'
           | (inl e, w') => (inl e, w')
           end.

(** [try: c except Exception as e: h(e)]; every exception of the model
    derives from [Exception]. *)
Definition try_except {A} (c : M A) (h : exn -> M A) : M A :=
  fun w => match c w with
           | (inl e, w') => h e w'
           | r => r
           end.

(** [try: c finally: f] *)
Definition try_finally {A} (c : M A) (f : M unit) : M A :=
  fun w => match c w with
           | (r, w') =>
               match f w' with
               | (inl e, w'') => (inl e, w'')
               | (inr _, w'') => (r, w'')
               end
           end.

Definition emit (e : event) : M unit :=
  fun w => (inr tt, {| api_calls := api_calls w; draws := draws w;
                       io_ops := io_ops w; trace := trace w ++ [e] |}).

Definition tick_api : M nat :=
  fun w => (inr (api_calls w),
            {| api_calls := S (api_calls w); draws := draws w;
               io_ops := io_ops w; trace := trace w |}).

Definition tick_draw : M nat :=
  fun w => (inr (draws w),
            {| api_calls := api_calls w; draws := S (draws w);
               io_ops := io_ops w; trace := trace w |}).

Definition tick_io : M nat :=
  fun w => (inr (io_ops w),
            {| api_calls := api_calls w; draws := draws w;
               io_ops := S (io_ops w); trace := trace w |}).

Definition lift_option {A} (e : exn) (o : option A) : M A :=
  match o with Some a => ret a | None => raise e end.

Definition lift_sum {A} (r : exn + A) : M A :=
  match r with inr a => ret a | inl e => raise e end.

(** An effect that either succeeds or raises. *)
Definition lift_failure (o : option exn) : M unit :=
  match o with None => ret tt | Some e => raise e end.

End World.

Export World.

Declare Scope world_scope.
Delimit Scope world_scope with world.
Notation "'let*' x ':=' c 'in' k" := (World.bind c (fun x => k))
  (at level 10, x pattern, c at level 100, k at level 200) : world_scope.
Notation "c ';;' k" := (World.bind c (fun _ => k))
  (at level 100, k at level 200, right associativity) : world_scope.
Open Scope world_scope.

Section Effects.

Variable E : env.

(** [time.sleep(seconds)] *)
Definition time_sleep (seconds : Q) : M unit := emit (EvSleep seconds).

(** [random.uniform(a, b)], which is [a + (b - a) * random.random()]. *)
Definition random_uniform (a b : Q) : M Q :=
  let* n := tick_draw in
  ret (a + (b - a) * random_random E n)%Q.

(** [os.makedirs(path, exist_ok=True)] *)
Definition makedirs (path : string) : M unit :=
  let* n := tick_io in
  lift_failure (os_makedirs E n path) ;;
  emit (EvMakedirs path).

(** [os.remove(path)] *)
Definition remove (path : string) : M unit :=
  let* n := tick_io in
  lift_failure (os_remove E n path) ;;
  emit (EvRemove path).

End Effects.

(* ===================================================================== *)
(** * metadata_collector.py *)
(* ===================================================================== *)

Module MetadataCollector.

(** [create_metadata(paper)].  [split('v')[1]] raises [IndexError] when the
    short id has no [v], and [int] raises [ValueError] on a non-number. *)
Definition create_metadata (paper : arxiv_result) : M metadata :=
  let arxiv_id := short_id paper in
  let pieces := Py.split "v" arxiv_id in
  let* base_id := lift_option (Exn IndexError "list index out of range")
                    (pieces !! 0%nat) in
  let* version_str := lift_option (Exn IndexError "list index out of range")
                        (pieces !! 1%nat) in
  let* version := lift_option (Exn ValueError "invalid literal for int()")
                    (Py.int version_str) in
  let pdf_urls :=
    if version >? 1 then
      (fun i => "http://arxiv.org/pdf/" +:+ base_id +:+ "v"
                +:+ Py.str_Z (1 + Z.of_nat i))
        <$> seq 0 (Z.to_nat version)
    else ["http://arxiv.org/pdf/" +:+ arxiv_id] in
  ret {| md_arxiv_id := base_id;
         md_paper_title := Py.strip (title paper);
         md_authors := authors paper;
         md_submission_date := ymd (published paper);
         md_revised_dates :=
           if bool_decide (updated paper ≠ published paper)
           then [ymd (updated paper)] else [];
         md_latest_version := version;
         md_categories := categories paper;
         md_abstract := Py.strip (summary paper);
         md_pdf_urls := pdf_urls;
         md_publication_venue :=
           match comment paper with
           | Some c => if Py.truthy_str c then Some (Py.strip c) else None
           | None => None
           end;
         md_doi :=
           match doi paper with
           | Some d => if Py.truthy_str d then Some d else None
           | None => None
           end |}.

Section WithEnv.

Variable E : env.

(** [save_metadata(paper, folder)]; [folder] is taken as already
    absolute, so that [os.path.abspath] leaves it alone. *)
Definition save_metadata (paper : arxiv_result) (folder : string)
    : M metadata :=
  let* md := create_metadata paper in
  let folder_path := folder in
  makedirs E folder_path ;;
  let save_path := Py.path_join folder_path "metadata.json" in
  let* n := tick_io in
  lift_failure (write_json E n save_path) ;;
  emit (EvSaveMetadata save_path md) ;;
  ret md.

End WithEnv.

End MetadataCollector.

(* ===================================================================== *)
(** * downloader.py *)
(* ===================================================================== *)

Module Downloader.

Import MetadataCollector.

Definition ARXIV_HOST : string := "https://arxiv.org".

(** [format_yymm_id(base_id)]: [base_id.replace('.', '-')] *)
Definition format_yymm_id (base_id : string) : string :=
  Py.replace_char "." "-" base_id.

(** [sanitize_filename(name)] *)
Definition safe_chars : string :=
  "-_." +:+ Py.ascii_letters +:+ Py.digits +:+ "/".

Definition sanitize_filename (name : string) : string :=
  Py.map_chars
    (fun c => if Py.contains (String c "") safe_chars then c else "_"%char)
    name.

(** [os.path.dirname(p)] on POSIX paths: the part up to the last slash,
    without trailing slashes unless it consists of slashes only. *)
Fixpoint rstrip_slash_rev (r : string) : string :=
  match r with
  | String "/" r' => rstrip_slash_rev r'
  | _ => r
  end.

Fixpoint drop_to_slash_rev (r : string) : string :=
  match r with
  | String "/" _ => r
  | String _ r' => drop_to_slash_rev r'
  | EmptyString => EmptyString
  end.

Definition dirname (p : string) : string :=
  let head_rev := drop_to_slash_rev (String.rev p) in
  if Py.all_chars (Ascii.eqb "/") head_rev then String.rev head_rev
  else String.rev (rstrip_slash_rev head_rev).

(** [os.path.basename(p)] *)
Definition basename (p : string) : string :=
  List.last (Py.split "/" p) "".

Section WithEnv.

Variable E : env.

(** The test that makes [safe_extract_tar] skip a member. *)
Definition skipped (member : tar_member) : bool :=
  islnk member || issym member || Py.startswith "/" (name member)
  || Py.contains ".." (name member).

(** The inner [except (FileNotFoundError, OSError, tarfile.ExtractError)] *)
Definition caught_per_member (e : exn) : bool :=
  is_OSError e || bool_decide (exn_class_of e = ExtractError).

(** One round of the loop over [tar.getmembers()], without its [try]. *)
Definition extract_member (extract_to : string) (position : nat)
    (member : tar_member) : M unit :=
  if skipped member then ret tt
  else
    let member := {| name := sanitize_filename (name member);
                     type := type member |} in
    let target_path := Py.path_join extract_to (name member) in
    let target_dir := dirname target_path in
    makedirs E target_dir ;;
    (* Extract safely *)
    let* n := tick_io in
    lift_failure (tar_extract E n member extract_to) ;;
    emit (EvExtracted position (name member)
            (Py.path_join extract_to (name member))).

Fixpoint extract_members (extract_to : string) (position : nat)
    (members : list tar_member) : M unit :=
  match members with
  | [] => ret tt
  | member :: rest =>
      try_except (extract_member extract_to position member)
        (fun inner_e =>
           if caught_per_member inner_e
           then
             (* nothing raises before the name is sanitized *)
             emit (EvSkippedEntry position
                     (sanitize_filename (name member)) inner_e)
           else raise inner_e) ;;
      extract_members extract_to (S position) rest
  end.

(** [safe_extract_tar(tar_path, extract_to)] *)
Definition safe_extract_tar (tar_path extract_to : string) : M unit :=
  try_except
    (let* n := tick_io in
     let* members := lift_sum (tarfile_open E n tar_path) in
     extract_members extract_to 0 members)
    (fun e => emit (EvExtractionFailed tar_path e)).

(** [download_url(url, out_path)] *)
Definition download_url (url out_path : string) : M bool :=
  let* n := tick_io in
  emit (EvHttpGet url out_path) ;;
  match requests_get E n url out_path with
  | Http200 => emit (EvDownloaded out_path) ;; ret true
  | HttpStatus _ => ret false
  | HttpRaises e =>
      if bool_decide (exn_class_of e = RequestException)
      then ret false else raise e
  end.

(** The files that [cleanup_non_tex_bib_files] keeps. *)
Definition kept_by_cleanup (file : string) : bool :=
  Py.endswith ".tex" file || Py.endswith ".bib" file.

(** [cleanup_non_tex_bib_files(folder)], taken as one step; a failing
    [os.remove] is only reported.  [Cleanup] and [Storage] follow the
    removals file by file. *)
Definition cleanup_non_tex_bib_files (folder : string) : M unit :=
  emit (EvCleanup folder).

(** The regular expression [^(\d{4}\.\d{5})] under [re.match]. *)
Definition match_base_id (s : string) : option string :=
  let g := Py.take 10 s in
  if (Py.len g =? 10)%nat
     && Py.all_chars Py.is_digit (Py.take 4 g)
     && String.eqb (Py.take 1 (Py.drop 4 g)) "."
     && Py.all_chars Py.is_digit (Py.drop 5 g)
  then Some g else None.

(** One round of [for result in list_download]. *)
Definition download_version (tex_root : string) (result : arxiv_result)
    : M unit :=
  let full_id := short_id result in
  let folder_version := Py.path_join tex_root full_id in
  makedirs E folder_version ;;
  let src_url := ARXIV_HOST +:+ "/src/" +:+ full_id in
  let tar_path := Py.path_join folder_version (full_id +:+ ".tar.gz") in
  let* fetched := download_url src_url tar_path in
  if negb fetched then ret tt
  else
    let* n := tick_io in
    if negb (tarfile_is_tarfile E n tar_path) then
      try_except (remove E tar_path)
        (fun e => if is_OSError e then ret tt else raise e)
    else
      try_finally
        (try_except
           (safe_extract_tar tar_path folder_version ;;
            cleanup_non_tex_bib_files folder_version)
           (fun e => ret tt))
        (try_except (remove E tar_path)
           (fun e => if is_OSError e then ret tt else raise e)).

(** The loop [for result in list_download]; it returns the value the
    loop variable [result] holds when the loop is over. *)
Fixpoint download_versions (tex_root : string)
    (list_download : list arxiv_result) (result : arxiv_result)
    : M arxiv_result :=
  match list_download with
  | [] => ret result
  | r :: rest =>
      download_version tex_root r ;;
      download_versions tex_root rest r
  end.

(** [download(list_download, base_dir)] *)
Definition download (list_download : list arxiv_result) (base_dir : string)
    : M unit :=
  match list_download with
  | [] => ret tt
  | first :: _ =>
      match match_base_id (short_id first) with
      | None => ret tt
      | Some arxiv_id =>
          let folder_arxiv := Py.path_join base_dir (format_yymm_id arxiv_id) in
          makedirs E folder_arxiv ;;
          let tex_root := Py.path_join folder_arxiv "tex" in
          makedirs E tex_root ;;
          let* result := download_versions tex_root list_download first in
          (* Save metadata after all versions *)
          try_except
            (save_metadata E result folder_arxiv ;; ret tt)
            (fun e => ret tt)
      end
  end.

End WithEnv.

End Downloader.

(* ===================================================================== *)
(** * reference_extractor.py *)
(* ===================================================================== *)

Module ReferenceExtractor.

Import Downloader.

(** Values decoded from the bibliographic API's JSON answer (numbers are
    integers here; the fields read below carry no fractions). *)
#[warnings="-register-all"]
Inductive json : Type :=
  | JNull
  | JBool (b : bool)
  | JInt (z : Z)
  | JStr (s : string)
  | JList (l : list json)
  | JDict (d : gmap string json).

(** Python's truth value of a decoded value. *)
Definition truthy (v : json) : bool :=
  match v with
  | JNull => false
  | JBool b => b
  | JInt z => negb (z =? 0)
  | JStr s => Py.truthy_str s
  | JList l => match l with [] => false | _ => true end
  | JDict d => match map_to_list d with [] => false | _ => true end
  end.

Definition attribute_error (what : string) : exn :=
  Exn AttributeError ("object has no attribute '" +:+ what +:+ "'").

(** [v.get(key, default)]: only a dict has [get]. *)
Definition dict_get (v : json) (key : string) (dflt : json) : M json :=
  match v with
  | JDict d => ret (default dflt (d !! key))
  | _ => raise (attribute_error "get")
  end.

(** The submission date stored for a reference:
    [publication_date if publication_date else ""], where a missing date
    was first replaced by [f"{year}-01-01"] when there is a year. *)
Inductive date_field : Type :=
  | DateGiven (publication_date : json)
  | DateFromYear (year : json)
  | DateEmpty.

Record ref_metadata : Type := {
  ref_title : json;
  ref_authors : list json;
  ref_submission_date : date_field;
  ref_revised_dates : list json;
  ref_doi : option json;
  ref_arxiv_id : option json;
  ref_venue : option json;
  ref_year : option json;
}.

(** [[author.get("name", "") for author in authors_list
      if author.get("name")]] over the items of [authors_list]. *)
Fixpoint author_names (items : list json) : M (list json) :=
  match items with
  | [] => ret []
  | author :: rest =>
      let* n := dict_get author "name" JNull in
      if truthy n then
        let* nm := dict_get author "name" (JStr "") in
        let* names := author_names rest in
        ret (nm :: names)
      else author_names rest
  end.

(** What [for author in authors_list] iterates over. *)
Definition iterate (v : json) : M (list json) :=
  match v with
  | JList l => ret l
  | JStr s => ret ((fun c => JStr (String c "")) <$> Py.chars s)
  | JDict d => ret (JStr <$> (map_to_list d).*1)
  | _ => raise (Exn TypeError "object is not iterable")
  end.

(** One round of [for ref in references]. *)
Definition convert_reference (ref : json) (result : gmap string ref_metadata)
    : M (gmap string ref_metadata) :=
  if negb (truthy ref) then ret result
  else
    let* external_ids := dict_get ref "externalIds" (JDict ∅) in
    let external_ids :=
      match external_ids with JNull => JDict ∅ | v => v end in
    let* arxiv_id := dict_get external_ids "ArXiv" (JStr "") in
    let* doi := dict_get external_ids "DOI" (JStr "") in
    (* Only keep references that have arXiv_id *)
    if negb (truthy arxiv_id) then ret result
    else
      (* [arxiv_id] is truthy here, so of the three ways to choose the key
         only the first can run *)
      let* key :=
        match arxiv_id with
        | JStr s => ret (format_yymm_id s)
        | _ => raise (attribute_error "replace")
        end in
      let* authors_list := dict_get ref "authors" (JList []) in
      let* items := iterate authors_list in
      let* authors := author_names items in
      let* publication_date := dict_get ref "publicationDate" (JStr "") in
      let* year := dict_get ref "year" JNull in
      let submission_date :=
        if negb (truthy publication_date) && truthy year
        then DateFromYear year
        else if truthy publication_date then DateGiven publication_date
        else DateEmpty in
      let* title := dict_get ref "title" (JStr "") in
      let* venue := dict_get ref "venue" JNull in
      let metadata :=
        {| ref_title := title;
           ref_authors := authors;
           ref_submission_date := submission_date;
           ref_revised_dates := [];
           ref_doi := if truthy doi then Some doi else None;
           ref_arxiv_id := if truthy arxiv_id then Some arxiv_id else None;
           ref_venue := if truthy venue then Some venue else None;
           ref_year := if truthy year then Some year else None |} in
      ret (<[key := metadata]> result).

Fixpoint convert_loop (references : list json)
    (result : gmap string ref_metadata) : M (gmap string ref_metadata) :=
  match references with
  | [] => ret result
  | ref :: rest =>
      let* result := convert_reference ref result in
      convert_loop rest result
  end.

(** [convert_to_references_dict(references)] *)
Definition convert_to_references_dict (references : list json)
    : M (gmap string ref_metadata) :=
  convert_loop references ∅.

End ReferenceExtractor.

(* ===================================================================== *)
(** * main.py *)
(* ===================================================================== *)

Module Main.

Import ArxivHandler Downloader.

(** The sequence of [id_queue.put] calls of [fetch_ids_worker]: the
    selected identifiers, then one [None] per download thread.  [None] as
    a result means that the month loop of [get_IDs_network] did not end
    within [fuel] months. *)
Definition fetch_ids_worker (fuel : nat) (DOWNLOAD_THREAD_COUNT : nat)
    (start_month start_year start_ID end_month end_year end_ID total_paper
       start_index num_papers : Z) : option (list (option string)) :=
  ids ← get_IDs_network fuel start_month start_year start_ID end_month
          end_year end_ID total_paper;
  let selected_ids := Py.slice ids start_index (start_index + num_papers) in
  Some ((Some <$> selected_ids) ++ replicate DOWNLOAD_THREAD_COUNT None).

Section WithEnv.

Variable E : env.

(** The test on [str(e)] in [download_with_retries]. *)
Definition server_busy (error_str : string) : bool :=
  Py.contains "HTTP 429" error_str || Py.contains "HTTP 503" error_str.

(** [min(60 * (2 ** attempt), 600)] *)
Definition wait_time (attempt : nat) : Z :=
  Z.min (60 * 2 ^ Z.of_nat attempt) 600.

(** The loop [for attempt in range(max_retries)] over the attempts that
    are left, and the [raise RuntimeError] that follows it. *)
Fixpoint retry_loop (arxiv_id : string) (max_retries : Z)
    (attempts : list nat) : M arxiv_result :=
  match attempts with
  | [] =>
      raise (Exn RuntimeError
               ("[Download] Failed after " +:+ Py.str_Z max_retries
                +:+ " retries for " +:+ arxiv_id))
  | attempt :: rest =>
      let* n := tick_api in
      emit (EvApiCall arxiv_id) ;;
      match arxiv_results E n arxiv_id with
      | inr result => ret result
      | inl e =>
          let error_str := exn_str e in
          if server_busy error_str then
            let* jitter := random_uniform E 0 5 in
            time_sleep (inject_Z (wait_time attempt) + jitter)%Q ;;
            retry_loop arxiv_id max_retries rest
          else raise e
      end
  end.

(** [download_with_retries(client, arxiv_id, max_retries=5)] *)
Definition download_with_retries (arxiv_id : string) (max_retries : Z)
    : M arxiv_result :=
  retry_loop arxiv_id max_retries (seq 0 (Z.to_nat max_retries)).

(** [for v in range(1, version_latest)]: the records of the older
    versions, in the order they are appended. *)
Fixpoint download_older (arxiv_id : string) (versions : list Z)
    : M (list arxiv_result) :=
  match versions with
  | [] => ret []
  | v :: rest =>
      let arxiv_id_v := arxiv_id +:+ "v" +:+ Py.str_Z v in
      let* result_v := download_with_retries arxiv_id_v 5 in
      let* results := download_older arxiv_id rest in
      ret (result_v :: results)
  end.

(** [range(1, n)] *)
Definition range_from_1 (n : Z) : list Z :=
  (fun i => 1 + Z.of_nat i) <$> seq 0 (Z.to_nat (n - 1)).

(** The [try] block of [download_worker] up to and including the call
    of [download]. *)
Definition download_paper (arxiv_id base_data_dir : string) : M unit :=
  let* result_latest := download_with_retries arxiv_id 5 in
  (* Determine latest version number *)
  let* version_str :=
    lift_option (Exn IndexError "list index out of range")
      (Py.split "v" (short_id result_latest) !! 1%nat) in
  let* version_latest :=
    lift_option (Exn ValueError "invalid literal for int()")
      (Py.int version_str) in
  (* Download older versions *)
  let* older := download_older arxiv_id (range_from_1 version_latest) in
  let list_download := result_latest :: older in
  (* Extract & clean *)
  download E list_download base_data_dir.

(** The whole [try] block: the paper, then the put on the result queue
    and the pause. *)
Definition download_job (arxiv_id base_data_dir : string) (delay : Q)
    : M unit :=
  download_paper arxiv_id base_data_dir ;;
  emit (EvPut DownloadQueue (Some arxiv_id)) ;;
  time_sleep delay.

(** [download_worker], run on the items that [id_queue.get()] hands to
    this worker; the result is the counter [processed].  The items after
    the first [None] are never taken. *)
Fixpoint download_worker (items : list (option string))
    (base_data_dir : string) (delay : Q) (processed : nat) : M nat :=
  match items with
  | [] => ret processed
  | None :: _ =>
      emit (EvPut DownloadQueue None) ;;
      ret processed
  | Some arxiv_id :: rest =>
      let* processed :=
        try_except
          (download_job arxiv_id base_data_dir delay ;; ret (S processed))
          (fun e => ret processed) in
      download_worker rest base_data_dir delay processed
  end.

End WithEnv.

(** ** The threads and the two queues

    Threads interleave at the queue operations.  A download worker is
    either about to take an item, or holds an item it is about to put on
    the result queue, or has left its loop. *)

Inductive worker_state : Type :=
  | Taking
  | Putting (item : option string)
  | Finished.

Record system : Type := {
  resolver_todo : list (option string);     (* puts the resolver still owes *)
  id_queue : list (option string);
  download_queue : list (option string);
  workers : list worker_state;
  taken : list (nat * option string);       (* who took what from id_queue *)
  put : list (nat * option string);         (* who put what on download_queue *)
  outside : world;
}.

(** [queue.Queue(maxsize)]: no bound when [maxsize] is not positive. *)
Definition has_room {A} (maxsize : nat) (q : list A) : bool :=
  (maxsize =? 0)%nat || (length q <? maxsize)%nat.

Inductive action : Type :=
  | ResolverPut
  | WorkerGet (i : nat)
  | WorkerPut (i : nat)
  | ReferenceGet.

Section Pipeline.

Variable E : env.
Variables (id_maxsize download_maxsize : nat).
Variable base_data_dir : string.
Variable delay : Q.

(** The state after one action, or [None] when the action cannot happen
    (the thread is elsewhere, or blocked on a full or an empty queue). *)
Definition step (a : action) (s : system) : option system :=
  match a with
  | ResolverPut =>
      match resolver_todo s with
      | x :: todo =>
          if has_room id_maxsize (id_queue s) then
            Some {| resolver_todo := todo;
                    id_queue := id_queue s ++ [x];
                    download_queue := download_queue s;
                    workers := workers s;
                    taken := taken s; put := put s;
                    outside := outside s |}
          else None
      | [] => None
      end
  | WorkerGet i =>
      match workers s !! i, id_queue s with
      | Some Taking, x :: q =>
          match x with
          | None =>
              Some {| resolver_todo := resolver_todo s;
                      id_queue := q;
                      download_queue := download_queue s;
                      workers := <[i := Putting None]> (workers s);
                      taken := taken s ++ [(i, x)]; put := put s;
                      outside := outside s |}
          | Some arxiv_id =>
              let '(r, w) := download_paper E arxiv_id base_data_dir
                               (outside s) in
              Some {| resolver_todo := resolver_todo s;
                      id_queue := q;
                      download_queue := download_queue s;
                      workers :=
                        <[i := match r with
                               | inr _ => Putting (Some arxiv_id)
                               | inl _ => Taking
                               end]> (workers s);
                      taken := taken s ++ [(i, x)]; put := put s;
                      outside := w |}
          end
      | _, _ => None
      end
  | WorkerPut i =>
      match workers s !! i with
      | Some (Putting x) =>
          if has_room download_maxsize (download_queue s) then
            Some {| resolver_todo := resolver_todo s;
                    id_queue := id_queue s;
                    download_queue := download_queue s ++ [x];
                    workers :=
                      <[i := match x with
                             | None => Finished
                             | Some _ => Taking
                             end]> (workers s);
                    taken := taken s; put := put s ++ [(i, x)];
                    outside :=
                      match x with
                      | None => outside s
                      | Some _ => (time_sleep delay (outside s)).2
                      end |}
          else None
      | _ => None
      end
  | ReferenceGet =>
      match download_queue s with
      | _ :: q =>
          Some {| resolver_todo := resolver_todo s;
                  id_queue := id_queue s;
                  download_queue := q;
                  workers := workers s;
                  taken := taken s; put := put s;
                  outside := outside s |}
      | [] => None
      end
  end.

(** A run: a sequence of actions, each of which can happen. *)
Fixpoint run (schedule : list action) (s : system) : option system :=
  match schedule with
  | [] => Some s
  | a :: rest => s' ← step a s; run rest s'
  end.

Definition reachable (s0 s : system) : Prop :=
  ∃ schedule, run schedule s0 = Some s.

(** The state [main.py] starts its threads in. *)
Definition initial (todo : list (option string))
    (DOWNLOAD_THREAD_COUNT : nat) : system :=
  {| resolver_todo := todo; id_queue := []; download_queue := [];
     workers := replicate DOWNLOAD_THREAD_COUNT Taking;
     taken := []; put := []; outside := World.start |}.

End Pipeline.

(** Counting, for the statements about sentinels. *)
Fixpoint count {A} (p : A -> bool) (l : list A) : nat :=
  match l with
  | [] => O
  | x :: r => (if p x then 1 else 0) + count p r
  end.

Definition is_sentinel (item : option string) : bool :=
  match item with None => true | Some _ => false end.

(** Sentinels in a log, by all workers and by worker [i]. *)
Definition sentinels (log : list (nat * option string)) : nat :=
  count (fun e => is_sentinel e.2) log.

Definition sentinels_of (i : nat) (log : list (nat * option string)) : nat :=
  count (fun e => (e.1 =? i)%nat && is_sentinel e.2) log.

Definition is_finished (w : worker_state) : bool :=
  match w with Finished => true | _ => false end.

(** A worker that has not taken its sentinel yet. *)
Definition awaits_sentinel (w : worker_state) : bool :=
  match w with Taking | Putting (Some _) => true | _ => false end.

End Main.

(* ===================================================================== *)
(** * The properties, in the words of the specification *)
(* ===================================================================== *)

Module Spec.

(** The allow-list of the file-name sanitizer: ASCII letters, digits and
    the four characters [-], [_], [.], [/]. *)
Definition allow_listed (c : ascii) : bool :=
  let n := nat_of_ascii c in
  ((65 <=? n) && (n <=? 90) || (97 <=? n) && (n <=? 122)
   || (48 <=? n) && (n <=? 57)
   || (n =? 45) || (n =? 95) || (n =? 46) || (n =? 47))%nat.

(** The storage key [YYYYMM-NNNNN]: ["{y:04d}{m:02d}-{n:05d}"]. *)
Definition storage_key (y m n : Z) : string :=
  Py.format_0d 4 y +:+ Py.format_0d 2 m +:+ "-" +:+ Py.format_0d 5 n.

(** The storage-key format: four digits of year, two of month, a dash,
    five of ordinal. *)
Definition is_storage_key (s : string) : bool :=
  (Py.len s =? 12)%nat
  && Py.all_chars Py.is_digit (Py.take 6 s)
  && String.eqb (Py.take 1 (Py.drop 6 s)) "-"
  && Py.all_chars Py.is_digit (Py.drop 7 s).

(** A path segment [..] in a member name. *)
Definition has_parent_segment (member_name : string) : bool :=
  bool_decide (".." ∈ Py.split "/" member_name).

(** Where a relative path leads, counted in directory levels below the
    starting directory; [None] as soon as it climbs above it. *)
Fixpoint descend (depth : nat) (segments : list string) : option nat :=
  match segments with
  | [] => Some depth
  | seg :: rest =>
      if String.eqb seg ".." then
        match depth with
        | O => None
        | S d => descend d rest
        end
      else if String.eqb seg "" || String.eqb seg "." then descend depth rest
      else descend (S depth) rest
  end.

(** [path] lies in the directory [dest]: it is [dest] joined with a
    relative path that never climbs above its starting point. *)
Definition inside (dest path : string) : Prop :=
  ∃ rel, path = Py.path_join dest rel
         ∧ Py.startswith "/" rel = false
         ∧ is_Some (descend 0 (Py.split "/" rel)).

(** The pauses of a throttled fetch: the retry after attempt number
    [attempt] waits [min(60 * 2^attempt, 600)] seconds plus its jitter. *)
Fixpoint backoff_sleeps (attempt : nat) (jitters : list Q) : list Q :=
  match jitters with
  | [] => []
  | j :: rest =>
      (inject_Z (Z.min (60 * 2 ^ Z.of_nat attempt) 600) + j)%Q
      :: backoff_sleeps (S attempt) rest
  end.

(** What a fetch of [paper_id] leaves in the trace when it pauses as
    listed: a request before each pause. *)
Definition retry_events (paper_id : string) (sleeps : list Q) : list event :=
  flat_map (λ s, [EvApiCall paper_id; EvSleep s]) sleeps.

(** The requests found in a stretch of the trace: to the metadata
    service, for source bundles, and the items put on the result queue,
    the metadata files written and the members extracted. *)
Definition metadata_requests (evs : list event) : list string :=
  omap (λ e, match e with EvApiCall paper_id => Some paper_id | _ => None end)
    evs.

Definition source_requests (evs : list event) : list string :=
  omap (λ e, match e with EvHttpGet url _ => Some url | _ => None end) evs.

Definition result_puts (evs : list event) : list (option string) :=
  omap (λ e, match e with
             | EvPut DownloadQueue item => Some item
             | _ => None
             end) evs.

Definition saved_metadata (evs : list event) : list metadata :=
  omap (λ e, match e with EvSaveMetadata _ md => Some md | _ => None end) evs.

(** The metadata service answers request number [n] for [paper_id] with
    a throttling error (HTTP 429 or 503). *)
Definition busy_at (E : env) (paper_id : string) (n : nat) : Prop :=
  ∃ e, arxiv_results E n paper_id = inl e
       ∧ Main.server_busy (exn_str e) = true.

(** A well-formed identifier [YYMM.NNNNN]. *)
Definition new_style (paper_id : string) : Prop :=
  Downloader.match_base_id paper_id = Some paper_id.

(** The metadata service knows [paper_id] with the versions [1..latest]:
    asked for the bare identifier it answers with the latest record, asked
    for an older version with that version's record. *)
Definition versioned (paper_id : string) (v : Z) : string :=
  paper_id +:+ "v" +:+ Py.str_Z v.

Definition serves (E : env) (paper_id : string) (latest : Z)
    (records : Z → arxiv_result) : Prop :=
  (∀ n, arxiv_results E n paper_id = inr (records latest))
  ∧ (∀ n v, 1 ≤ v < latest →
       arxiv_results E n (versioned paper_id v) = inr (records v))
  ∧ (∀ v, 1 ≤ v ≤ latest → short_id (records v) = versioned paper_id v).

End Spec.

(* ===================================================================== *)
(** * Sample worlds *)
(* ===================================================================== *)

Module Sample.

Import Main.

(** The record the metadata service keeps for version [v] of [paper_id]. *)
Definition record (paper_id : string) (v : Z) : arxiv_result :=
  {| short_id := paper_id +:+ "v" +:+ Py.str_Z v;
     title := "A paper";
     authors := ["A. Author"];
     published := {| ymd := "2023-04-17"; seconds := 0 |};
     updated := {| ymd := "2023-04-17"; seconds := 0 |};
     categories := ["cs.LG"];
     summary := "An abstract.";
     comment := None;
     doi := None |}.

(** A metadata service that knows [paper_id] with the versions
    [1..latest] and nothing else. *)
Definition serve (paper_id : string) (latest : Z) (asked : string)
    : exn + arxiv_result :=
  if String.eqb asked paper_id then inr (record paper_id latest)
  else
    match List.find (λ v, String.eqb asked (paper_id +:+ "v" +:+ Py.str_Z v))
            (range_from_1 (latest + 1)) with
    | Some v => inr (record paper_id v)
    | None => inl (Exn StopIteration "")
    end.

(** A world in which nothing fails: the service knows 2304.07856 with
    [latest] versions, every source bundle holds [members], and the file
    system obeys. *)
Definition calm (latest : Z) (members : list tar_member) : env :=
  {| arxiv_results := λ _ asked, serve "2304.07856" latest asked;
     random_random := λ _, 1 # 2;
     requests_get := λ _ _ _, Http200;
     tarfile_is_tarfile := λ _ _, true;
     tarfile_open := λ _ _, inr members;
     tar_extract := λ _ _ _, None;
     os_makedirs := λ _ _, None;
     os_remove := λ _ _, None;
     write_json := λ _ _, None |}.

Definition two_files : list tar_member :=
  [ {| name := "main.tex"; type := REGTYPE |};
    {| name := "refs.bib"; type := REGTYPE |} ].

(** The same world with a disk on which [metadata.json] cannot be
    written. *)
Definition read_only_metadata (latest : Z) : env :=
  {| arxiv_results := arxiv_results (calm latest two_files);
     random_random := random_random (calm latest two_files);
     requests_get := requests_get (calm latest two_files);
     tarfile_is_tarfile := tarfile_is_tarfile (calm latest two_files);
     tarfile_open := tarfile_open (calm latest two_files);
     tar_extract := tar_extract (calm latest two_files);
     os_makedirs := os_makedirs (calm latest two_files);
     os_remove := os_remove (calm latest two_files);
     write_json := λ _ _, Some (Exn OSError "Read-only file system") |}.

(** A service that is always busy. *)
Definition busy : env :=
  {| arxiv_results := λ _ _, inl (Exn HTTPError "Page request resulted in HTTP 429");
     random_random := λ _, 1 # 2;
     requests_get := λ _ _ _, Http200;
     tarfile_is_tarfile := λ _ _, true;
     tarfile_open := λ _ _, inr [];
     tar_extract := λ _ _ _, None;
     os_makedirs := λ _ _, None;
     os_remove := λ _ _, None;
     write_json := λ _ _, None |}.

(** An archive whose first member is a device node, which
    [filter="data"] refuses with a [FilterError], and whose second member
    is an ordinary file. *)
Definition device_then_file : list tar_member :=
  [ {| name := "dev/null"; type := SPECIAL |};
    {| name := "main.tex"; type := REGTYPE |} ].

Definition refuses_special : env :=
  {| arxiv_results := arxiv_results (calm 1 device_then_file);
     random_random := random_random (calm 1 device_then_file);
     requests_get := requests_get (calm 1 device_then_file);
     tarfile_is_tarfile := tarfile_is_tarfile (calm 1 device_then_file);
     tarfile_open := tarfile_open (calm 1 device_then_file);
     tar_extract := λ _ member _,
       match type member with
       | SPECIAL => Some (Exn FilterError "is a special file")
       | _ => None
       end;
     os_makedirs := os_makedirs (calm 1 device_then_file);
     os_remove := os_remove (calm 1 device_then_file);
     write_json := write_json (calm 1 device_then_file) |}.

(** An archive month in which exactly the ordinals 2 to 5 exist. *)
Definition exists_2_to_5 (paper_id : string) : bool :=
  bool_decide (paper_id ∈ ArxivHandler.get_ID 4 2023 <$> [2; 3; 4; 5]).

(** A raw reference that carries the archive identifier 2304.07856, and
    the entry made of it. *)
Definition reference_2304_07856 : ReferenceExtractor.json :=
  ReferenceExtractor.JDict
    {[ "externalIds" :=
         ReferenceExtractor.JDict
           {[ "ArXiv" := ReferenceExtractor.JStr "2304.07856" ]};
       "title" := ReferenceExtractor.JStr "A paper" ]}.

Definition entry_2304_07856 : ReferenceExtractor.ref_metadata :=
  {| ReferenceExtractor.ref_title := ReferenceExtractor.JStr "A paper";
     ReferenceExtractor.ref_authors := [];
     ReferenceExtractor.ref_submission_date := ReferenceExtractor.DateEmpty;
     ReferenceExtractor.ref_revised_dates := [];
     ReferenceExtractor.ref_doi := None;
     ReferenceExtractor.ref_arxiv_id :=
       Some (ReferenceExtractor.JStr "2304.07856");
     ReferenceExtractor.ref_venue := None;
     ReferenceExtractor.ref_year := None |}.

(** A small run of the pipeline of [main.py], with its three download
    threads and its queue sizes: two identifiers, of which the service
    knows the first only. *)
Definition todo : option (list (option string)) :=
  fetch_ids_worker 2 3 4 2023 7856 4 2023 7857 15000 0 2.

Definition schedule : list action :=
  [ ResolverPut; ResolverPut; ResolverPut; ResolverPut; ResolverPut;
    WorkerGet 0; WorkerGet 1; WorkerPut 0; ReferenceGet;
    WorkerGet 2; WorkerGet 0; WorkerGet 1;
    WorkerPut 1; WorkerPut 2; WorkerPut 0;
    ReferenceGet; ReferenceGet; ReferenceGet ].

Definition run_end : option system :=
  run (calm 1 two_files) 6 4 "/data" 2 schedule (initial (default [] todo) 3).

Definition final : system := default (initial [] 3) run_end.

End Sample.

(* ===================================================================== *)
(** * Notions used in the proofs *)
(* ===================================================================== *)

(** [P] on the [k] integers from [lo] on. *)
Fixpoint all_from (P : Z → bool) (k : nat) (lo : Z) : bool :=
  match k with
  | O => true
  | S k' => P lo && all_from P k' (lo + 1)
  end.

Definition two_digits (s : string) : bool :=
  match s with
  | String a (String b "") => Py.is_digit a && Py.is_digit b
  | _ => false
  end.

Definition five_digits (s : string) : bool :=
  match s with
  | String a (String b (String c (String d (String e "")))) =>
      Py.is_digit a && Py.is_digit b && Py.is_digit c && Py.is_digit d
      && Py.is_digit e
  | _ => false
  end.

Definition no_v (s : string) : bool :=
  Py.all_chars (λ c, negb (Ascii.eqb c "v")) s.

(** What [sanitize_filename] does to one character. *)
Definition sanitize_char (c : ascii) : ascii :=
  if Py.contains (String c "") Downloader.safe_chars then c else "_"%char.

(** [c] adds to the trace only events on which [p] holds. *)
Definition quiet (p : event → bool) {A} (c : M A) : Prop :=
  ∀ w r w', c w = (r, w') →
    ∃ evs, trace w' = trace w ++ evs ∧ forallb p evs = true.

(** Classes of events. *)
Definition local_event (e : event) : bool :=
  match e with
  | EvApiCall _ | EvSleep _ | EvPut _ _ | EvHttpGet _ _
  | EvSaveMetadata _ _ => false
  | _ => true
  end.

Definition download_event (e : event) : bool :=
  match e with
  | EvApiCall _ | EvSleep _ | EvPut _ _ => false
  | _ => true
  end.

Definition fetch_event (e : event) : bool :=
  match e with
  | EvApiCall _ | EvSleep _ => true
  | _ => false
  end.

Definition no_put (e : event) : bool :=
  match e with
  | EvPut _ _ => false
  | _ => true
  end.

(** The address [download] asks for the source of a record. *)
Definition source_url (result : arxiv_result) : string :=
  Downloader.ARXIV_HOST +:+ "/src/" +:+ short_id result.

(** The world after a fetch that is answered at once. *)
Definition after_call (paper_id : string) (w : world) : world :=
  {| api_calls := S (api_calls w); draws := draws w; io_ops := io_ops w;
     trace := trace w ++ [EvApiCall paper_id] |}.

(** The raw reference [ref] carries the non-empty archive identifier [s]
    in [externalIds.ArXiv]. *)
Definition has_arxiv_id (ref : ReferenceExtractor.json) (s : string) : Prop :=
  ∃ d ids, ref = ReferenceExtractor.JDict d
           ∧ d !! "externalIds" = Some (ReferenceExtractor.JDict ids)
           ∧ ids !! "ArXiv" = Some (ReferenceExtractor.JStr s) ∧ s ≠ "".

(** The failures met while members are handled are all of the kinds that
    the inner [except] clause of [safe_extract_tar] names. *)
Definition only_caught_failures (E : env) : Prop :=
  (∀ n member extract_to e,
     tar_extract E n member extract_to = Some e →
     Downloader.caught_per_member e = true)
  ∧ (∀ n path e,
       os_makedirs E n path = Some e → Downloader.caught_per_member e = true).

(** How many sentinels a worker has taken and put, by its state. *)
Definition sentinels_by_state (ws : option Main.worker_state) : nat * nat :=
  match ws with
  | Some (Main.Putting None) => (1, 0)
  | Some Main.Finished => (1, 1)
  | _ => (0, 0)
  end%nat.

Definition protocol_invariant (s : Main.system) : Prop :=
  (∀ i, (Main.sentinels_of i (Main.taken s), Main.sentinels_of i (Main.put s))
        = sentinels_by_state (Main.workers s !! i))
  ∧ Main.sentinels (Main.put s)
    = Main.count Main.is_finished (Main.workers s).

(** As many sentinels are still on their way to the workers as there are
    workers that have not taken one. *)
Definition balanced (n : nat) (s : Main.system) : Prop :=
  length (Main.workers s) = n
  ∧ Main.count Main.is_sentinel (Main.resolver_todo s ++ Main.id_queue s)
    = Main.count Main.awaits_sentinel (Main.workers s).

(* ===================================================================== *)
(** * arXiv_handler.py: the enumeration that asks the archive *)
(* ===================================================================== *)

Module ArxivRange.

Import ArxivHandler.

(** [type(v).__name__] *)
Definition type_name (v : opt_int) : string :=
  match v with PyNone => "NoneType" | PyInt _ => "int" end.

(** The [TypeError] of [a <= b] when one side is [None]. *)
Definition not_comparable (a b : opt_int) : exn :=
  Exn TypeError
    ("'<=' not supported between instances of '" +:+ type_name a
     +:+ "' and '" +:+ type_name b +:+ "'").

Section WithArchive.

Variable id_exists : string -> bool.

(** The loop [while True] of [get_IDs_All]; [n_start] is an integer or
    [None], as [find_first_id] returns it.  [fuel] bounds the number of
    months visited, and [None] is fuel running out. *)
Fixpoint get_IDs_All_loop (fuel : nat) (y m : Z) (n_start : opt_int)
    (end_month end_year end_ID : Z) (ids : list string)
    : option (exn + list string) :=
  match fuel with
  | O => None
  | S f =>
      n_end ←
        (if (y =? end_year) && (m =? end_month) then Some (PyInt end_ID)
         else
           n_end ← find_last_id id_exists y m;
           Some (match n_end with
                 | PyNone => PyInt 0  (* No papers this month *)
                 | _ => n_end
                 end));
      match n_start, n_end with
      | PyInt a, PyInt b =>
          let ids := if a <=? b then ids ++ get_IDs_month m y a b
                     else ids in
          if (y =? end_year) && (m =? end_month) then Some (inr ids)
          else
            let m := m + 1 in
            let '(m, y) := if m >? 12 then (1, y + 1) else (m, y) in
            n_start ← find_first_id id_exists y m;  (* reset numbering *)
            get_IDs_All_loop f y m n_start end_month end_year end_ID ids
      | _, _ => Some (inl (not_comparable n_start n_end))
      end
  end.

(** [get_IDs_All(start_month, start_year, start_ID, end_month, end_year,
    end_ID)] *)
Definition get_IDs_All (fuel : nat)
    (start_month start_year start_ID end_month end_year end_ID : Z)
    : option (exn + list string) :=
  get_IDs_All_loop fuel start_year start_month (PyInt start_ID)
    end_month end_year end_ID [].

End WithArchive.

End ArxivRange.

(* ===================================================================== *)
(** * downloader.py: the clean-up, file by file *)
(* ===================================================================== *)

Module Cleanup.

Import Downloader.

Section WithEnv.

Variable E : env.

(** The loop [for file in files] over the files of one directory
    [root]. *)
Fixpoint cleanup_files (root : string) (files : list string) : M unit :=
  match files with
  | [] => ret tt
  | file :: rest =>
      (if negb (kept_by_cleanup file) then
         try_except (remove E (Py.path_join root file))
           (fun e => if is_OSError e then ret tt else raise e)
       else ret tt) ;;
      cleanup_files root rest
  end.

(** [cleanup_non_tex_bib_files(folder)], run on what [os.walk(folder)]
    yields: the directories below [folder], each with its files. *)
Fixpoint cleanup_non_tex_bib_files (walk : list (string * list string))
    : M unit :=
  match walk with
  | [] => ret tt
  | (root, files) :: rest =>
      cleanup_files root files ;;
      cleanup_non_tex_bib_files rest
  end.

End WithEnv.

(** The paths that the clean-up asks [os.remove] to delete. *)
Definition doomed (walk : list (string * list string)) : list string :=
  flat_map
    (fun d => Py.path_join d.1
                <$> List.filter (fun file => negb (kept_by_cleanup file)) d.2)
    walk.

End Cleanup.

(* ===================================================================== *)
(** * reference_extractor.py: fetching and saving the references *)
(* ===================================================================== *)

Module Scholar.

Import Downloader ReferenceExtractor.

(** What [requests.get(url, params=params, timeout=10)] gives: a response,
    with its status code and what [response.json()] does on it, or an
    exception. *)
Inductive api_answer : Type :=
  | Response (status_code : Z) (json_body : exn + json)
  | GetRaises (e : exn).

(** The oracles of the reference side.  Each takes the number of earlier
    requests of its kind. *)
Record services : Type := {
  api_get : nat -> string -> api_answer;
  path_exists : nat -> string -> bool;       (* os.path.exists *)
  makedirs_fails : nat -> string -> option exn;
  (* open(path, 'w') and json.dump *)
  dump_fails : nat -> string -> option exn;
}.

(** The state threaded through the reference side. *)
Record shelf : Type := {
  asked : nat;                 (* requests sent to the API *)
  touched : nat;               (* file-system operations *)
  naps : list Q;               (* the pauses, in order *)
  made : list string;          (* directories created *)
  (* the files written, in order, with the mapping dumped into each *)
  saved : list (string * gmap string ref_metadata);
}.

Definition empty_shelf : shelf :=
  {| asked := 0; touched := 0; naps := []; made := []; saved := [] |}.

(** Computations that may raise; [None] is a loop running out of fuel. *)
Definition R (A : Type) : Type := shelf -> option ((exn + A) * shelf).

Definition ret {A} (a : A) : R A := fun s => Some (inr a, s).

Definition raise {A} (e : exn) : R A := fun s => Some (inl e, s).

Definition bind {A B} (c : R A) (k : A -> R B) : R B :=
  fun s => match c s with
           | Some (inr a, s') => k a s'
           | Some (inl e, s') => Some (inl e, s')
           | None => None
           end.

(** [try: c except Exception as e: h(e)] *)
Definition try_except {A} (c : R A) (h : exn -> R A) : R A :=
  fun s => match c s with
           | Some (inl e, s') => h e s'
           | r => r
           end.

(** A computation of the download side that leaves the world alone. *)
Definition pure {A} (c : M A) : exn + A := (c World.start).1.

Definition lift {A} (r : exn + A) : R A :=
  match r with inr a => ret a | inl e => raise e end.

Definition ask : R nat :=
  fun s => Some (inr (asked s),
                 {| asked := S (asked s); touched := touched s;
                    naps := naps s; made := made s; saved := saved s |}).

Definition touch : R nat :=
  fun s => Some (inr (touched s),
                 {| asked := asked s; touched := S (touched s);
                    naps := naps s; made := made s; saved := saved s |}).

(** [time.sleep(seconds)] *)
Definition time_sleep (seconds : Q) : R unit :=
  fun s => Some (inr tt,
                 {| asked := asked s; touched := touched s;
                    naps := naps s ++ [seconds]; made := made s;
                    saved := saved s |}).

Declare Scope shelf_scope.
Delimit Scope shelf_scope with shelf.
Notation "'let*' x ':=' c 'in' k" := (bind c (fun x => k))
  (at level 10, x pattern, c at level 100, k at level 200) : shelf_scope.
Notation "c ';;' k" := (bind c (fun _ => k))
  (at level 100, k at level 200, right associativity) : shelf_scope.
Local Open Scope shelf_scope.

(** What the pattern [v\d+$] matches at the very start of [s]: a [v],
    one or more digits, and then the end of the string or its final
    newline.  The result is what follows the match. *)
Fixpoint after_digits (s : string) : string :=
  match s with
  | String c r => if Py.is_digit c then after_digits r else s
  | EmptyString => EmptyString
  end.

Definition match_version_suffix (s : string) : option string :=
  match s with
  | String "v" (String d r) =>
      if Py.is_digit d
         && (String.eqb (after_digits r) ""
             || String.eqb (after_digits r) (String "010" ""))
      then Some (after_digits r) else None
  | _ => None
  end.

(** [re.sub(r'v\d+$', '', arxiv_id)] *)
Fixpoint strip_version (arxiv_id : string) : string :=
  match match_version_suffix arxiv_id with
  | Some rest => rest
  | None =>
      match arxiv_id with
      | String c r => String c (strip_version r)
      | EmptyString => EmptyString
      end
  end.

(** The address asked for the references of [clean_id]. *)
Definition api_url (clean_id : string) : string :=
  "https://api.semanticscholar.org/graph/v1/paper/arXiv:" +:+ clean_id.

(** The body of the [try] of [get_paper_references] on one answer:
    [inr (Some v)] when it returns [v], [inr None] when it pauses and
    goes round again, [inl e] when [e] is raised in it. *)
Definition attempt (answer : api_answer) : exn + option json :=
  match answer with
  | GetRaises e => inl e
  | Response status_code json_body =>
      if status_code =? 200 then
        match json_body with
        | inl e => inl e
        | inr data =>
            match pure (dict_get data "references" (JList [])) with
            | inl e => inl e
            | inr references => inr (Some references)
            end
        end
      else if status_code =? 429 then inr None
      else if status_code =? 404 then inr (Some (JList []))
      else inr None
  end.

Section WithServices.

Variable S : services.

(** The loop [while True] of [get_paper_references]. *)
Fixpoint poll (fuel : nat) (url : string) (delay : Q) : R json :=
  match fuel with
  | O => fun _ => None
  | Datatypes.S f =>
      let* n := ask in
      match attempt (api_get S n url) with
      | inr (Some references) => ret references
      | inr None => time_sleep delay ;; poll f url delay
      | inl e =>
          if bool_decide (exn_class_of e = RequestException)
          then time_sleep delay ;; poll f url delay
          else raise e
      end
  end.

(** [get_paper_references(arxiv_id, delay=2)] *)
Definition get_paper_references (fuel : nat) (arxiv_id : string)
    (delay : Q) : R json :=
  (* Clean arxiv_id (remove version suffix if present) *)
  let clean_id := strip_version arxiv_id in
  poll fuel (api_url clean_id) delay.

(** [os.makedirs(path, exist_ok=True)] *)
Definition makedirs (path : string) : R unit :=
  let* n := touch in
  lift (match makedirs_fails S n path with
        | Some e => inl e
        | None => inr tt
        end) ;;
  fun s => Some (inr tt,
                 {| asked := asked s; touched := touched s;
                    naps := naps s; made := made s ++ [path];
                    saved := saved s |}).

(** [with open(json_path, 'w') as f: json.dump(content, f)] *)
Definition dump (json_path : string)
    (content : gmap string ref_metadata) : R unit :=
  let* n := touch in
  lift (match dump_fails S n json_path with
        | Some e => inl e
        | None => inr tt
        end) ;;
  fun s => Some (inr tt,
                 {| asked := asked s; touched := touched s;
                    naps := naps s; made := made s;
                    saved := saved s ++ [(json_path, content)] |}).

(** [save_references(arxiv_id, paper_folder)]; the result is [Some b]
    for [return b] and [None] when the function ends without a
    [return]. *)
Definition save_references (fuel : nat) (arxiv_id paper_folder : string)
    : R (option bool) :=
  let* n := touch in
  (if negb (path_exists S n paper_folder) then makedirs paper_folder
   else ret tt) ;;
  let* references := get_paper_references fuel arxiv_id 2 in
  if negb (truthy references) then
    let json_path := Py.path_join paper_folder "references.json" in
    dump json_path ∅ ;;
    ret (Some false)
  else
    let json_path := Py.path_join paper_folder "references.json" in
    let* items := lift (pure (iterate references)) in
    let* references_dict :=
      lift (pure (convert_to_references_dict items)) in
    try_except
      (dump json_path references_dict ;; ret None)
      (fun e => ret (Some false)).

(** [extract_references_for_paper(paper_id, base_data_dir)] *)
Definition extract_references_for_paper (fuel : nat)
    (paper_id base_data_dir : string) : R unit :=
  let paper_id_key := format_yymm_id paper_id in
  let paper_folder := Py.path_join base_data_dir paper_id_key in
  save_references fuel paper_id paper_folder ;;
  ret tt.

(** [reference_worker], run on the items that [download_queue.get()]
    hands to this worker; the result is the counter [processed]. *)
Fixpoint reference_worker (fuel : nat) (items : list (option string))
    (base_data_dir : string) (delay : Q) (processed : nat) : R nat :=
  match items with
  | [] => ret processed
  | None :: _ => ret processed
  | Some arxiv_id :: rest =>
      let* processed :=
        try_except
          (extract_references_for_paper fuel arxiv_id base_data_dir ;;
           time_sleep delay ;;
           ret (Datatypes.S processed))
          (fun e => ret processed) in
      reference_worker fuel rest base_data_dir delay processed
  end.

End WithServices.

End Scholar.

(* ===================================================================== *)
(** * main.py: the reference workers at the end of the line *)
(* ===================================================================== *)

Module Plant.

Import Main.

(** A reference worker is in its loop, about to take an item from the
    result queue, or has left it. *)
Inductive reader_state : Type :=
  | Reading
  | Done.

(** The threads of [main.py]: the resolver, the download workers and the
    two queues are those of [Main.system]; the reference workers read the
    result queue.  What a reference worker does with a paper touches
    neither queue and is left out. *)
Record plant : Type := {
  line : system;
  readers : list reader_state;
  handled : list (nat * string);     (* who took which paper *)
}.

Inductive move : Type :=
  | Upstream (a : action)
  | ReaderGet (j : nat).

Section Threads.

Variable E : env.
Variables (id_maxsize download_maxsize : nat).
Variable base_data_dir : string.
Variable delay : Q.

Definition step (m : move) (p : plant) : option plant :=
  match m with
  | Upstream ReferenceGet => None
  | Upstream a =>
      s ← Main.step E id_maxsize download_maxsize base_data_dir delay a
            (line p);
      Some {| line := s; readers := readers p; handled := handled p |}
  | ReaderGet j =>
      match readers p !! j, download_queue (line p) with
      | Some Reading, x :: _ =>
          s ← Main.step E id_maxsize download_maxsize base_data_dir delay
                ReferenceGet (line p);
          Some {| line := s;
                  readers := match x with
                             | None => <[j := Done]> (readers p)
                             | Some _ => readers p
                             end;
                  handled := match x with
                             | None => handled p
                             | Some arxiv_id => handled p ++ [(j, arxiv_id)]
                             end |}
      | _, _ => None
      end
  end.

Fixpoint run (schedule : list move) (p : plant) : option plant :=
  match schedule with
  | [] => Some p
  | m :: rest => p' ← step m p; run rest p'
  end.

Definition reachable (p0 p : plant) : Prop :=
  ∃ schedule, run schedule p0 = Some p.

End Threads.

(** The state [main.py] starts its threads in. *)
Definition initial (todo : list (option string))
    (DOWNLOAD_THREAD_COUNT REFERENCE_THREAD_COUNT : nat) : plant :=
  {| line := Main.initial todo DOWNLOAD_THREAD_COUNT;
     readers := replicate REFERENCE_THREAD_COUNT Reading;
     handled := [] |}.

Definition is_done (r : reader_state) : bool :=
  match r with Done => true | Reading => false end.

(** Every thread has left its loop. *)
Definition all_finished (p : plant) : Prop :=
  resolver_todo (line p) = []
  ∧ (∀ i w, workers (line p) !! i = Some w → w = Finished)
  ∧ (∀ j r, readers p !! j = Some r → r = Done).

(** The schedule in which the last download worker is still busy with
    its paper while the others pass their sentinels on. *)
Definition late_paper : list move :=
  [ Upstream ResolverPut; Upstream ResolverPut; Upstream ResolverPut;
    Upstream ResolverPut;
    Upstream (WorkerGet 2);
    Upstream (WorkerGet 0); Upstream (WorkerPut 0); ReaderGet 0;
    Upstream (WorkerGet 1); Upstream (WorkerPut 1); ReaderGet 1;
    Upstream (WorkerPut 2); Upstream (WorkerGet 2); Upstream (WorkerPut 2) ].

End Plant.

(* ===================================================================== *)
(** * downloader.py on a disk that is kept track of *)
(* ===================================================================== *)

(** [Downloader] follows the requests and what is saved.  Here the same
    functions are followed on the disk: the copy of a bundle can be cut
    short, [tarfile.is_tarfile] can raise, the clean-up removes its files
    one by one, and [os.remove] fails on a file that is gone. *)

Module Storage.

Import MetadataCollector Downloader.

(** What follows a status 200 in [download_url]: [open(out_path, "wb")]
    and the copy of the chunks into the file. *)
Inductive copy_outcome : Type :=
  | Copied                        (* the whole body is in the file *)
  | OpenRaises (e : exn)          (* open() raises: no file is made *)
  | CopyRaises (e : exn).         (* raised while copying: the file is
                                     there, cut short *)

(** The oracles that [env] has not: here [requests_get] answering
    [Http200] stands for the status 200 alone.  Each oracle takes the
    number of earlier file-system operations. *)
Record services : Type := {
  copy_body : nat -> string -> copy_outcome;
  (* tarfile.is_tarfile(path), which raises on a file it cannot read *)
  is_tarfile : nat -> string -> exn + bool;
  (* os.walk(folder): the directories below folder, each with its files *)
  os_walk : nat -> string -> list (string * list string);
}.

(** The state: the world of the other scripts, and what is known of the
    files, [Some true] for a file that is there and [Some false] for one
    that is not. *)
Record store : Type := {
  world_of : world;
  disk : gmap string bool;
}.

Definition begin : store := {| world_of := World.start; disk := ∅ |}.

(** Computations that may raise. *)
Definition IO (A : Type) : Type := store -> (exn + A) * store.

Definition ret {A} (a : A) : IO A := fun s => (inr a, s).

Definition raise {A} (e : exn) : IO A := fun s => (inl e, s).

Definition bind {A B} (c : IO A) (k : A -> IO B) : IO B :=
  fun s => match c s with
           | (inr a, s') => k a s'
           | (inl e, s') => (inl e, s')
           end.

(** [try: c except Exception as e: h(e)] *)
Definition try_except {A} (c : IO A) (h : exn -> IO A) : IO A :=
  fun s => match c s with
           | (inl e, s') => h e s'
           | r => r
           end.

(** [try: c finally: f] *)
Definition try_finally {A} (c : IO A) (f : IO unit) : IO A :=
  fun s => match c s with
           | (r, s') =>
               match f s' with
               | (inl e, s'') => (inl e, s'')
               | (inr _, s'') => (r, s'')
               end
           end.

(** A computation of the other scripts, which leaves the disk alone. *)
Definition lift {A} (c : M A) : IO A :=
  fun s => let '(r, w) := c (world_of s) in
           (r, {| world_of := w; disk := disk s |}).

Definition lift_sum {A} (r : exn + A) : IO A :=
  match r with inr a => ret a | inl e => raise e end.

(** The file [path] is made, or is gone. *)
Definition set_file (path : string) (there : bool) : IO unit :=
  fun s => (inr tt, {| world_of := world_of s;
                       disk := <[path:=there]> (disk s) |}).

(** The paths of the members extracted over a stretch of the trace. *)
Definition extracted_paths (evs : list event) : list string :=
  omap (fun e => match e with
                 | EvExtracted _ _ path => Some path
                 | _ => None
                 end) evs.

Declare Scope disk_scope.
Delimit Scope disk_scope with disk.
Notation "'let*' x ':=' c 'in' k" := (bind c (fun x => k))
  (at level 10, x pattern, c at level 100, k at level 200) : disk_scope.
Notation "c ';;' k" := (bind c (fun _ => k))
  (at level 100, k at level 200, right associativity) : disk_scope.
Local Open Scope disk_scope.

Section WithServices.

Variable E : env.
Variable V : services.

(** [os.remove(path)]: a file that is known to be gone gives
  [FileNotFoundError]; for any other the file system decides, and a
  removal that succeeds leaves the file gone. *)
Definition remove_file (path : string) : IO unit :=
fun s =>
  match disk s !! path with
  | Some false =>
      (lift tick_io ;;
       raise (Exn FileNotFoundError
                ("[Errno 2] No such file or directory: '" +:+ path
                 +:+ "'"))) s
  | _ => (lift (remove E path) ;; set_file path false) s
  end.

(** [safe_extract_tar(tar_path, extract_to)]; the members it extracts are
  on the disk afterwards. *)
Definition safe_extract_tar (tar_path extract_to : string) : IO unit :=
fun s =>
  let '(r, w) :=
    Downloader.safe_extract_tar E tar_path extract_to (world_of s) in
  let evs := drop (length (trace (world_of s))) (trace w) in
  (r, {| world_of := w;
         disk := foldr (fun path d => <[path:=true]> d) (disk s)
                   (extracted_paths evs) |}).

(** [download_url(url, out_path)] *)
Definition download_url (url out_path : string) : IO bool :=
try_except
  (let* n := lift tick_io in
   lift (emit (EvHttpGet url out_path)) ;;
   match requests_get E n url out_path with
   | Http200 =>
       lift (makedirs E (dirname out_path)) ;;
       let* m := lift tick_io in
       match copy_body V m out_path with
       | Copied =>
           set_file out_path true ;;
           lift (emit (EvDownloaded out_path)) ;;
           ret true
       | OpenRaises e => raise e
       | CopyRaises e => set_file out_path true ;; raise e
       end
   | HttpStatus _ => ret false
   | HttpRaises e => raise e
   end)
  (fun e =>
     if bool_decide (exn_class_of e = RequestException)
     then ret false else raise e).

(** The loop [for file in files] over the files of one directory
  [root]. *)
Fixpoint cleanup_files (root : string) (files : list string) : IO unit :=
match files with
| [] => ret tt
| file :: rest =>
    (if negb (kept_by_cleanup file) then
       try_except (remove_file (Py.path_join root file))
         (fun e => if is_OSError e then ret tt else raise e)
     else ret tt) ;;
    cleanup_files root rest
end.

(** The loop [for root, _, files in os.walk(folder)]. *)
Fixpoint cleanup_walk (walk : list (string * list string)) : IO unit :=
match walk with
| [] => ret tt
| (root, files) :: rest =>
    cleanup_files root files ;;
    cleanup_walk rest
end.

(** [cleanup_non_tex_bib_files(folder)] *)
Definition cleanup_non_tex_bib_files (folder : string) : IO unit :=
let* n := lift tick_io in
cleanup_walk (os_walk V n folder).

(** Where [download] puts the bundle of a record. *)
Definition bundle_path (tex_root : string) (result : arxiv_result)
  : string :=
let full_id := short_id result in
let folder_version := Py.path_join tex_root full_id in
Py.path_join folder_version (full_id +:+ ".tar.gz").

(** One round of [for result in list_download]. *)
Definition download_version (tex_root : string) (result : arxiv_result)
  : IO unit :=
let full_id := short_id result in
let folder_version := Py.path_join tex_root full_id in
lift (makedirs E folder_version) ;;
let src_url := ARXIV_HOST +:+ "/src/" +:+ full_id in
let tar_path := Py.path_join folder_version (full_id +:+ ".tar.gz") in
let* fetched := download_url src_url tar_path in
if negb fetched then ret tt
else
  (* Validate and extract *)
  let* n := lift tick_io in
  let* valid := lift_sum (is_tarfile V n tar_path) in
  if negb valid then
    try_except (remove_file tar_path)
      (fun e => if is_OSError e then ret tt else raise e)
  else
    try_finally
      (try_except
         (safe_extract_tar tar_path folder_version ;;
          cleanup_non_tex_bib_files folder_version)
         (fun e => ret tt))
      (try_except (remove_file tar_path)
         (fun e => if is_OSError e then ret tt else raise e)).

(** The loop [for result in list_download]; it returns the value the
  loop variable [result] holds when the loop is over. *)
Fixpoint download_versions (tex_root : string)
  (list_download : list arxiv_result) (result : arxiv_result)
  : IO arxiv_result :=
match list_download with
| [] => ret result
| r :: rest =>
    download_version tex_root r ;;
    download_versions tex_root rest r
end.

(** Where [download] puts the versions of the paper of [first]. *)
Definition tex_root_of (base_dir : string) (first : arxiv_result)
  : option string :=
arxiv_id ← match_base_id (short_id first);
Some (Py.path_join (Py.path_join base_dir (format_yymm_id arxiv_id))
        "tex").

(** [download(list_download, base_dir)] *)
Definition download (list_download : list arxiv_result) (base_dir : string)
  : IO unit :=
match list_download with
| [] => ret tt
| first :: _ =>
    match match_base_id (short_id first) with
    | None => ret tt
    | Some arxiv_id =>
        let folder_arxiv :=
          Py.path_join base_dir (format_yymm_id arxiv_id) in
        lift (makedirs E folder_arxiv) ;;
        let tex_root := Py.path_join folder_arxiv "tex" in
        lift (makedirs E tex_root) ;;
        let* result := download_versions tex_root list_download first in
        (* Save metadata after all versions *)
        try_except
          (lift (save_metadata E result folder_arxiv) ;; ret tt)
          (fun e => ret tt)
    end
end.

End WithServices.

End Storage.

(* ===================================================================== *)
(** * More sample worlds *)
(* ===================================================================== *)

Module Cases.

(** An archive in which every month holds exactly the ordinals
    [first..last]: the ordinal is read off the identifier
    [YYMM.NNNNN]. *)
Definition holds (first last : Z) (paper_id : string) : bool :=
  match Py.int (Py.drop 5 paper_id) with
  | Some n => (first <=? n) && (n <=? last)
  | None => false
  end.

(** A second raw reference with the archive identifier 2304.07856,
    under another title, and the entry made of it. *)
Definition reference_again : ReferenceExtractor.json :=
  ReferenceExtractor.JDict
    {[ "externalIds" :=
         ReferenceExtractor.JDict
           {[ "ArXiv" := ReferenceExtractor.JStr "2304.07856" ]};
       "title" := ReferenceExtractor.JStr "The same paper" ]}.

Definition entry_again : ReferenceExtractor.ref_metadata :=
  {| ReferenceExtractor.ref_title := ReferenceExtractor.JStr "The same paper";
     ReferenceExtractor.ref_authors := [];
     ReferenceExtractor.ref_submission_date := ReferenceExtractor.DateEmpty;
     ReferenceExtractor.ref_revised_dates := [];
     ReferenceExtractor.ref_doi := None;
     ReferenceExtractor.ref_arxiv_id :=
       Some (ReferenceExtractor.JStr "2304.07856");
     ReferenceExtractor.ref_venue := None;
     ReferenceExtractor.ref_year := None |}.

(** A raw reference with an archive identifier whose [authors] is
    [null]. *)
Definition reference_without_authors : ReferenceExtractor.json :=
  ReferenceExtractor.JDict
    {[ "externalIds" :=
         ReferenceExtractor.JDict
           {[ "ArXiv" := ReferenceExtractor.JStr "2304.07856" ]};
       "authors" := ReferenceExtractor.JNull ]}.

(** A bibliographic API that gives the answers of [answers] one after
    the other and [last] from then on, on a disk where the paper folders
    exist and every write succeeds. *)
Definition library (answers : list Scholar.api_answer)
    (last : Scholar.api_answer) : Scholar.services :=
  {| Scholar.api_get := λ n _, nth n answers last;
     Scholar.path_exists := λ _ _, true;
     Scholar.makedirs_fails := λ _ _, None;
     Scholar.dump_fails := λ _ _, None |}.

(** Throttled twice, then told that the paper is unknown. *)
Definition throttled_twice : Scholar.services :=
  library
    [ Scholar.Response 429 (inl (Exn ValueError "not JSON"));
      Scholar.GetRaises (Exn RequestException "timed out") ]
    (Scholar.Response 404 (inl (Exn ValueError "not JSON"))).

(** An answer with the one reference [Sample.reference_2304_07856]. *)
Definition one_reference : Scholar.services :=
  library []
    (Scholar.Response 200
       (inr (ReferenceExtractor.JDict
               {[ "references" :=
                    ReferenceExtractor.JList
                      [Sample.reference_2304_07856] ]}))).

(** An archive whose first member goes to a folder that cannot be
    written, so that its extraction fails with an [OSError], and whose
    second member is an ordinary file. *)
Definition locked_then_file : list tar_member :=
  [ {| name := "locked/a.tex"; type := REGTYPE |};
    {| name := "main.tex"; type := REGTYPE |} ].

Definition locked_folder : env :=
  {| arxiv_results := arxiv_results (Sample.calm 1 locked_then_file);
     random_random := random_random (Sample.calm 1 locked_then_file);
     requests_get := requests_get (Sample.calm 1 locked_then_file);
     tarfile_is_tarfile :=
       tarfile_is_tarfile (Sample.calm 1 locked_then_file);
     tarfile_open := tarfile_open (Sample.calm 1 locked_then_file);
     tar_extract := λ _ member _,
       if Py.startswith "locked/" (name member)
       then Some (Exn OSError "[Errno 13] Permission denied")
       else None;
     os_makedirs := os_makedirs (Sample.calm 1 locked_then_file);
     os_remove := os_remove (Sample.calm 1 locked_then_file);
     write_json := write_json (Sample.calm 1 locked_then_file) |}.

(** The records that [download_worker] hands to [download] for a paper
    with three versions: the latest first. *)
Definition three_versions : list arxiv_result :=
  [ Sample.record "2304.07856" 3; Sample.record "2304.07856" 1;
    Sample.record "2304.07856" 2 ].

(** A world in which much goes wrong: no archive can be opened, no file
    can be removed and [metadata.json] cannot be written. *)
Definition rough : env :=
  {| arxiv_results := arxiv_results (Sample.calm 3 Sample.two_files);
     random_random := λ _, 1 # 2;
     requests_get := λ _ _ _, Http200;
     tarfile_is_tarfile := λ _ _, true;
     tarfile_open := λ _ _, inl (Exn ReadError "not a gzip file");
     tar_extract := λ _ _ _, None;
     os_makedirs := λ _ _, None;
     os_remove := λ _ _, Some (Exn OSError "[Errno 13] Permission denied");
     write_json := λ _ _, Some (Exn OSError "Read-only file system") |}.

(** The copy of the bundle of version 3 is cut by the network, the
    bundle of version 1 is no tar archive, and the directories hold the
    bundle and two more files. *)
Definition found_in (folder : string) : list (string * list string) :=
  [ (folder, [Downloader.basename folder +:+ ".tar.gz"; "main.tex";
              "figure.png"]) ].

Definition rough_disk : Storage.services :=
  {| Storage.copy_body := λ _ path,
       if Py.endswith "v3.tar.gz" path
       then Storage.CopyRaises (Exn RequestException "Connection broken")
       else Storage.Copied;
     Storage.is_tarfile := λ _ path,
       inr (negb (Py.endswith "v1.tar.gz" path));
     Storage.os_walk := λ _ folder, found_in folder |}.

(** The same, with a bundle of version 2 that cannot be read. *)
Definition unreadable_disk : Storage.services :=
  {| Storage.copy_body := Storage.copy_body rough_disk;
     Storage.is_tarfile := λ n path,
       if Py.endswith "v2.tar.gz" path
       then inl (Exn OSError "[Errno 13] Permission denied")
       else Storage.is_tarfile rough_disk n path;
     Storage.os_walk := Storage.os_walk rough_disk |}.

(** A disk on which nothing goes wrong. *)
Definition tidy_disk : Storage.services :=
  {| Storage.copy_body := λ _ _, Storage.Copied;
     Storage.is_tarfile := λ _ _, inr true;
     Storage.os_walk := λ _ folder, found_in folder |}.

End Cases.

(* ===================================================================== *)
(** * More notions used in the proofs *)
(* ===================================================================== *)

(** A raw reference as the bibliographic API documents it: an object
    whose [externalIds] is absent, [null] or an object with a string (or
    nothing) under [ArXiv], and whose [authors] is absent or a list of
    objects. *)
Definition is_dict (v : ReferenceExtractor.json) : bool :=
  match v with ReferenceExtractor.JDict _ => true | _ => false end.

Definition well_formed_reference (ref : ReferenceExtractor.json) : bool :=
  match ref with
  | ReferenceExtractor.JDict d =>
      match d !! "externalIds" with
      | None | Some ReferenceExtractor.JNull => true
      | Some (ReferenceExtractor.JDict ids) =>
          match ids !! "ArXiv" with
          | None | Some ReferenceExtractor.JNull
          | Some (ReferenceExtractor.JStr _) => true
          | _ => false
          end
      | _ => false
      end
      && match d !! "authors" with
         | None => true
         | Some (ReferenceExtractor.JList authors) => forallb is_dict authors
         | _ => false
         end
  | _ => false
  end.

(** The mapping after the entries [entries] have been set one after the
    other. *)
Definition set_entries {V} (entries : list (string * V))
    (result : gmap string V) : gmap string V :=
  foldl (λ acc entry, <[entry.1 := entry.2]> acc) result entries.

(** An answer of the bibliographic API after which
    [get_paper_references] pauses and asks again: a status other than 200
    and 404, or a [requests.RequestException] raised by the request or by
    the decoding of the body. *)
Definition retried (answer : Scholar.api_answer) : bool :=
  match answer with
  | Scholar.GetRaises e => bool_decide (exn_class_of e = RequestException)
  | Scholar.Response status_code json_body =>
      if status_code =? 200 then
        match json_body with
        | inl e => bool_decide (exn_class_of e = RequestException)
        | inr _ => false
        end
      else negb (status_code =? 404)
  end.

(** The shelf after [k] more requests, each but the last followed by a
    pause of [delay] seconds. *)
Definition after_requests (k : nat) (delay : Q) (s : Scholar.shelf)
    : Scholar.shelf :=
  {| Scholar.asked := Scholar.asked s + k + 1;
     Scholar.touched := Scholar.touched s;
     Scholar.naps := Scholar.naps s ++ replicate k delay;
     Scholar.made := Scholar.made s;
     Scholar.saved := Scholar.saved s |}.

(** The only metadata file written is the one at [path]. *)
Definition metadata_at (path : string) (e : event) : bool :=
  match e with
  | EvSaveMetadata saved_at _ => String.eqb saved_at path
  | _ => true
  end.

(** [c] writes no other file than [path]. *)
Definition writes_only (path : string) {A} (c : Scholar.R A) : Prop :=
  ∀ s r s', c s = Some (r, s') →
    ∃ files, Scholar.saved s' = Scholar.saved s ++ files
             ∧ Forall (λ file, file.1 = path) files.

(** The identifiers that a worker is handed before its first [None]. *)
Fixpoint before_sentinel (items : list (option string)) : list string :=
  match items with
  | Some arxiv_id :: rest => arxiv_id :: before_sentinel rest
  | _ => []
  end.

(** Every sentinel that the download workers have put is still on the
    result queue or has made a reference worker leave; what is on the
    queue, and what the reference workers have taken, was put by a
    download worker. *)
Definition accounted (n : nat) (p : Plant.plant) : Prop :=
  length (Plant.readers p) = n
  ∧ Main.sentinels (Main.put (Plant.line p))
    = (Main.count Main.is_sentinel (Main.download_queue (Plant.line p))
       + Main.count Plant.is_done (Plant.readers p))%nat
  ∧ (∀ x, x ∈ Main.download_queue (Plant.line p) →
          ∃ i, (i, x) ∈ Main.put (Plant.line p))
  ∧ (∀ j arxiv_id, (j, arxiv_id) ∈ Plant.handled p →
                   ∃ i, (i, Some arxiv_id) ∈ Main.put (Plant.line p)).

Definition no_dash (s : string) : bool :=
  Py.all_chars (λ c, negb (Ascii.eqb c "-")) s.

Definition no_dot (s : string) : bool :=
  Py.all_chars (λ c, negb (Ascii.eqb c ".")) s.

(** The seconds spent in [time.sleep] over a stretch of the trace. *)
Fixpoint total_sleep (evs : list event) : Q :=
  match evs with
  | [] => 0
  | EvSleep seconds :: rest => seconds + total_sleep rest
  | _ :: rest => total_sleep rest
  end.

(** ** Notions for the end of a run *)

(** The puts on the result queue that a download worker still owes once
    the identifiers have run out. *)
Definition pending (w : Main.worker_state) : nat :=
  match w with
  | Main.Taking => 1
  | Main.Putting (Some _) => 2
  | Main.Putting None => 1
  | Main.Finished => 0
  end.

Fixpoint total_pending (ws : list Main.worker_state) : nat :=
  match ws with
  | [] => 0
  | w :: rest => pending w + total_pending rest
  end.

(** What has been put after the [k]-th sentinel. *)
Fixpoint after_sentinels (k : nat) (items : list (option string))
    : list (option string) :=
  match k, items with
  | O, _ => items
  | S _, [] => []
  | S k', None :: rest => after_sentinels k' rest
  | S _, Some _ :: rest => after_sentinels k rest
  end.

(** The queues are first in, first out: the result queue is the end of
    what was put on it, the sentinels come last on the way to the
    download workers, and what is put after the last sentinel that a
    reference worker will take is bounded. *)
Definition orderly (n k : nat) (p : Plant.plant) : Prop :=
  balanced n (Plant.line p)
  ∧ protocol_invariant (Plant.line p)
  ∧ accounted k p
  ∧ (∃ consumed,
       snd <$> Main.put (Plant.line p)
       = consumed ++ Main.download_queue (Plant.line p))
  ∧ (∃ ids m,
       Main.id_queue (Plant.line p) ++ Main.resolver_todo (Plant.line p)
       = (Some <$> ids) ++ replicate m None
       ∧ ((Main.count Main.awaits_sentinel (Main.workers (Plant.line p))
           < length (Main.workers (Plant.line p)))%nat → ids = []))
  ∧ ((k ≤ Main.sentinels (Main.put (Plant.line p)))%nat →
     (length (after_sentinels k (snd <$> Main.put (Plant.line p)))
      + total_pending (Main.workers (Plant.line p)) ≤ 2 * (n - k))%nat).

(** ** Notions for the disk *)

(** [c] adds to the trace only events on which [p] holds. *)
Definition adds_only (p : event → bool) {A} (c : Storage.IO A) : Prop :=
  ∀ s r s', c s = (r, s') →
    ∃ evs, trace (Storage.world_of s') = trace (Storage.world_of s) ++ evs
           ∧ forallb p evs = true.

(** The failures that [download] is written for: directories can always
    be created, a request and the copy of its body fail with a
    [requests.RequestException] only, the bundle can be opened for
    writing, and a file that cannot be removed gives an [OSError]. *)
Definition expected_failures (E : env) (V : Storage.services) : Prop :=
  (∀ n path, os_makedirs E n path = None)
  ∧ (∀ n url out_path e,
       requests_get E n url out_path = HttpRaises e →
       exn_class_of e = RequestException)
  ∧ (∀ n path,
       match Storage.copy_body V n path with
       | Storage.Copied => True
       | Storage.OpenRaises _ => False
       | Storage.CopyRaises e => exn_class_of e = RequestException
       end)
  ∧ (∀ n path e, os_remove E n path = Some e → is_OSError e = true).

(** The removals of [path]. *)
Definition removal_of (path : string) (e : event) : bool :=
  match e with
  | EvRemove removed => String.eqb path removed
  | _ => false
  end.

(** Events that are neither a removal nor a completed download nor a
    saved metadata file. *)
Definition plain_event (e : event) : bool :=
  match e with
  | EvRemove _ | EvDownloaded _ | EvSaveMetadata _ _ => false
  | _ => true
  end.

(** Events other than a saved metadata file. *)
Definition no_save (e : event) : bool :=
  match e with
  | EvSaveMetadata _ _ => false
  | _ => true
  end.

(** The only events of a clean-up are removals. *)
Definition removal (e : event) : bool :=
  match e with
  | EvRemove _ => true
  | _ => false
  end.

(** The walk lists [file] among the files of the directory [root]. *)
Definition lists (walk : list (string * list string)) (root file : string)
    : Prop :=
  ∃ files, (root, files) ∈ walk ∧ file ∈ files.

(** The clean-up of [files] in [root], and of a walk, asks for the
    removal of [path]. *)
Definition asks_removal (path root : string) (files : list string) : bool :=
  existsb (λ file, negb (Downloader.kept_by_cleanup file)
                   && String.eqb (Py.path_join root file) path) files.

Definition walk_asks_removal (path : string)
    (walk : list (string * list string)) : bool :=
  existsb (λ d, asks_removal path d.1 d.2) walk.

(** The file is known to be gone. *)
Definition gone (s : Storage.store) (path : string) : bool :=
  bool_decide (Storage.disk s !! path = Some false).

(** The store after one more file-system operation that changes
    nothing. *)
Definition ticked (s : Storage.store) : Storage.store :=
  {| Storage.world_of := (tick_io (Storage.world_of s)).2;
     Storage.disk := Storage.disk s |}.

(** ** Notions for the reference worker *)

(** The handling of a paper ended without an exception. *)
Definition handled_well (outcome : exn + unit) : bool :=
  match outcome with inr _ => true | inl _ => false end.

(** The papers of a reference worker, one after the other, each started
    on the shelf that the one before has left: how
    [extract_references_for_paper] ends for each, with the pause after a
    paper that was handled without an exception. *)
Inductive turns (S : Scholar.services) (fuel : nat) (base_data_dir : string)
    (delay : Q)
    : list string → Scholar.shelf → list (exn + unit) → Scholar.shelf
      → Prop :=
  | turns_none s : turns S fuel base_data_dir delay [] s [] s
  | turns_counted arxiv_id ids s s1 s2 outcomes s' :
      Scholar.extract_references_for_paper S fuel arxiv_id base_data_dir s
      = Some (inr tt, s1) →
      Scholar.time_sleep delay s1 = Some (inr tt, s2) →
      turns S fuel base_data_dir delay ids s2 outcomes s' →
      turns S fuel base_data_dir delay (arxiv_id :: ids) s
        (inr tt :: outcomes) s'
  | turns_failed arxiv_id ids s e s1 outcomes s' :
      Scholar.extract_references_for_paper S fuel arxiv_id base_data_dir s
      = Some (inl e, s1) →
      turns S fuel base_data_dir delay ids s1 outcomes s' →
      turns S fuel base_data_dir delay (arxiv_id :: ids) s
        (inl e :: outcomes) s'.


(* ===================================================================== *)
(** * Strings *)
(* ===================================================================== *)

Section StringFacts.

Lemma len_map_chars f s : Py.len (Py.map_chars f s) = Py.len s.
Proof. induction s as [|c r IH]; simpl; congruence. Qed.

Lemma get_map_chars f s i :
  Py.get i (Py.map_chars f s) = f <$> Py.get i s.
Proof.
  revert i; induction s as [|c r IH]; intros [|i]; simpl; auto.
Qed.

Lemma map_chars_compose f g s :
  Py.map_chars f (Py.map_chars g s) = Py.map_chars (fun c => f (g c)) s.
Proof. induction s as [|c r IH]; simpl; congruence. Qed.

Lemma map_chars_ext f g s :
  (∀ c, f c = g c) → Py.map_chars f s = Py.map_chars g s.
Proof. intros H; induction s as [|c r IH]; simpl; congruence. Qed.

Lemma len_append a b : Py.len (a +:+ b) = (Py.len a + Py.len b)%nat.
Proof. induction a as [|c r IH]; simpl; congruence. Qed.

Lemma all_chars_append p a b :
  Py.all_chars p (a +:+ b) = Py.all_chars p a && Py.all_chars p b.
Proof.
  induction a as [|c r IH]; simpl; [done|].
  rewrite IH. by destruct (p c).
Qed.

End StringFacts.

(** The membership test of the source and the allow-list of the
    specification agree on every character. *)
Lemma safe_chars_allow_listed (c : ascii) :
  Py.contains (String c "") Downloader.safe_chars = Spec.allow_listed c.
Proof.
  destruct c as [[] [] [] [] [] [] [] []]; vm_compute; reflexivity.
Qed.

(** C10.  For every input string, [sanitize_filename] returns a string of
    the same length in which every character outside the allow-list
    (ASCII letters, digits, [-_./]) is replaced by an underscore and every
    allow-listed character is kept; hence sanitizing twice is sanitizing
    once. *)
Theorem sanitize_filename_allow_list (s : string) :
  Py.len (Downloader.sanitize_filename s) = Py.len s
  ∧ (∀ i c, Py.get i s = Some c →
       Py.get i (Downloader.sanitize_filename s)
       = Some (if Spec.allow_listed c then c else "_"%char))
  ∧ Downloader.sanitize_filename (Downloader.sanitize_filename s)
    = Downloader.sanitize_filename s.
Proof.
  unfold Downloader.sanitize_filename. split; [|split].
  - apply len_map_chars.
  - intros i c Hc. rewrite get_map_chars, Hc.
    cbn [fmap option_fmap option_map]. by rewrite safe_chars_allow_listed.
  - rewrite map_chars_compose. apply map_chars_ext. intros c. cbv beta.
    rewrite (safe_chars_allow_listed c).
    destruct (Spec.allow_listed c) eqn:Hc.
    + by rewrite safe_chars_allow_listed, Hc.
    + reflexivity.
Qed.

(* ===================================================================== *)
(** * Decimal numerals *)
(* ===================================================================== *)

Section Numerals.

Lemma string_of_uint_digits d :
  Py.all_chars Py.is_digit (NilEmpty.string_of_uint d) = true.
Proof. induction d; simpl; auto. Qed.

Lemma str_N_digits n : Py.all_chars Py.is_digit (Py.str_N n) = true.
Proof. apply string_of_uint_digits. Qed.

Lemma str_N_nonempty n : Py.str_N n ≠ "".
Proof.
  unfold Py.str_N. destruct n as [|p]; [vm_compute; discriminate|].
  cbn [N.to_uint].
  pose proof (DecimalPos.Unsigned.to_uint_nonnil p) as Hp.
  destruct (Pos.to_uint p); [done|simpl; discriminate ..].
Qed.

Lemma int_digits_str_N n : Py.int_digits (Py.str_N n) = Some (Z.of_N n).
Proof.
  unfold Py.int_digits. pose proof (str_N_nonempty n) as Hne.
  rewrite str_N_digits. destruct (Py.str_N n) eqn:Hs; [done|].
  rewrite <- Hs. unfold Py.str_N. rewrite NilEmpty.usu. simpl.
  by rewrite DecimalN.Unsigned.of_to.
Qed.

Lemma int_digits_leading_zero s :
  s ≠ "" → Py.all_chars Py.is_digit s = true →
  Py.int_digits (String "0" s) = Py.int_digits s.
Proof.
  intros Hne Hd. unfold Py.int_digits.
  cbn [Py.all_chars NilEmpty.uint_of_string]. rewrite Hd.
  change (Py.is_digit "0") with true. cbn [andb].
  destruct s as [|c r]; [done|].
  destruct (NilEmpty.uint_of_string (String c r)); reflexivity.
Qed.

Lemma all_digits_zeros k s :
  Py.all_chars Py.is_digit s = true →
  Py.all_chars Py.is_digit (Py.zeros k +:+ s) = true.
Proof. intros Hs. induction k; simpl; auto. Qed.

Lemma int_digits_zeros k s :
  s ≠ "" → Py.all_chars Py.is_digit s = true →
  Py.int_digits (Py.zeros k +:+ s) = Py.int_digits s.
Proof.
  intros Hne Hd. induction k as [|k IH]; [done|].
  cbn [Py.zeros String.append].
  rewrite int_digits_leading_zero; [done| |by apply all_digits_zeros].
  destruct k; [done|discriminate].
Qed.

(** A string of digits is read by [int] as it is by [int_digits]. *)
Lemma int_of_digits s :
  Py.all_chars Py.is_digit s = true → Py.int s = Py.int_digits s.
Proof.
  destruct s as [|c r]; [done|]. cbn [Py.all_chars].
  intros [Hc _]%andb_prop.
  destruct c as [[] [] [] [] [] [] [] []]; try discriminate Hc; reflexivity.
Qed.

(** [int(f"{z:0Wd}") == z] for a non-negative [z]. *)
Lemma int_format_0d w z : 0 ≤ z → Py.int (Py.format_0d w z) = Some z.
Proof.
  intros Hz. unfold Py.format_0d.
  destruct (z <? 0) eqn:Hneg; [lia|].
  rewrite int_of_digits by apply all_digits_zeros, str_N_digits.
  rewrite int_digits_zeros by auto using str_N_nonempty, str_N_digits.
  rewrite int_digits_str_N. f_equal. lia.
Qed.

(** [int(str(z)) == z] for a non-negative [z]. *)
Lemma int_str_Z z : 0 ≤ z → Py.int (Py.str_Z z) = Some z.
Proof.
  intros Hz. unfold Py.str_Z. destruct (z <? 0) eqn:Hneg; [lia|].
  rewrite int_of_digits by apply str_N_digits.
  rewrite int_digits_str_N. f_equal. lia.
Qed.

End Numerals.

(* ===================================================================== *)
(** * Identifiers and storage keys *)
(* ===================================================================== *)

Section Ranges.

Lemma all_from_spec (P : Z → bool) (k : nat) (lo : Z) :
  all_from P k lo = true → ∀ z, lo ≤ z < lo + Z.of_nat k → P z = true.
Proof.
  revert lo. induction k as [|k IH]; intros lo H z Hz; [lia|].
  cbn [all_from] in H. apply andb_prop in H as [H0 H1].
  destruct (decide (z = lo)) as [->|Hne]; [done|].
  apply (IH (lo + 1)); [done|lia].
Qed.

Lemma all_in_range (P : Z → bool) (lo hi : Z) :
  all_from P (Z.to_nat (hi - lo)) lo = true →
  ∀ z, lo ≤ z < hi → P z = true.
Proof. intros H z Hz. apply (all_from_spec _ _ _ H). lia. Qed.

End Ranges.

Lemma format_02d_digits z : 0 ≤ z < 100 → two_digits (Py.format_0d 2 z) = true.
Proof.
  intros Hz.
  apply (all_in_range (λ z, two_digits (Py.format_0d 2 z)) 0 100);
    [vm_compute; reflexivity | lia].
Qed.

Lemma format_05d_digits n :
  0 ≤ n < 100000 → five_digits (Py.format_0d 5 n) = true.
Proof.
  intros Hn.
  apply (all_in_range (λ n, five_digits (Py.format_0d 5 n)) 0 100000);
    [vm_compute; reflexivity | lia].
Qed.

Lemma format_04d_century y :
  2000 ≤ y < 2100 → "20" +:+ Py.format_0d 2 (y mod 100) = Py.format_0d 4 y.
Proof.
  intros Hy. apply String.eqb_eq.
  apply (all_in_range
           (λ y, String.eqb ("20" +:+ Py.format_0d 2 (y mod 100))
                   (Py.format_0d 4 y)) 2000 2100);
    [vm_compute; reflexivity | lia].
Qed.

(** The key of a well-formed identifier: the century is put in front and
    the dot becomes a dash. *)
Lemma format_arxiv_id_for_key_digits (yy mm id_num : string) :
  two_digits yy = true → two_digits mm = true → five_digits id_num = true →
  ArxivHandler.format_arxiv_id_for_key (yy +:+ mm +:+ "." +:+ id_num)
  = "20" +:+ yy +:+ mm +:+ "-" +:+ id_num.
Proof.
  intros Hy Hm Hn.
  destruct yy as [|y1 [|y2 [|]]]; try discriminate.
  destruct mm as [|m1 [|m2 [|]]]; try discriminate.
  destruct id_num as [|n1 [|n2 [|n3 [|n4 [|n5 [|]]]]]]; try discriminate.
  unfold ArxivHandler.format_arxiv_id_for_key, ArxivHandler.match_yymm_nnnnn.
  cbn in *.
  repeat match goal with
         | H : _ && _ = true |- _ => apply andb_prop in H as [? ?]
         end.
  repeat match goal with
         | H : Py.is_digit _ = true |- _ => rewrite H; clear H
         end.
  reflexivity.
Qed.

(** C9, as the code has it.  For a month in 1..12, a year of the century
    2000..2099 and an ordinal in 1..99999, the storage-key formatter maps
    [get_ID(m, y, n)] to ["{y:04d}{m:02d}-{n:05d}"]; and
    [get_ID(4, 2023, 7856)] is ["2304.07856"], with key ["202304-07856"]. *)
Theorem get_ID_storage_key (m y n : Z) :
  1 ≤ m ≤ 12 → 2000 ≤ y ≤ 2099 → 1 ≤ n ≤ 99999 →
  ArxivHandler.format_arxiv_id_for_key (ArxivHandler.get_ID m y n)
  = Spec.storage_key y m n
  ∧ ArxivHandler.get_ID 4 2023 7856 = "2304.07856"
  ∧ ArxivHandler.format_arxiv_id_for_key "2304.07856" = "202304-07856".
Proof.
  intros Hm Hy Hn. split; [|split; vm_compute; reflexivity].
  unfold ArxivHandler.get_ID, Spec.storage_key.
  rewrite format_arxiv_id_for_key_digits.
  - rewrite <- (format_04d_century y) by lia.
    generalize (Py.format_0d 2 (y mod 100)). intros s.
    destruct s as [|a [|b s]]; reflexivity.
  - apply format_02d_digits. pose proof (Z.mod_pos_bound y 100). lia.
  - apply format_02d_digits. lia.
  - apply format_05d_digits. lia.
Qed.

Lemma get_ID_storage_key_witness :
  ArxivHandler.format_arxiv_id_for_key (ArxivHandler.get_ID 4 2023 7856)
  = Spec.storage_key 2023 4 7856
  ∧ ArxivHandler.get_ID 4 2023 7856 = "2304.07856"
  ∧ ArxivHandler.format_arxiv_id_for_key "2304.07856" = "202304-07856".
Proof. apply (get_ID_storage_key 4 2023 7856); lia. Defined.

(** C9 as stated fails for a year outside 2000..2099: the formatter always
    writes the century 20. *)
Lemma get_ID_storage_key_1999 :
  ArxivHandler.format_arxiv_id_for_key (ArxivHandler.get_ID 4 1999 7856)
  = "209904-07856"
  ∧ Spec.storage_key 1999 4 7856 = "199904-07856"
  ∧ ArxivHandler.format_arxiv_id_for_key (ArxivHandler.get_ID 4 1999 7856)
    ≠ Spec.storage_key 1999 4 7856.
Proof. split; [|split]; [vm_compute; reflexivity .. | vm_compute; discriminate]. Qed.

(* ===================================================================== *)
(** * Month boundaries: [find_first_id] and [find_last_id] *)
(* ===================================================================== *)

Arguments ArxivHandler.get_ID : simpl never.

Section MonthBounds.

Import ArxivHandler.

Variable id_exists : string → bool.
Variables (year month : Z).

Abbreviation exists_at n := (id_exists (get_ID month year n)).

Lemma mid_between (low high : Z) :
  low + 1 < high → low < (low + high) / 2 < high.
Proof.
  intros H. pose proof (Z.div_mod (low + high) 2).
  pose proof (Z.mod_pos_bound (low + high) 2). lia.
Qed.

Lemma half_bounds (high : Z) : 0 < high → 0 ≤ high / 2 < high.
Proof.
  intros H. pose proof (Z.div_mod high 2).
  pose proof (Z.mod_pos_bound high 2). lia.
Qed.

(** The doubling loops end within their fuel. *)
Lemma first_probe_ends fuel high :
  (1 ≤ fuel)%nat → 0 < high → 99999 < high * 2 ^ Z.of_nat fuel →
  first_probe id_exists year month fuel high ≠ None.
Proof.
  revert high. induction fuel as [|f IH]; intros high Hf Hh Hpow; [lia|].
  cbn [first_probe]. destruct (negb (exists_at high)); [|done].
  destruct (high * 2 >? 99999) eqn:Hgt; [done|].
  apply IH; [|lia|].
  - destruct f; [|lia]. cbn in Hpow. lia.
  - rewrite Nat2Z.inj_succ, Z.pow_succ_r in Hpow by lia. lia.
Qed.

Lemma last_probe_ends fuel high :
  (1 ≤ fuel)%nat → 0 < high → 99999 < high * 2 ^ Z.of_nat fuel →
  last_probe id_exists year month fuel high ≠ None.
Proof.
  revert high. induction fuel as [|f IH]; intros high Hf Hh Hpow; [lia|].
  cbn [last_probe]. destruct (exists_at high); [|done].
  destruct (high * 2 >? 99999) eqn:Hgt; [done|].
  apply IH; [|lia|].
  - destruct f; [|lia]. cbn in Hpow. lia.
  - rewrite Nat2Z.inj_succ, Z.pow_succ_r in Hpow by lia. lia.
Qed.

(** They leave the loop with a bound that is at least the one they
    started from. *)
Lemma first_probe_grows fuel high h :
  0 < high →
  first_probe id_exists year month fuel high = Some (inr h) → high ≤ h.
Proof.
  revert high. induction fuel as [|f IH]; intros high Hh; [done|].
  cbn [first_probe]. destruct (negb (exists_at high)).
  - destruct (high * 2 >? 99999); [done|].
    intros H%IH; lia.
  - intros [= <-]. lia.
Qed.

Lemma last_probe_grows fuel high h :
  0 < high →
  last_probe id_exists year month fuel high = Some (inr h) → high ≤ h.
Proof.
  revert high. induction fuel as [|f IH]; intros high Hh; [done|].
  cbn [last_probe]. destruct (exists_at high).
  - destruct (high * 2 >? 99999); [done|].
    intros H%IH; lia.
  - intros [= <-]. lia.
Qed.

Lemma last_probe_step f high :
  last_probe id_exists year month (S f) high
  = if exists_at high then
      if high * 2 >? 99999 then Some (inl (PyInt 99999))
      else last_probe id_exists year month f (high * 2)
    else Some (inr high).
Proof. reflexivity. Qed.

Lemma last_probe_capped fuel high r :
  last_probe id_exists year month fuel high = Some (inl r) →
  r = PyInt 99999.
Proof.
  revert high. induction fuel as [|f IH]; intros high; [done|].
  cbn [last_probe]. destruct (exists_at high); [|done].
  destruct (high * 2 >? 99999); [by intros [= <-]|]. apply IH.
Qed.

Lemma last_probe_bounded fuel high h :
  high ≤ 99999 →
  last_probe id_exists year month fuel high = Some (inr h) → h ≤ 99999.
Proof.
  revert high. induction fuel as [|f IH]; intros high Hh; [done|].
  cbn [last_probe]. destruct (exists_at high).
  - destruct (high * 2 >? 99999) eqn:Hgt; [done|].
    apply IH. lia.
  - intros [= <-]. lia.
Qed.

(** The bisections end within their fuel, between the bounds they
    started from. *)
Lemma first_bisect_ends fuel low high :
  (1 ≤ fuel)%nat → high - low ≤ Z.of_nat fuel →
  ∃ r, first_bisect id_exists year month fuel low high = Some r
       ∧ (low + 1 < high → low < r ≤ high) ∧ (high ≤ low + 1 → r = high).
Proof.
  revert low high.
  induction fuel as [|f IH]; intros low high Hf Hw; [lia|].
  cbn [first_bisect]. destruct (low + 1 <? high) eqn:Hlt.
  - apply Z.ltb_lt in Hlt.
    pose proof (mid_between low high Hlt) as Hmid.
    destruct (exists_at ((low + high) / 2)).
    + destruct (IH low ((low + high) / 2)) as (r & -> & H1 & H2); [lia..|].
      exists r. split; [done|]. split; [|lia]. intros _.
      destruct (decide (low + 1 < (low + high) / 2)); [lia|].
      rewrite H2 by lia. lia.
    + destruct (IH ((low + high) / 2) high) as (r & -> & H1 & H2); [lia..|].
      exists r. split; [done|]. split; [|lia]. intros _.
      destruct (decide ((low + high) / 2 + 1 < high)); [lia|].
      rewrite H2 by lia. lia.
  - apply Z.ltb_ge in Hlt. exists high. split; [done|]. lia.
Qed.

Lemma last_bisect_ends fuel low high :
  (1 ≤ fuel)%nat → high - low ≤ Z.of_nat fuel →
  ∃ r, last_bisect id_exists year month fuel low high = Some r
       ∧ low ≤ r ≤ Z.max low high.
Proof.
  revert low high.
  induction fuel as [|f IH]; intros low high Hf Hw; [lia|].
  cbn [last_bisect]. destruct (low + 1 <? high) eqn:Hlt.
  - apply Z.ltb_lt in Hlt.
    pose proof (mid_between low high Hlt) as Hmid.
    destruct (exists_at ((low + high) / 2)).
    + destruct (IH ((low + high) / 2) high) as (r & -> & H1); [lia..|].
      exists r. split; [done|lia].
    + destruct (IH low ((low + high) / 2)) as (r & -> & H1); [lia..|].
      exists r. split; [done|lia].
  - exists low. split; [done|lia].
Qed.

(** [find_first_id] and [find_last_id] return, whatever the oracle. *)
Lemma find_first_id_total :
  ∃ r, find_first_id id_exists year month = Some r.
Proof.
  unfold find_first_id.
  pose proof (first_probe_ends probe_fuel 1) as Hends.
  destruct (first_probe id_exists year month probe_fuel 1)
    as [[r|high]|] eqn:Hp.
  - by exists r.
  - apply first_probe_grows in Hp as Hge; [|lia].
    destruct (first_bisect_ends (Z.to_nat high) 1 high) as (r & -> & _);
      [lia..|].
    by exists (PyInt r).
  - exfalso. apply Hends; [unfold probe_fuel; lia|lia|done|done].
Qed.

Lemma find_last_id_total :
  ∃ r, find_last_id id_exists year month = Some r.
Proof.
  unfold find_last_id.
  pose proof (last_probe_ends probe_fuel 1) as Hends.
  destruct (last_probe id_exists year month probe_fuel 1)
    as [[r|high]|] eqn:Hp.
  - by exists r.
  - apply last_probe_grows in Hp as Hge; [|lia].
    destruct (last_bisect_ends (Z.to_nat high) (high / 2) high)
      as (r & -> & _).
    + lia.
    + pose proof (half_bounds high). lia.
    + by exists (PyInt r).
  - exfalso. apply Hends; [unfold probe_fuel; lia|lia|done|done].
Qed.

(** A month without any identifier: [find_first_id] returns [None] and
    [find_last_id] returns 0, neither of which is an ordinal. *)
Lemma first_probe_nothing fuel high :
  (∀ n, 1 ≤ n ≤ 99999 → exists_at n = false) →
  (1 ≤ fuel)%nat → 1 ≤ high ≤ 99999 → 99999 < high * 2 ^ Z.of_nat fuel →
  first_probe id_exists year month fuel high = Some (inl PyNone).
Proof.
  intros Hno. revert high.
  induction fuel as [|f IH]; intros high Hf Hh Hpow; [lia|].
  cbn [first_probe]. rewrite Hno by lia. cbn [negb].
  destruct (high * 2 >? 99999) eqn:Hgt; [done|].
  apply IH; [|lia|].
  - destruct f; [|lia]. cbn in Hpow. lia.
  - rewrite Nat2Z.inj_succ, Z.pow_succ_r in Hpow by lia. lia.
Qed.

Lemma find_ids_empty_month :
  (∀ n, 1 ≤ n ≤ 99999 → exists_at n = false) →
  find_first_id id_exists year month = Some PyNone
  ∧ find_last_id id_exists year month = Some (PyInt 0).
Proof.
  intros Hno. split.
  - unfold find_first_id. rewrite first_probe_nothing; try done.
    unfold probe_fuel; lia.
  - unfold find_last_id, probe_fuel. cbn [last_probe].
    rewrite Hno by lia. reflexivity.
Qed.

(** When ordinal 1 exists, [find_first_id] returns 1 and [find_last_id]
    an ordinal that is not below it. *)
Lemma find_ids_from_one :
  exists_at 1 = true →
  find_first_id id_exists year month = Some (PyInt 1)
  ∧ ∃ last, find_last_id id_exists year month = Some (PyInt last)
            ∧ 1 ≤ last ≤ 99999.
Proof.
  intros H1. split.
  - unfold find_first_id, probe_fuel. cbn [first_probe].
    rewrite H1. reflexivity.
  - unfold find_last_id. change probe_fuel with (S 17).
    rewrite last_probe_step, H1.
    change (1 * 2 >? 99999) with false. cbv iota.
    change (1 * 2) with 2.
    pose proof (last_probe_ends 17 2) as Hends.
    destruct (last_probe id_exists year month 17 2) as [[r|high]|] eqn:Hp.
    + apply last_probe_capped in Hp as ->. exists 99999.
      split; [done|lia].
    + apply last_probe_grows in Hp as Hge; [|lia].
      apply last_probe_bounded in Hp as Hle; [|lia].
      pose proof (half_bounds high).
      pose proof (Z.div_le_lower_bound high 2 1).
      destruct (last_bisect_ends (Z.to_nat high) (high / 2) high)
        as (r & -> & Hr); [lia..|].
      exists r. split; [done|lia].
    + exfalso. apply Hends; [lia|lia|done|done].
Qed.

End MonthBounds.

Lemma get_ID_2304 n :
  ArxivHandler.get_ID 4 2023 n = "2304." +:+ Py.format_0d 5 n.
Proof. reflexivity. Qed.

Lemma get_ID_2304_inj n k :
  0 ≤ n → 0 ≤ k →
  ArxivHandler.get_ID 4 2023 n = ArxivHandler.get_ID 4 2023 k → n = k.
Proof.
  intros Hn Hk. rewrite !get_ID_2304. intros [= H].
  apply (f_equal Py.int) in H. rewrite !int_format_0d in H by done.
  congruence.
Qed.

Lemma exists_2_to_5_range n :
  1 ≤ n ≤ 99999 →
  Sample.exists_2_to_5 (ArxivHandler.get_ID 4 2023 n) = (2 <=? n) && (n <=? 5).
Proof.
  intros Hn. unfold Sample.exists_2_to_5.
  destruct ((2 <=? n) && (n <=? 5)) eqn:Hr.
  - apply bool_decide_eq_true. apply list_elem_of_fmap. exists n.
    split; [done|].
    apply list_elem_of_In. simpl. lia.
  - apply bool_decide_eq_false. intros (k & Hk & Hin)%list_elem_of_fmap.
    apply list_elem_of_In in Hin. simpl in Hin.
    apply get_ID_2304_inj in Hk; lia.
Qed.

(** C8 at a failing input.  In a month whose existing ordinals are exactly
    the contiguous range 2..5, [find_first_id] returns 2 and
    [find_last_id] returns 0: the first is not below the last, and 0 is
    not the last existing ordinal.  ([find_last_id] starts its search at
    ordinal 1 and stops at once when that one is missing.) *)
Theorem find_ids_month_2_to_5 :
  (∀ n, 1 ≤ n ≤ 99999 →
     Sample.exists_2_to_5 (ArxivHandler.get_ID 4 2023 n) = (2 <=? n) && (n <=? 5))
  ∧ ArxivHandler.find_first_id Sample.exists_2_to_5 2023 4
    = Some (ArxivHandler.PyInt 2)
  ∧ ArxivHandler.find_last_id Sample.exists_2_to_5 2023 4
    = Some (ArxivHandler.PyInt 0).
Proof.
  split; [apply exists_2_to_5_range|].
  split; vm_compute; reflexivity.
Qed.

(* ===================================================================== *)
(** * References *)
(* ===================================================================== *)

(** C1 at a failing input.  The reference with ArXiv identifier
    2304.07856 is stored under the key 2304-07856, which is the only key
    of the mapping: the key 202304-07856 that the claim (and the
    docstring of [convert_to_references_dict]) announces is absent, and
    the key that is present does not have the storage-key format. *)
Theorem convert_reference_2304_07856 :
  (ReferenceExtractor.convert_to_references_dict
     [Sample.reference_2304_07856] World.start).1
  = inr {[ "2304-07856" := Sample.entry_2304_07856 ]}
  ∧ ({[ "2304-07856" := Sample.entry_2304_07856 ]}
       : gmap string ReferenceExtractor.ref_metadata) !! "202304-07856" = None
  ∧ Spec.is_storage_key "2304-07856" = false
  ∧ ArxivHandler.format_arxiv_id_for_key "2304.07856" = "202304-07856".
Proof.
  split; [vm_compute; reflexivity|].
  split; [by rewrite lookup_singleton_ne|].
  split; vm_compute; reflexivity.
Qed.

Section ReferenceKeys.

Import ReferenceExtractor.

Lemma convert_reference_key ref result w result' w' :
  convert_reference ref result w = (inr result', w') →
  result' = result
  ∨ ∃ s md, has_arxiv_id ref s
            ∧ result' = <[Downloader.format_yymm_id s := md]> result.
Proof.
  unfold convert_reference. intros H.
  destruct (truthy ref) eqn:Ht; cbn [negb] in H;
    [|unfold World.ret in H; simplify_eq; by left].
  destruct ref as [| | | | |d]; try discriminate.
  unfold World.bind at 1 in H. cbn [dict_get World.ret] in H.
  set (ext := default (JDict ∅) (d !! "externalIds")) in H.
  assert (∀ ids,
    (match ext with JNull => JDict ∅ | v => v end) = JDict ids →
    ids = ∅ ∨ d !! "externalIds" = Some (JDict ids)) as Hext.
  { intros ids. subst ext.
    destruct (d !! "externalIds") as [[]|]; cbn; intros; simplify_eq; auto. }
  destruct (match ext with JNull => JDict ∅ | v => v end)
    as [| | | | |ids] eqn:Hx;
    try (unfold World.bind, dict_get, World.raise in H; discriminate).
  destruct (Hext ids eq_refl) as [->|Hd].
  { unfold World.bind, dict_get, World.ret in H.
    rewrite !lookup_empty in H. cbn in H. simplify_eq. by left. }
  clear Hext Hx. clearbody ext.
  unfold World.bind at 1 in H. cbn [dict_get World.ret] in H.
  unfold World.bind at 1 in H. cbn [dict_get World.ret] in H.
  destruct (truthy (default (JStr "") (ids !! "ArXiv"))) eqn:Hta;
    cbn [negb] in H; [|unfold World.ret in H; simplify_eq; by left].
  destruct (ids !! "ArXiv") as [aid|] eqn:Haid; cbn [default] in *;
    [|discriminate].
  destruct aid as [| | |s| |]; try discriminate;
    try (unfold World.bind, World.raise in H; discriminate).
  right. exists s.
  unfold World.bind, World.ret, dict_get in H.
  repeat match type of H with
         | context [match ?x with _ => _ end] =>
             destruct x eqn:?; try discriminate
         end.
  all: cbn in *; simplify_eq; eexists; (split; [|reflexivity]).
  all: exists d, ids; repeat split; try done; by destruct s.
Qed.

(** Every key of the mapping is [format_yymm_id] of the archive
    identifier of one of the references: a reference without
    [externalIds.ArXiv] contributes no key. *)
Lemma convert_to_references_dict_keys references w result w' key :
  convert_to_references_dict references w = (inr result, w') →
  is_Some (result !! key) →
  ∃ ref s, ref ∈ references ∧ has_arxiv_id ref s
           ∧ key = Downloader.format_yymm_id s.
Proof.
  unfold convert_to_references_dict.
  assert (∀ acc,
    convert_loop references acc w = (inr result, w') →
    is_Some (result !! key) →
    is_Some (acc !! key)
    ∨ ∃ ref s, ref ∈ references ∧ has_arxiv_id ref s
               ∧ key = Downloader.format_yymm_id s) as Hgen.
  { revert w. induction references as [|ref rest IH]; intros w acc.
    - cbn. intros [= <- <-]. by left.
    - cbn [convert_loop]. unfold World.bind at 1.
      destruct (convert_reference ref acc w) as [[e|acc'] w1] eqn:Hc;
        [done|].
      intros Hl Hk. apply convert_reference_key in Hc.
      destruct (IH _ _ Hl Hk) as [Hin|(r & s & Hr & Hs & ->)].
      + destruct Hc as [->|(s & md & Hs & ->)]; [by left|].
        destruct (decide (Downloader.format_yymm_id s = key)) as [<-|Hne].
        * right. exists ref, s. split; [left|done].
        * left. by rewrite lookup_insert_ne in Hin.
      + right. exists r, s. split; [by right|done]. }
  intros H Hk. destruct (Hgen ∅ H Hk) as [Hin|?]; [|done].
  rewrite lookup_empty in Hin. by destruct Hin.
Qed.

End ReferenceKeys.

(* ===================================================================== *)
(** * Reasoning about traces *)
(* ===================================================================== *)

Section Traces.

Lemma bind_inv {A B} (c : M A) (k : A → M B) w r w' :
  World.bind c k w = (r, w') →
  (∃ e, c w = (inl e, w') ∧ r = inl e)
  ∨ (∃ a w1, c w = (inr a, w1) ∧ k a w1 = (r, w')).
Proof.
  unfold World.bind. destruct (c w) as [[e|a] w1]; intros H.
  - left. exists e. by simplify_eq.
  - right. by exists a, w1.
Qed.

Context (p : event → bool).

Lemma quiet_ret {A} (a : A) : quiet p (World.ret a).
Proof. intros w r w' [= <- <-]. exists []. by rewrite app_nil_r. Qed.

Lemma quiet_raise {A} e : quiet p (World.raise (A:=A) e).
Proof. intros w r w' [= <- <-]. exists []. by rewrite app_nil_r. Qed.

Lemma quiet_emit e : p e = true → quiet p (emit e).
Proof.
  intros He w r w' [= <- <-]. exists [e]. cbn. by rewrite He.
Qed.

Lemma quiet_tick_api : quiet p tick_api.
Proof. intros w r w' [= <- <-]. exists []. by rewrite app_nil_r. Qed.

Lemma quiet_tick_draw : quiet p tick_draw.
Proof. intros w r w' [= <- <-]. exists []. by rewrite app_nil_r. Qed.

Lemma quiet_tick_io : quiet p tick_io.
Proof. intros w r w' [= <- <-]. exists []. by rewrite app_nil_r. Qed.

Lemma quiet_bind {A B} (c : M A) (k : A → M B) :
  quiet p c → (∀ a, quiet p (k a)) → quiet p (World.bind c k).
Proof.
  intros Hc Hk w r w' [(e & H & ->)|(a & w1 & H & H')]%bind_inv.
  - eauto.
  - destruct (Hc _ _ _ H) as (evs & Ht & Hp).
    destruct (Hk _ _ _ _ H') as (evs' & Ht' & Hp').
    exists (evs ++ evs').
    rewrite Ht', Ht, app_assoc, forallb_app, Hp, Hp'. done.
Qed.

Lemma quiet_try_except {A} (c : M A) (h : exn → M A) :
  quiet p c → (∀ e, quiet p (h e)) → quiet p (try_except c h).
Proof.
  intros Hc Hh w r w'. unfold try_except.
  destruct (c w) as [[e|a] w1] eqn:H; intros H'.
  - destruct (Hc _ _ _ H) as (evs & Ht & Hp).
    destruct (Hh _ _ _ _ H') as (evs' & Ht' & Hp').
    exists (evs ++ evs').
    rewrite Ht', Ht, app_assoc, forallb_app, Hp, Hp'. done.
  - simplify_eq. eauto.
Qed.

Lemma quiet_try_finally {A} (c : M A) (f : M unit) :
  quiet p c → quiet p f → quiet p (try_finally c f).
Proof.
  intros Hc Hf w r w'. unfold try_finally.
  destruct (c w) as [r1 w1] eqn:H.
  destruct (f w1) as [[e|[]] w2] eqn:H'; intros ?; simplify_eq.
  all: destruct (Hc _ _ _ H) as (evs & Ht & Hp).
  all: destruct (Hf _ _ _ H') as (evs' & Ht' & Hp').
  all: exists (evs ++ evs').
  all: by rewrite Ht', Ht, app_assoc, forallb_app, Hp, Hp'.
Qed.

Lemma quiet_lift_option {A} e (o : option A) : quiet p (lift_option e o).
Proof. destruct o; [apply quiet_ret|apply quiet_raise]. Qed.

Lemma quiet_lift_sum {A} (r : exn + A) : quiet p (lift_sum r).
Proof. destruct r; [apply quiet_raise|apply quiet_ret]. Qed.

Lemma quiet_lift_failure o : quiet p (lift_failure o).
Proof. destruct o; [apply quiet_raise|apply quiet_ret]. Qed.

End Traces.

(** Taking a computation apart along its structure. *)
Ltac quiet_step :=
  first
    [ apply quiet_ret | apply quiet_raise
    | apply quiet_tick_api | apply quiet_tick_draw | apply quiet_tick_io
    | apply quiet_lift_option | apply quiet_lift_sum
    | apply quiet_lift_failure
    | apply quiet_emit; reflexivity
    | apply quiet_bind; [|intros ?]
    | apply quiet_try_except; [|intros ?]
    | apply quiet_try_finally
    | assumption
    | match goal with
      | |- quiet _ (match ?x with _ => _ end) => destruct x
      | |- quiet _ (let (_, _) := ?x in _) => destruct x
      end ].

Ltac quiet := repeat quiet_step.

Section QuietParts.

Variable E : env.
Variable p : event → bool.

Lemma quiet_makedirs path :
  p (EvMakedirs path) = true → quiet p (makedirs E path).
Proof. intros H. unfold makedirs. quiet. by apply quiet_emit. Qed.

Lemma quiet_remove path :
  p (EvRemove path) = true → quiet p (remove E path).
Proof. intros H. unfold remove. quiet. by apply quiet_emit. Qed.

Lemma quiet_random_uniform a b : quiet p (random_uniform E a b).
Proof. unfold random_uniform. quiet. Qed.

Lemma quiet_create_metadata paper :
  quiet p (MetadataCollector.create_metadata paper).
Proof. unfold MetadataCollector.create_metadata. quiet. Qed.

End QuietParts.

(* ===================================================================== *)
(** * Retrying a throttled fetch *)
(* ===================================================================== *)

Section Retries.

Import Main.

Variable E : env.
Hypothesis random_unit : ∀ n, (0 <= random_random E n < 1)%Q.

Lemma jitter_range n :
  (0 <= 0 + (5 - 0) * random_random E n < 5)%Q.
Proof.
  destruct (random_unit n) as [H0 H1]. split; lra.
Qed.

Lemma retry_loop_spec arxiv_id max_retries n a w r w' :
  retry_loop E arxiv_id max_retries (seq a n) w = (r, w') →
  ∃ jitters : list Q,
    let k := length jitters in
    (k ≤ n)%nat
    ∧ Forall (λ j, 0 <= j < 5)%Q jitters
    ∧ (∀ i, (i < k)%nat → Spec.busy_at E arxiv_id (api_calls w + i))
    ∧ draws w' = (draws w + k)%nat
    ∧ io_ops w' = io_ops w
    ∧ ((k < n)%nat
       ∧ arxiv_results E (api_calls w + k) arxiv_id = r
       ∧ match r with
         | inl e => server_busy (exn_str e) = false
         | inr _ => True
         end
       ∧ api_calls w' = (api_calls w + k + 1)%nat
       ∧ trace w' = trace w
           ++ Spec.retry_events arxiv_id (Spec.backoff_sleeps a jitters)
           ++ [EvApiCall arxiv_id]
       ∨ k = n
       ∧ (∃ msg, r = inl (Exn RuntimeError msg))
       ∧ api_calls w' = (api_calls w + n)%nat
       ∧ trace w' = trace w
           ++ Spec.retry_events arxiv_id (Spec.backoff_sleeps a jitters)).
Proof.
  revert a w. induction n as [|n IH]; intros a w.
  - cbn. intros [= <- <-]. exists []. cbn.
    split; [lia|]. split; [constructor|]. split; [intros; lia|].
    split; [lia|]. split; [done|]. right.
    split; [done|]. split; [eauto|]. split; [lia|]. by rewrite app_nil_r.
  - cbn [seq retry_loop]. unfold World.bind at 1. cbn [tick_api].
    unfold World.bind at 1. cbn [emit].
    destruct (arxiv_results E (api_calls w) arxiv_id) as [e|result] eqn:Hr.
    + destruct (server_busy (exn_str e)) eqn:Hbusy.
      * unfold World.bind at 1. unfold random_uniform at 1.
        unfold World.bind at 1. cbn [tick_draw World.ret].
        unfold World.bind at 1. cbn [time_sleep emit].
        intros H. apply IH in H as (js & Hlen & Hjs & Hbusy' & Hd & Hio & H).
        cbn [api_calls draws io_ops trace] in *.
        exists ((0 + (5 - 0) * random_random E (draws w))%Q :: js).
        cbn [length]. split; [lia|].
        split; [constructor; [apply jitter_range|done]|].
        split.
        { intros [|i] Hi.
          - rewrite Nat.add_0_r. by exists e.
          - replace (api_calls w + S i)%nat with (S (api_calls w) + i)%nat
              by lia. apply Hbusy'. lia. }
        split; [lia|]. split; [done|].
        cbn [Spec.backoff_sleeps Spec.retry_events flat_map].
        destruct H as [(Hk & Hres & Hm & Hc & Ht)|(Hk & Hres & Hc & Ht)].
        -- left. split; [lia|].
           replace (api_calls w + S (length js))%nat
             with (S (api_calls w) + length js)%nat by lia.
           split; [done|]. split; [done|]. split; [lia|].
           rewrite Ht. by rewrite <- !app_assoc.
        -- right. split; [lia|]. split; [done|]. split; [lia|].
           rewrite Ht. by rewrite <- !app_assoc.
      * unfold World.raise. intros [= <- <-]. exists []. cbn.
        split; [lia|]. split; [constructor|]. split; [intros; lia|].
        split; [lia|]. split; [done|]. left.
        rewrite !Nat.add_0_r. split; [lia|]. split; [done|].
        split; [done|]. split; [lia|]. done.
    + unfold World.ret. intros [= <- <-]. exists []. cbn.
      split; [lia|]. split; [constructor|]. split; [intros; lia|].
      split; [lia|]. split; [done|]. left.
      rewrite !Nat.add_0_r. split; [lia|]. split; [done|].
      split; [done|]. split; [lia|]. done.
Qed.

End Retries.

Section QuietDownload.

Import Downloader MetadataCollector Main.

Variable E : env.

Lemma quiet_weaken (p q : event → bool) {A} (c : M A) :
  (∀ e, p e = true → q e = true) → quiet p c → quiet q c.
Proof.
  intros Hpq Hc w r w' H. destruct (Hc _ _ _ H) as (evs & Ht & Hp).
  exists evs. split; [done|]. rewrite forallb_forall in *. auto.
Qed.

Lemma local_extract_member extract_to position member :
  quiet local_event (extract_member E extract_to position member).
Proof. unfold extract_member, makedirs. quiet. Qed.

Lemma local_extract_members extract_to position members :
  quiet local_event (extract_members E extract_to position members).
Proof.
  revert position. induction members as [|m rest IH]; intros position;
    cbn [extract_members]; quiet.
  - apply local_extract_member.
  - apply IH.
Qed.

Lemma local_safe_extract_tar tar_path extract_to :
  quiet local_event (safe_extract_tar E tar_path extract_to).
Proof. unfold safe_extract_tar. quiet. apply local_extract_members. Qed.

(** The request of one round of [download]. *)
Lemma download_url_trace url out_path w r w' :
  download_url E url out_path w = (r, w') →
  ∃ evs, trace w' = trace w ++ evs
         ∧ forallb download_event evs = true
         ∧ Spec.saved_metadata evs = []
         ∧ Spec.source_requests evs = [url].
Proof.
  unfold download_url, World.bind. cbn.
  destruct (requests_get E (io_ops w) url out_path) as [|code|e].
  - intros [= <- <-]. cbn.
    exists [EvHttpGet url out_path; EvDownloaded out_path].
    by rewrite <- app_assoc.
  - intros [= <- <-]. by exists [EvHttpGet url out_path].
  - destruct (bool_decide _); intros [= <- <-];
      by exists [EvHttpGet url out_path].
Qed.

Lemma source_requests_app evs evs' :
  Spec.source_requests (evs ++ evs')
  = Spec.source_requests evs ++ Spec.source_requests evs'.
Proof. apply omap_app. Qed.

Lemma source_requests_local evs :
  forallb local_event evs = true → Spec.source_requests evs = [].
Proof.
  induction evs as [|e evs IH]; [done|]. cbn [forallb].
  intros [He Hevs]%andb_prop. destruct e; try discriminate; cbn; auto.
Qed.

Lemma saved_metadata_app evs evs' :
  Spec.saved_metadata (evs ++ evs')
  = Spec.saved_metadata evs ++ Spec.saved_metadata evs'.
Proof. apply omap_app. Qed.

Lemma local_is_download evs :
  forallb local_event evs = true → forallb download_event evs = true.
Proof.
  rewrite !forallb_forall. intros H e He. specialize (H e He).
  by destruct e.
Qed.

(** After the request, a round of [download] works on the disk only. *)
Lemma local_after_request tex_root result fetched :
  quiet local_event
    (if negb fetched then World.ret tt
     else
       let* n := tick_io in
       if negb (tarfile_is_tarfile E n
                  (Py.path_join (Py.path_join tex_root (short_id result))
                     (short_id result +:+ ".tar.gz")))
       then try_except
              (remove E (Py.path_join (Py.path_join tex_root (short_id result))
                           (short_id result +:+ ".tar.gz")))
              (fun e => if is_OSError e then World.ret tt else World.raise e)
       else
         try_finally
           (try_except
              (safe_extract_tar E
                 (Py.path_join (Py.path_join tex_root (short_id result))
                    (short_id result +:+ ".tar.gz"))
                 (Py.path_join tex_root (short_id result)) ;;
               cleanup_non_tex_bib_files
                 (Py.path_join tex_root (short_id result)))
              (fun e => World.ret tt))
           (try_except
              (remove E (Py.path_join (Py.path_join tex_root (short_id result))
                           (short_id result +:+ ".tar.gz")))
              (fun e => if is_OSError e then World.ret tt else World.raise e))).
Proof.
  destruct fetched; cbn [negb]; [|apply quiet_ret].
  apply quiet_bind; [apply quiet_tick_io|intros n].
  destruct (negb _).
  - apply quiet_try_except; [by apply quiet_remove|intros e].
    destruct (is_OSError e); quiet.
  - apply quiet_try_finally.
    + apply quiet_try_except; [|intros; apply quiet_ret].
      apply quiet_bind; [apply local_safe_extract_tar|intros _].
      by apply quiet_emit.
    + apply quiet_try_except; [by apply quiet_remove|intros e].
      destruct (is_OSError e); quiet.
Qed.

Lemma saved_metadata_local evs :
  forallb local_event evs = true → Spec.saved_metadata evs = [].
Proof.
  induction evs as [|e evs IH]; [done|]. cbn [forallb].
  intros [He Hevs]%andb_prop. destruct e; try discriminate; cbn; auto.
Qed.

Lemma download_version_trace tex_root result w r w' :
  download_version E tex_root result w = (r, w') →
  ∃ evs, trace w' = trace w ++ evs
         ∧ forallb download_event evs = true
         ∧ Spec.saved_metadata evs = []
         ∧ (r = inr tt →
            Spec.source_requests evs
            = [ARXIV_HOST +:+ "/src/" +:+ short_id result]).
Proof.
  unfold download_version.
  intros [(e & H & ->)|([] & w1 & H1 & H)]%bind_inv.
  { apply (quiet_makedirs E local_event) in H as (evs & Ht & Hl); [|done].
    exists evs. split; [done|]. split; [by apply local_is_download|].
    split; [by apply saved_metadata_local|done]. }
  apply (quiet_makedirs E local_event) in H1 as (evs1 & Ht1 & Hl1); [|done].
  apply bind_inv in H as [(e & H & ->)|(fetched & w2 & H2 & H)].
  { apply download_url_trace in H as (evs2 & Ht2 & Hd2 & Hs2 & Hu2).
    exists (evs1 ++ evs2). rewrite Ht2, Ht1, <- app_assoc.
    split; [done|]. split; [|split; [|done]].
    - by rewrite forallb_app, Hd2, (local_is_download evs1).
    - by rewrite saved_metadata_app, Hs2, (saved_metadata_local evs1). }
  apply download_url_trace in H2 as (evs2 & Ht2 & Hd2 & Hs2 & Hu2).
  apply local_after_request in H as (evs3 & Ht3 & Hl3).
  exists (evs1 ++ evs2 ++ evs3).
  rewrite Ht3, Ht2, Ht1, <- !app_assoc. split; [done|].
  split; [|split].
  - by rewrite !forallb_app, Hd2, (local_is_download evs1),
      (local_is_download evs3).
  - by rewrite !saved_metadata_app, Hs2, (saved_metadata_local evs1),
      (saved_metadata_local evs3).
  - intros _. rewrite !source_requests_app, Hu2.
    by rewrite (source_requests_local evs1), (source_requests_local evs3).
Qed.

Lemma last_cons_default {A} (rest : list A) (x d : A) :
  List.last (x :: rest) d = List.last rest x.
Proof.
  revert x d. induction rest as [|y r IH]; intros x d; [done|].
  change (List.last (x :: y :: r) d) with (List.last (y :: r) d).
  by rewrite !IH.
Qed.

Lemma download_versions_trace tex_root list_download result w r w' :
  download_versions E tex_root list_download result w = (r, w') →
  ∃ evs, trace w' = trace w ++ evs
         ∧ forallb download_event evs = true
         ∧ Spec.saved_metadata evs = []
         ∧ (∀ last, r = inr last →
              last = List.last list_download result
              ∧ Spec.source_requests evs = source_url <$> list_download).
Proof.
  revert result w. induction list_download as [|x rest IH]; intros result w.
  - cbn. intros [= <- <-]. exists []. rewrite app_nil_r.
    split; [done|]. split; [done|]. split; [done|].
    by intros last [= <-].
  - cbn [download_versions].
    intros [(e & H & ->)|([] & w1 & H1 & H)]%bind_inv.
    + apply download_version_trace in H as (evs & Ht & Hd & Hs & _).
      exists evs. split; [done|]. split; [done|]. split; [done|]. done.
    + apply download_version_trace in H1 as (evs1 & Ht1 & Hd1 & Hs1 & Hr1).
      apply IH in H as (evs2 & Ht2 & Hd2 & Hs2 & Hr2).
      exists (evs1 ++ evs2). rewrite Ht2, Ht1, <- app_assoc.
      split; [done|]. split; [by rewrite forallb_app, Hd1, Hd2|].
      split; [by rewrite saved_metadata_app, Hs1, Hs2|].
      intros last ->. destruct (Hr2 last eq_refl) as [-> Hsrc]. split.
      * by rewrite last_cons_default.
      * rewrite source_requests_app, Hr1, Hsrc by done. done.
Qed.

Lemma create_metadata_pure paper w :
  (create_metadata paper w).2 = w.
Proof.
  unfold create_metadata, World.bind, lift_option.
  destruct (Py.split "v" (short_id paper) !! 0%nat) as [b|]; [|done].
  destruct (Py.split "v" (short_id paper) !! 1%nat) as [v|]; [|done].
  cbn. by destruct (Py.int v).
Qed.

Lemma save_metadata_trace paper folder w r w' :
  save_metadata E paper folder w = (r, w') →
  ∃ evs, trace w' = trace w ++ evs
         ∧ forallb download_event evs = true
         ∧ Spec.source_requests evs = []
         ∧ (Spec.saved_metadata evs = []
              ∧ (∀ md, r ≠ inr md)
            ∨ ∃ md, Spec.saved_metadata evs = [md]
                    ∧ (create_metadata paper w).1 = inr md).
Proof.
  unfold save_metadata.
  intros [(e & H & ->)|(md & w1 & H1 & H)]%bind_inv.
  { pose proof (create_metadata_pure paper w) as Hp. rewrite H in Hp.
    cbn in Hp. subst w'. exists []. rewrite app_nil_r.
    repeat split; try done. by left. }
  pose proof (create_metadata_pure paper w) as Hp. rewrite H1 in Hp.
  cbn in Hp. subst w1.
  apply bind_inv in H as [(e & H & ->)|([] & w2 & H2 & H)].
  { apply (quiet_makedirs E local_event) in H as (evs & Ht & Hl); [|done].
    exists evs. split; [done|]. split; [by apply local_is_download|].
    split; [by apply source_requests_local|].
    left. split; [by apply saved_metadata_local|done]. }
  apply (quiet_makedirs E local_event) in H2 as (evs & Ht & Hl); [|done].
  revert H. unfold World.bind. cbn.
  destruct (write_json E (io_ops w2) _) as [e|]; cbn; intros [= <- <-].
  - exists evs. cbn. split; [done|]. split; [by apply local_is_download|].
    split; [by apply source_requests_local|].
    left. split; [by apply saved_metadata_local|done].
  - exists (evs ++ [EvSaveMetadata
                      (Py.path_join folder "metadata.json") md]).
    cbn. rewrite Ht, <- app_assoc. split; [done|].
    split; [by rewrite forallb_app, local_is_download|].
    split; [by rewrite source_requests_app, source_requests_local|].
    right. exists md. rewrite saved_metadata_app, saved_metadata_local by done.
    split; [done|]. by rewrite H1.
Qed.

End QuietDownload.

(* ===================================================================== *)
(** * Versioned identifiers *)
(* ===================================================================== *)

Section Versioned.

Lemma split_no_sep sep s :
  Py.all_chars (λ c, negb (Ascii.eqb c sep)) s = true →
  Py.split sep s = [s].
Proof.
  induction s as [|c r IH]; [done|]. cbn [Py.all_chars Py.split].
  intros [Hc Hr]%andb_prop. apply negb_true_iff in Hc. rewrite Hc.
  by rewrite IH.
Qed.

Lemma split_app_sep sep a b :
  Py.all_chars (λ c, negb (Ascii.eqb c sep)) a = true →
  Py.split sep (a +:+ String sep b) = a :: Py.split sep b.
Proof.
  induction a as [|c r IH].
  - intros _. cbn. by rewrite Ascii.eqb_refl.
  - cbn [Py.all_chars]. intros [Hc Hr]%andb_prop.
    apply negb_true_iff in Hc. cbn [String.append Py.split].
    by rewrite Hc, IH.
Qed.

Lemma digit_not_v c : Py.is_digit c = true → negb (Ascii.eqb c "v") = true.
Proof.
  destruct c as [[] [] [] [] [] [] [] []]; try discriminate; reflexivity.
Qed.

Lemma digits_no_v s : Py.all_chars Py.is_digit s = true → no_v s = true.
Proof.
  unfold no_v. induction s as [|c r IH]; [done|]. cbn [Py.all_chars].
  intros [Hc Hr]%andb_prop. by rewrite digit_not_v, IH.
Qed.

Lemma str_Z_no_v v : 0 ≤ v → no_v (Py.str_Z v) = true.
Proof.
  intros Hv. unfold Py.str_Z. destruct (v <? 0) eqn:Hneg; [lia|].
  apply digits_no_v, str_N_digits.
Qed.

(** The two sides of the [v] in the short id of a version. *)
Lemma split_versioned paper_id v :
  no_v paper_id = true → 0 ≤ v →
  Py.split "v" (Spec.versioned paper_id v) = [paper_id; Py.str_Z v].
Proof.
  intros Hid Hv. unfold Spec.versioned.
  change (paper_id +:+ "v" +:+ Py.str_Z v)
    with (paper_id +:+ String "v" (Py.str_Z v)).
  rewrite split_app_sep by done. f_equal.
  apply split_no_sep, str_Z_no_v, Hv.
Qed.

(** A well-formed identifier has ten characters, none of them a [v],
    and the regular expression of [download] recognises it at the head
    of any string. *)
Lemma new_style_chars paper_id :
  Spec.new_style paper_id →
  no_v paper_id = true ∧ Py.len paper_id = 10%nat.
Proof.
  unfold Spec.new_style, Downloader.match_base_id.
  destruct paper_id as
    [|c0 [|c1 [|c2 [|c3 [|c4 [|c5 [|c6 [|c7 [|c8 [|c9 [|c10 r]]]]]]]]]]];
    cbn; try discriminate.
  - intros H. split; [|done].
    match type of H with
    | (if ?b then _ else _) = _ => destruct b eqn:Hc; [|discriminate]
    end.
    repeat match goal with
           | Hb : _ && _ = true |- _ => apply andb_prop in Hb as [? ?]
           end.
    destruct (Ascii.eqb_spec c4 "."); [subst c4|discriminate].
    unfold no_v. cbn.
    repeat match goal with
           | Hd : Py.is_digit ?c = true |- _ =>
               rewrite (digit_not_v c Hd); clear Hd
           end.
    done.
  - destruct (_ && _); [|discriminate]. by intros [= H].
Qed.

Lemma match_base_id_versioned paper_id v :
  Spec.new_style paper_id →
  Downloader.match_base_id (Spec.versioned paper_id v) = Some paper_id.
Proof.
  intros Hn. pose proof Hn as Hc.
  unfold Spec.new_style, Downloader.match_base_id in *.
  unfold Spec.versioned.
  destruct paper_id as
    [|c0 [|c1 [|c2 [|c3 [|c4 [|c5 [|c6 [|c7 [|c8 [|c9 [|c10 r]]]]]]]]]]];
    cbn in *; try discriminate.
  - done.
  - exfalso. clear Hc. destruct (_ && _) in Hn; simplify_eq.
Qed.

End Versioned.

(* ===================================================================== *)
(** * One paper in a download worker *)
(* ===================================================================== *)

Section Worker.

Import Downloader MetadataCollector Main.

Variable E : env.

Lemma create_metadata_run paper w :
  create_metadata paper w = ((create_metadata paper World.start).1, w).
Proof.
  unfold create_metadata, World.bind, lift_option.
  destruct (Py.split "v" (short_id paper) !! 0%nat) as [b|]; [|done].
  destruct (Py.split "v" (short_id paper) !! 1%nat) as [v|]; [|done].
  cbn. by destruct (Py.int v).
Qed.

(** [download] asks for the source of every record of its list, in the
    order of the list, and only then saves metadata, at most once, built
    from the last record of the list. *)
Lemma download_trace list_download base_dir w r w' :
  download E list_download base_dir w = (r, w') →
  ∃ evs, trace w' = trace w ++ evs
    ∧ forallb download_event evs = true
    ∧ (∀ first rest arxiv_id,
         list_download = first :: rest →
         match_base_id (short_id first) = Some arxiv_id →
         r = inr tt →
         ∃ evs1 evs2,
           evs = evs1 ++ evs2
           ∧ Spec.source_requests evs1 = source_url <$> list_download
           ∧ Spec.saved_metadata evs1 = []
           ∧ Spec.source_requests evs2 = []
           ∧ (Spec.saved_metadata evs2 = []
              ∨ ∃ md, Spec.saved_metadata evs2 = [md]
                      ∧ (create_metadata (List.last list_download first)
                           World.start).1 = inr md)).
Proof.
  unfold download. destruct list_download as [|first rest].
  { intros [= <- <-]. exists []. rewrite app_nil_r.
    split; [done|]. split; [done|]. by intros ??? [=]. }
  destruct (match_base_id (short_id first)) as [arxiv_id|] eqn:Hid.
  2:{ intros [= <- <-]. exists []. rewrite app_nil_r.
      split; [done|]. split; [done|]. intros ??? [= <- <-]. congruence. }
  set (folder := Py.path_join base_dir (format_yymm_id arxiv_id)).
  intros [(e & H & ->)|([] & w1 & H1 & H)]%bind_inv.
  { apply (quiet_makedirs E local_event) in H as (evs & Ht & Hl); [|done].
    exists evs. split; [done|]. split; [by apply local_is_download|done]. }
  apply (quiet_makedirs E local_event) in H1 as (evs1 & Ht1 & Hl1); [|done].
  apply bind_inv in H as [(e & H & ->)|([] & w2 & H2 & H)].
  { apply (quiet_makedirs E local_event) in H as (evs & Ht & Hl); [|done].
    exists (evs1 ++ evs). rewrite Ht, Ht1, <- app_assoc. split; [done|].
    split; [|done].
    by rewrite forallb_app, (local_is_download evs1), (local_is_download evs). }
  apply (quiet_makedirs E local_event) in H2 as (evs2 & Ht2 & Hl2); [|done].
  apply bind_inv in H as [(e & H & ->)|(result & w3 & H3 & H)].
  { apply download_versions_trace in H as (evs & Ht & Hd & _).
    exists (evs1 ++ evs2 ++ evs). rewrite Ht, Ht2, Ht1, <- !app_assoc.
    split; [done|]. split; [|done].
    by rewrite !forallb_app, (local_is_download evs1),
      (local_is_download evs2), Hd. }
  apply download_versions_trace in H3 as (evs3 & Ht3 & Hd3 & Hs3 & Hr3).
  destruct (Hr3 result eq_refl) as [-> Hsrc].
  unfold try_except in H.
  destruct (World.bind _ _ w3) as [r4 w4] eqn:H4.
  assert (w' = w4 ∧ r = inr tt) as [-> ->].
  { destruct r4 as [e|[]]; unfold World.ret in H; by simplify_eq. }
  clear H.
  assert (∃ r5, save_metadata E (List.last (first :: rest) first) folder w3
                = (r5, w4)) as [r5 H5].
  { apply bind_inv in H4 as [(e & H & _)|(md & w5 & H & H')]; [eauto|].
    injection H' as _ <-. eauto. }
  apply save_metadata_trace in H5 as (evs4 & Ht4 & Hd4 & Hsrc4 & Hsv4).
  exists (evs1 ++ evs2 ++ evs3 ++ evs4).
  rewrite Ht4, Ht3, Ht2, Ht1, <- !app_assoc. split; [done|].
  split.
  { by rewrite !forallb_app, (local_is_download evs1),
      (local_is_download evs2), Hd3, Hd4. }
  intros first' rest' aid [= <- <-] _ _.
  exists (evs1 ++ evs2 ++ evs3), evs4. rewrite <- !app_assoc.
  split; [done|]. split; [|split; [|split; [done|]]].
  - by rewrite !source_requests_app, (source_requests_local evs1),
      (source_requests_local evs2), Hsrc.
  - by rewrite !saved_metadata_app, (saved_metadata_local evs1),
      (saved_metadata_local evs2), Hs3.
  - destruct Hsv4 as [[Hs _]|(md & Hs & Hmd)]; [by left|right].
    exists md. split; [done|]. by rewrite create_metadata_run in Hmd.
Qed.

Lemma download_with_retries_answered paper_id w result :
  arxiv_results E (api_calls w) paper_id = inr result →
  download_with_retries E paper_id 5 w = (inr result, after_call paper_id w).
Proof.
  intros H. unfold download_with_retries.
  change (seq 0 (Z.to_nat 5)) with (0 :: seq 1 4)%nat.
  cbn [retry_loop]. unfold World.bind, tick_api, emit. cbn. by rewrite H.
Qed.

Lemma download_older_answered paper_id (records : Z → arxiv_result) vs w :
  (∀ v n, v ∈ vs →
     arxiv_results E n (Spec.versioned paper_id v) = inr (records v)) →
  ∃ w', download_older E paper_id vs w = (inr (records <$> vs), w')
        ∧ trace w' = trace w
            ++ (EvApiCall <$> (Spec.versioned paper_id <$> vs)).
Proof.
  revert w. induction vs as [|v vs IH]; intros w Hs.
  - exists w. cbn. by rewrite app_nil_r.
  - cbn [download_older]. unfold World.bind at 1.
    change (paper_id +:+ "v" +:+ Py.str_Z v)
      with (Spec.versioned paper_id v).
    rewrite (download_with_retries_answered _ _ (records v))
      by (apply Hs; left).
    destruct (IH (after_call (Spec.versioned paper_id v) w))
      as (w' & Hd & Ht).
    { intros v' n Hv'. apply Hs. by right. }
    exists w'. unfold World.bind. rewrite Hd. cbn. split; [done|].
    rewrite Ht. cbn. by rewrite <- app_assoc.
Qed.

Lemma range_from_1_bounds n v : v ∈ range_from_1 n → 1 ≤ v < n.
Proof.
  unfold range_from_1. intros (i & -> & Hi)%list_elem_of_fmap.
  apply list_elem_of_In, in_seq in Hi. lia.
Qed.

(** With a service that knows the paper, the worker asks for the latest
    record and for the versions below it, and hands [download] the
    records in that order. *)
Lemma download_paper_served paper_id latest records base_data_dir w :
  Spec.new_style paper_id → 1 ≤ latest →
  Spec.serves E paper_id latest records →
  ∃ w1,
    trace w1 = trace w
      ++ (EvApiCall <$> (paper_id
            :: (Spec.versioned paper_id <$> range_from_1 latest)))
    ∧ download_paper E paper_id base_data_dir w
      = download E (records latest :: (records <$> range_from_1 latest))
          base_data_dir w1.
Proof.
  intros Hn Hl (Hlatest & Holder & Hids).
  destruct (new_style_chars _ Hn) as [Hv _].
  destruct (download_older_answered paper_id records (range_from_1 latest)
              (after_call paper_id w)) as (w1 & Hd & Ht).
  { intros v n Hin. apply Holder. by apply range_from_1_bounds. }
  exists w1. split.
  { rewrite Ht. cbn. by rewrite <- app_assoc. }
  unfold download_paper. unfold World.bind at 1.
  rewrite (download_with_retries_answered _ _ (records latest))
    by apply Hlatest.
  rewrite Hids by lia. rewrite split_versioned by (done || lia).
  cbn [lookup list_lookup lift_option]. unfold World.bind at 1.
  cbn [World.ret]. rewrite int_str_Z by lia.
  cbn [lift_option]. unfold World.bind at 1. cbn [World.ret].
  unfold World.bind. by rewrite Hd.
Qed.

End Worker.

Section WorkerTheorems.

Import Downloader MetadataCollector Main.

Lemma metadata_requests_calls ids :
  Spec.metadata_requests (EvApiCall <$> ids) = ids.
Proof. induction ids as [|i ids IH]; [done|]. cbn in *. by f_equal. Qed.

Lemma source_requests_calls ids :
  Spec.source_requests (EvApiCall <$> ids) = [].
Proof. induction ids as [|i ids IH]; [done|]. cbn in *. by f_equal. Qed.

Lemma metadata_requests_download evs :
  forallb download_event evs = true → Spec.metadata_requests evs = [].
Proof.
  induction evs as [|e evs IH]; [done|]. cbn [forallb].
  intros [He Hevs]%andb_prop. destruct e; try discriminate; cbn; auto.
Qed.

Lemma result_puts_download evs :
  forallb download_event evs = true → Spec.result_puts evs = [].
Proof.
  induction evs as [|e evs IH]; [done|]. cbn [forallb].
  intros [He Hevs]%andb_prop. destruct e; try discriminate; cbn; auto.
Qed.

Lemma result_puts_fetch evs :
  forallb fetch_event evs = true → Spec.result_puts evs = [].
Proof.
  induction evs as [|e evs IH]; [done|]. cbn [forallb].
  intros [He Hevs]%andb_prop. destruct e; try discriminate; cbn; auto.
Qed.

Lemma result_puts_app evs evs' :
  Spec.result_puts (evs ++ evs')
  = Spec.result_puts evs ++ Spec.result_puts evs'.
Proof. apply omap_app. Qed.

Lemma metadata_requests_app evs evs' :
  Spec.metadata_requests (evs ++ evs')
  = Spec.metadata_requests evs ++ Spec.metadata_requests evs'.
Proof. apply omap_app. Qed.

End WorkerTheorems.

(** C3, as the code has it.  For a paper with latest version V that the
    metadata service knows, a download worker asks the service for the
    latest record first and then for the versions 1, ..., V-1, and
    [download] goes through the V revisions in that same order: version V
    first, then 1, ..., V-1 in ascending order. *)
Theorem download_paper_revision_order (E : env) (paper_id : string)
    (latest : Z) (records : Z → arxiv_result) (base_data_dir : string)
    (w w' : world) :
  Spec.new_style paper_id → 1 ≤ latest →
  Spec.serves E paper_id latest records →
  Main.download_paper E paper_id base_data_dir w = (inr tt, w') →
  ∃ evs, trace w' = trace w ++ evs
    ∧ Spec.metadata_requests evs
      = paper_id :: (Spec.versioned paper_id <$> Main.range_from_1 latest)
    ∧ Spec.source_requests evs
      = (λ v, Downloader.ARXIV_HOST +:+ "/src/" +:+ Spec.versioned paper_id v)
          <$> latest :: Main.range_from_1 latest.
Proof.
  intros Hn Hl Hs Hrun.
  destruct (download_paper_served E paper_id latest records base_data_dir w
              Hn Hl Hs) as (w1 & Ht1 & Heq).
  rewrite Heq in Hrun.
  apply download_trace in Hrun as (evs & Ht & Hd & Hok).
  destruct Hs as (_ & _ & Hids).
  destruct (Hok _ _ paper_id eq_refl) as (evs1 & evs2 & -> & Hsrc & _ & Hsrc2 & _);
    [|done|].
  { rewrite Hids by lia. by apply match_base_id_versioned. }
  exists ((EvApiCall <$> paper_id
             :: (Spec.versioned paper_id <$> Main.range_from_1 latest))
          ++ evs1 ++ evs2).
  split; [by rewrite Ht, Ht1, <- app_assoc|]. split.
  - rewrite metadata_requests_app, metadata_requests_calls.
    by rewrite (metadata_requests_download _ Hd), app_nil_r.
  - rewrite !source_requests_app, source_requests_calls, Hsrc, Hsrc2.
    rewrite app_nil_r. cbn [app fmap list_fmap]. unfold source_url.
    rewrite Hids by lia. f_equal.
    rewrite <- list_fmap_compose. apply list_fmap_ext.
    intros i v Hv%list_elem_of_lookup_2%range_from_1_bounds. cbn.
    by rewrite Hids by lia.
Qed.

Section LatestVersion.

Import Main.

Lemma last_range_from_1 {A} (f : Z → A) (latest : Z) (d : A) :
  2 ≤ latest →
  List.last (d :: (f <$> range_from_1 latest)) d = f (latest - 1).
Proof.
  intros Hl. unfold range_from_1.
  replace (Z.to_nat (latest - 1)) with (S (Z.to_nat (latest - 2))) by lia.
  rewrite seq_S, !fmap_app. cbn [fmap list_fmap].
  change (d :: ?l ++ ?x) with ((d :: l) ++ x).
  rewrite last_last. f_equal. lia.
Qed.

Lemma create_metadata_versioned paper_id v (result : arxiv_result) md :
  no_v paper_id = true → 0 ≤ v →
  short_id result = Spec.versioned paper_id v →
  (MetadataCollector.create_metadata result World.start).1 = inr md →
  md_latest_version md = v.
Proof.
  intros Hid Hv Hshort. unfold MetadataCollector.create_metadata.
  rewrite Hshort, split_versioned by done.
  unfold World.bind. cbn [lookup list_lookup lift_option World.ret].
  rewrite int_str_Z by done. cbn. by intros [= <-].
Qed.

(** With two or more versions, the metadata file, if it is written, is
    built from the record of the version before the latest: the loop
    variable of [download] ends on the last record that the worker
    fetched. *)
Lemma saved_metadata_version (E : env) paper_id latest records
    base_data_dir w w' :
  Spec.new_style paper_id → 2 ≤ latest →
  Spec.serves E paper_id latest records →
  download_paper E paper_id base_data_dir w = (inr tt, w') →
  ∃ evs, trace w' = trace w ++ evs
    ∧ (Spec.saved_metadata evs = []
       ∨ ∃ md, Spec.saved_metadata evs = [md]
               ∧ md_latest_version md = latest - 1).
Proof.
  intros Hn Hl Hs Hrun.
  destruct (download_paper_served E paper_id latest records base_data_dir w
              Hn ltac:(lia) Hs) as (w1 & Ht1 & Heq).
  rewrite Heq in Hrun.
  apply download_trace in Hrun as (evs & Ht & Hd & Hok).
  destruct Hs as (_ & _ & Hids).
  destruct (Hok _ _ paper_id eq_refl)
    as (evs1 & evs2 & -> & _ & Hsv1 & _ & Hsv2); [|done|].
  { rewrite Hids by lia. by apply match_base_id_versioned. }
  eexists. split; [by rewrite Ht, Ht1, <- app_assoc|].
  rewrite !saved_metadata_app, Hsv1.
  assert (Spec.saved_metadata
            (EvApiCall <$> paper_id
               :: (Spec.versioned paper_id <$> range_from_1 latest)) = [])
    as ->.
  { generalize (paper_id :: (Spec.versioned paper_id <$> range_from_1 latest)).
    intros l. induction l; [done|]. cbn in *. done. }
  cbn [app]. destruct Hsv2 as [->|(md & -> & Hmd)]; [by left|right].
  exists md. split; [done|].
  rewrite last_range_from_1 in Hmd by done.
  destruct (new_style_chars _ Hn) as [Hv _].
  eapply create_metadata_versioned; [exact Hv| |apply Hids|exact Hmd]; lia.
Qed.

End LatestVersion.

Lemma calm_serves latest members :
  1 ≤ latest →
  Spec.serves (Sample.calm latest members) "2304.07856" latest
    (Sample.record "2304.07856").
Proof.
  intros Hl. split; [|split].
  - intros n. reflexivity.
  - intros n v Hv. cbn [arxiv_results Sample.calm]. unfold Sample.serve.
    destruct (String.eqb _ _) eqn:Heq.
    { apply String.eqb_eq in Heq. apply (f_equal Py.len) in Heq.
      unfold Spec.versioned in Heq. rewrite len_append in Heq.
      cbn in Heq. lia. }
    destruct (List.find _ _) as [v'|] eqn:Hf.
    + apply find_some in Hf
        as [Hin%list_elem_of_In%range_from_1_bounds Heq'%String.eqb_eq].
      unfold Spec.versioned in Heq'.
      apply String.app_inj in Heq'. injection Heq' as Heq'.
      apply (f_equal Py.int) in Heq'.
      rewrite !int_str_Z in Heq' by lia. congruence.
    + assert (In v (Main.range_from_1 (latest + 1))) as Hin.
      { apply list_elem_of_In, list_elem_of_fmap.
        exists (Z.to_nat (v - 1)). split; [lia|].
        apply list_elem_of_In, in_seq. lia. }
      apply (find_none _ _ Hf) in Hin. cbv beta in Hin.
      unfold Spec.versioned in Hin. by rewrite String.eqb_refl in Hin.
  - intros v Hv. reflexivity.
Qed.

(** The witness of [download_paper_revision_order]: a paper with two
    versions in a world where nothing fails. *)
Lemma download_paper_revision_order_witness :
  let E := Sample.calm 2 Sample.two_files in
  let w' := (Main.download_paper E "2304.07856" "/data" World.start).2 in
  Spec.new_style "2304.07856"
  ∧ Spec.serves E "2304.07856" 2 (Sample.record "2304.07856")
  ∧ Main.download_paper E "2304.07856" "/data" World.start = (inr tt, w')
  ∧ ∃ evs, trace w' = trace World.start ++ evs
      ∧ Spec.metadata_requests evs
        = "2304.07856"
          :: (Spec.versioned "2304.07856" <$> Main.range_from_1 2)
      ∧ Spec.source_requests evs
        = (λ v, Downloader.ARXIV_HOST +:+ "/src/"
                +:+ Spec.versioned "2304.07856" v)
            <$> 2 :: Main.range_from_1 2.
Proof.
  intros E w'.
  assert (Spec.new_style "2304.07856") as Hn by reflexivity.
  assert (Spec.serves E "2304.07856" 2 (Sample.record "2304.07856")) as Hs
    by (apply calm_serves; lia).
  assert (Main.download_paper E "2304.07856" "/data" World.start
          = (inr tt, w')) as Hrun by (vm_compute; reflexivity).
  split; [exact Hn|]. split; [exact Hs|]. split; [exact Hrun|].
  apply (download_paper_revision_order E "2304.07856" 2
           (Sample.record "2304.07856") "/data" World.start w' Hn);
    [lia|exact Hs|exact Hrun].
Defined.

(** C3 as stated fails for a paper with two versions: the source of
    version 2 is fetched and processed before that of version 1. *)
Lemma download_paper_two_versions_order :
  Spec.source_requests
    (trace (Main.download_paper (Sample.calm 2 Sample.two_files)
              "2304.07856" "/data" World.start).2)
  = [ "https://arxiv.org/src/2304.07856v2";
      "https://arxiv.org/src/2304.07856v1" ]
  ∧ Spec.source_requests
      (trace (Main.download_paper (Sample.calm 2 Sample.two_files)
                "2304.07856" "/data" World.start).2)
    ≠ [ "https://arxiv.org/src/2304.07856v1";
        "https://arxiv.org/src/2304.07856v2" ].
Proof. split; [vm_compute; reflexivity|vm_compute; discriminate]. Qed.

(** C2 at a failing input.  The service knows 2304.07856 with latest
    version 2; the worker saves metadata once, after both revisions, but
    builds it from the record of version 1, the last one it fetched:
    [latest_version] in metadata.json is 1, not 2. *)
Theorem metadata_of_two_versions :
  let E := Sample.calm 2 Sample.two_files in
  let evs := trace (Main.download_worker E [Some "2304.07856"; None]
                      "/data" 2 0 World.start).2 in
  arxiv_results E 0 "2304.07856" = inr (Sample.record "2304.07856" 2)
  ∧ short_id (Sample.record "2304.07856" 2) = "2304.07856v2"
  ∧ md_latest_version <$> Spec.saved_metadata evs = [1]
  ∧ md_pdf_urls <$> Spec.saved_metadata evs
    = [["http://arxiv.org/pdf/2304.07856v1"]]
  ∧ Spec.result_puts evs = [Some "2304.07856"; None].
Proof. repeat split; vm_compute; reflexivity. Qed.

(** C7 as stated fails when metadata.json cannot be written: [download]
    only reports the failure, and the identifier is put on the result
    queue although no metadata was saved. *)
Lemma put_without_metadata :
  let E := Sample.read_only_metadata 1 in
  let evs := trace (Main.download_worker E [Some "2304.07856"; None]
                      "/data" 2 0 World.start).2 in
  Spec.saved_metadata evs = []
  ∧ Spec.result_puts evs = [Some "2304.07856"; None].
Proof. split; vm_compute; reflexivity. Qed.

(* ===================================================================== *)
(** * What a download worker puts on the result queue *)
(* ===================================================================== *)

Section WorkerPuts.

Import Downloader MetadataCollector Main.

Variable E : env.

Lemma fetch_retry_loop arxiv_id max_retries attempts :
  quiet fetch_event (retry_loop E arxiv_id max_retries attempts).
Proof.
  induction attempts as [|a rest IH]; cbn [retry_loop]; quiet.
Qed.

Lemma fetch_download_older arxiv_id versions :
  quiet fetch_event (download_older E arxiv_id versions).
Proof.
  induction versions as [|v rest IH]; cbn [download_older];
    [apply quiet_ret|].
  apply quiet_bind; [apply fetch_retry_loop|intros result_v].
  apply quiet_bind; [exact IH|intros results]. apply quiet_ret.
Qed.

Lemma quiet_download list_download base_dir :
  quiet download_event (download E list_download base_dir).
Proof.
  intros w r w' H. apply download_trace in H as (evs & Ht & Hd & _).
  eauto.
Qed.

Lemma no_put_download_paper arxiv_id base_data_dir :
  quiet no_put (download_paper E arxiv_id base_data_dir).
Proof.
  unfold download_paper.
  apply quiet_bind.
  { apply (quiet_weaken fetch_event); [by intros []|].
    apply fetch_retry_loop. }
  intros result_latest.
  apply quiet_bind; [apply quiet_lift_option|intros version_str].
  apply quiet_bind; [apply quiet_lift_option|intros version_latest].
  apply quiet_bind.
  { apply (quiet_weaken fetch_event); [by intros []|].
    apply fetch_download_older. }
  intros older.
  apply (quiet_weaken download_event); [by intros []|].
  apply quiet_download.
Qed.

Lemma result_puts_no_put evs :
  forallb no_put evs = true → Spec.result_puts evs = [].
Proof.
  induction evs as [|e evs IH]; [done|]. cbn [forallb].
  intros [He Hevs]%andb_prop. destruct e; try discriminate; cbn; auto.
Qed.

End WorkerPuts.

(** C7, as the code has it.  A download worker puts the identifier on the
    result queue exactly when its [try] block got as far as the put: every
    metadata fetch succeeded and [download] returned without raising.
    Whether metadata.json was saved plays no part, since [download]
    reports a failed save and returns.  In both cases the worker goes on
    with the next item. *)
Theorem download_worker_puts (E : env) (arxiv_id : string)
    (rest : list (option string)) (base_data_dir : string) (delay : Q)
    (processed : nat) (w : world) :
  ∃ evs w1 processed',
    Main.download_worker E (Some arxiv_id :: rest) base_data_dir delay
      processed w
    = Main.download_worker E rest base_data_dir delay processed' w1
    ∧ trace w1 = trace w ++ evs
    ∧ match (Main.download_paper E arxiv_id base_data_dir w).1 with
      | inr _ =>
          Spec.result_puts evs = [Some arxiv_id] ∧ processed' = S processed
      | inl _ => Spec.result_puts evs = [] ∧ processed' = processed
      end.
Proof.
  destruct (Main.download_paper E arxiv_id base_data_dir w) as [r1 w1] eqn:H1.
  pose proof (no_put_download_paper E arxiv_id base_data_dir _ _ _ H1)
    as (evs & Ht & Hq).
  apply result_puts_no_put in Hq.
  cbn [Main.download_worker]. unfold World.bind at 1, try_except.
  unfold World.bind at 1, Main.download_job. unfold World.bind at 1.
  rewrite H1. destruct r1 as [e|[]]; cbn [fst].
  - exists evs, w1, processed. unfold World.ret. done.
  - unfold World.bind, emit, time_sleep, emit, World.ret. cbn.
    eexists _, _, (S processed). split; [reflexivity|]. cbn.
    rewrite Ht, <- !app_assoc. split; [reflexivity|].
    rewrite result_puts_app, Hq. done.
Qed.

(* ===================================================================== *)
(** * The retry policy *)
(* ===================================================================== *)

(** C6.  A metadata fetch makes at most five requests.  Each request
    answered by a throttling error (HTTP 429 or 503) is followed by a
    pause of [min(60 * 2^attempt, 600)] seconds plus a jitter of [0, 5);
    after five such answers the fetch gives up with a [RuntimeError].  Any
    other error is raised at once, with no pause and no further request;
    and whenever the fetch raises, the worker puts nothing on the result
    queue for this paper and goes on with the next item. *)
Theorem download_with_retries_backoff (E : env) (arxiv_id : string)
    (w : world) :
  (∀ n, (0 <= random_random E n < 1)%Q) →
  ∃ jitters : list Q,
    let k := length jitters in
    let r := (Main.download_with_retries E arxiv_id 5 w).1 in
    let w' := (Main.download_with_retries E arxiv_id 5 w).2 in
    (k ≤ 5)%nat
    ∧ Forall (λ j, 0 <= j < 5)%Q jitters
    ∧ (∀ i, (i < k)%nat → Spec.busy_at E arxiv_id (api_calls w + i))
    ∧ ((k < 5)%nat
       ∧ arxiv_results E (api_calls w + k) arxiv_id = r
       ∧ match r with
         | inl e => Main.server_busy (exn_str e) = false
         | inr _ => True
         end
       ∧ api_calls w' = (api_calls w + k + 1)%nat
       ∧ trace w' = trace w
           ++ Spec.retry_events arxiv_id (Spec.backoff_sleeps 0 jitters)
           ++ [EvApiCall arxiv_id]
       ∨ k = 5%nat
       ∧ (∃ msg, r = inl (Exn RuntimeError msg))
       ∧ api_calls w' = (api_calls w + 5)%nat
       ∧ trace w' = trace w
           ++ Spec.retry_events arxiv_id (Spec.backoff_sleeps 0 jitters))
    ∧ (∀ e, r = inl e →
         ∀ rest base_data_dir delay processed,
           Main.download_worker E (Some arxiv_id :: rest) base_data_dir delay
             processed w
           = Main.download_worker E rest base_data_dir delay processed w').
Proof.
  intros Hrand.
  destruct (Main.download_with_retries E arxiv_id 5 w) as [r w'] eqn:Hrun.
  pose proof Hrun as Hspec. unfold Main.download_with_retries in Hspec.
  apply (retry_loop_spec E Hrand) in Hspec
    as (jitters & Hk & Hj & Hbusy & _ & _ & Hcases).
  exists jitters. cbn [fst snd].
  split; [exact Hk|]. split; [exact Hj|]. split; [exact Hbusy|].
  split; [exact Hcases|].
  intros e -> rest base_data_dir delay processed.
  cbn [Main.download_worker]. unfold World.bind at 1, try_except.
  unfold World.bind at 1, Main.download_job. unfold World.bind at 1.
  unfold Main.download_paper. unfold World.bind at 1. rewrite Hrun.
  reflexivity.
Qed.

Lemma download_with_retries_backoff_witness :
  (∀ n, (0 <= random_random Sample.busy n < 1)%Q)
  ∧ ∃ jitters : list Q,
      let k := length jitters in
      let r := (Main.download_with_retries Sample.busy "2304.07856" 5
                  World.start).1 in
      let w' := (Main.download_with_retries Sample.busy "2304.07856" 5
                   World.start).2 in
      (k ≤ 5)%nat
      ∧ Forall (λ j, 0 <= j < 5)%Q jitters
      ∧ (∀ i, (i < k)%nat →
           Spec.busy_at Sample.busy "2304.07856" (api_calls World.start + i))
      ∧ ((k < 5)%nat
         ∧ arxiv_results Sample.busy (api_calls World.start + k) "2304.07856"
           = r
         ∧ match r with
           | inl e => Main.server_busy (exn_str e) = false
           | inr _ => True
           end
         ∧ api_calls w' = (api_calls World.start + k + 1)%nat
         ∧ trace w' = trace World.start
             ++ Spec.retry_events "2304.07856" (Spec.backoff_sleeps 0 jitters)
             ++ [EvApiCall "2304.07856"]
         ∨ k = 5%nat
         ∧ (∃ msg, r = inl (Exn RuntimeError msg))
         ∧ api_calls w' = (api_calls World.start + 5)%nat
         ∧ trace w' = trace World.start
             ++ Spec.retry_events "2304.07856"
                  (Spec.backoff_sleeps 0 jitters))
      ∧ (∀ e, r = inl e →
           ∀ rest base_data_dir delay processed,
             Main.download_worker Sample.busy (Some "2304.07856" :: rest)
               base_data_dir delay processed World.start
             = Main.download_worker Sample.busy rest base_data_dir delay
                 processed w').
Proof.
  assert (∀ n, (0 <= random_random Sample.busy n < 1)%Q) as Hrand.
  { intros n. cbn. split; [discriminate|reflexivity]. }
  split; [exact Hrand|].
  exact (download_with_retries_backoff Sample.busy "2304.07856" World.start
           Hrand).
Defined.

(* ===================================================================== *)
(** * Extraction *)
(* ===================================================================== *)

Section MemberNames.

Import Downloader.

Lemma sanitize_char_allow_listed c :
  Spec.allow_listed (sanitize_char c) = true.
Proof.
  unfold sanitize_char. rewrite safe_chars_allow_listed.
  destruct (Spec.allow_listed c) eqn:Hc; [done|reflexivity].
Qed.

Lemma sanitize_char_slash c :
  Ascii.eqb "/" (sanitize_char c) = Ascii.eqb "/" c.
Proof.
  unfold sanitize_char. rewrite safe_chars_allow_listed.
  destruct c as [[] [] [] [] [] [] [] []]; reflexivity.
Qed.

Lemma sanitize_char_dot c :
  Ascii.eqb "." (sanitize_char c) = Ascii.eqb "." c.
Proof.
  unfold sanitize_char. rewrite safe_chars_allow_listed.
  destruct c as [[] [] [] [] [] [] [] []]; reflexivity.
Qed.

Lemma sanitized_name_allow_listed s :
  Py.all_chars Spec.allow_listed (sanitize_filename s) = true.
Proof.
  induction s as [|c r IH]; [done|].
  change (sanitize_filename (String c r))
    with (String (sanitize_char c) (sanitize_filename r)).
  cbn [Py.all_chars]. by rewrite sanitize_char_allow_listed, IH.
Qed.

Lemma sanitize_filename_cons c r :
  sanitize_filename (String c r)
  = String (sanitize_char c) (sanitize_filename r).
Proof. reflexivity. Qed.

Lemma startswith_slash_sanitize s :
  Py.startswith "/" (sanitize_filename s) = Py.startswith "/" s.
Proof.
  destruct s as [|c r]; [done|]. rewrite sanitize_filename_cons.
  cbn [Py.startswith]. by rewrite sanitize_char_slash.
Qed.

Lemma startswith_dots_sanitize s :
  Py.startswith ".." (sanitize_filename s) = Py.startswith ".." s.
Proof.
  destruct s as [|a [|b r]]; [done| |].
  - rewrite sanitize_filename_cons. cbn [Py.startswith].
    rewrite sanitize_char_dot. done.
  - rewrite !sanitize_filename_cons. cbn [Py.startswith].
    by rewrite !sanitize_char_dot.
Qed.

Lemma contains_dots_sanitize s :
  Py.contains ".." (sanitize_filename s) = Py.contains ".." s.
Proof.
  induction s as [|c r IH]; [done|].
  rewrite sanitize_filename_cons.
  change (Py.contains ".." (String (sanitize_char c) (sanitize_filename r)))
    with (Py.startswith ".." (String (sanitize_char c) (sanitize_filename r))
          || Py.contains ".." (sanitize_filename r)).
  rewrite <- sanitize_filename_cons, startswith_dots_sanitize, IH. done.
Qed.

(** The first piece of a split is the head of the string. *)
Lemma split_head sep s :
  ∃ piece pieces, Py.split sep s = piece :: pieces
                  ∧ Py.startswith piece s = true.
Proof.
  induction s as [|c r (piece & pieces & Hs & Hp)].
  - by exists "", [].
  - cbn [Py.split]. destruct (Ascii.eqb c sep).
    + by exists "", (Py.split sep r).
    + rewrite Hs. exists (String c piece), pieces. split; [done|].
      cbn [Py.startswith]. by rewrite Ascii.eqb_refl, Hp.
Qed.

(** A parent-directory segment shows as two dots in a row, which is what
    [safe_extract_tar] looks for. *)
Lemma parent_segment_contains s :
  ".." ∈ Py.split "/" s → Py.contains ".." s = true.
Proof.
  induction s as [|c r IH]; cbn [Py.split].
  - intros H%list_elem_of_singleton. discriminate.
  - destruct (Ascii.eqb c "/") eqn:Hc.
    + intros [H|H]%elem_of_cons; [discriminate|].
      cbn [Py.contains]. rewrite (IH H). apply orb_true_r.
    + destruct (split_head "/" r) as (piece & pieces & Hs & Hp).
      rewrite Hs in *. intros [H|H]%elem_of_cons.
      * injection H as <- <-. cbn [Py.contains].
        apply orb_true_intro. left.
        change (Py.startswith ".." (String "." r))
          with (Ascii.eqb "." "." && Py.startswith "." r).
        by rewrite Hp.
      * cbn [Py.contains]. rewrite IH; [apply orb_true_r|].
        by apply list_elem_of_further.
Qed.

Lemma has_parent_segment_contains s :
  Py.contains ".." s = false → Spec.has_parent_segment s = false.
Proof.
  intros H. apply bool_decide_eq_false. intros Hin.
  apply parent_segment_contains in Hin. congruence.
Qed.

Lemma descend_without_parent depth segments :
  ".." ∉ segments → is_Some (Spec.descend depth segments).
Proof.
  revert depth. induction segments as [|seg rest IH]; intros depth Hno.
  - by eexists.
  - apply not_elem_of_cons in Hno as [Hseg Hrest]. cbn [Spec.descend].
    destruct (String.eqb_spec seg ".."); [done|].
    destruct (_ || _); by apply IH.
Qed.

(** A member that is not skipped lands in the destination. *)
Lemma extracted_inside extract_to member :
  skipped member = false →
  Spec.inside extract_to
    (Py.path_join extract_to (sanitize_filename (name member))).
Proof.
  unfold skipped. intros H.
  apply orb_false_elim in H as [H Hdots].
  apply orb_false_elim in H as [_ Hslash].
  exists (sanitize_filename (name member)). split; [done|].
  split; [by rewrite startswith_slash_sanitize|].
  apply descend_without_parent. intros Hin.
  apply parent_segment_contains in Hin.
  rewrite contains_dots_sanitize in Hin. congruence.
Qed.

End MemberNames.

Section ExtractionLoop.

Import Downloader.

Variable E : env.

Lemma extract_member_events extract_to position member w r w' :
  extract_member E extract_to position member w = (r, w') →
  ∃ evs, trace w' = trace w ++ evs
    ∧ (∀ i member_name path,
         EvExtracted i member_name path ∈ evs →
         i = position ∧ skipped member = false
         ∧ member_name = sanitize_filename (name member)
         ∧ path = Py.path_join extract_to member_name)
    ∧ (∀ i member_name e, EvSkippedEntry i member_name e ∉ evs)
    ∧ (r = inr tt → skipped member = false →
       EvExtracted position (sanitize_filename (name member))
         (Py.path_join extract_to (sanitize_filename (name member))) ∈ evs)
    ∧ (∀ e, r = inl e → only_caught_failures E → caught_per_member e = true).
Proof.
  unfold extract_member. destruct (skipped member) eqn:Hskip.
  { intros [= <- <-]. exists []. rewrite app_nil_r. split; [done|].
    split; [by intros ??? ?%elem_of_nil|].
    split; [by intros ??? ?%elem_of_nil|]. done. }
  cbn [name type].
  unfold makedirs, World.bind, tick_io, lift_failure, emit. cbn.
  destruct (os_makedirs E (io_ops w) _) as [e|] eqn:Hmk.
  { intros [= <- <-]. exists []. rewrite app_nil_r. split; [done|].
    split; [by intros ??? ?%elem_of_nil|].
    split; [by intros ??? ?%elem_of_nil|]. split; [done|].
    intros e' [= <-] [_ Hc]. eauto. }
  cbn. destruct (tar_extract E _ _ _) as [e|] eqn:Hex.
  { intros [= <- <-]. cbn. eexists [_]. split; [done|].
    split.
    { intros ??? H%list_elem_of_singleton. discriminate. }
    split.
    { intros ??? H%list_elem_of_singleton. discriminate. }
    split; [done|]. intros e' [= <-] [Hc _]. eauto. }
  intros [= <- <-]. cbn. eexists [_; _]. rewrite <- app_assoc.
  split; [done|]. split.
  { intros i nm path [H|H%list_elem_of_singleton]%elem_of_cons;
      [discriminate|]. by injection H as -> -> ->. }
  split.
  { intros i nm e [H|H%list_elem_of_singleton]%elem_of_cons;
      discriminate. }
  split; [|done]. intros _ _. apply list_elem_of_further, list_elem_of_here.
Qed.

Lemma extract_members_events extract_to position members w r w' :
  extract_members E extract_to position members w = (r, w') →
  ∃ evs, trace w' = trace w ++ evs
    ∧ (∀ i member_name path,
         EvExtracted i member_name path ∈ evs →
         ∃ k member,
           i = (position + k)%nat ∧ members !! k = Some member
           ∧ skipped member = false
           ∧ member_name = sanitize_filename (name member)
           ∧ path = Py.path_join extract_to member_name)
    ∧ (only_caught_failures E →
       r = inr tt
       ∧ ∀ k member,
           members !! k = Some member → skipped member = false →
           (∃ member_name path,
              EvExtracted (position + k) member_name path ∈ evs)
           ∨ (∃ member_name e,
                EvSkippedEntry (position + k) member_name e ∈ evs)).
Proof.
  revert position w.
  induction members as [|member rest IH]; intros position w.
  { intros [= <- <-]. exists []. rewrite app_nil_r. split; [done|].
    split; [by intros ??? ?%elem_of_nil|]. intros _. split; [done|].
    intros k m. by rewrite lookup_nil. }
  cbn [extract_members]. unfold World.bind at 1, try_except.
  destruct (extract_member E extract_to position member w)
    as [r1 w1] eqn:H1.
  apply extract_member_events in H1
    as (evs1 & Ht1 & Hex1 & Hsk1 & Hok1 & Hfail1).
  assert (∀ w2 evs2,
    trace w2 = trace w1 ++ evs2 →
    (∀ i member_name path,
       EvExtracted i member_name path ∈ evs2 →
       i = position ∧ skipped member = false
       ∧ member_name = sanitize_filename (name member)
       ∧ path = Py.path_join extract_to member_name) →
    (only_caught_failures E → skipped member = false →
     (∃ member_name path,
        EvExtracted position member_name path ∈ evs1 ++ evs2)
     ∨ (∃ member_name e,
          EvSkippedEntry position member_name e ∈ evs1 ++ evs2)) →
    extract_members E extract_to (S position) rest w2 = (r, w') →
    ∃ evs, trace w' = trace w ++ evs
      ∧ (∀ i member_name path,
           EvExtracted i member_name path ∈ evs →
           ∃ k member0,
             i = (position + k)%nat
             ∧ (member :: rest) !! k = Some member0
             ∧ skipped member0 = false
             ∧ member_name = sanitize_filename (name member0)
             ∧ path = Py.path_join extract_to member_name)
      ∧ (only_caught_failures E →
         r = inr tt
         ∧ ∀ k member0,
             (member :: rest) !! k = Some member0 →
             skipped member0 = false →
             (∃ member_name path,
                EvExtracted (position + k) member_name path ∈ evs)
             ∨ (∃ member_name e,
                  EvSkippedEntry (position + k) member_name e ∈ evs)))
    as Hrest.
  { intros w2 evs2 Ht2 Hex2 Hdone2 H2.
    apply IH in H2 as (evs3 & Ht3 & Hex3 & Hall3).
    exists (evs1 ++ evs2 ++ evs3).
    rewrite Ht3, Ht2, Ht1, <- !app_assoc. split; [done|]. split.
    - intros i nm path [H|[H|H]%elem_of_app]%elem_of_app.
      + destruct (Hex1 _ _ _ H) as (-> & Hs & -> & ->).
        exists 0%nat, member. rewrite Nat.add_0_r. done.
      + destruct (Hex2 _ _ _ H) as (-> & Hs & -> & ->).
        exists 0%nat, member. rewrite Nat.add_0_r. done.
      + destruct (Hex3 _ _ _ H) as (k & m & -> & Hm & Hs & -> & ->).
        exists (S k), m. split; [lia|]. done.
    - intros Hc. destruct (Hall3 Hc) as [-> Hall]. split; [done|].
      intros [|k] m Hm Hs.
      + injection Hm as <-. rewrite Nat.add_0_r.
        destruct (Hdone2 Hc Hs) as [(nm & p & H)|(nm & e & H)].
        * left. exists nm, p. rewrite app_assoc, elem_of_app. auto.
        * right. exists nm, e. rewrite app_assoc, elem_of_app. auto.
      + replace (position + S k)%nat with (S position + k)%nat by lia.
        destruct (Hall k m Hm Hs) as [(nm & p & H)|(nm & e & H)].
        * left. exists nm, p. rewrite !elem_of_app. auto.
        * right. exists nm, e. rewrite !elem_of_app. auto. }
  destruct r1 as [e|[]].
  - destruct (caught_per_member e) eqn:Hcaught.
    + unfold emit at 1. cbn. intros H2.
      apply (λ a b c,
               Hrest _ [EvSkippedEntry position
                          (sanitize_filename (name member)) e] a b c H2);
        [done| |].
      * intros ??? H%list_elem_of_singleton. discriminate.
      * intros _ _. right. eexists _, _. rewrite elem_of_app. right.
        apply list_elem_of_here.
    + unfold World.raise. intros [= <- <-]. exists evs1.
      split; [done|]. split.
      * intros i nm path H.
        destruct (Hex1 _ _ _ H) as (-> & Hs & -> & ->).
        exists 0%nat, member. rewrite Nat.add_0_r. done.
      * intros Hc. rewrite (Hfail1 e eq_refl Hc) in Hcaught. discriminate.
  - intros H2.
    apply (λ a b c, Hrest _ [] a b c H2); [by rewrite app_nil_r| |].
    + by intros ??? ?%elem_of_nil.
    + intros _ Hs. left. eexists _, _. rewrite elem_of_app. left.
      by apply Hok1.
Qed.

End ExtractionLoop.

(** What holds of the extraction whatever the archive: every member that
    [safe_extract_tar] extracts is neither a symbolic nor a hard link, has
    a name that neither begins with a slash nor holds a parent-directory
    segment, is written under its sanitized name (letters, digits and
    [-_./] only), and lands inside the destination directory.  A member
    whose handling raises [FileNotFoundError], [OSError] or
    [tarfile.ExtractError] is skipped alone and the loop goes on with the
    next member; so, when no other kind of exception occurs, every member
    that is not rejected is either extracted or skipped on its own.
    [safe_extract_tar] itself never raises. *)
Theorem safe_extract_tar_members (E : env) (tar_path extract_to : string)
    (members : list tar_member) (w : world) :
  tarfile_open E (io_ops w) tar_path = inr members →
  let r := (Downloader.safe_extract_tar E tar_path extract_to w).1 in
  let w' := (Downloader.safe_extract_tar E tar_path extract_to w).2 in
  r = inr tt
  ∧ (∃ evs, trace w' = trace w ++ evs
      ∧ (∀ i member_name path,
           EvExtracted i member_name path ∈ evs →
           ∃ member,
             members !! i = Some member
             ∧ islnk member = false ∧ issym member = false
             ∧ Py.startswith "/" (name member) = false
             ∧ Spec.has_parent_segment (name member) = false
             ∧ member_name = Downloader.sanitize_filename (name member)
             ∧ Py.all_chars Spec.allow_listed member_name = true
             ∧ path = Py.path_join extract_to member_name
             ∧ Spec.inside extract_to path)
      ∧ (only_caught_failures E →
         ∀ i member,
           members !! i = Some member →
           Downloader.skipped member = false →
           (∃ member_name path, EvExtracted i member_name path ∈ evs)
           ∨ (∃ member_name e, EvSkippedEntry i member_name e ∈ evs)))
  ∧ (∀ position member rest w0 e w1,
       Downloader.extract_member E extract_to position member w0
       = (inl e, w1) →
       Downloader.caught_per_member e = true →
       Downloader.extract_members E extract_to position (member :: rest) w0
       = Downloader.extract_members E extract_to (S position) rest
           (emit (EvSkippedEntry position
                    (Downloader.sanitize_filename (name member)) e) w1).2).
Proof.
  intros Hopen. cbv zeta.
  destruct (Downloader.safe_extract_tar E tar_path extract_to w)
    as [r w'] eqn:Hall0.
  cbn [fst snd]. revert Hall0.
  unfold Downloader.safe_extract_tar, try_except.
  unfold World.bind at 1. cbn [tick_io]. rewrite Hopen.
  unfold World.bind at 1. cbn [lift_sum World.ret io_ops].
  destruct (Downloader.extract_members E extract_to 0 members _)
    as [r1 w1] eqn:Hrun. intros Hfinal.
  apply extract_members_events in Hrun as (evs & Ht & Hex & Hall).
  cbn [trace] in Ht.
  assert (∀ i member_name path,
    EvExtracted i member_name path ∈ evs →
    ∃ member,
      members !! i = Some member
      ∧ islnk member = false ∧ issym member = false
      ∧ Py.startswith "/" (name member) = false
      ∧ Spec.has_parent_segment (name member) = false
      ∧ member_name = Downloader.sanitize_filename (name member)
      ∧ Py.all_chars Spec.allow_listed member_name = true
      ∧ path = Py.path_join extract_to member_name
      ∧ Spec.inside extract_to path) as Hsafe.
  { intros i nm path Hin.
    destruct (Hex _ _ _ Hin) as (k & m & -> & Hm & Hs & -> & ->).
    exists m. split; [done|]. pose proof Hs as Hs'.
    unfold Downloader.skipped in Hs'.
    apply orb_false_elim in Hs' as [Hs' Hdots].
    apply orb_false_elim in Hs' as [Hs' Hslash].
    apply orb_false_elim in Hs' as [Hlnk Hsym].
    repeat split; try done.
    - by apply has_parent_segment_contains.
    - apply sanitized_name_allow_listed.
    - by apply extracted_inside. }
  split; [destruct r1 as [e|[]]; unfold emit in Hfinal; by simplify_eq|].
  split.
  - destruct r1 as [e|[]].
    + exists (evs ++ [EvExtractionFailed tar_path e]).
      unfold emit in Hfinal. simplify_eq. cbn.
      rewrite Ht, <- app_assoc. split; [done|]. split.
      * intros i nm path [H|H%list_elem_of_singleton]%elem_of_app;
          [by apply Hsafe|discriminate].
      * intros Hc. by destruct (Hall Hc).
    + exists evs. simplify_eq. split; [done|]. split; [exact Hsafe|].
      intros Hc i m Hm Hs. destruct (Hall Hc) as [_ H]. apply (H i m Hm Hs).
  - intros position member rest w0 e w2 Hm Hc.
    cbn [Downloader.extract_members]. unfold World.bind at 1, try_except.
    rewrite Hm, Hc. unfold emit. reflexivity.
Qed.

Lemma safe_extract_tar_members_witness :
  let E := Sample.calm 1 Sample.two_files in
  let r := (Downloader.safe_extract_tar E "/data/a.tar.gz" "/data/a"
              World.start).1 in
  let w' := (Downloader.safe_extract_tar E "/data/a.tar.gz" "/data/a"
               World.start).2 in
  tarfile_open E (io_ops World.start) "/data/a.tar.gz" = inr Sample.two_files
  ∧ r = inr tt
  ∧ (∃ evs, trace w' = trace World.start ++ evs
      ∧ (∀ i member_name path,
           EvExtracted i member_name path ∈ evs →
           ∃ member,
             Sample.two_files !! i = Some member
             ∧ islnk member = false ∧ issym member = false
             ∧ Py.startswith "/" (name member) = false
             ∧ Spec.has_parent_segment (name member) = false
             ∧ member_name = Downloader.sanitize_filename (name member)
             ∧ Py.all_chars Spec.allow_listed member_name = true
             ∧ path = Py.path_join "/data/a" member_name
             ∧ Spec.inside "/data/a" path)
      ∧ (only_caught_failures E →
         ∀ i member,
           Sample.two_files !! i = Some member →
           Downloader.skipped member = false →
           (∃ member_name path, EvExtracted i member_name path ∈ evs)
           ∨ (∃ member_name e, EvSkippedEntry i member_name e ∈ evs)))
  ∧ (∀ position member rest w0 e w1,
       Downloader.extract_member E "/data/a" position member w0
       = (inl e, w1) →
       Downloader.caught_per_member e = true →
       Downloader.extract_members E "/data/a" position (member :: rest) w0
       = Downloader.extract_members E "/data/a" (S position) rest
           (emit (EvSkippedEntry position
                    (Downloader.sanitize_filename (name member)) e) w1).2).
Proof.
  intros E.
  assert (tarfile_open E (io_ops World.start) "/data/a.tar.gz"
          = inr Sample.two_files) as Hopen by reflexivity.
  split; [exact Hopen|].
  exact (safe_extract_tar_members E "/data/a.tar.gz" "/data/a"
           Sample.two_files World.start Hopen).
Defined.

(** C4 at a failing input.  The archive holds a device node and then
    [main.tex].  [filter="data"] refuses the device node with a
    [tarfile.FilterError], which the inner [except] clause does not name,
    so the outer one ends the whole extraction: [main.tex], which could
    be extracted, never is, against "skipping broken entries".  An
    archive whose first member fails with an [OSError] instead loses this
    member alone: [main.tex] is extracted. *)
Lemma special_member_ends_extraction :
  let E := Sample.refuses_special in
  tarfile_open E 0 "/data/x.tar.gz" = inr Sample.device_then_file
  ∧ Sample.device_then_file !! 1%nat
    = Some {| name := "main.tex"; type := REGTYPE |}
  ∧ Downloader.skipped {| name := "main.tex"; type := REGTYPE |} = false
  ∧ (∀ n extract_to,
       tar_extract E n {| name := "main.tex"; type := REGTYPE |} extract_to
       = None)
  ∧ trace (Downloader.safe_extract_tar E "/data/x.tar.gz" "/data/x"
             World.start).2
    = [ EvMakedirs "/data/x/dev";
        EvExtractionFailed "/data/x.tar.gz"
          (Exn FilterError "is a special file") ]
  ∧ tarfile_open Cases.locked_folder 0 "/data/x.tar.gz"
    = inr Cases.locked_then_file
  ∧ trace (Downloader.safe_extract_tar Cases.locked_folder
             "/data/x.tar.gz" "/data/x" World.start).2
    = [ EvMakedirs "/data/x/locked";
        EvSkippedEntry 0 "locked/a.tex"
          (Exn OSError "[Errno 13] Permission denied");
        EvMakedirs "/data/x";
        EvExtracted 1 "main.tex" "/data/x/main.tex" ].
Proof.
  cbv zeta. split; [reflexivity|]. split; [reflexivity|].
  split; [reflexivity|]. split; [reflexivity|].
  split; [vm_compute; reflexivity|]. split; [reflexivity|].
  vm_compute. reflexivity.
Qed.

(* ===================================================================== *)
(** * The sentinel protocol *)
(* ===================================================================== *)

Section Counting.

Import Main.

Lemma count_app {A} (p : A → bool) (l l' : list A) :
  count p (l ++ l') = (count p l + count p l')%nat.
Proof.
  induction l as [|x l IH]; [done|]. cbn [app count]. rewrite IH.
  destruct (p x); lia.
Qed.

Lemma count_replicate {A} (p : A → bool) (n : nat) (x : A) :
  count p (replicate n x) = if p x then n else 0%nat.
Proof.
  induction n as [|n IH]; cbn; [by destruct (p x)|].
  rewrite IH. by destruct (p x).
Qed.

Lemma count_insert {A} (p : A → bool) (l : list A) (i : nat) (x y : A) :
  l !! i = Some x →
  (count p (<[i:=y]> l) + (if p x then 1 else 0)
   = count p l + (if p y then 1 else 0))%nat.
Proof.
  revert i. induction l as [|z l IH]; intros [|i] Hi; try done.
  - injection Hi as ->. change (<[0%nat:=y]> (x :: l)) with (y :: l).
    cbn [count]. destruct (p x), (p y); lia.
  - cbn in Hi. specialize (IH i Hi).
    change (<[S i:=y]> (z :: l)) with (z :: <[i:=y]> l).
    cbn [count]. destruct (p z); lia.
Qed.

Lemma count_some_ids (ids : list string) :
  count is_sentinel (Some <$> ids) = 0%nat.
Proof. induction ids as [|x l IH]; cbn; [done|]. exact IH. Qed.

Lemma sentinels_of_snoc i log j item :
  sentinels_of i (log ++ [(j, item)])
  = (sentinels_of i log
     + (if (j =? i)%nat && is_sentinel item then 1 else 0))%nat.
Proof.
  unfold sentinels_of. rewrite count_app. cbn [count fst snd].
  destruct (_ && _); lia.
Qed.

Lemma sentinels_snoc log j item :
  sentinels (log ++ [(j, item)])
  = (sentinels log + (if is_sentinel item then 1 else 0))%nat.
Proof.
  unfold sentinels. rewrite count_app. cbn [count fst snd].
  destruct (is_sentinel item); lia.
Qed.

End Counting.

Section Protocol.

Import Main.

Variable E : env.
Variables (id_maxsize download_maxsize : nat).
Variable base_data_dir : string.
Variable delay : Q.

Abbreviation step1 := (step E id_maxsize download_maxsize base_data_dir delay).
Abbreviation run1 := (run E id_maxsize download_maxsize base_data_dir delay).

Lemma invariant_initial todo n : protocol_invariant (initial todo n).
Proof.
  split.
  - intros i. cbn. destruct (replicate n Taking !! i) as [ws|] eqn:Hi; [|done].
    apply lookup_replicate in Hi as [-> _]. done.
  - cbn. by rewrite count_replicate.
Qed.

Lemma invariant_step a s s' :
  protocol_invariant s → step1 a s = Some s' → protocol_invariant s'.
Proof.
  intros [Hw Hs] Hstep. destruct a as [|i|i|]; unfold step in Hstep.
  - destruct (resolver_todo s); [done|].
    destruct (has_room _ _); [|done]. by simplify_eq.
  - destruct (workers s !! i) as [[| |]|] eqn:Hi; try done.
    destruct (id_queue s) as [|x q]; [done|].
    assert (∀ new,
      is_finished new = false →
      sentinels_by_state (Some new)
      = ((if is_sentinel x then 1 else 0)%nat, 0%nat) →
      protocol_invariant
        {| resolver_todo := resolver_todo s; id_queue := q;
           download_queue := download_queue s;
           workers := <[i:=new]> (workers s);
           taken := taken s ++ [(i, x)]; put := put s;
           outside := outside s |}
      ∧ ∀ w, protocol_invariant
        {| resolver_todo := resolver_todo s; id_queue := q;
           download_queue := download_queue s;
           workers := <[i:=new]> (workers s);
           taken := taken s ++ [(i, x)]; put := put s;
           outside := w |}) as Hnew.
    { intros new Hnf Hnew.
      assert (∀ w, protocol_invariant
        {| resolver_todo := resolver_todo s; id_queue := q;
           download_queue := download_queue s;
           workers := <[i:=new]> (workers s);
           taken := taken s ++ [(i, x)]; put := put s;
           outside := w |}) as H; [|by split].
      intros w. split; cbn [taken put workers].
      - intros j. rewrite sentinels_of_snoc. specialize (Hw j).
        destruct (decide (i = j)) as [<-|Hne].
        + rewrite list_lookup_insert_eq by by eapply lookup_lt_Some.
          rewrite Hi in Hw. cbn in Hw. injection Hw as Ht Hp.
          rewrite Hnew, Ht, Hp, Nat.eqb_refl. cbn. done.
        + rewrite list_lookup_insert_ne by done.
          apply Nat.eqb_neq in Hne. rewrite Hne. cbn.
          by rewrite Nat.add_0_r.
      - pose proof (count_insert is_finished _ _ _ new Hi) as Hc.
        rewrite Hnf in Hc. cbn in Hc. lia. }
    destruct x as [arxiv_id|].
    + destruct (download_paper E arxiv_id base_data_dir (outside s))
        as [r w] eqn:Hp.
      injection Hstep as Hstep. subst s'. destruct r; by apply Hnew.
    + injection Hstep as Hstep. subst s'. by apply Hnew.
  - destruct (workers s !! i) as [[|x|]|] eqn:Hi; try done.
    destruct (has_room _ _); [|done]. injection Hstep as Hstep.
    subst s'. split; cbn [taken put workers].
    + intros j. rewrite sentinels_of_snoc. specialize (Hw j).
      destruct (decide (i = j)) as [<-|Hne].
      * rewrite list_lookup_insert_eq by by eapply lookup_lt_Some.
        rewrite Hi in Hw. rewrite Nat.eqb_refl.
        destruct x; cbn in Hw; injection Hw as Ht Hp; rewrite Ht, Hp; done.
      * rewrite list_lookup_insert_ne by done.
        apply Nat.eqb_neq in Hne. rewrite Hne. cbn.
        by rewrite Nat.add_0_r.
    + rewrite sentinels_snoc, Hs.
      pose proof (count_insert is_finished _ _ _
                    (match x with None => Finished | Some _ => Taking end)
                    Hi) as Hc.
      destruct x; cbn in *; lia.
  - destruct (download_queue s); [done|]. by simplify_eq.
Qed.

Lemma invariant_reachable s0 s :
  protocol_invariant s0 →
  reachable E id_maxsize download_maxsize base_data_dir delay s0 s →
  protocol_invariant s.
Proof.
  intros H0 [schedule Hrun]. revert s0 H0 Hrun.
  induction schedule as [|a rest IH]; intros s0 H0; cbn.
  - by intros [= <-].
  - destruct (step1 a s0) as [s1|] eqn:Hstep; [|done]. cbn.
    apply IH. by eapply invariant_step.
Qed.

End Protocol.

Section Progress.

Import Main.

Variable E : env.
Variables (id_maxsize download_maxsize : nat).
Variable base_data_dir : string.
Variable delay : Q.

Abbreviation step2 := (step E id_maxsize download_maxsize base_data_dir delay).

Lemma balanced_initial selected_ids n :
  balanced n (initial ((Some <$> selected_ids) ++ replicate n None) n).
Proof.
  split; cbn.
  - apply length_replicate.
  - rewrite app_nil_r, count_app, count_some_ids, !count_replicate. done.
Qed.

Lemma balanced_step n a s s' :
  balanced n s → step2 a s = Some s' → balanced n s'.
Proof.
  intros [Hlen Hbal] Hstep. destruct a as [|i|i|]; unfold step in Hstep.
  - destruct (resolver_todo s) as [|x todo] eqn:Htodo; [done|].
    destruct (has_room _ _); [|done]. injection Hstep as Hstep. subst s'.
    split; cbn [workers resolver_todo id_queue]; [done|].
    rewrite <- Hbal. rewrite !count_app. cbn [count].
    destruct (is_sentinel x); lia.
  - destruct (workers s !! i) as [[| |]|] eqn:Hi; try done.
    destruct (id_queue s) as [|x q] eqn:Hq; [done|].
    rewrite count_app in Hbal. cbn [count] in Hbal.
    destruct x as [arxiv_id|].
    + destruct (download_paper E arxiv_id base_data_dir (outside s))
        as [r w] eqn:Hp.
      injection Hstep as Hstep. subst s'.
      split; cbn [workers resolver_todo id_queue].
      { by rewrite length_insert. }
      rewrite count_app.
      pose proof (count_insert awaits_sentinel _ _ _
                    (match r with
                     | inl _ => Taking
                     | inr _ => Putting (Some arxiv_id)
                     end) Hi) as Hc.
      destruct r; cbn in *; lia.
    + injection Hstep as Hstep. subst s'.
      split; cbn [workers resolver_todo id_queue].
      { by rewrite length_insert. }
      rewrite count_app.
      pose proof (count_insert awaits_sentinel _ _ _ (Putting None) Hi)
        as Hc.
      cbn in *. lia.
  - destruct (workers s !! i) as [[|x|]|] eqn:Hi; try done.
    destruct (has_room _ _); [|done]. injection Hstep as Hstep. subst s'.
    split; cbn [workers resolver_todo id_queue].
    { by rewrite length_insert. }
    pose proof (count_insert awaits_sentinel _ _ _
                  (match x with None => Finished | Some _ => Taking end)
                  Hi) as Hc.
    destruct x; cbn in *; lia.
  - destruct (download_queue s); [done|]. injection Hstep as Hstep.
    by subst s'.
Qed.

Lemma balanced_reachable n s0 s :
  balanced n s0 →
  reachable E id_maxsize download_maxsize base_data_dir delay s0 s →
  balanced n s.
Proof.
  intros H0 [schedule Hrun]. revert s0 H0 Hrun.
  induction schedule as [|a rest IH]; intros s0 H0; cbn.
  - by intros [= <-].
  - destruct (step2 a s0) as [s1|] eqn:Hstep; [|done]. cbn.
    apply IH. by eapply balanced_step.
Qed.

Lemma has_room_empty {A} maxsize : has_room (A:=A) maxsize [] = true.
Proof. unfold has_room. by destruct maxsize. Qed.

Lemma count_pos {A} (p : A → bool) (l : list A) i x :
  l !! i = Some x → p x = true → (0 < count p l)%nat.
Proof.
  revert i. induction l as [|y l IH]; intros [|i] Hi Hp; try done.
  - injection Hi as ->. cbn. rewrite Hp. lia.
  - cbn in Hi. cbn. specialize (IH i Hi Hp). lia.
Qed.

Lemma count_le_length {A} (p : A → bool) (l : list A) :
  (count p l ≤ length l)%nat.
Proof. induction l as [|x l IH]; cbn; [lia|]. destruct (p x); lia. Qed.

(** A worker that has not finished can always go on, or the resolver
    can, unless the worker waits for room on the result queue. *)
Lemma balanced_progress n s i ws :
  balanced n s → workers s !! i = Some ws → ws ≠ Finished →
  has_room download_maxsize (download_queue s) = true →
  ∃ a s', a ≠ ReferenceGet ∧ step2 a s = Some s'.
Proof.
  intros [Hlen Hbal] Hi Hws Hroom.
  destruct ws as [|x|]; [| |done].
  2:{ exists (WorkerPut i). unfold step. rewrite Hi, Hroom. eauto. }
  destruct (id_queue s) as [|x q] eqn:Hq.
  - destruct (resolver_todo s) as [|y todo] eqn:Htodo.
    + exfalso. cbn in Hbal.
      pose proof (count_pos awaits_sentinel _ _ _ Hi eq_refl). lia.
    + exists ResolverPut. unfold step.
      rewrite Htodo, Hq, has_room_empty. eauto.
  - exists (WorkerGet i). unfold step. rewrite Hi, Hq.
    destruct x as [arxiv_id|]; [|eauto].
    destruct (download_paper E arxiv_id base_data_dir (outside s)). eauto.
Qed.

End Progress.

Section ProtocolFacts.

Import Main.

Lemma fetch_ids_worker_puts fuel n sm sy sid em ey eid total start num todo :
  fetch_ids_worker fuel n sm sy sid em ey eid total start num = Some todo →
  ∃ selected_ids, todo = (Some <$> selected_ids) ++ replicate n None.
Proof.
  unfold fetch_ids_worker.
  destruct (ArxivHandler.get_IDs_network _ _ _ _ _ _ _ _) as [ids|];
    [|done].
  cbn. intros [= <-]. eauto.
Qed.

Lemma count_all {A} (p : A → bool) (l : list A) :
  (∀ i x, l !! i = Some x → p x = true) → count p l = length l.
Proof.
  induction l as [|x l IH]; intros H; [done|]. cbn.
  rewrite (H 0%nat x eq_refl). rewrite IH; [done|].
  intros i y Hi. apply (H (S i) y Hi).
Qed.

End ProtocolFacts.

(** C5.  The resolver puts the selected identifiers on the ID queue and
    then exactly one sentinel per download worker.  In every state that
    the threads can reach, whatever the interleaving: no download worker
    has put a sentinel on the result queue without having taken one, none
    has taken or put more than one, a worker has put its sentinel exactly
    when it has left its loop (after which it neither takes nor puts
    anything), so the result queue has received as many sentinels as
    workers have finished, never more than there are workers and exactly
    that many once all have finished.  A worker that has not finished is
    never stuck, except while the result queue is full. *)
Theorem sentinel_protocol (E : env) (id_maxsize download_maxsize : nat)
    (base_data_dir : string) (delay : Q)
    (fuel DOWNLOAD_THREAD_COUNT : nat)
    (start_month start_year start_ID end_month end_year end_ID total_paper
       start_index num_papers : Z)
    (todo : list (option string)) (s : Main.system) :
  Main.fetch_ids_worker fuel DOWNLOAD_THREAD_COUNT start_month start_year
    start_ID end_month end_year end_ID total_paper start_index num_papers
  = Some todo →
  Main.reachable E id_maxsize download_maxsize base_data_dir delay
    (Main.initial todo DOWNLOAD_THREAD_COUNT) s →
  (∃ selected_ids,
     todo = (Some <$> selected_ids) ++ replicate DOWNLOAD_THREAD_COUNT None)
  ∧ (∀ i, (Main.sentinels_of i (Main.put s)
           ≤ Main.sentinels_of i (Main.taken s) ≤ 1)%nat)
  ∧ (∀ i, Main.workers s !! i = Some Main.Finished
          ↔ Main.sentinels_of i (Main.put s) = 1%nat)
  ∧ (∀ i, Main.workers s !! i = Some Main.Finished →
          Main.step E id_maxsize download_maxsize base_data_dir delay
            (Main.WorkerGet i) s = None
          ∧ Main.step E id_maxsize download_maxsize base_data_dir delay
              (Main.WorkerPut i) s = None)
  ∧ Main.sentinels (Main.put s) = Main.count Main.is_finished (Main.workers s)
  ∧ (Main.sentinels (Main.put s) ≤ DOWNLOAD_THREAD_COUNT)%nat
  ∧ ((∀ i ws, Main.workers s !! i = Some ws → ws = Main.Finished) →
     Main.sentinels (Main.put s) = DOWNLOAD_THREAD_COUNT)
  ∧ (∀ i ws,
       Main.workers s !! i = Some ws → ws ≠ Main.Finished →
       Main.has_room download_maxsize (Main.download_queue s) = true →
       ∃ a s', a ≠ Main.ReferenceGet
               ∧ Main.step E id_maxsize download_maxsize base_data_dir delay
                   a s = Some s').
Proof.
  intros Hfetch Hreach.
  destruct (fetch_ids_worker_puts _ _ _ _ _ _ _ _ _ _ _ _ Hfetch)
    as [selected_ids ->].
  pose proof (invariant_reachable E _ _ _ _ _ _
                (invariant_initial _ _) Hreach) as [Hw Hs].
  pose proof (balanced_reachable E _ _ _ _ _ _ _
                (balanced_initial _ _) Hreach) as Hbal.
  split; [eauto|]. split.
  { intros i. specialize (Hw i).
    destruct (Main.workers s !! i) as [[|[x|]|]|]; cbn in Hw;
      injection Hw as -> ->; lia. }
  split.
  { intros i. specialize (Hw i).
    destruct (Main.workers s !! i) as [[|[x|]|]|]; cbn in Hw;
      injection Hw as _ ->; split; (done || lia). }
  split.
  { intros i Hi. unfold Main.step. by rewrite Hi. }
  split; [exact Hs|]. destruct Hbal as [Hlen Hbal].
  split.
  { rewrite Hs, <- Hlen. apply count_le_length. }
  split.
  { intros Hall. rewrite Hs, <- Hlen. apply count_all.
    intros i ws Hi. by rewrite (Hall i ws Hi). }
  intros i ws Hi Hws Hroom.
  by eapply (balanced_progress E _ _ _ _ DOWNLOAD_THREAD_COUNT).
Qed.

Lemma sentinel_protocol_witness :
  let E := Sample.calm 1 Sample.two_files in
  let todo := [Some "2304.07856"; Some "2304.07857"; None; None; None] in
  let s := Sample.final in
  Main.fetch_ids_worker 2 3 4 2023 7856 4 2023 7857 15000 0 2 = Some todo
  ∧ Main.reachable E 6 4 "/data" 2 (Main.initial todo 3) s
  ∧ (∀ i ws, Main.workers s !! i = Some ws → ws = Main.Finished)
  ∧ (∃ selected_ids, todo = (Some <$> selected_ids) ++ replicate 3 None)
  ∧ (∀ i, (Main.sentinels_of i (Main.put s)
           ≤ Main.sentinels_of i (Main.taken s) ≤ 1)%nat)
  ∧ (∀ i, Main.workers s !! i = Some Main.Finished
          ↔ Main.sentinels_of i (Main.put s) = 1%nat)
  ∧ (∀ i, Main.workers s !! i = Some Main.Finished →
          Main.step E 6 4 "/data" 2 (Main.WorkerGet i) s = None
          ∧ Main.step E 6 4 "/data" 2 (Main.WorkerPut i) s = None)
  ∧ Main.sentinels (Main.put s) = Main.count Main.is_finished (Main.workers s)
  ∧ (Main.sentinels (Main.put s) ≤ 3)%nat
  ∧ ((∀ i ws, Main.workers s !! i = Some ws → ws = Main.Finished) →
     Main.sentinels (Main.put s) = 3%nat)
  ∧ (∀ i ws,
       Main.workers s !! i = Some ws → ws ≠ Main.Finished →
       Main.has_room 4 (Main.download_queue s) = true →
       ∃ a s', a ≠ Main.ReferenceGet
               ∧ Main.step E 6 4 "/data" 2 a s = Some s').
Proof.
  intros E todo s.
  assert (Main.fetch_ids_worker 2 3 4 2023 7856 4 2023 7857 15000 0 2
          = Some todo) as Hfetch by (vm_compute; reflexivity).
  assert (Main.reachable E 6 4 "/data" 2 (Main.initial todo 3) s) as Hreach.
  { exists Sample.schedule. vm_compute. reflexivity. }
  split; [exact Hfetch|]. split; [exact Hreach|]. split.
  { intros [|[|[|i]]] ws; vm_compute; intros [= <-]; reflexivity. }
  exact (sentinel_protocol E 6 4 "/data" 2 2 3 4 2023 7856 4 2023 7857 15000
           0 2 todo s Hfetch Hreach).
Defined.

(* ===================================================================== *)
(** * Month boundaries, whatever the archive holds *)
(* ===================================================================== *)

Section MonthSearch.

Import ArxivHandler.

Variable id_exists : string → bool.
Variables (year month : Z).

Abbreviation exists_at n := (id_exists (get_ID month year n)).

Lemma pow2_small j : 0 ≤ j → 2 ^ j ≤ 99999 → j ≤ 16.
Proof.
  intros Hj Hp. destruct (decide (j ≤ 16)) as [|Hn]; [done|].
  assert (2 ^ 17 ≤ 2 ^ j) by (apply Z.pow_le_mono_r; lia).
  assert (2 ^ 17 = 131072) by reflexivity. lia.
Qed.

Lemma pow2_double high j : 0 ≤ j → high * 2 * 2 ^ j = high * 2 ^ (j + 1).
Proof. intros Hj. rewrite Z.pow_add_r by lia. lia. Qed.

(** What the doubling loop of [find_first_id] knows when it ends. *)
Lemma first_probe_spec fuel high r :
  0 < high →
  first_probe id_exists year month fuel high = Some r →
  match r with
  | inl v =>
      v = PyNone
      ∧ ∀ j, 0 ≤ j → high * 2 ^ j ≤ 99999 → exists_at (high * 2 ^ j) = false
  | inr h =>
      exists_at h = true
      ∧ ∃ j, 0 ≤ j ∧ h = high * 2 ^ j ∧ (high ≤ 99999 → h ≤ 99999)
             ∧ ∀ i, 0 ≤ i < j → exists_at (high * 2 ^ i) = false
  end.
Proof.
  revert high. induction fuel as [|f IH]; intros high Hh; [done|].
  cbn [first_probe]. destruct (exists_at high) eqn:Hex; cbn [negb].
  - intros [= <-]. split; [done|]. exists 0.
    split; [lia|]. split; [lia|]. split; [lia|]. intros i Hi. lia.
  - destruct (high * 2 >? 99999) eqn:Hgt.
    + intros [= <-]. split; [done|]. intros j Hj Hle.
      destruct (decide (j = 0)) as [->|Hne].
      * by rewrite Z.mul_1_r.
      * assert (2 ^ 1 ≤ 2 ^ j) by (apply Z.pow_le_mono_r; lia).
        change (2 ^ 1) with 2 in *. nia.
    + intros Hp. apply IH in Hp; [|lia]. destruct r as [v|h].
      * destruct Hp as [-> Hall]. split; [done|]. intros j Hj Hle.
        destruct (decide (j = 0)) as [->|Hne].
        -- by rewrite Z.mul_1_r.
        -- replace j with ((j - 1) + 1) in * by lia.
           rewrite <- pow2_double in * by lia. apply Hall; [lia|done].
      * destruct Hp as (Hexh & j & Hj & -> & Hle & Hmiss).
        split; [done|]. exists (j + 1).
        split; [lia|]. split; [by rewrite pow2_double|].
        split; [lia|]. intros i Hi.
        destruct (decide (i = 0)) as [->|Hne].
        -- by rewrite Z.mul_1_r.
        -- replace i with ((i - 1) + 1) by lia.
           rewrite <- pow2_double by lia. apply Hmiss. lia.
Qed.

(** The bisection of [find_first_id] keeps a missing ordinal below and
    an existing one above. *)
Lemma first_bisect_spec fuel low high r :
  exists_at low = false → exists_at high = true →
  first_bisect id_exists year month fuel low high = Some r →
  low < high →
  low < r ≤ high ∧ exists_at r = true ∧ exists_at (r - 1) = false.
Proof.
  revert low high. induction fuel as [|f IH]; intros low high Hl Hh; [done|].
  cbn [first_bisect]. destruct (low + 1 <? high) eqn:Hlt.
  - apply Z.ltb_lt in Hlt.
    pose proof (mid_between low high Hlt) as Hmid.
    destruct (exists_at ((low + high) / 2)) eqn:Hm; intros Hr _.
    + destruct (IH _ _ Hl Hm Hr) as (? & ? & ?); [lia|].
      split; [lia|done].
    + destruct (IH _ _ Hm Hh Hr) as (? & ? & ?); [lia|].
      split; [lia|done].
  - apply Z.ltb_ge in Hlt. intros [= <-] Hlh.
    split; [lia|]. split; [done|].
    by replace (high - 1) with low by lia.
Qed.

(** X1.  Whatever the archive answers, [find_first_id] returns [None]
    only when none of the ordinals 1, 2, 4, ..., 65536 exists, and
    otherwise an existing ordinal that is 1 or whose predecessor is
    missing. *)
Theorem find_first_id_boundary :
  (find_first_id id_exists year month = Some PyNone
   ∧ ∀ k, 0 ≤ k ≤ 16 → exists_at (2 ^ k) = false)
  ∨ (∃ n, find_first_id id_exists year month = Some (PyInt n)
          ∧ 1 ≤ n ≤ 65536
          ∧ exists_at n = true
          ∧ (n = 1 ∨ exists_at (n - 1) = false)).
Proof.
  unfold find_first_id.
  pose proof (first_probe_ends id_exists year month probe_fuel 1) as Hends.
  destruct (first_probe id_exists year month probe_fuel 1)
    as [[v|high]|] eqn:Hp.
  - left. apply first_probe_spec in Hp as [-> Hall]; [|lia].
    split; [done|]. intros k Hk.
    rewrite <- (Z.mul_1_l (2 ^ k)). apply Hall; [lia|].
    assert (2 ^ k ≤ 2 ^ 16) by (apply Z.pow_le_mono_r; lia).
    change (2 ^ 16) with 65536 in *. lia.
  - right. apply first_probe_spec in Hp as (Hex & j & Hj & -> & Hle & Hmiss);
      [|lia].
    rewrite Z.mul_1_l in *. specialize (Hle ltac:(lia)).
    pose proof (pow2_small j Hj Hle) as Hj16.
    assert (2 ^ j ≤ 2 ^ 16) by (apply Z.pow_le_mono_r; lia).
    change (2 ^ 16) with 65536 in *.
    assert (0 < 2 ^ j) by (apply Z.pow_pos_nonneg; lia).
    destruct (first_bisect_ends id_exists year month (Z.to_nat (2 ^ j)) 1
                (2 ^ j)) as (r & Hr & Hin & Hout); [lia..|].
    rewrite Hr. exists r. split; [done|].
    destruct (decide (j = 0)) as [->|Hne].
    + change (2 ^ 0) with 1 in *. rewrite Hout by lia.
      split; [lia|]. split; [done|]. by left.
    + assert (exists_at 1 = false) as H1.
      { specialize (Hmiss 0 ltac:(lia)). by rewrite Z.mul_1_l in Hmiss. }
      assert (2 ^ 1 ≤ 2 ^ j) by (apply Z.pow_le_mono_r; lia).
      change (2 ^ 1) with 2 in *.
      destruct (first_bisect_spec _ _ _ _ H1 Hex Hr) as (Hr1 & Hr2 & Hr3);
        [lia|].
      split; [lia|]. split; [done|]. by right.
  - exfalso. apply Hends; [unfold probe_fuel; lia|lia|done|done].
Qed.

(** What the doubling loop of [find_last_id] knows when it ends. *)
Lemma last_probe_spec fuel high r :
  0 < high →
  last_probe id_exists year month fuel high = Some r →
  match r with
  | inl v =>
      v = PyInt 99999
      ∧ ∀ j, 0 ≤ j → high * 2 ^ j ≤ 99999 → exists_at (high * 2 ^ j) = true
  | inr h =>
      exists_at h = false
      ∧ ∃ j, 0 ≤ j ∧ h = high * 2 ^ j ∧ (high ≤ 99999 → h ≤ 99999)
             ∧ ∀ i, 0 ≤ i < j → exists_at (high * 2 ^ i) = true
  end.
Proof.
  revert high. induction fuel as [|f IH]; intros high Hh; [done|].
  rewrite last_probe_step. destruct (exists_at high) eqn:Hex.
  - destruct (high * 2 >? 99999) eqn:Hgt.
    + intros [= <-]. split; [done|]. intros j Hj Hle.
      destruct (decide (j = 0)) as [->|Hne].
      * by rewrite Z.mul_1_r.
      * assert (2 ^ 1 ≤ 2 ^ j) by (apply Z.pow_le_mono_r; lia).
        change (2 ^ 1) with 2 in *. nia.
    + intros Hp. apply IH in Hp; [|lia]. destruct r as [v|h].
      * destruct Hp as [-> Hall]. split; [done|]. intros j Hj Hle.
        destruct (decide (j = 0)) as [->|Hne].
        -- by rewrite Z.mul_1_r.
        -- replace j with ((j - 1) + 1) in * by lia.
           rewrite <- pow2_double in * by lia. apply Hall; [lia|done].
      * destruct Hp as (Hexh & j & Hj & -> & Hle & Hmiss).
        split; [done|]. exists (j + 1).
        split; [lia|]. split; [by rewrite pow2_double|].
        split; [lia|]. intros i Hi.
        destruct (decide (i = 0)) as [->|Hne].
        -- by rewrite Z.mul_1_r.
        -- replace i with ((i - 1) + 1) by lia.
           rewrite <- pow2_double by lia. apply Hmiss. lia.
  - intros [= <-]. split; [done|]. exists 0.
    split; [lia|]. split; [lia|]. split; [lia|]. intros i Hi. lia.
Qed.

(** The bisection of [find_last_id] keeps a missing ordinal above. *)
Lemma last_bisect_spec fuel low high r :
  exists_at high = false →
  last_bisect id_exists year month fuel low high = Some r →
  low < high →
  low ≤ r < high ∧ exists_at (r + 1) = false
  ∧ (r = low ∨ exists_at r = true).
Proof.
  revert low high. induction fuel as [|f IH]; intros low high Hh; [done|].
  cbn [last_bisect]. destruct (low + 1 <? high) eqn:Hlt.
  - apply Z.ltb_lt in Hlt.
    pose proof (mid_between low high Hlt) as Hmid.
    destruct (exists_at ((low + high) / 2)) eqn:Hm; intros Hr _.
    + destruct (IH _ _ Hh Hr) as (Hr1 & Hr2 & [->|Hr3]); [lia|..].
      * split; [lia|]. split; [done|]. by right.
      * split; [lia|]. split; [done|]. by right.
    + destruct (IH _ _ Hm Hr) as (Hr1 & Hr2 & Hr3); [lia|].
      split; [lia|]. done.
  - apply Z.ltb_ge in Hlt. intros [= <-] Hlh.
    split; [lia|]. split; [|by left].
    by replace (low + 1) with high by lia.
Qed.

(** X2.  Whatever the archive answers, [find_last_id] returns a number,
    never [None]: 99999 when the ordinals 1, 2, 4, ..., 65536 all exist,
    and otherwise a number below 65536 whose successor is missing and
    which is 0 or an existing ordinal. *)
Theorem find_last_id_boundary :
  ∃ n, find_last_id id_exists year month = Some (PyInt n)
       ∧ ((n = 99999 ∧ ∀ k, 0 ≤ k ≤ 16 → exists_at (2 ^ k) = true)
          ∨ (0 ≤ n < 65536
             ∧ exists_at (n + 1) = false
             ∧ (n = 0 ∧ exists_at 1 = false ∨ exists_at n = true))).
Proof.
  unfold find_last_id.
  pose proof (last_probe_ends id_exists year month probe_fuel 1) as Hends.
  destruct (last_probe id_exists year month probe_fuel 1)
    as [[v|high]|] eqn:Hp.
  - apply last_probe_spec in Hp as [-> Hall]; [|lia].
    exists 99999. split; [done|]. left. split; [done|]. intros k Hk.
    rewrite <- (Z.mul_1_l (2 ^ k)). apply Hall; [lia|].
    assert (2 ^ k ≤ 2 ^ 16) by (apply Z.pow_le_mono_r; lia).
    change (2 ^ 16) with 65536 in *. lia.
  - apply last_probe_spec in Hp as (Hex & j & Hj & -> & Hle & Hall); [|lia].
    rewrite Z.mul_1_l in *. specialize (Hle ltac:(lia)).
    pose proof (pow2_small j Hj Hle) as Hj16.
    assert (2 ^ j ≤ 2 ^ 16) by (apply Z.pow_le_mono_r; lia).
    change (2 ^ 16) with 65536 in *.
    assert (0 < 2 ^ j) by (apply Z.pow_pos_nonneg; lia).
    pose proof (half_bounds (2 ^ j) ltac:(lia)) as Hhalf.
    destruct (last_bisect_ends id_exists year month (Z.to_nat (2 ^ j))
                (2 ^ j / 2) (2 ^ j)) as (r & Hr & _); [lia..|].
    rewrite Hr. exists r. split; [done|]. right.
    destruct (last_bisect_spec _ _ _ _ Hex Hr) as (Hr1 & Hr2 & Hr3); [lia|].
    split; [lia|]. split; [done|].
    destruct (decide (j = 0)) as [->|Hne].
    + change (2 ^ 0) with 1 in *. change (1 / 2) with 0 in *.
      assert (r = 0) as -> by lia. left. done.
    + right. destruct Hr3 as [->|]; [|done].
      replace j with ((j - 1) + 1) by lia.
      rewrite Z.pow_add_r by lia. change (2 ^ 1) with 2.
      rewrite Z.div_mul by lia.
      specialize (Hall (j - 1) ltac:(lia)). by rewrite Z.mul_1_l in Hall.
  - exfalso. apply Hends; [unfold probe_fuel; lia|lia|done|done].
Qed.

(** X3.  In a month that holds exactly the ordinals [a..b],
    [find_first_id] returns [a] when one of 1, 2, 4, ..., 65536 lies in
    [a..b], and [None] when none does, although the month is not
    empty. *)
Theorem find_first_id_interval (a b : Z) :
  1 ≤ a ≤ b →
  (∀ n, 1 ≤ n ≤ 99999 → exists_at n = (a <=? n) && (n <=? b)) →
  (∀ k, 0 ≤ k ≤ 16 → a ≤ 2 ^ k ≤ b →
     find_first_id id_exists year month = Some (PyInt a))
  ∧ ((∀ k, 0 ≤ k ≤ 16 → ¬ a ≤ 2 ^ k ≤ b) →
     find_first_id id_exists year month = Some PyNone).
Proof.
  intros Hab Hin. unfold find_first_id.
  assert (∀ k, 0 ≤ k ≤ 16 → 1 ≤ 2 ^ k ≤ 99999) as Hpow.
  { intros k Hk.
    assert (2 ^ 0 ≤ 2 ^ k ≤ 2 ^ 16)
      by (split; apply Z.pow_le_mono_r; lia).
    change (2 ^ 16) with 65536 in *. change (2 ^ 0) with 1 in *. lia. }
  pose proof (first_probe_ends id_exists year month probe_fuel 1) as Hends.
  destruct (first_probe id_exists year month probe_fuel 1)
    as [[v|high]|] eqn:Hp.
  - apply first_probe_spec in Hp as [-> Hall]; [|lia].
    split; [|done]. intros k Hk Hkab. exfalso.
    specialize (Hall k ltac:(lia)). rewrite Z.mul_1_l in Hall.
    specialize (Hpow k Hk). rewrite Hin in Hall by lia.
    specialize (Hall ltac:(lia)). lia.
  - apply first_probe_spec in Hp as (Hex & j & Hj & -> & Hle & Hmiss);
      [|lia].
    rewrite Z.mul_1_l in *. specialize (Hle ltac:(lia)).
    pose proof (pow2_small j Hj Hle) as Hj16.
    specialize (Hpow j ltac:(lia)).
    assert (a ≤ 2 ^ j ≤ b) as Hjab by (rewrite Hin in Hex by lia; lia).
    split; [|intros Hno; exfalso; apply (Hno j); [lia|done]].
    intros _ _ _.
    destruct (first_bisect_ends id_exists year month (Z.to_nat (2 ^ j)) 1
                (2 ^ j)) as (r & Hr & Hrin & Hrout); [lia..|].
    rewrite Hr. cbn. do 2 f_equal.
    destruct (decide (j = 0)) as [->|Hne].
    + change (2 ^ 0) with 1 in *. rewrite Hrout by lia. lia.
    + assert (exists_at 1 = false) as H1.
      { specialize (Hmiss 0 ltac:(lia)). by rewrite Z.mul_1_l in Hmiss. }
      assert (2 ^ 1 ≤ 2 ^ j) by (apply Z.pow_le_mono_r; lia).
      change (2 ^ 1) with 2 in *.
      destruct (first_bisect_spec _ _ _ _ H1 Hex Hr) as (Hr1 & Hr2 & Hr3);
        [lia|].
      rewrite Hin in Hr2, Hr3 by lia. lia.
  - exfalso. apply Hends; [unfold probe_fuel; lia|lia|done|done].
Qed.

(** X4.  In a month that holds exactly the ordinals [1..N],
    [find_last_id] returns [N] when [N] is below 65536 and 99999
    otherwise. *)
Theorem find_last_id_interval (N : Z) :
  1 ≤ N ≤ 99999 →
  (∀ n, 1 ≤ n ≤ 99999 → exists_at n = (n <=? N)) →
  find_last_id id_exists year month
  = Some (PyInt (if N <? 65536 then N else 99999)).
Proof.
  intros HN Hin. unfold find_last_id.
  assert (∀ k, 0 ≤ k ≤ 16 → 1 ≤ 2 ^ k ≤ 65536) as Hpow.
  { intros k Hk.
    assert (2 ^ 0 ≤ 2 ^ k ≤ 2 ^ 16)
      by (split; apply Z.pow_le_mono_r; lia).
    change (2 ^ 16) with 65536 in *. change (2 ^ 0) with 1 in *. lia. }
  pose proof (last_probe_ends id_exists year month probe_fuel 1) as Hends.
  destruct (last_probe id_exists year month probe_fuel 1)
    as [[v|high]|] eqn:Hp.
  - apply last_probe_spec in Hp as [-> Hall]; [|lia].
    specialize (Hall 16 ltac:(lia) ltac:(done)).
    rewrite Hin in Hall by done. change (1 * 2 ^ 16) with 65536 in Hall.
    destruct (N <? 65536) eqn:HN'; [lia|done].
  - apply last_probe_spec in Hp as (Hex & j & Hj & -> & Hle & Hall); [|lia].
    rewrite Z.mul_1_l in *. specialize (Hle ltac:(lia)).
    pose proof (pow2_small j Hj Hle) as Hj16.
    pose proof (Hpow j ltac:(lia)) as Hpj.
    rewrite Hin in Hex by lia.
    destruct (N <? 65536) eqn:HN'; [|lia].
    pose proof (half_bounds (2 ^ j) ltac:(lia)) as Hhalf.
    destruct (last_bisect_ends id_exists year month (Z.to_nat (2 ^ j))
                (2 ^ j / 2) (2 ^ j)) as (r & Hr & _); [lia..|].
    rewrite Hr. cbn. do 2 f_equal.
    assert (exists_at (2 ^ j) = false) as Hex' by (rewrite Hin; lia).
    destruct (last_bisect_spec _ _ _ _ Hex' Hr) as (Hr1 & Hr2 & Hr3); [lia|].
    destruct (decide (j = 0)) as [->|Hne]; [change (2 ^ 0) with 1 in *; lia|].
    assert (2 ^ j / 2 = 2 ^ (j - 1)) as Hhalf'.
    { replace j with ((j - 1) + 1) at 1 by lia.
      rewrite Z.pow_add_r by lia. change (2 ^ 1) with 2.
      by rewrite Z.div_mul by lia. }
    assert (1 ≤ 2 ^ (j - 1)) by (apply (Hpow (j - 1)); lia).
    rewrite Hin in Hr2 by lia.
    destruct Hr3 as [->|Hr3].
    + specialize (Hall (j - 1) ltac:(lia)). rewrite Z.mul_1_l in Hall.
      rewrite Hhalf' in *. rewrite Hin in Hall by lia. lia.
    + rewrite Hin in Hr3 by lia. lia.
  - exfalso. apply Hends; [unfold probe_fuel; lia|lia|done|done].
Qed.

End MonthSearch.

(** The sample archive answers by the ordinal alone. *)
Lemma holds_get_ID_2304 (first last n : Z) :
  0 ≤ n →
  Cases.holds first last (ArxivHandler.get_ID 4 2023 n)
  = (first <=? n) && (n <=? last).
Proof.
  intros Hn. unfold Cases.holds. rewrite get_ID_2304.
  change (Py.drop 5 ("2304." +:+ Py.format_0d 5 n)) with (Py.format_0d 5 n).
  by rewrite int_format_0d.
Qed.

Lemma find_first_id_interval_witness :
  1 ≤ 3 ≤ 9
  ∧ (∀ n, 1 ≤ n ≤ 99999 →
       Cases.holds 3 9 (ArxivHandler.get_ID 4 2023 n) = (3 <=? n) && (n <=? 9))
  ∧ (∀ k, 0 ≤ k ≤ 16 → 3 ≤ 2 ^ k ≤ 9 →
       ArxivHandler.find_first_id (Cases.holds 3 9) 2023 4
       = Some (ArxivHandler.PyInt 3))
  ∧ ((∀ k, 0 ≤ k ≤ 16 → ¬ 3 ≤ 2 ^ k ≤ 9) →
       ArxivHandler.find_first_id (Cases.holds 3 9) 2023 4
       = Some ArxivHandler.PyNone).
Proof.
  assert (∀ n, 1 ≤ n ≤ 99999 →
            Cases.holds 3 9 (ArxivHandler.get_ID 4 2023 n)
            = (3 <=? n) && (n <=? 9)) as H
    by (intros n Hn; apply holds_get_ID_2304; lia).
  split; [lia|]. split; [exact H|].
  apply (find_first_id_interval (Cases.holds 3 9) 2023 4 3 9); [lia|exact H].
Defined.

Lemma find_last_id_interval_witness :
  1 ≤ 15000 ≤ 99999
  ∧ (∀ n, 1 ≤ n ≤ 99999 →
       Cases.holds 1 15000 (ArxivHandler.get_ID 4 2023 n) = (n <=? 15000))
  ∧ ArxivHandler.find_last_id (Cases.holds 1 15000) 2023 4
    = Some (ArxivHandler.PyInt (if 15000 <? 65536 then 15000 else 99999)).
Proof.
  assert (∀ n, 1 ≤ n ≤ 99999 →
            Cases.holds 1 15000 (ArxivHandler.get_ID 4 2023 n)
            = (n <=? 15000)) as H.
  { intros n Hn. rewrite holds_get_ID_2304 by lia.
    destruct (1 <=? n) eqn:H1; [done|lia]. }
  split; [lia|]. split; [exact H|].
  apply (find_last_id_interval (Cases.holds 1 15000) 2023 4 15000);
    [lia|exact H].
Defined.

(* ===================================================================== *)
(** * Identifiers: building and reading them back *)
(* ===================================================================== *)

Section Identifiers.

Import ArxivHandler.

(** The three fields of an identifier obtained from [get_ID]. *)
Lemma get_ID_shape (m y n : Z) :
  0 ≤ m ≤ 99 → 0 ≤ n ≤ 99999 →
  ∃ yy mm id_num,
    get_ID m y n = yy +:+ mm +:+ "." +:+ id_num
    ∧ two_digits yy = true ∧ two_digits mm = true
    ∧ five_digits id_num = true
    ∧ Py.int yy = Some (y mod 100) ∧ Py.int mm = Some m
    ∧ Py.int id_num = Some n.
Proof.
  intros Hm Hn. pose proof (Z.mod_pos_bound y 100 ltac:(lia)) as Hy.
  exists (Py.format_0d 2 (y mod 100)), (Py.format_0d 2 m),
    (Py.format_0d 5 n).
  split; [reflexivity|].
  split; [apply format_02d_digits; lia|].
  split; [apply format_02d_digits; lia|].
  split; [apply format_05d_digits; lia|].
  split; [apply int_format_0d; lia|].
  split; apply int_format_0d; lia.
Qed.

Lemma match_yymm_nnnnn_digits (yy mm id_num : string) :
  two_digits yy = true → two_digits mm = true → five_digits id_num = true →
  match_yymm_nnnnn (yy +:+ mm +:+ "." +:+ id_num) = Some (yy, mm, id_num).
Proof.
  intros Hy Hm Hn.
  destruct yy as [|y1 [|y2 [|]]]; try discriminate.
  destruct mm as [|m1 [|m2 [|]]]; try discriminate.
  destruct id_num as [|n1 [|n2 [|n3 [|n4 [|n5 [|]]]]]]; try discriminate.
  unfold match_yymm_nnnnn. cbn in *.
  repeat match goal with
         | H : _ && _ = true |- _ => apply andb_prop in H as [? ?]
         end.
  repeat match goal with
         | H : Py.is_digit _ = true |- _ => rewrite H; clear H
         end.
  reflexivity.
Qed.

Lemma match_base_id_digits (yy mm id_num : string) :
  two_digits yy = true → two_digits mm = true → five_digits id_num = true →
  Downloader.match_base_id (yy +:+ mm +:+ "." +:+ id_num)
  = Some (yy +:+ mm +:+ "." +:+ id_num).
Proof.
  intros Hy Hm Hn.
  destruct yy as [|y1 [|y2 [|]]]; try discriminate.
  destruct mm as [|m1 [|m2 [|]]]; try discriminate.
  destruct id_num as [|n1 [|n2 [|n3 [|n4 [|n5 [|]]]]]]; try discriminate.
  unfold Downloader.match_base_id. cbn in *.
  repeat match goal with
         | H : _ && _ = true |- _ => apply andb_prop in H as [? ?]
         end.
  repeat match goal with
         | H : Py.is_digit _ = true |- _ => rewrite H; clear H
         end.
  reflexivity.
Qed.

(** X5.  An identifier made by [get_ID] is read back by the regular
    expressions of the formatter and of the downloader: the three
    fields are the year modulo 100, the month and the ordinal, and the
    downloader takes the whole identifier as the base id. *)
Theorem get_ID_read_back (m y n : Z) :
  0 ≤ m ≤ 99 → 0 ≤ n ≤ 99999 →
  (∃ yy mm id_num,
     match_yymm_nnnnn (get_ID m y n) = Some (yy, mm, id_num)
     ∧ Py.int yy = Some (y mod 100) ∧ Py.int mm = Some m
     ∧ Py.int id_num = Some n)
  ∧ Downloader.match_base_id (get_ID m y n) = Some (get_ID m y n).
Proof.
  intros Hm Hn.
  destruct (get_ID_shape m y n Hm Hn)
    as (yy & mm & id_num & -> & Hyy & Hmm & Hnn & Hy & Hm' & Hn').
  split.
  - exists yy, mm, id_num. by rewrite match_yymm_nnnnn_digits.
  - by apply match_base_id_digits.
Qed.

Lemma get_ID_read_back_witness :
  0 ≤ 4 ≤ 99 ∧ 0 ≤ 7856 ≤ 99999
  ∧ (∃ yy mm id_num,
       match_yymm_nnnnn (get_ID 4 2023 7856) = Some (yy, mm, id_num)
       ∧ Py.int yy = Some (2023 mod 100) ∧ Py.int mm = Some 4
       ∧ Py.int id_num = Some 7856)
    ∧ Downloader.match_base_id (get_ID 4 2023 7856)
      = Some (get_ID 4 2023 7856).
Proof.
  split; [lia|]. split; [lia|]. apply (get_ID_read_back 4 2023 7856); lia.
Defined.

(** Identifiers differ as soon as the month, the ordinal or the last
    two digits of the year do. *)
Lemma get_ID_inj (m y n m' y' n' : Z) :
  0 ≤ m ≤ 99 → 0 ≤ n ≤ 99999 → 0 ≤ m' ≤ 99 → 0 ≤ n' ≤ 99999 →
  get_ID m y n = get_ID m' y' n' →
  m = m' ∧ y mod 100 = y' mod 100 ∧ n = n'.
Proof.
  intros Hm Hn Hm' Hn' Heq.
  destruct (get_ID_shape m y n Hm Hn)
    as (yy & mm & id_num & E1 & Hyy & Hmm & Hnn & Hy & Hm1 & Hn1).
  destruct (get_ID_shape m' y' n' Hm' Hn')
    as (yy' & mm' & id_num' & E2 & Hyy' & Hmm' & Hnn' & Hy' & Hm2 & Hn2).
  assert (match_yymm_nnnnn (get_ID m y n)
          = match_yymm_nnnnn (get_ID m' y' n')) as Hmatch by (by rewrite Heq).
  rewrite E1, E2 in Hmatch.
  rewrite !match_yymm_nnnnn_digits in Hmatch by done.
  injection Hmatch as -> -> ->. split; [|split]; congruence.
Qed.

(** X6.  [get_IDs_month] lists the identifiers of the ordinals
    [start_number..end_number] in ascending order and without
    repetition; the list is empty when the range is. *)
Theorem get_IDs_month_distinct (month year start_number end_number : Z) :
  0 ≤ month ≤ 99 → 0 ≤ start_number → end_number ≤ 99999 →
  length (get_IDs_month month year start_number end_number)
  = Z.to_nat (end_number + 1 - start_number)
  ∧ (∀ i : nat,
       start_number + Z.of_nat i ≤ end_number →
       get_IDs_month month year start_number end_number !! i
       = Some (get_ID month year (start_number + Z.of_nat i)))
  ∧ NoDup (get_IDs_month month year start_number end_number).
Proof.
  intros Hm Hs He. unfold get_IDs_month. split; [|split].
  - by rewrite length_fmap, length_seq.
  - intros i Hi. rewrite list_lookup_fmap, lookup_seq_lt by lia. done.
  - apply NoDup_fmap_2_strong; [|apply NoDup_seq].
    intros i j Hi%elem_of_seq Hj%elem_of_seq Heq.
    apply get_ID_inj in Heq; lia.
Qed.

Lemma get_IDs_month_distinct_witness :
  0 ≤ 3 ≤ 99 ∧ 0 ≤ 7856 ∧ 7858 ≤ 99999
  ∧ length (get_IDs_month 3 2023 7856 7858) = Z.to_nat (7858 + 1 - 7856)
  ∧ (∀ i : nat,
       7856 + Z.of_nat i ≤ 7858 →
       get_IDs_month 3 2023 7856 7858 !! i
       = Some (get_ID 3 2023 (7856 + Z.of_nat i)))
  ∧ NoDup (get_IDs_month 3 2023 7856 7858).
Proof.
  split; [lia|]. split; [lia|]. split; [lia|].
  apply (get_IDs_month_distinct 3 2023 7856 7858); lia.
Defined.

End Identifiers.

(* ===================================================================== *)
(** * The enumeration of [get_IDs_network] *)
(* ===================================================================== *)

Section Enumeration.

Import ArxivHandler.

Variables (start_ID end_month end_year end_ID total_paper : Z).

(** Before the end month the loop goes on as long as its fuel lasts and
    ends in the end month. *)
Lemma get_IDs_network_loop_ends (fuel : nat) (y m n_start : Z)
    (ids : list string) :
  1 ≤ m ≤ 12 → 1 ≤ end_month ≤ 12 →
  0 ≤ 12 * end_year + end_month - (12 * y + m) < Z.of_nat fuel →
  ∃ ids', get_IDs_network_loop fuel y m n_start start_ID end_month end_year
            end_ID total_paper ids = Some ids'.
Proof.
  revert y m n_start ids.
  induction fuel as [|f IH]; intros y m n_start ids Hm Hem Hd; [lia|].
  cbn [get_IDs_network_loop].
  destruct ((y =? end_year) && (m =? end_month)) eqn:Hend; [by eexists|].
  apply andb_false_iff in Hend.
  destruct (m + 1 >? 12) eqn:Hwrap.
  - apply IH; [lia|done|]. destruct Hend; lia.
  - apply IH; [lia|done|]. destruct Hend; lia.
Qed.

(** Past the end month the loop never meets it again. *)
Lemma get_IDs_network_loop_runs (fuel : nat) (y m n_start : Z)
    (ids : list string) :
  1 ≤ m ≤ 12 → 1 ≤ end_month ≤ 12 →
  12 * end_year + end_month < 12 * y + m →
  get_IDs_network_loop fuel y m n_start start_ID end_month end_year
    end_ID total_paper ids = None.
Proof.
  revert y m n_start ids.
  induction fuel as [|f IH]; intros y m n_start ids Hm Hem Hd; [done|].
  cbn [get_IDs_network_loop].
  destruct ((y =? end_year) && (m =? end_month)) eqn:Hend.
  { apply andb_true_iff in Hend. lia. }
  destruct (m + 1 >? 12) eqn:Hwrap; apply IH; lia.
Qed.

End Enumeration.

(** An empty range of ordinals gives no identifier. *)
Lemma get_IDs_month_empty (month year start_number end_number : Z) :
  end_number < start_number →
  ArxivHandler.get_IDs_month month year start_number end_number = [].
Proof.
  intros H. unfold ArxivHandler.get_IDs_month.
  by replace (Z.to_nat (end_number + 1 - start_number)) with 0%nat by lia.
Qed.

(** X7.  With months written 1..12, [get_IDs_network] returns when the end
    month is not before the start month, after one round of its loop per
    month; when the end month is before the start month its loop never
    ends. *)
Theorem get_IDs_network_returns
    (start_month start_year start_ID end_month end_year end_ID total_paper : Z) :
  1 ≤ start_month ≤ 12 → 1 ≤ end_month ≤ 12 →
  (12 * start_year + start_month ≤ 12 * end_year + end_month →
   ∃ ids,
     ArxivHandler.get_IDs_network
       (Z.to_nat (12 * end_year + end_month
                  - (12 * start_year + start_month)) + 1)
       start_month start_year start_ID end_month end_year end_ID total_paper
     = Some ids)
  ∧ (12 * end_year + end_month < 12 * start_year + start_month →
     ∀ fuel,
       ArxivHandler.get_IDs_network fuel start_month start_year start_ID
         end_month end_year end_ID total_paper = None).
Proof.
  intros Hsm Hem. unfold ArxivHandler.get_IDs_network. split.
  - intros Hle. apply get_IDs_network_loop_ends; [done..|lia].
  - intros Hlt fuel. by apply get_IDs_network_loop_runs.
Qed.

Lemma get_IDs_network_returns_witness :
  1 ≤ 3 ≤ 12 ∧ 1 ≤ 4 ≤ 12
  ∧ (12 * 2023 + 3 ≤ 12 * 2023 + 4 →
     ∃ ids,
       ArxivHandler.get_IDs_network
         (Z.to_nat (12 * 2023 + 4 - (12 * 2023 + 3)) + 1)
         3 2023 7856 4 2023 4606 15000 = Some ids)
  ∧ (12 * 2023 + 4 < 12 * 2023 + 3 →
     ∀ fuel,
       ArxivHandler.get_IDs_network fuel 3 2023 7856 4 2023 4606 15000
       = None).
Proof.
  split; [lia|]. split; [lia|].
  apply (get_IDs_network_returns 3 2023 7856 4 2023 4606 15000); lia.
Defined.

(** X8.  Over two successive months and with [0 <= end_ID <= total_paper],
    [get_IDs_network] lists the start month from [start_ID] on, then the
    end month from 1 to [end_ID], [total_paper] identifiers in all. *)
Theorem get_IDs_network_two_months
    (start_month start_year start_ID end_month end_year end_ID total_paper : Z)
    (fuel : nat) :
  1 ≤ start_month ≤ 12 →
  (end_month, end_year)
  = (if start_month =? 12 then (1, start_year + 1)
     else (start_month + 1, start_year)) →
  0 ≤ end_ID ≤ total_paper →
  let ids :=
    ArxivHandler.get_IDs_month start_month start_year start_ID
      (total_paper - end_ID + start_ID - 1)
    ++ ArxivHandler.get_IDs_month end_month end_year 1 end_ID in
  ArxivHandler.get_IDs_network (S (S fuel)) start_month start_year start_ID
    end_month end_year end_ID total_paper = Some ids
  ∧ Z.of_nat (length ids) = total_paper.
Proof.
  intros Hsm Hend Hid ids. split.
  - unfold ArxivHandler.get_IDs_network.
    cbn [ArxivHandler.get_IDs_network_loop].
    assert ((start_year =? end_year) && (start_month =? end_month) = false)
      as ->.
    { apply andb_false_iff. destruct (start_month =? 12) eqn:H12;
        injection Hend as -> ->; lia. }
    assert ((if start_month + 1 >? 12 then (1, start_year + 1)
             else (start_month + 1, start_year)) = (end_month, end_year))
      as ->.
    { rewrite Hend. destruct (start_month =? 12) eqn:H12;
        destruct (start_month + 1 >? 12) eqn:H13; try done; lia. }
    rewrite !Z.eqb_refl. cbn [andb]. subst ids. f_equal.
    destruct (start_ID <=? total_paper - end_ID + start_ID - 1) eqn:H1;
      destruct (1 <=? end_ID) eqn:H2; cbn [app]; try done.
    + rewrite (get_IDs_month_empty end_month) by lia. by rewrite app_nil_r.
    + by rewrite (get_IDs_month_empty start_month) by lia.
    + by rewrite (get_IDs_month_empty start_month),
        (get_IDs_month_empty end_month) by lia.
  - subst ids. unfold ArxivHandler.get_IDs_month.
    rewrite length_app, !length_fmap, !length_seq. lia.
Qed.

Lemma get_IDs_network_two_months_witness :
  let ids :=
    ArxivHandler.get_IDs_month 3 2023 7856 (15000 - 4606 + 7856 - 1)
    ++ ArxivHandler.get_IDs_month 4 2023 1 4606 in
  1 ≤ 3 ≤ 12
  ∧ (4, 2023) = (if 3 =? 12 then (1, 2023 + 1) else (3 + 1, 2023))
  ∧ 0 ≤ 4606 ≤ 15000
  ∧ ArxivHandler.get_IDs_network 2 3 2023 7856 4 2023 4606 15000 = Some ids
  ∧ Z.of_nat (length ids) = 15000.
Proof.
  intros ids. split; [lia|]. split; [reflexivity|]. split; [lia|].
  apply (get_IDs_network_two_months 3 2023 7856 4 2023 4606 15000 0);
    [lia|reflexivity|lia].
Defined.

(* ===================================================================== *)
(** * The enumeration of [get_IDs_All] *)
(* ===================================================================== *)

Section AskingTheArchive.

Import ArxivHandler ArxivRange.

Variable id_exists : string → bool.

(** [find_last_id] returns an integer, so that the test
    [n_end is None] of [get_IDs_All] never holds. *)
Lemma find_last_id_int (year month : Z) :
  ∃ n, find_last_id id_exists year month = Some (PyInt n).
Proof.
  destruct (find_last_id_total id_exists year month) as [r Hr].
  unfold find_last_id in *.
  destruct (last_probe id_exists year month probe_fuel 1)
    as [[v|high]|] eqn:Hp; [| |done].
  - apply last_probe_capped in Hp as ->. by exists 99999.
  - destruct (last_bisect id_exists year month (Z.to_nat high) (high / 2)
                high) as [n|]; [|done].
    by exists n.
Qed.

(** X9.  Over two successive months, [get_IDs_All] lists the start month
    from [start_ID] to what [find_last_id] returns, then the end month
    from what [find_first_id] returns to [end_ID]; when [find_first_id]
    returns [None] for the end month, the comparison
    [n_start <= n_end] raises [TypeError]. *)
Theorem get_IDs_All_two_months
    (start_month start_year start_ID end_month end_year end_ID : Z)
    (fuel : nat) :
  1 ≤ start_month ≤ 12 →
  (end_month, end_year)
  = (if start_month =? 12 then (1, start_year + 1)
     else (start_month + 1, start_year)) →
  ∃ last,
    find_last_id id_exists start_year start_month = Some (PyInt last)
    ∧ get_IDs_All id_exists (S (S fuel)) start_month start_year start_ID
        end_month end_year end_ID
      = Some match find_first_id id_exists end_year end_month with
             | Some (PyInt first) =>
                 inr (get_IDs_month start_month start_year start_ID last
                      ++ get_IDs_month end_month end_year first end_ID)
             | _ => inl (not_comparable PyNone (PyInt end_ID))
             end.
Proof.
  intros Hsm Hend.
  destruct (find_last_id_int start_year start_month) as [last Hlast].
  exists last. split; [done|].
  unfold get_IDs_All. cbn [get_IDs_All_loop].
  assert ((start_year =? end_year) && (start_month =? end_month) = false)
    as ->.
  { apply andb_false_iff. destruct (start_month =? 12) eqn:H12;
      injection Hend as -> ->; lia. }
  assert ((if start_month + 1 >? 12 then (1, start_year + 1)
           else (start_month + 1, start_year)) = (end_month, end_year))
    as ->.
  { rewrite Hend. destruct (start_month =? 12) eqn:H12;
      destruct (start_month + 1 >? 12) eqn:H13; try done; lia. }
  rewrite Hlast. cbn [mbind option_bind].
  destruct (find_first_id_total id_exists end_year end_month)
    as [first Hfirst].
  rewrite Hfirst. cbn [mbind option_bind]. rewrite !Z.eqb_refl. cbn [andb].
  destruct first as [|first]; [done|]. cbn [mbind option_bind]. do 2 f_equal.
  destruct (start_ID <=? last) eqn:H1; destruct (first <=? end_ID) eqn:H2;
    cbn [app]; try done.
  - rewrite (get_IDs_month_empty end_month) by lia. by rewrite app_nil_r.
  - by rewrite (get_IDs_month_empty start_month) by lia.
  - by rewrite (get_IDs_month_empty start_month),
      (get_IDs_month_empty end_month) by lia.
Qed.

End AskingTheArchive.

Lemma get_IDs_All_two_months_witness :
  1 ≤ 3 ≤ 12
  ∧ (4, 2023) = (if 3 =? 12 then (1, 2023 + 1) else (3 + 1, 2023))
  ∧ ∃ last,
      ArxivHandler.find_last_id (Cases.holds 1 20) 2023 3
      = Some (ArxivHandler.PyInt last)
      ∧ ArxivRange.get_IDs_All (Cases.holds 1 20) 2 3 2023 18 4 2023 2
        = Some match ArxivHandler.find_first_id (Cases.holds 1 20) 2023 4 with
               | Some (ArxivHandler.PyInt first) =>
                   inr (ArxivHandler.get_IDs_month 3 2023 18 last
                        ++ ArxivHandler.get_IDs_month 4 2023 first 2)
               | _ => inl (ArxivRange.not_comparable ArxivHandler.PyNone
                             (ArxivHandler.PyInt 2))
               end.
Proof.
  split; [lia|]. split; [reflexivity|].
  apply (get_IDs_All_two_months (Cases.holds 1 20) 3 2023 18 4 2023 2 0);
    [lia|reflexivity].
Defined.

(* ===================================================================== *)
(** * The two formatters of identifiers *)
(* ===================================================================== *)

Section Formatters.

Import ArxivHandler Downloader.

Lemma match_yymm_nnnnn_parts s yy mm id_num :
  match_yymm_nnnnn s = Some (yy, mm, id_num) →
  two_digits yy = true ∧ two_digits mm = true ∧ five_digits id_num = true.
Proof.
  unfold match_yymm_nnnnn.
  destruct s as [|c0 [|c1 [|c2 [|c3 [|c4 [|c5 [|c6 [|c7 [|c8 [|c9 rest
    ]]]]]]]]]]; try discriminate.
  cbn [Py.take Py.drop Py.len Nat.eqb Py.all_chars andb].
  destruct (Py.is_digit c0) eqn:H0; [|discriminate].
  destruct (Py.is_digit c1) eqn:H1; [|discriminate].
  destruct (Py.is_digit c2) eqn:H2; [|discriminate].
  destruct (Py.is_digit c3) eqn:H3; [|discriminate].
  cbn [andb]. destruct (String.eqb _ "."); [|discriminate].
  destruct (Py.is_digit c5) eqn:H5; [|discriminate].
  destruct (Py.is_digit c6) eqn:H6; [|discriminate].
  destruct (Py.is_digit c7) eqn:H7; [|discriminate].
  destruct (Py.is_digit c8) eqn:H8; [|discriminate].
  destruct (Py.is_digit c9) eqn:H9; [|discriminate].
  cbn [andb]. destruct (_ || _); [|discriminate].
  intros [= <- <- <-]. cbn.
  by rewrite H0, H1, H2, H3, H5, H6, H7, H8, H9.
Qed.

Lemma digit_not_dot c : Py.is_digit c = true → Ascii.eqb c "." = false.
Proof.
  destruct c as [[] [] [] [] [] [] [] []]; try discriminate; reflexivity.
Qed.

Lemma match_yymm_nnnnn_key yy mm id_num :
  two_digits yy = true → two_digits mm = true → five_digits id_num = true →
  match_yymm_nnnnn ("20" +:+ yy +:+ mm +:+ "-" +:+ id_num) = None.
Proof.
  intros Hy Hm Hn.
  destruct yy as [|y1 [|y2 [|]]]; try discriminate.
  destruct mm as [|m1 [|m2 [|]]]; try discriminate.
  destruct id_num as [|n1 [|n2 [|n3 [|n4 [|n5 [|]]]]]]; try discriminate.
  cbn in Hm. apply andb_prop in Hm as [Hm1 _].
  unfold match_yymm_nnnnn.
  cbn [String.append Py.take Py.drop Py.len Nat.eqb Py.all_chars andb].
  assert (String.eqb (String m1 "") "." = false) as ->.
  { cbn. by rewrite (digit_not_dot m1 Hm1). }
  by rewrite !andb_false_r.
Qed.

(** X10.  [format_arxiv_id_for_key] changes an identifier of the form
    [YYMM.NNNNN] into [20YYMM-NNNNN] and nothing else; applied to its
    own result it changes nothing. *)
Theorem format_arxiv_id_for_key_idempotent (arxiv_id : string) :
  (format_arxiv_id_for_key arxiv_id = arxiv_id
   ∨ ∃ yy mm id_num,
       two_digits yy = true ∧ two_digits mm = true
       ∧ five_digits id_num = true
       ∧ format_arxiv_id_for_key arxiv_id
         = "20" +:+ yy +:+ mm +:+ "-" +:+ id_num)
  ∧ format_arxiv_id_for_key (format_arxiv_id_for_key arxiv_id)
    = format_arxiv_id_for_key arxiv_id.
Proof.
  assert (format_arxiv_id_for_key arxiv_id = arxiv_id
          ∧ match_yymm_nnnnn arxiv_id = None
          ∨ ∃ yy mm id_num,
              two_digits yy = true ∧ two_digits mm = true
              ∧ five_digits id_num = true
              ∧ format_arxiv_id_for_key arxiv_id
                = "20" +:+ yy +:+ mm +:+ "-" +:+ id_num) as Hcases.
  { unfold format_arxiv_id_for_key.
    destruct (match_yymm_nnnnn arxiv_id) as [[[yy mm] id_num]|] eqn:Hm;
      [|by left].
    apply match_yymm_nnnnn_parts in Hm as (Hy & Hmm & Hn).
    right. exists yy, mm, id_num. repeat (split; [done|]).
    destruct yy as [|y1 [|y2 [|]]]; try discriminate. reflexivity. }
  destruct Hcases as [[Hsame Hm]|(yy & mm & id_num & Hy & Hmm & Hn & Hkey)].
  - split; [by left|]. by rewrite Hsame.
  - split; [right; by exists yy, mm, id_num|].
    rewrite Hkey. unfold format_arxiv_id_for_key.
    by rewrite match_yymm_nnnnn_key.
Qed.

Lemma replace_dot_inj s t :
  no_dash s = true → no_dash t = true →
  format_yymm_id s = format_yymm_id t → s = t.
Proof.
  unfold no_dash, format_yymm_id, Py.replace_char. revert t.
  induction s as [|c r IH]; intros [|d u]; try done.
  cbn [Py.all_chars Py.map_chars].
  intros [Hc Hr]%andb_prop [Hd Hu]%andb_prop [= Hcd Hru].
  f_equal; [|by apply IH].
  apply negb_true_iff in Hc, Hd.
  destruct (Ascii.eqb_spec c "."), (Ascii.eqb_spec d "."); by subst.
Qed.

(** X11.  [format_yymm_id] gives a name without a dot and of the same
    length; identifiers without a dash, as [get_ID] makes them, get
    different names as soon as they differ, so that two papers never
    share a folder. *)
Theorem format_yymm_id_injective (s t : string) :
  no_dash s = true → no_dash t = true →
  no_dot (format_yymm_id s) = true
  ∧ Py.len (format_yymm_id s) = Py.len s
  ∧ (format_yymm_id s = format_yymm_id t → s = t).
Proof.
  intros Hs Ht. split; [|split].
  - unfold no_dot, format_yymm_id, Py.replace_char. clear.
    induction s as [|c r IH]; [done|]. cbn [Py.map_chars Py.all_chars].
    rewrite IH, andb_true_r.
    destruct (Ascii.eqb_spec c "."); [done|].
    by apply negb_true_iff, Ascii.eqb_neq.
  - apply len_map_chars.
  - by apply replace_dot_inj.
Qed.

Lemma format_yymm_id_injective_witness :
  no_dash "2304.07856" = true ∧ no_dash "2304.07857" = true
  ∧ no_dot (format_yymm_id "2304.07856") = true
  ∧ Py.len (format_yymm_id "2304.07856") = Py.len "2304.07856"
  ∧ (format_yymm_id "2304.07856" = format_yymm_id "2304.07857" →
     "2304.07856" = "2304.07857").
Proof.
  split; [reflexivity|]. split; [reflexivity|].
  apply (format_yymm_id_injective "2304.07856" "2304.07857"); reflexivity.
Defined.

End Formatters.

(* ===================================================================== *)
(** * The disk: how the computations compose *)
(* ===================================================================== *)

Section DiskSteps.

Import Storage.

Lemma io_bind_inv {A B} (c : IO A) (k : A → IO B) s r s' :
  Storage.bind c k s = (r, s') →
  (∃ e, c s = (inl e, s') ∧ r = inl e)
  ∨ (∃ a s1, c s = (inr a, s1) ∧ k a s1 = (r, s')).
Proof.
  unfold Storage.bind. destruct (c s) as [[e|a] s1]; intros H.
  - left. exists e. by simplify_eq.
  - right. by exists a, s1.
Qed.

Lemma lift_inv {A} (c : M A) s r s' :
  lift c s = (r, s') →
  ∃ w, c (world_of s) = (r, w)
       ∧ s' = {| world_of := w; disk := disk s |}.
Proof.
  unfold lift. destruct (c (world_of s)) as [r1 w] eqn:H.
  intros [= <- <-]. by exists w.
Qed.

Context (p : event → bool).

Lemma adds_only_ret {A} (a : A) : adds_only p (Storage.ret a).
Proof. intros s r s' [= <- <-]. exists []. by rewrite app_nil_r. Qed.

Lemma adds_only_raise {A} e : adds_only p (Storage.raise (A:=A) e).
Proof. intros s r s' [= <- <-]. exists []. by rewrite app_nil_r. Qed.

Lemma adds_only_set_file path there : adds_only p (set_file path there).
Proof. intros s r s' [= <- <-]. exists []. by rewrite app_nil_r. Qed.

Lemma adds_only_lift_sum {A} (r : exn + A) :
  adds_only p (Storage.lift_sum r).
Proof. destruct r; [apply adds_only_raise|apply adds_only_ret]. Qed.

Lemma adds_only_lift {A} (c : M A) : quiet p c → adds_only p (lift c).
Proof.
  intros Hc s r s' (w & H & ->)%lift_inv. cbn [world_of].
  by apply Hc in H.
Qed.

Lemma adds_only_bind {A B} (c : IO A) (k : A → IO B) :
  adds_only p c → (∀ a, adds_only p (k a)) →
  adds_only p (Storage.bind c k).
Proof.
  intros Hc Hk s r s' [(e & H & ->)|(a & s1 & H & H')]%io_bind_inv.
  - eauto.
  - destruct (Hc _ _ _ H) as (evs & Ht & Hp).
    destruct (Hk _ _ _ _ H') as (evs' & Ht' & Hp').
    exists (evs ++ evs').
    rewrite Ht', Ht, app_assoc, forallb_app, Hp, Hp'. done.
Qed.

Lemma adds_only_try_except {A} (c : IO A) (h : exn → IO A) :
  adds_only p c → (∀ e, adds_only p (h e)) →
  adds_only p (Storage.try_except c h).
Proof.
  intros Hc Hh s r s'. unfold Storage.try_except.
  destruct (c s) as [[e|a] s1] eqn:H; intros H'.
  - destruct (Hc _ _ _ H) as (evs & Ht & Hp).
    destruct (Hh _ _ _ _ H') as (evs' & Ht' & Hp').
    exists (evs ++ evs').
    rewrite Ht', Ht, app_assoc, forallb_app, Hp, Hp'. done.
  - simplify_eq. eauto.
Qed.

Lemma adds_only_try_finally {A} (c : IO A) (f : IO unit) :
  adds_only p c → adds_only p f → adds_only p (Storage.try_finally c f).
Proof.
  intros Hc Hf s r s'. unfold Storage.try_finally.
  destruct (c s) as [r1 s1] eqn:H.
  destruct (f s1) as [[e|[]] s2] eqn:H'; intros ?; simplify_eq.
  all: destruct (Hc _ _ _ H) as (evs & Ht & Hp).
  all: destruct (Hf _ _ _ H') as (evs' & Ht' & Hp').
  all: exists (evs ++ evs').
  all: by rewrite Ht', Ht, app_assoc, forallb_app, Hp, Hp'.
Qed.

End DiskSteps.

(** Taking a computation on the disk apart along its structure. *)
Ltac adds_only_step :=
  first
    [ apply adds_only_ret | apply adds_only_raise
    | apply adds_only_set_file | apply adds_only_lift_sum
    | apply adds_only_lift; quiet
    | apply adds_only_bind; [|intros ?]
    | apply adds_only_try_except; [|intros ?]
    | apply adds_only_try_finally
    | assumption
    | match goal with
      | |- adds_only _ (match ?x with _ => _ end) => destruct x
      | |- adds_only _ (if ?x then _ else _) => destruct x
      end ].

Ltac adds_only := repeat adds_only_step.

Section DiskParts.

Import Downloader Storage.

Variable E : env.
Variable V : services.

Lemma endswith_spec (p s : string) :
  Py.endswith p s = true ↔ ∃ stem, s = stem +:+ p.
Proof.
  induction s as [|c r IH]; cbn [Py.endswith].
  - rewrite orb_false_r, String.eqb_eq. split.
    + intros ->. by exists "".
    + intros [stem H]. destruct stem; [done|discriminate].
  - rewrite orb_true_iff, String.eqb_eq, IH. split.
    + intros [->|[stem ->]]; [by exists ""|by exists (String c stem)].
    + intros [[|c' stem] H]; [by left|].
      injection H as -> ->. right. by exists stem.
Qed.

Lemma append_assoc (a b c : string) : (a +:+ b) +:+ c = a +:+ (b +:+ c).
Proof. induction a as [|x a IH]; cbn; [done|]. by rewrite IH. Qed.

(** The file-name of a bundle is not one that the clean-up keeps. *)
Lemma bundle_not_kept full_id :
  kept_by_cleanup (full_id +:+ ".tar.gz") = false.
Proof.
  assert (∀ (a b : string) (c d : ascii),
            c ≠ d → a +:+ String c "" ≠ b +:+ String d "") as Hlast.
  { induction a as [|x a IH]; intros [|y b] c d Hcd; cbn.
    - congruence.
    - destruct b; discriminate.
    - destruct a; discriminate.
    - intros [= -> H]. by apply IH in H. }
  unfold kept_by_cleanup. apply orb_false_iff.
  split; apply not_true_is_false; intros [stem H]%endswith_spec.
  - apply (Hlast (full_id +:+ ".tar.g") (stem +:+ ".te") "z" "x")%char;
      [done|].
    rewrite !append_assoc. exact H.
  - apply (Hlast (full_id +:+ ".tar.g") (stem +:+ ".bi") "z" "b")%char;
      [done|].
    rewrite !append_assoc. exact H.
Qed.

End DiskParts.

(* ===================================================================== *)
(** * The disk: removals, the clean-up and the fetch *)
(* ===================================================================== *)

Section DiskRemovals.

Import Downloader Storage.

Variable E : env.
Variable V : services.

Abbreviation guarded_remove path :=
  (Storage.try_except (remove_file E path)
     (λ e, if is_OSError e then Storage.ret tt else Storage.raise e)).

Lemma gone_true s path : gone s path = true ↔ disk s !! path = Some false.
Proof. unfold gone. apply bool_decide_eq_true. Qed.

Lemma gone_insert_false s s' path :
  disk s' = <[path:=false]> (disk s) → gone s' path = true.
Proof. intros H. apply gone_true. rewrite H. apply lookup_insert_eq. Qed.

Lemma gone_insert_other s s' path other there :
  disk s' = <[other:=there]> (disk s) → other ≠ path →
  gone s' path = gone s path.
Proof.
  intros H Hne. unfold gone. by rewrite H, lookup_insert_ne.
Qed.

Lemma gone_same s s' path : disk s' = disk s → gone s' path = gone s path.
Proof. intros H. unfold gone. by rewrite H. Qed.

(** One removal: of a file that is known to be gone, refused by the
    file system, or done. *)
Lemma guarded_remove_run path s r s' :
  guarded_remove path s = (r, s') →
  ∃ evs, trace (world_of s') = trace (world_of s) ++ evs
    ∧ (evs = [] ∧ disk s' = disk s
       ∨ gone s path = false ∧ r = inr tt ∧ evs = [EvRemove path]
         ∧ disk s' = <[path:=false]> (disk s))
    ∧ ((∀ n p e, os_remove E n p = Some e → is_OSError e = true) →
       r = inr tt)
    ∧ ((∀ n p, os_remove E n p = None) →
       r = inr tt
       ∧ (gone s path = true → evs = [])
       ∧ (gone s path = false → evs = [EvRemove path])).
Proof.
  unfold Storage.try_except, remove_file, gone.
  destruct (disk s !! path) as [[|]|] eqn:Hd.
  2:{ cbn. intros [= <- <-]. exists []. cbn. rewrite app_nil_r.
      split; [done|]. split; [by left|]. split; [done|].
      intros _. split; [done|]. split; [done|].
      by rewrite bool_decide_eq_true_2. }
  all: unfold Storage.bind, lift, remove, World.bind, tick_io,
         lift_failure, emit, set_file; cbn.
  all: destruct (os_remove E (io_ops (world_of s)) path) as [e|] eqn:Hrm;
         cbn.
  all: try (destruct (is_OSError e) eqn:Hos; cbn).
  all: intros [= <- <-]; cbn.
  all: try (exists []; rewrite app_nil_r; split; [done|];
            split; [by left|]; split;
            [intros Hall; first [done|apply Hall in Hrm; congruence]|];
            intros Hno; by rewrite Hno in Hrm).
  all: exists [EvRemove path]; split; [done|]; split;
         [right; by rewrite bool_decide_eq_false_2|];
         split; [done|]; split; [done|]; split; [|done];
         by rewrite bool_decide_eq_false_2.
Qed.

Lemma guarded_remove_removal path : adds_only removal (guarded_remove path).
Proof.
  intros s r s' H.
  destruct (guarded_remove_run _ _ _ _ H) as (evs & Ht & Hevs & _).
  exists evs. split; [done|].
  by destruct Hevs as [[-> _]|(_ & _ & -> & _)].
Qed.

Lemma cleanup_files_removal root files :
  adds_only removal (cleanup_files E root files).
Proof.
  induction files as [|file rest IH]; cbn [cleanup_files];
    [apply adds_only_ret|].
  apply adds_only_bind; [|intros _; exact IH].
  destruct (negb _); [apply guarded_remove_removal|apply adds_only_ret].
Qed.

Lemma cleanup_walk_removal walk : adds_only removal (cleanup_walk E walk).
Proof.
  induction walk as [|[root files] rest IH]; cbn [cleanup_walk];
    [apply adds_only_ret|].
  apply adds_only_bind; [apply cleanup_files_removal|intros _; exact IH].
Qed.

Lemma cleanup_removal folder :
  adds_only removal (cleanup_non_tex_bib_files E V folder).
Proof.
  unfold cleanup_non_tex_bib_files.
  apply adds_only_bind; [apply adds_only_lift; quiet|intros n].
  apply cleanup_walk_removal.
Qed.

Hypothesis Hremove : ∀ n path, os_remove E n path = None.

(** What the clean-up of one directory does to the file [t]. *)
Lemma cleanup_files_fate t root files s r s' :
  cleanup_files E root files s = (r, s') →
  r = inr tt
  ∧ ∃ evs, trace (world_of s') = trace (world_of s) ++ evs
      ∧ gone s' t = gone s t || asks_removal t root files
      ∧ Main.count (removal_of t) evs
        = (if negb (gone s t) && asks_removal t root files
           then 1 else 0)%nat.
Proof.
  revert s. induction files as [|file rest IH]; intros s.
  { intros [= <- <-]. split; [done|]. exists []. rewrite app_nil_r.
    cbn. by rewrite orb_false_r, andb_false_r. }
  cbn [cleanup_files asks_removal existsb].
  intros [(e & H & ->)|([] & s1 & H & Hrest)]%io_bind_inv.
  { exfalso. destruct (kept_by_cleanup file); [discriminate|].
    cbn [negb] in H.
    destruct (guarded_remove_run _ _ _ _ H) as (evs & _ & _ & _ & Hno).
    by destruct (Hno Hremove). }
  destruct (IH _ Hrest) as (-> & evs2 & Ht2 & Hg2 & Hc2).
  split; [done|].
  destruct (kept_by_cleanup file); cbn [negb andb orb] in *.
  { injection H as <-. by exists evs2. }
  destruct (guarded_remove_run _ _ _ _ H)
    as (evs1 & Ht1 & Hevs1 & _ & Hno).
  destruct (Hno Hremove) as (_ & Hgone & Hthere).
  exists (evs1 ++ evs2). rewrite Ht2, Ht1, app_assoc. split; [done|].
  rewrite count_app, Hc2, Hg2.
  destruct (String.eqb_spec (Py.path_join root file) t) as [Heq|Hne].
  - subst t. cbn [orb]. rewrite orb_true_r, andb_true_r.
    destruct (gone s (Py.path_join root file)) eqn:Hg.
    + rewrite (Hgone eq_refl) in *.
      destruct Hevs1 as [[_ Hd]|(_ & _ & [=] & _)].
      rewrite (gone_same _ _ _ Hd), Hg. done.
    + rewrite (Hthere eq_refl) in *.
      destruct Hevs1 as [[[=] _]|(_ & _ & _ & Hd)].
      rewrite (gone_insert_false _ _ _ Hd). cbn.
      by rewrite String.eqb_refl.
  - cbn [orb].
    assert (gone s1 t = gone s t) as ->.
    { destruct Hevs1 as [[_ Hd]|(_ & _ & _ & Hd)].
      - by apply gone_same.
      - by eapply gone_insert_other. }
    assert (Main.count (removal_of t) evs1 = 0%nat) as ->; [|done].
    destruct Hevs1 as [[-> _]|(_ & _ & -> & _)]; [done|]. cbn.
    destruct (String.eqb_spec t (Py.path_join root file)); [|done].
    congruence.
Qed.

Lemma cleanup_walk_fate t walk s r s' :
  cleanup_walk E walk s = (r, s') →
  r = inr tt
  ∧ ∃ evs, trace (world_of s') = trace (world_of s) ++ evs
      ∧ gone s' t = gone s t || walk_asks_removal t walk
      ∧ Main.count (removal_of t) evs
        = (if negb (gone s t) && walk_asks_removal t walk
           then 1 else 0)%nat.
Proof.
  revert s. induction walk as [|[root files] rest IH]; intros s.
  { intros [= <- <-]. split; [done|]. exists []. rewrite app_nil_r.
    cbn. by rewrite orb_false_r, andb_false_r. }
  cbn [cleanup_walk walk_asks_removal existsb fst snd].
  intros [(e & H & ->)|([] & s1 & H & Hrest)]%io_bind_inv.
  { by destruct (cleanup_files_fate t _ _ _ _ _ H). }
  destruct (cleanup_files_fate t _ _ _ _ _ H)
    as (_ & evs1 & Ht1 & Hg1 & Hc1).
  destruct (IH _ Hrest) as (-> & evs2 & Ht2 & Hg2 & Hc2).
  split; [done|]. exists (evs1 ++ evs2).
  rewrite Ht2, Ht1, app_assoc. split; [done|].
  rewrite count_app, Hc1, Hc2, Hg2, Hg1.
  fold (walk_asks_removal t rest).
  destruct (gone s t), (asks_removal t root files),
    (walk_asks_removal t rest); done.
Qed.

Lemma cleanup_fate t folder s r s' :
  cleanup_non_tex_bib_files E V folder s = (r, s') →
  let walk := os_walk V (io_ops (world_of s)) folder in
  r = inr tt
  ∧ ∃ evs, trace (world_of s') = trace (world_of s) ++ evs
      ∧ gone s' t = gone s t || walk_asks_removal t walk
      ∧ Main.count (removal_of t) evs
        = (if negb (gone s t) && walk_asks_removal t walk
           then 1 else 0)%nat.
Proof.
  unfold cleanup_non_tex_bib_files.
  intros [(e & [=] & _)|(n & s1 & [= <- <-] & H)]%io_bind_inv.
  by apply (cleanup_walk_fate t) in H.
Qed.

(** A walk that lists the bundle asks for its removal. *)
Lemma lists_asks_removal walk root full_id :
  lists walk root (full_id +:+ ".tar.gz") →
  walk_asks_removal (Py.path_join root (full_id +:+ ".tar.gz")) walk
  = true.
Proof.
  intros (files & Hin & Hfile). unfold walk_asks_removal.
  apply existsb_exists. exists (root, files).
  split; [by apply list_elem_of_In|]. cbn [fst snd].
  apply existsb_exists. exists (full_id +:+ ".tar.gz").
  split; [by apply list_elem_of_In|].
  by rewrite bundle_not_kept, String.eqb_refl.
Qed.

End DiskRemovals.

(* ===================================================================== *)
(** * The disk: one round of [download] *)
(* ===================================================================== *)

Section DiskRound.

Import Downloader Storage.

Variable E : env.
Variable V : services.

Lemma plain_count t evs :
  forallb plain_event evs = true →
  Main.count (removal_of t) evs = 0%nat.
Proof.
  induction evs as [|e evs IH]; [done|]. cbn [forallb].
  intros [He Hevs]%andb_prop. cbn [Main.count]. rewrite (IH Hevs).
  by destruct e.
Qed.

Lemma plain_not_downloaded path evs :
  forallb plain_event evs = true → EvDownloaded path ∉ evs.
Proof.
  intros H Hin. rewrite forallb_forall in H.
  apply list_elem_of_In, H in Hin. discriminate.
Qed.

Lemma plain_no_save evs :
  forallb plain_event evs = true → forallb no_save evs = true.
Proof.
  rewrite !forallb_forall. intros H e He. specialize (H e He).
  by destruct e.
Qed.

Lemma removal_not_downloaded path evs :
  forallb removal evs = true → EvDownloaded path ∉ evs.
Proof.
  intros H Hin. rewrite forallb_forall in H.
  apply list_elem_of_In, H in Hin. discriminate.
Qed.

Lemma removal_no_save evs :
  forallb removal evs = true → forallb no_save evs = true.
Proof.
  rewrite !forallb_forall. intros H e He. specialize (H e He).
  by destruct e.
Qed.

Lemma extract_member_plain extract_to position member :
  quiet plain_event (extract_member E extract_to position member).
Proof. unfold extract_member, makedirs. quiet. Qed.

Lemma extract_members_plain extract_to position members :
  quiet plain_event (extract_members E extract_to position members).
Proof.
  revert position. induction members as [|m rest IH]; intros position;
    cbn [extract_members]; quiet.
  - apply extract_member_plain.
  - apply IH.
Qed.

Lemma safe_extract_tar_plain tar_path extract_to :
  quiet plain_event (Downloader.safe_extract_tar E tar_path extract_to).
Proof.
  unfold Downloader.safe_extract_tar. quiet. apply extract_members_plain.
Qed.

Lemma safe_extract_tar_returns tar_path extract_to w :
  (Downloader.safe_extract_tar E tar_path extract_to w).1 = inr tt.
Proof.
  unfold Downloader.safe_extract_tar, World.try_except.
  match goal with
  | |- context [match ?c with _ => _ end] => by destruct c as [[e|[]] w1]
  end.
Qed.

Lemma made_files_stay (paths : list string) (d : gmap string bool) path :
  d !! path = Some true →
  foldr (λ made d, <[made:=true]> d) d paths !! path = Some true.
Proof.
  intros H. induction paths as [|made paths IH]; [done|]. cbn [foldr].
  destruct (decide (made = path)) as [->|Hne].
  - apply lookup_insert_eq.
  - by rewrite lookup_insert_ne.
Qed.

(** The extraction never raises, touches no bundle and removes
    nothing. *)
Lemma safe_extract_tar_run tar_path extract_to s r s' :
  Storage.safe_extract_tar E tar_path extract_to s = (r, s') →
  r = inr tt
  ∧ ∃ evs, trace (world_of s') = trace (world_of s) ++ evs
      ∧ forallb plain_event evs = true
      ∧ ∀ path, disk s !! path = Some true → disk s' !! path = Some true.
Proof.
  unfold Storage.safe_extract_tar.
  pose proof (safe_extract_tar_returns tar_path extract_to (world_of s))
    as Hr.
  destruct (Downloader.safe_extract_tar E tar_path extract_to (world_of s))
    as [r1 w] eqn:H.
  intros [= <- <-]. split; [done|].
  destruct (safe_extract_tar_plain _ _ _ _ _ H) as (evs & Ht & Hevs).
  exists evs. split; [done|]. split; [done|].
  intros path Hpath. cbn [disk]. by apply made_files_stay.
Qed.

(** The fetch of a bundle: it is on the disk in full when [True] is
    returned, cut short when the copy was interrupted, and not at all
    otherwise. *)
Lemma download_url_run url out_path s r s' :
  download_url E V url out_path s = (r, s') →
  ∃ evs, forallb plain_event evs = true
    ∧ (r = inr true
       ∧ trace (world_of s')
         = trace (world_of s) ++ evs ++ [EvDownloaded out_path]
       ∧ disk s' = <[out_path:=true]> (disk s)
       ∨ r ≠ inr true
         ∧ trace (world_of s') = trace (world_of s) ++ evs
         ∧ (disk s' = disk s
            ∨ ∃ n e, copy_body V n out_path = CopyRaises e
                     ∧ disk s' = <[out_path:=true]> (disk s))
         ∧ (expected_failures E V → r = inr false)).
Proof.
  unfold Storage.download_url, Storage.try_except, Storage.bind, lift,
    tick_io, emit, makedirs, World.bind, lift_failure, set_file. cbn.
  destruct (requests_get E _ url out_path) as [|code|e] eqn:Hget; cbn.
  - destruct (os_makedirs E _ _) as [e|] eqn:Hmk; cbn.
    { destruct (bool_decide _) eqn:Hclass; intros [= <- <-]; cbn.
      all: exists [EvHttpGet url out_path]; split; [done|]; right.
      all: split; [done|]; split; [done|]; split; [by left|].
      - done.
      - intros (Hmake & _). by rewrite Hmake in Hmk. }
    destruct (copy_body V _ out_path) as [|e|e] eqn:Hcopy; cbn.
    + intros [= <- <-]. cbn.
      exists [EvHttpGet url out_path; EvMakedirs (dirname out_path)].
      split; [done|]. left. split; [done|]. split; [|done].
      by rewrite <- !app_assoc.
    + destruct (bool_decide _) eqn:Hclass; intros [= <- <-]; cbn.
      all: exists [EvHttpGet url out_path; EvMakedirs (dirname out_path)].
      all: split; [done|]; right; split; [done|].
      all: split; [by rewrite <- !app_assoc|]; split; [by left|].
      * done.
      * intros (_ & _ & Hcp & _). specialize (Hcp (S (S (io_ops (world_of s)))) out_path).
        by rewrite Hcopy in Hcp.
    + destruct (bool_decide _) eqn:Hclass; intros [= <- <-]; cbn.
      all: exists [EvHttpGet url out_path; EvMakedirs (dirname out_path)].
      all: split; [done|]; right; split; [done|].
      all: split; [by rewrite <- !app_assoc|]; split; [right; eauto|].
      * done.
      * intros (_ & _ & Hcp & _). specialize (Hcp (S (S (io_ops (world_of s)))) out_path).
        rewrite Hcopy in Hcp. apply bool_decide_eq_false in Hclass. done.
  - intros [= <- <-]. cbn. exists [EvHttpGet url out_path].
    split; [done|]. right. split; [done|]. split; [done|].
    split; [by left|done].
  - destruct (bool_decide _) eqn:Hclass; intros [= <- <-]; cbn.
    all: exists [EvHttpGet url out_path]; split; [done|]; right.
    all: split; [done|]; split; [done|]; split; [by left|].
    + done.
    + intros (_ & Hreq & _). apply Hreq in Hget.
      apply bool_decide_eq_false in Hclass. done.
Qed.

Lemma makedirs_run path w r w' :
  makedirs E path w = (r, w') →
  ∃ evs, trace w' = trace w ++ evs
    ∧ forallb plain_event evs = true
    ∧ ((∀ n p, os_makedirs E n p = None) → r = inr tt).
Proof.
  unfold makedirs, World.bind, tick_io, lift_failure, emit. cbn.
  destruct (os_makedirs E (io_ops w) path) as [e|] eqn:Hmk; cbn.
  - intros [= <- <-]. exists []. rewrite app_nil_r. split; [done|].
    split; [done|]. intros Hno. by rewrite Hno in Hmk.
  - intros [= <- <-]. by exists [EvMakedirs path].
Qed.

(** What follows a bundle that was fetched in full. *)
Lemma after_fetch_run tar_path folder_version s r s' :
  disk s !! tar_path = Some true →
  (Storage.bind (lift tick_io)
     (λ n, Storage.bind (Storage.lift_sum (is_tarfile V n tar_path))
             (λ valid,
                if negb valid then
                  Storage.try_except (remove_file E tar_path)
                    (λ e, if is_OSError e then Storage.ret tt
                          else Storage.raise e)
                else
                  Storage.try_finally
                    (Storage.try_except
                       (Storage.bind
                          (Storage.safe_extract_tar E tar_path
                             folder_version)
                          (λ _, cleanup_non_tex_bib_files E V
                                  folder_version))
                       (λ e, Storage.ret tt))
                    (Storage.try_except (remove_file E tar_path)
                       (λ e, if is_OSError e then Storage.ret tt
                             else Storage.raise e))))) s
  = (r, s') →
  ∃ evs, trace (world_of s') = trace (world_of s) ++ evs
    ∧ forallb no_save evs = true
    ∧ (EvDownloaded tar_path ∉ evs)
    ∧ ((∃ n e, is_tarfile V n tar_path = inl e ∧ r = inl e
               ∧ evs = [] ∧ disk s' = disk s)
       ∨ ((∀ n p e, os_remove E n p = Some e → is_OSError e = true) →
          r = inr tt)
         ∧ ((∀ n p, os_remove E n p = None) →
            (∀ n, walk_asks_removal tar_path
                    (os_walk V n folder_version) = true) →
            r = inr tt
            ∧ Main.count (removal_of tar_path) evs = 1%nat
            ∧ disk s' !! tar_path = Some false)).
Proof.
  intros Hthere.
  assert (gone s tar_path = false) as Hgone.
  { unfold gone. rewrite Hthere. by apply bool_decide_eq_false_2. }
  intros [(e & [=] & _)|(n & s1 & [= <- <-] & H)]%io_bind_inv.
  apply io_bind_inv in H as [(e & H & ->)|(valid & s2 & H & H2)].
  { destruct (is_tarfile V _ tar_path) as [e'|b] eqn:Htar;
      [|discriminate H].
    injection H as <- <-. exists []. cbn. rewrite app_nil_r.
    split; [done|]. split; [done|].
    split; [by intros ?%elem_of_nil|]. left. by eexists _, _. }
  assert (s2 = ticked s) as ->.
  { destruct (is_tarfile V _ tar_path); [done|]. by injection H. }
  clear H. destruct valid; cbn [negb] in H2.
  - (* a tar archive *)
    unfold Storage.try_finally in H2.
    destruct (Storage.try_except _ _ (ticked s)) as [r1 s3] eqn:Htry in H2.
    destruct (Storage.try_except (remove_file E tar_path) _ s3)
      as [r4 s4] eqn:Hlast.
    assert (s' = s4) as -> by (destruct r4 as [?|[]]; by simplify_eq).
    unfold Storage.try_except in Htry.
    destruct (Storage.bind _ _ (ticked s)) as [r2 s2] eqn:Hbody in Htry.
    assert (s3 = s2 ∧ r1 = inr tt) as [-> ->]
      by (destruct r2 as [?|[]]; unfold Storage.ret in Htry;
          by simplify_eq).
    clear Htry.
    apply io_bind_inv in Hbody
      as [(e & Hx & _)|([] & sx & Hx & Hclean)].
    { by apply safe_extract_tar_run in Hx as [[=] _]. }
    apply safe_extract_tar_run in Hx as (_ & evsx & Htx & Hplain & Hstay).
    destruct (cleanup_removal E V _ _ _ _ Hclean) as (evsc & Htc & Hrem).
    destruct (guarded_remove_run E _ _ _ _ Hlast)
      as (evsf & Htf & Hevsf & Hos & Hno).
    exists (evsx ++ evsc ++ evsf).
    rewrite Htf, Htc, Htx, <- !app_assoc. split; [done|].
    assert (forallb removal evsf = true) as Hremf
      by (by destruct Hevsf as [[-> _]|(_ & _ & -> & _)]).
    split.
    { rewrite !forallb_app, (plain_no_save _ Hplain),
        (removal_no_save _ Hrem), (removal_no_save _ Hremf). done. }
    split.
    { intros [Hin|[Hin|Hin]%elem_of_app]%elem_of_app.
      - exact (plain_not_downloaded _ _ Hplain Hin).
      - exact (removal_not_downloaded _ _ Hrem Hin).
      - exact (removal_not_downloaded _ _ Hremf Hin). }
    right. split.
    { intros Hall. specialize (Hos Hall). subst r4. by simplify_eq. }
    intros Hnone Hwalk.
    destruct (Hno Hnone) as (-> & Hgonef & _).
    simplify_eq.
    destruct (cleanup_fate E V Hnone tar_path _ _ _ _ Hclean)
      as (_ & evsc' & Htc' & Hgc & Hcc).
    assert (evsc' = evsc) as -> by (rewrite Htc in Htc'; by simplify_list_eq).
    assert (gone sx tar_path = false) as Hgx.
    { unfold gone. rewrite (Hstay tar_path Hthere).
      by apply bool_decide_eq_false_2. }
    rewrite Hgx, Hwalk in Hgc, Hcc. cbn in Hgc, Hcc.
    rewrite (Hgonef Hgc) in *. rewrite app_nil_r.
    destruct Hevsf as [[_ Hd]|(Hcontra & _)]; [|congruence].
    split; [done|]. split.
    + by rewrite count_app, (plain_count _ _ Hplain), Hcc.
    + rewrite Hd. by apply gone_true.
  - (* not a tar archive *)
    destruct (guarded_remove_run E _ _ _ _ H2)
      as (evsf & Htf & Hevsf & Hos & Hno).
    exists evsf. split; [done|].
    assert (forallb removal evsf = true) as Hremf
      by (by destruct Hevsf as [[-> _]|(_ & _ & -> & _)]).
    split; [by apply removal_no_save|].
    split; [by eapply removal_not_downloaded|].
    right. split; [done|]. intros Hnone _.
    destruct (Hno Hnone) as (-> & _ & Hthere').
    split; [done|].
    assert (gone (ticked s) tar_path = false) as Hg by exact Hgone.
    rewrite (Hthere' Hg) in *.
    destruct Hevsf as [[[=] _]|(_ & _ & _ & Hd)].
    split; [cbn; by rewrite String.eqb_refl|].
    rewrite Hd. apply lookup_insert_eq.
Qed.

(** One round: nothing fetched in full, or [is_tarfile] raises, or the
    bundle is refused or unpacked, and removed. *)
Lemma download_version_run tex_root result s r s' :
  let tar_path := bundle_path tex_root result in
  let folder_version := Py.path_join tex_root (short_id result) in
  download_version E V tex_root result s = (r, s') →
  ∃ evs, trace (world_of s') = trace (world_of s) ++ evs
    ∧ forallb no_save evs = true
    ∧ ((EvDownloaded tar_path ∉ evs)
       ∧ Main.count (removal_of tar_path) evs = 0%nat
       ∧ (disk s' = disk s
          ∨ ∃ n e, copy_body V n tar_path = CopyRaises e
                   ∧ disk s' = <[tar_path:=true]> (disk s))
       ∧ (expected_failures E V → r = inr tt)
       ∨ (∃ n e, is_tarfile V n tar_path = inl e ∧ r = inl e
                 ∧ EvDownloaded tar_path ∈ evs
                 ∧ Main.count (removal_of tar_path) evs = 0%nat
                 ∧ disk s' !! tar_path = Some true
                 ∧ ∃ before, evs = before ++ [EvDownloaded tar_path])
       ∨ EvDownloaded tar_path ∈ evs
         ∧ (expected_failures E V → r = inr tt)
         ∧ ((∀ n p, os_remove E n p = None) →
            (∀ n, walk_asks_removal tar_path
                    (os_walk V n folder_version) = true) →
            r = inr tt
            ∧ Main.count (removal_of tar_path) evs = 1%nat
            ∧ disk s' !! tar_path = Some false)).
Proof.
  intros tar_path folder_version. unfold download_version.
  fold folder_version. change (Py.path_join folder_version
                                 (short_id result +:+ ".tar.gz"))
    with tar_path.
  intros [(e & H1 & ->)|([] & s1 & H1 & H)]%io_bind_inv.
  { apply lift_inv in H1 as (w & H1 & ->). cbn [world_of disk].
    apply makedirs_run in H1 as (evs & Ht & Hplain & Hok).
    exists evs. split; [done|]. split; [by apply plain_no_save|]. left.
    split; [by apply plain_not_downloaded|].
    split; [by apply plain_count|]. split; [by left|].
    intros (Hmake & _). by specialize (Hok Hmake). }
  apply lift_inv in H1 as (w & H1 & ->).
  apply makedirs_run in H1 as (evs1 & Ht1 & Hplain1 & _).
  apply io_bind_inv in H as [(e & H2 & ->)|(fetched & s2 & H2 & H)].
  { apply download_url_run in H2
      as (evs2 & Hplain2 & [([=] & _)|(_ & Ht2 & Hdisk & Hok)]).
    cbn [world_of disk] in *. exists (evs1 ++ evs2).
    rewrite Ht2, Ht1, <- app_assoc. split; [done|].
    assert (forallb plain_event (evs1 ++ evs2) = true) as Hplain
      by (by rewrite forallb_app, Hplain1, Hplain2).
    split; [by apply plain_no_save|]. left.
    split; [by apply plain_not_downloaded|].
    split; [by apply plain_count|]. split; [done|].
    intros Hexp. by specialize (Hok Hexp). }
  apply download_url_run in H2
    as (evs2 & Hplain2 & [([= ->] & Ht2 & Hdisk)|(Hnot & Ht2 & Hdisk & Hok)]).
  - (* the bundle is there in full *)
    cbn [negb] in H. cbn [world_of disk] in *.
    apply (after_fetch_run tar_path folder_version) in H
      as (evs3 & Ht3 & Hsave3 & Hnew3 & Hcases);
      [|rewrite Hdisk; apply lookup_insert_eq].
    exists (evs1 ++ evs2 ++ [EvDownloaded tar_path] ++ evs3).
    rewrite Ht3, Ht2, Ht1, <- !app_assoc. split; [done|].
    split.
    { rewrite !forallb_app, (plain_no_save _ Hplain1),
        (plain_no_save _ Hplain2), Hsave3. done. }
    assert (EvDownloaded tar_path
              ∈ evs1 ++ evs2 ++ [EvDownloaded tar_path] ++ evs3) as Hin.
    { rewrite !elem_of_app. right. right. left.
      by apply list_elem_of_singleton. }
    right.
    destruct Hcases as [(n & e & Htar & -> & -> & Hd)|[Hexp Hgone]].
    + left. exists n, e. split; [done|]. split; [done|]. split; [done|].
      split; [|split].
      * rewrite !count_app, (plain_count _ _ Hplain1),
          (plain_count _ _ Hplain2). done.
      * rewrite Hd, Hdisk. apply lookup_insert_eq.
      * exists (evs1 ++ evs2). by rewrite app_nil_r, <- app_assoc.
    + right. split; [done|]. split.
      * intros (_ & _ & _ & Hos). by apply Hexp.
      * intros Hnone Hwalk. destruct (Hgone Hnone Hwalk) as (-> & Hc & Hd).
        split; [done|]. split; [|done].
        rewrite !count_app, (plain_count _ _ Hplain1),
          (plain_count _ _ Hplain2), Hc. done.
  - (* nothing to unpack *)
    assert (fetched = false) as ->.
    { destruct fetched; [by destruct Hnot|done]. }
    cbn [negb] in H. injection H as <- <-.
    cbn [world_of disk] in *. exists (evs1 ++ evs2).
    rewrite Ht2, Ht1, <- app_assoc. split; [done|].
    assert (forallb plain_event (evs1 ++ evs2) = true) as Hplain
      by (by rewrite forallb_app, Hplain1, Hplain2).
    split; [by apply plain_no_save|]. left.
    split; [by apply plain_not_downloaded|].
    split; [by apply plain_count|]. done.
Qed.

(** A round whose copy is cut short leaves the part that was written. *)
Lemma download_version_cut tex_root result s e :
  let tar_path := bundle_path tex_root result in
  (∀ n path, os_makedirs E n path = None) →
  (∀ n url, requests_get E n url tar_path = Http200) →
  (∀ n, copy_body V n tar_path = CopyRaises e) →
  (download_version E V tex_root result s).1
  = (if bool_decide (exn_class_of e = RequestException)
     then inr tt else inl e)
  ∧ disk (download_version E V tex_root result s).2
    = <[tar_path:=true]> (disk s)
  ∧ trace (world_of (download_version E V tex_root result s).2)
    = trace (world_of s)
      ++ [ EvMakedirs (Py.path_join tex_root (short_id result));
           EvHttpGet (ARXIV_HOST +:+ "/src/" +:+ short_id result) tar_path;
           EvMakedirs (dirname tar_path) ].
Proof.
  intros tar_path Hmake Hget Hcopy.
  unfold download_version, Storage.download_url, Storage.try_except,
    Storage.bind, lift, tick_io, emit, makedirs, World.bind, lift_failure,
    set_file.
  cbn. rewrite !Hmake. cbn.
  change (Py.path_join (Py.path_join tex_root (short_id result))
            (short_id result +:+ ".tar.gz")) with tar_path.
  rewrite Hget. cbn. rewrite Hmake. cbn. rewrite Hcopy. cbn.
  destruct (bool_decide _); cbn; by rewrite <- !app_assoc.
Qed.

(** The loop over the versions ends at the first round that raises. *)
Lemma download_versions_run tex_root list_download result s r s' :
  expected_failures E V →
  download_versions E V tex_root list_download result s = (r, s') →
  ∃ evs, trace (world_of s') = trace (world_of s) ++ evs
    ∧ forallb no_save evs = true
    ∧ ((∃ last, r = inr last)
       ∨ ∃ version n e,
           version ∈ list_download
           ∧ is_tarfile V n (bundle_path tex_root version) = inl e
           ∧ r = inl e
           ∧ (∃ before,
                evs = before ++ [EvDownloaded (bundle_path tex_root version)])
           ∧ disk s' !! bundle_path tex_root version = Some true).
Proof.
  intros Hexp. revert result s.
  induction list_download as [|version rest IH]; intros result s.
  { intros [= <- <-]. exists []. rewrite app_nil_r. split; [done|].
    split; [done|]. left. eauto. }
  cbn [download_versions].
  intros [(e & H1 & ->)|([] & s1 & H1 & H)]%io_bind_inv.
  - apply download_version_run in H1
      as (evs & Ht & Hsave
          & [(_ & _ & _ & Hok)
            |[(n & e' & Htar & [= ->] & _ & _ & Hd & Hin)|(_ & Hok & _)]]).
    + by specialize (Hok Hexp).
    + exists evs. split; [done|]. split; [done|]. right.
      exists version, n, e'. split; [apply list_elem_of_here|]. done.
    + by specialize (Hok Hexp).
  - apply download_version_run in H1 as (evs1 & Ht1 & Hsave1 & _).
    apply IH in H as (evs2 & Ht2 & Hsave2 & Hcases).
    exists (evs1 ++ evs2). rewrite Ht2, Ht1, <- app_assoc.
    split; [done|]. split; [by rewrite forallb_app, Hsave1, Hsave2|].
    destruct Hcases
      as [Hlast|(v & n & e & Hv & Htar & -> & [before ->] & Hd)];
      [by left|].
    right. exists v, n, e. split; [by apply list_elem_of_further|].
    split; [done|]. split; [done|]. split; [|done].
    exists (evs1 ++ before). by rewrite app_assoc.
Qed.

End DiskRound.



(** X12.  Under the expected failures [download] raises only what
    [tarfile.is_tarfile], which is called outside every [try], raises on
    a bundle that has just been written in full: the exception ends
    [download] at once (the completed copy is the last thing that
    happens), the bundle stays on the disk and no metadata is saved.  Otherwise [download] returns: neither a refused request, nor
    a copy cut short, nor a bundle that is no archive, nor a failed
    extraction, removal or metadata save makes it raise. *)
Theorem download_raises_with_is_tarfile (E : env) (V : Storage.services)
    (list_download : list arxiv_result) (base_dir : string)
    (s : Storage.store) :
  expected_failures E V →
  let r := (Storage.download E V list_download base_dir s).1 in
  let s' := (Storage.download E V list_download base_dir s).2 in
  ∃ evs,
    trace (Storage.world_of s') = trace (Storage.world_of s) ++ evs
    ∧ (r = inr tt
       ∨ ∃ first tex_root version n e,
           head list_download = Some first
           ∧ Storage.tex_root_of base_dir first = Some tex_root
           ∧ version ∈ list_download
           ∧ Storage.is_tarfile V n (Storage.bundle_path tex_root version)
             = inl e
           ∧ r = inl e
           ∧ (∃ before,
                evs = before
                      ++ [EvDownloaded (Storage.bundle_path tex_root version)])
           ∧ Storage.disk s' !! Storage.bundle_path tex_root version
             = Some true
           ∧ ∀ path md, EvSaveMetadata path md ∉ evs).
Proof.
  intros Hexp. cbv zeta.
  destruct (Storage.download E V list_download base_dir s) as [r s'] eqn:H.
  cbn [fst snd]. revert H. unfold Storage.download.
  destruct list_download as [|first rest].
  { intros [= <- <-]. exists []. rewrite app_nil_r. split; [done|]. by left. }
  destruct (Downloader.match_base_id (short_id first)) as [arxiv_id|]
    eqn:Hid.
  2:{ intros [= <- <-]. exists []. rewrite app_nil_r. split; [done|].
      by left. }
  pose proof Hexp as (Hmake & _).
  intros [(e & H1 & ->)|([] & s1 & H1 & H)]%io_bind_inv.
  { apply lift_inv in H1 as (w & H1 & ->).
    apply (makedirs_run E) in H1 as (evs & _ & _ & Hok).
    by specialize (Hok Hmake). }
  apply lift_inv in H1 as (w1 & H1 & ->).
  apply (makedirs_run E) in H1 as (evs1 & Ht1 & Hplain1 & _).
  apply io_bind_inv in H as [(e & H2 & ->)|([] & s2 & H2 & H)].
  { apply lift_inv in H2 as (w & H2 & ->).
    apply (makedirs_run E) in H2 as (evs & _ & _ & Hok).
    by specialize (Hok Hmake). }
  apply lift_inv in H2 as (w2 & H2 & ->).
  apply (makedirs_run E) in H2 as (evs2 & Ht2 & Hplain2 & _).
  cbn [Storage.world_of Storage.disk] in *.
  apply io_bind_inv in H as [(e & H3 & ->)|(result & s3 & H3 & H)].
  - apply (download_versions_run E V) in H3
      as (evs3 & Ht3 & Hsave3 & [[last [=]]|Hraised]); [|done].
    destruct Hraised
      as (version & n & e' & Hv & Htar & [= ->] & [before Hin] & Hd).
    cbn [Storage.world_of] in Ht3.
    exists (evs1 ++ evs2 ++ evs3). rewrite Ht3, Ht2, Ht1, <- !app_assoc.
    split; [done|]. right.
    exists first, (Py.path_join
                     (Py.path_join base_dir
                        (Downloader.format_yymm_id arxiv_id)) "tex"),
      version, n, e'.
    split; [done|]. split; [unfold Storage.tex_root_of; by rewrite Hid|].
    split; [done|]. split; [done|]. split; [done|].
    split; [exists (evs1 ++ evs2 ++ before); by rewrite Hin, <- !app_assoc|].
    split; [done|].
    intros path md Hsaved.
    assert (forallb no_save (evs1 ++ evs2 ++ evs3) = true) as Hall.
    { rewrite !forallb_app, (plain_no_save _ Hplain1),
        (plain_no_save _ Hplain2), Hsave3. done. }
    rewrite forallb_forall in Hall.
    apply list_elem_of_In, Hall in Hsaved. discriminate.
  - apply (download_versions_run E V) in H3 as (evs3 & Ht3 & _); [|done].
    cbn [Storage.world_of] in Ht3.
    unfold Storage.try_except in H.
    destruct (Storage.bind _ _ s3) as [r4 s4] eqn:H4 in H.
    assert (r = inr tt ∧ s' = s4) as [-> ->].
    { destruct r4 as [e|[]]; unfold Storage.ret in H; by simplify_eq. }
    assert (adds_only (λ _, true)
              (Storage.bind
                 (Storage.lift
                    (MetadataCollector.save_metadata E result
                       (Py.path_join base_dir
                          (Downloader.format_yymm_id arxiv_id))))
                 (λ _, Storage.ret tt))) as Hany.
    { apply adds_only_bind; [|intros ?; apply adds_only_ret].
      apply adds_only_lift. unfold MetadataCollector.save_metadata.
      apply quiet_bind; [apply quiet_create_metadata|intros md].
      apply quiet_bind; [by apply quiet_makedirs|intros _]. quiet. }
    destruct (Hany _ _ _ H4) as (evs4 & Ht4 & _).
    exists (evs1 ++ evs2 ++ evs3 ++ evs4).
    rewrite Ht4, Ht3, Ht2, Ht1, <- !app_assoc. split; [done|]. by left.
Qed.

Lemma download_raises_with_is_tarfile_witness :
  let download V :=
    Storage.download Cases.rough V Cases.three_versions "/data"
      Storage.begin in
  expected_failures Cases.rough Cases.rough_disk
  ∧ expected_failures Cases.rough Cases.unreadable_disk
  ∧ (download Cases.rough_disk).1 = inr tt
  ∧ (download Cases.unreadable_disk).1
    = inl (Exn OSError "[Errno 13] Permission denied")
  ∧ (∃ evs,
       trace (Storage.world_of (download Cases.unreadable_disk).2)
       = trace (Storage.world_of Storage.begin) ++ evs
       ∧ ((download Cases.unreadable_disk).1 = inr tt
          ∨ ∃ first tex_root version n e,
              head Cases.three_versions = Some first
              ∧ Storage.tex_root_of "/data" first = Some tex_root
              ∧ version ∈ Cases.three_versions
              ∧ Storage.is_tarfile Cases.unreadable_disk n
                  (Storage.bundle_path tex_root version) = inl e
              ∧ (download Cases.unreadable_disk).1 = inl e
              ∧ (∃ before,
                   evs = before
                         ++ [EvDownloaded
                               (Storage.bundle_path tex_root version)])
              ∧ Storage.disk (download Cases.unreadable_disk).2
                  !! Storage.bundle_path tex_root version = Some true
              ∧ ∀ path md, EvSaveMetadata path md ∉ evs)).
Proof.
  intros download.
  assert (expected_failures Cases.rough Cases.rough_disk) as H1.
  { split; [done|]. split; [done|]. split.
    - intros n path. cbn. by destruct (Py.endswith _ path).
    - by intros n path e [= <-]. }
  assert (expected_failures Cases.rough Cases.unreadable_disk) as H2.
  { split; [done|]. split; [done|]. split.
    - intros n path. cbn. by destruct (Py.endswith _ path).
    - by intros n path e [= <-]. }
  split; [exact H1|]. split; [exact H2|].
  split; [vm_compute; reflexivity|]. split; [vm_compute; reflexivity|].
  exact (download_raises_with_is_tarfile Cases.rough Cases.unreadable_disk
           Cases.three_versions "/data" Storage.begin H2).
Defined.

(** X13.  What one round of [download] leaves of the bundle, on a disk
    on which [os.remove] fails only on a file that is gone and [os.walk]
    finds the bundle in its folder.  A bundle written in full is removed
    exactly once and is gone when the round returns: the clean-up deletes
    it with the other files that are neither [.tex] nor [.bib], so that
    the [os.remove] of the [finally] clause finds nothing, and a bundle
    that is no archive is removed at once.  The bundle is left on the
    disk when [is_tarfile] raises, and the part of a bundle whose copy
    was cut short stays on the disk and is never removed. *)
Theorem bundle_fate (E : env) (V : Storage.services) (tex_root : string)
    (result : arxiv_result) (s : Storage.store) :
  let folder_version := Py.path_join tex_root (short_id result) in
  let tar_path := Storage.bundle_path tex_root result in
  (∀ n path, os_remove E n path = None) →
  (∀ n, lists (Storage.os_walk V n folder_version) folder_version
          (short_id result +:+ ".tar.gz")) →
  let r := (Storage.download_version E V tex_root result s).1 in
  let s' := (Storage.download_version E V tex_root result s).2 in
  ∃ evs,
    trace (Storage.world_of s') = trace (Storage.world_of s) ++ evs
    ∧ (EvDownloaded tar_path ∈ evs →
       r = inr tt
       ∧ Main.count (removal_of tar_path) evs = 1%nat
       ∧ Storage.disk s' !! tar_path = Some false
       ∨ ∃ n e, Storage.is_tarfile V n tar_path = inl e
                ∧ r = inl e
                ∧ Main.count (removal_of tar_path) evs = 0%nat
                ∧ Storage.disk s' !! tar_path = Some true)
    ∧ (EvDownloaded tar_path ∉ evs →
       Main.count (removal_of tar_path) evs = 0%nat
       ∧ (Storage.disk s' = Storage.disk s
          ∨ ∃ n e, Storage.copy_body V n tar_path = Storage.CopyRaises e
                   ∧ Storage.disk s'
                     = <[tar_path:=true]> (Storage.disk s)))
    ∧ (∀ e,
         (∀ n path, os_makedirs E n path = None) →
         (∀ n url, requests_get E n url tar_path = Http200) →
         (∀ n, Storage.copy_body V n tar_path = Storage.CopyRaises e) →
         (EvDownloaded tar_path ∉ evs)
         ∧ Storage.disk s' !! tar_path = Some true).
Proof.
  intros folder_version tar_path Hremove Hwalk. cbv zeta.
  destruct (Storage.download_version E V tex_root result s) as [r s'] eqn:H.
  cbn [fst snd].
  pose proof (download_version_cut E V tex_root result s) as Hcut.
  rewrite H in Hcut. cbn [fst snd] in Hcut. fold tar_path in Hcut.
  apply download_version_run in H as (evs & Ht & _ & Hcases).
  fold tar_path folder_version in Hcases.
  assert (∀ n, walk_asks_removal tar_path
                 (Storage.os_walk V n folder_version) = true) as Hasks.
  { intros n. apply lists_asks_removal, Hwalk. }
  exists evs. split; [done|].
  assert (∀ e,
            (∀ n path, os_makedirs E n path = None) →
            (∀ n url, requests_get E n url tar_path = Http200) →
            (∀ n, Storage.copy_body V n tar_path = Storage.CopyRaises e) →
            (EvDownloaded tar_path ∉ evs)
            ∧ Storage.disk s' !! tar_path = Some true) as Hleft.
  { intros e Hmake Hget Hcopy.
    destruct (Hcut e Hmake Hget Hcopy) as (_ & Hdisk & Htrace).
    rewrite Ht in Htrace. apply app_inv_head in Htrace as ->.
    split; [|rewrite Hdisk; apply lookup_insert_eq].
    intros [H|[H|H%list_elem_of_singleton]%elem_of_cons]%elem_of_cons;
      discriminate. }
  destruct Hcases
    as [(Hnot & Hcount & Hdisk & _)
       |[(n & e & Htar & -> & Hin & Hcount & Hdisk & _)|(Hin & _ & Hgone)]].
  - split; [done|]. split; [by intros _|done].
  - split; [|done]. intros _. right. by exists n, e.
  - split; [|done]. intros _. left. by apply Hgone.
Qed.

Lemma bundle_fate_witness :
  let E := Sample.calm 1 Sample.two_files in
  let V := Cases.tidy_disk in
  let tex_root := "/data/2304-07856/tex" in
  let result := Sample.record "2304.07856" 1 in
  let folder_version := Py.path_join tex_root (short_id result) in
  let tar_path := Storage.bundle_path tex_root result in
  let r := (Storage.download_version E V tex_root result Storage.begin).1 in
  let s' := (Storage.download_version E V tex_root result Storage.begin).2 in
  let cut :=
    Storage.download_version E Cases.rough_disk tex_root
      (Sample.record "2304.07856" 3) Storage.begin in
  (∀ n path, os_remove E n path = None)
  ∧ (∀ n, lists (Storage.os_walk V n folder_version) folder_version
            (short_id result +:+ ".tar.gz"))
  ∧ cut.1 = inr tt
  ∧ Storage.disk cut.2
      !! "/data/2304-07856/tex/2304.07856v3/2304.07856v3.tar.gz"
    = Some true
  ∧ trace (Storage.world_of cut.2)
    = [ EvMakedirs "/data/2304-07856/tex/2304.07856v3";
        EvHttpGet "https://arxiv.org/src/2304.07856v3"
          "/data/2304-07856/tex/2304.07856v3/2304.07856v3.tar.gz";
        EvMakedirs "/data/2304-07856/tex/2304.07856v3" ]
  ∧ tar_path = "/data/2304-07856/tex/2304.07856v1/2304.07856v1.tar.gz"
  ∧ trace (Storage.world_of s')
    = [ EvMakedirs "/data/2304-07856/tex/2304.07856v1";
        EvHttpGet "https://arxiv.org/src/2304.07856v1" tar_path;
        EvMakedirs "/data/2304-07856/tex/2304.07856v1";
        EvDownloaded tar_path;
        EvMakedirs "/data/2304-07856/tex/2304.07856v1";
        EvExtracted 0 "main.tex"
          "/data/2304-07856/tex/2304.07856v1/main.tex";
        EvMakedirs "/data/2304-07856/tex/2304.07856v1";
        EvExtracted 1 "refs.bib"
          "/data/2304-07856/tex/2304.07856v1/refs.bib";
        EvRemove tar_path;
        EvRemove "/data/2304-07856/tex/2304.07856v1/figure.png" ]
  ∧ ∃ evs,
      trace (Storage.world_of s')
      = trace (Storage.world_of Storage.begin) ++ evs
      ∧ (EvDownloaded tar_path ∈ evs →
         r = inr tt
         ∧ Main.count (removal_of tar_path) evs = 1%nat
         ∧ Storage.disk s' !! tar_path = Some false
         ∨ ∃ n e, Storage.is_tarfile V n tar_path = inl e
                  ∧ r = inl e
                  ∧ Main.count (removal_of tar_path) evs = 0%nat
                  ∧ Storage.disk s' !! tar_path = Some true)
      ∧ (EvDownloaded tar_path ∉ evs →
         Main.count (removal_of tar_path) evs = 0%nat
         ∧ (Storage.disk s' = Storage.disk Storage.begin
            ∨ ∃ n e, Storage.copy_body V n tar_path = Storage.CopyRaises e
                     ∧ Storage.disk s'
                       = <[tar_path:=true]> (Storage.disk Storage.begin)))
      ∧ (∀ e,
           (∀ n path, os_makedirs E n path = None) →
           (∀ n url, requests_get E n url tar_path = Http200) →
           (∀ n, Storage.copy_body V n tar_path = Storage.CopyRaises e) →
           (EvDownloaded tar_path ∉ evs)
           ∧ Storage.disk s' !! tar_path = Some true).
Proof.
  intros E V tex_root result folder_version tar_path r s' cut.
  assert (∀ n path, os_remove E n path = None) as H1 by done.
  assert (∀ n, lists (Storage.os_walk V n folder_version) folder_version
                 (short_id result +:+ ".tar.gz")) as H2.
  { intros n. eexists. split; [apply list_elem_of_here|].
    vm_compute. apply list_elem_of_here. }
  split; [exact H1|]. split; [exact H2|].
  split; [vm_compute; reflexivity|]. split; [vm_compute; reflexivity|].
  split; [vm_compute; reflexivity|]. split; [reflexivity|].
  split; [vm_compute; reflexivity|].
  exact (bundle_fate E V tex_root result Storage.begin H1 H2).
Defined.

(* ===================================================================== *)
(** * The clean-up *)
(* ===================================================================== *)

Section CleaningUp.

Import Downloader Cleanup.

Variable E : env.

(** One removal, failed or not. *)
Lemma remove_one path w :
  let c := try_except (remove E path)
             (λ e, if is_OSError e then World.ret tt else World.raise e) in
  ∃ evs, trace (c w).2 = trace w ++ evs
    ∧ (evs = [] ∨ evs = [EvRemove path])
    ∧ ((∀ n p e, os_remove E n p = Some e → is_OSError e = true) →
       (c w).1 = inr tt)
    ∧ ((∀ n p, os_remove E n p = None) → evs = [EvRemove path]).
Proof.
  unfold try_except, remove, World.bind, tick_io, lift_failure, emit,
    World.ret, World.raise. cbn.
  destruct (os_remove E (io_ops w) path) as [e|] eqn:Hrm; cbn.
  - destruct (is_OSError e) eqn:Hos; cbn.
    + exists []. rewrite app_nil_r. split; [done|]. split; [by left|].
      split; [done|]. intros Hno. by rewrite Hno in Hrm.
    + exists []. rewrite app_nil_r. split; [done|]. split; [by left|].
      split.
      * intros Hall. apply Hall in Hrm. congruence.
      * intros Hno. by rewrite Hno in Hrm.
  - exists [EvRemove path]. split; [done|]. split; [by right|]. done.
Qed.

Lemma cleanup_files_spec root files w :
  let r := (cleanup_files E root files w).1 in
  let w' := (cleanup_files E root files w).2 in
  ∃ evs, trace w' = trace w ++ evs
    ∧ (∀ e, e ∈ evs →
         ∃ file, file ∈ files ∧ kept_by_cleanup file = false
                 ∧ e = EvRemove (Py.path_join root file))
    ∧ ((∀ n p e, os_remove E n p = Some e → is_OSError e = true) →
       r = inr tt)
    ∧ ((∀ n p, os_remove E n p = None) →
       evs = EvRemove
             <$> (Py.path_join root
                  <$> List.filter (λ file, negb (kept_by_cleanup file))
                        files)).
Proof.
  revert w. induction files as [|file rest IH]; intros w.
  { exists []. cbn. rewrite app_nil_r. split; [done|]. split; [|done].
    intros e He. by apply elem_of_nil in He. }
  cbn [cleanup_files List.filter].
  destruct (kept_by_cleanup file) eqn:Hkept; cbn [negb].
  - unfold World.bind at 1 2. cbn.
    destruct (IH w) as (evs & Ht & Hin & Hos & Hno).
    exists evs. split; [done|]. split; [|done].
    intros e He. destruct (Hin e He) as (f & Hf & Hk & ->).
    exists f. split; [|done]. apply elem_of_cons. by right.
  - destruct (remove_one (Py.path_join root file) w)
      as (evs1 & Ht1 & Hevs1 & Hos1 & Hno1).
    cbn zeta in *. unfold World.bind at 1 2.
    destruct (try_except _ _ w) as [r1 w1] eqn:H1. cbn [fst snd] in *.
    destruct (IH w1) as (evs & Ht & Hin & Hos & Hno).
    destruct r1 as [e|[]].
    + exists evs1. split; [done|]. split; [|split].
      * intros e' He'. exists file. split; [apply elem_of_cons; by left|].
        split; [done|].
        destruct Hevs1 as [->| ->]; [by apply elem_of_nil in He'|].
        by apply list_elem_of_singleton in He'.
      * intros Hall. by specialize (Hos1 Hall).
      * intros Hall. specialize (Hos1 ltac:(intros ???; by rewrite Hall)).
        done.
    + exists (evs1 ++ evs). rewrite Ht, Ht1, app_assoc.
      split; [done|]. split; [|split].
      * intros e' [He'|He']%elem_of_app.
        -- exists file. split; [apply elem_of_cons; by left|].
           split; [done|].
           destruct Hevs1 as [->| ->]; [by apply elem_of_nil in He'|].
           by apply list_elem_of_singleton in He'.
        -- destruct (Hin e' He') as (f & Hf & Hk & ->).
           exists f. split; [|done]. apply elem_of_cons. by right.
      * done.
      * intros Hall. rewrite (Hno1 Hall), (Hno Hall). done.
Qed.

End CleaningUp.

(** X14.  The clean-up keeps exactly the files whose names end in [.tex] or
    [.bib]: it removes nothing else than files of the walk with another
    ending, it asks for the removal of each of them in the order of the
    walk, and a removal that fails with an [OSError] is reported and does
    not stop it. *)
Theorem cleanup_spares_tex_and_bib (E : env)
    (walk : list (string * list string)) (w : world) :
  let r := (Cleanup.cleanup_non_tex_bib_files E walk w).1 in
  let w' := (Cleanup.cleanup_non_tex_bib_files E walk w).2 in
  (∀ file,
     Downloader.kept_by_cleanup file = true
     ↔ ∃ stem, file = stem +:+ ".tex" ∨ file = stem +:+ ".bib")
  ∧ ∃ evs, trace w' = trace w ++ evs
      ∧ (∀ e, e ∈ evs →
           ∃ root files file,
             (root, files) ∈ walk ∧ file ∈ files
             ∧ Downloader.kept_by_cleanup file = false
             ∧ e = EvRemove (Py.path_join root file))
      ∧ ((∀ n path e, os_remove E n path = Some e → is_OSError e = true) →
         r = inr tt)
      ∧ ((∀ n path, os_remove E n path = None) →
         evs = EvRemove <$> Cleanup.doomed walk).
Proof.
  cbn zeta. split.
  { intros file. unfold Downloader.kept_by_cleanup.
    rewrite orb_true_iff, !endswith_spec. split.
    - intros [[stem ->]|[stem ->]]; exists stem; auto.
    - intros [stem [->| ->]]; [left|right]; by exists stem. }
  revert w. induction walk as [|[root files] rest IH]; intros w.
  { exists []. cbn. rewrite app_nil_r. split; [done|]. split; [|done].
    intros e He. by apply elem_of_nil in He. }
  cbn [Cleanup.cleanup_non_tex_bib_files]. unfold World.bind at 1 2.
  destruct (cleanup_files_spec E root files w) as (evs1 & Ht1 & Hin1 & Hos1 & Hno1).
  destruct (Cleanup.cleanup_files E root files w) as [r1 w1] eqn:H1.
  cbn [fst snd] in *.
  destruct (IH w1) as (evs & Ht & Hin & Hos & Hno).
  destruct r1 as [e|[]].
  - exists evs1. split; [done|]. split; [|split].
    + intros e' He'. destruct (Hin1 e' He') as (f & Hf & Hk & ->).
      exists root, files, f. split; [apply elem_of_cons; by left|done].
    + intros Hall. by specialize (Hos1 Hall).
    + intros Hall. specialize (Hos1 ltac:(intros ???; by rewrite Hall)).
      done.
  - exists (evs1 ++ evs). rewrite Ht, Ht1, app_assoc.
    split; [done|]. split; [|split].
    + intros e' [He'|He']%elem_of_app.
      * destruct (Hin1 e' He') as (f & Hf & Hk & ->).
        exists root, files, f. split; [apply elem_of_cons; by left|done].
      * destruct (Hin e' He') as (root' & files' & f & Hw & Hf & Hk & ->).
        exists root', files', f. split; [apply elem_of_cons; by right|done].
    + done.
    + intros Hall. rewrite (Hno1 Hall), (Hno Hall).
      unfold Cleanup.doomed. cbn [flat_map]. by rewrite fmap_app.
Qed.

(* ===================================================================== *)
(** * The metadata of a version *)
(* ===================================================================== *)

Section MetadataOfVersion.

Import MetadataCollector.

(** X15.  For a record whose short id is [paper_id] followed by [v] and a
    version number [n >= 1], [create_metadata] returns, leaving the
    world alone, with the base identifier, [latest_version = n] and the
    [n] addresses [.../pdf/<paper_id>v1] to [.../pdf/<paper_id>vn], in
    this order; the revision date is listed only when it differs from
    the submission date. *)
Theorem create_metadata_of_version (paper_id : string) (n : Z)
    (result : arxiv_result) (w : world) :
  no_v paper_id = true → 1 ≤ n →
  short_id result = Spec.versioned paper_id n →
  ∃ md,
    create_metadata result w = (inr md, w)
    ∧ md_arxiv_id md = paper_id
    ∧ md_latest_version md = n
    ∧ md_pdf_urls md
      = (λ i, "http://arxiv.org/pdf/" +:+ Spec.versioned paper_id i)
          <$> Main.range_from_1 (n + 1)
    ∧ Z.of_nat (length (md_pdf_urls md)) = n
    ∧ md_revised_dates md
      = (if bool_decide (updated result = published result) then []
         else [ymd (updated result)]).
Proof.
  intros Hid Hn Hshort. unfold create_metadata.
  rewrite Hshort, split_versioned by (done || lia).
  unfold World.bind. cbn [lookup list_lookup lift_option World.ret].
  rewrite int_str_Z by lia. cbn [lift_option World.ret].
  eexists. split; [reflexivity|].
  cbn [md_arxiv_id md_latest_version md_pdf_urls md_revised_dates].
  split; [done|]. split; [done|].
  assert ((if n >? 1
           then (λ i : nat, "http://arxiv.org/pdf/" +:+ paper_id +:+ "v"
                            +:+ Py.str_Z (1 + Z.of_nat i))
                <$> seq 0 (Z.to_nat n)
           else ["http://arxiv.org/pdf/" +:+ Spec.versioned paper_id n])
          = (λ i, "http://arxiv.org/pdf/" +:+ Spec.versioned paper_id i)
              <$> Main.range_from_1 (n + 1)) as ->.
  { unfold Main.range_from_1. rewrite <- list_fmap_compose.
    replace (Z.to_nat (n + 1 - 1)) with (Z.to_nat n) by lia.
    destruct (n >? 1) eqn:Hgt; [done|].
    assert (n = 1) as -> by lia. done. }
  split; [done|]. split.
  - unfold Main.range_from_1. rewrite !length_fmap, length_seq. lia.
  - destruct (decide (updated result = published result)) as [Heq|Hne].
    + rewrite bool_decide_eq_false_2 by (intros Hx; by apply Hx).
      by rewrite bool_decide_eq_true_2.
    + rewrite bool_decide_eq_true_2 by done.
      by rewrite bool_decide_eq_false_2.
Qed.

Lemma create_metadata_of_version_witness :
  no_v "2304.07856" = true ∧ 1 ≤ 3
  ∧ short_id (Sample.record "2304.07856" 3) = Spec.versioned "2304.07856" 3
  ∧ ∃ md,
      create_metadata (Sample.record "2304.07856" 3) World.start
      = (inr md, World.start)
      ∧ md_arxiv_id md = "2304.07856"
      ∧ md_latest_version md = 3
      ∧ md_pdf_urls md
        = (λ i, "http://arxiv.org/pdf/" +:+ Spec.versioned "2304.07856" i)
            <$> Main.range_from_1 (3 + 1)
      ∧ Z.of_nat (length (md_pdf_urls md)) = 3
      ∧ md_revised_dates md
        = (if bool_decide (updated (Sample.record "2304.07856" 3)
                           = published (Sample.record "2304.07856" 3))
           then [] else [ymd (updated (Sample.record "2304.07856" 3))]).
Proof.
  split; [reflexivity|]. split; [lia|]. split; [reflexivity|].
  apply (create_metadata_of_version "2304.07856" 3); [reflexivity|lia|].
  reflexivity.
Defined.

(** X16.  A record whose short id carries no [v] has no version to read:
    [create_metadata] raises [IndexError], so that [save_metadata]
    writes nothing for it. *)
Theorem create_metadata_without_version (E : env) (paper : arxiv_result)
    (folder : string) (w : world) :
  no_v (short_id paper) = true →
  create_metadata paper w
  = (inl (Exn IndexError "list index out of range"), w)
  ∧ save_metadata E paper folder w
    = (inl (Exn IndexError "list index out of range"), w).
Proof.
  intros Hno. unfold save_metadata.
  assert (create_metadata paper w
          = (inl (Exn IndexError "list index out of range"), w)) as H.
  { unfold create_metadata. rewrite split_no_sep by done.
    unfold World.bind. by cbn. }
  split; [done|]. unfold World.bind at 1. by rewrite H.
Qed.

Lemma create_metadata_without_version_witness :
  let paper := {| short_id := "2304.07856"; title := "A paper";
                  authors := []; published := {| ymd := "2023-04-17";
                                                 seconds := 0 |};
                  updated := {| ymd := "2023-04-17"; seconds := 0 |};
                  categories := []; summary := ""; comment := None;
                  doi := None |} in
  no_v (short_id paper) = true
  ∧ create_metadata paper World.start
    = (inl (Exn IndexError "list index out of range"), World.start)
    ∧ save_metadata (Sample.calm 1 []) paper "/data" World.start
      = (inl (Exn IndexError "list index out of range"), World.start).
Proof.
  intros paper. split; [reflexivity|].
  by apply (create_metadata_without_version (Sample.calm 1 []) paper).
Defined.

End MetadataOfVersion.

(* ===================================================================== *)
(** * What a list of references is converted to *)
(* ===================================================================== *)

Section ReferenceContribution.

Import ReferenceExtractor.

Lemma author_names_pure items w : (author_names items w).2 = w.
Proof.
  induction items as [|author rest IH]; [done|].
  cbn [author_names]. unfold World.bind, dict_get, World.ret, World.raise.
  destruct author; try done.
  destruct (truthy _); [|done].
  destruct (author_names rest w) as [[e|names] w1] eqn:H;
    apply (f_equal snd) in H; rewrite IH in H; cbn in H; by subst.
Qed.

Lemma iterate_pure v w : (iterate v w).2 = w.
Proof. by destruct v. Qed.

(** What one reference contributes does not depend on what has been
    collected before it: it raises, or it is passed over, or it sets
    one key. *)
Lemma convert_reference_shape ref w :
  ∃ o : exn + option (string * ref_metadata),
    ∀ result,
      convert_reference ref result w
      = (match o with
         | inl e => inl e
         | inr None => inr result
         | inr (Some (key, md)) => inr (<[key := md]> result)
         end, w).
Proof.
  unfold convert_reference.
  destruct (truthy ref) eqn:Ht; cbn [negb];
    [|by exists (inr None)].
  destruct ref as [| | | | |d];
    try solve [eexists (inl _); intros; reflexivity].
  unfold World.bind at 1. cbn [dict_get World.ret].
  assert (∃ x, match default (JDict ∅) (d !! "externalIds") with
               | JNull => JDict ∅
               | _ => default (JDict ∅) (d !! "externalIds")
               end = x) as [ext Hext] by eauto.
  rewrite Hext. clear Hext.
  destruct ext as [| | | | |ids];
    try solve [eexists (inl _); intros; reflexivity].
  unfold World.bind at 1. cbn [dict_get World.ret].
  unfold World.bind at 1. cbn [dict_get World.ret].
  destruct (truthy (default (JStr "") (ids !! "ArXiv"))) eqn:Hta;
    cbn [negb]; [|by exists (inr None)].
  destruct (default (JStr "") (ids !! "ArXiv")) as [| | |s| |];
    try discriminate;
    try solve [eexists (inl _); intros; reflexivity].
  unfold World.bind at 1. cbn [World.ret].
  unfold World.bind at 1. cbn [dict_get World.ret].
  unfold World.bind at 1.
  destruct (iterate (default (JList []) (d !! "authors")) w)
    as [[e|items] w1] eqn:Hit;
    apply (f_equal snd) in Hit; rewrite iterate_pure in Hit;
    cbn in Hit; subst w1; [eexists (inl _); intros; reflexivity|].
  unfold World.bind at 1.
  destruct (author_names items w) as [[e|names] w1] eqn:Han;
    apply (f_equal snd) in Han; rewrite author_names_pure in Han;
    cbn in Han; subst w1;
    [eexists (inl _); intros; reflexivity|].
  unfold World.bind, dict_get, World.ret.
  eexists (inr (Some (_, _))). intros result. reflexivity.
Qed.

(** The same for a list of references: it raises, or it sets its keys
    in the order of the list. *)
Lemma convert_loop_shape references w :
  ∃ o : exn + list (string * ref_metadata),
    ∀ result,
      convert_loop references result w
      = (match o with
         | inl e => inl e
         | inr entries => inr (set_entries entries result)
         end, w).
Proof.
  induction references as [|ref rest IH].
  { exists (inr []). done. }
  destruct (convert_reference_shape ref w) as [o1 H1].
  destruct IH as [o2 H2]. cbn [convert_loop]. unfold World.bind.
  destruct o1 as [e|[[key md]|]].
  - exists (inl e). intros result. by rewrite H1.
  - destruct o2 as [e|entries].
    + exists (inl e). intros result. by rewrite H1, H2.
    + exists (inr ((key, md) :: entries)). intros result.
      by rewrite H1, H2.
  - exists o2. intros result. by rewrite H1, H2.
Qed.

Lemma set_entries_union (entries : list (string * ref_metadata)) result :
  set_entries entries result = set_entries entries ∅ ∪ result.
Proof.
  unfold set_entries. revert result.
  induction entries as [|[key md] rest IH]; intros result; cbn [foldl].
  - by rewrite (left_id ∅ (∪)).
  - rewrite IH, (IH (<[key:=md]> ∅)). cbn [fst snd].
    rewrite <- (assoc_L (∪)). f_equal.
    by rewrite insert_empty, <- insert_union_singleton_l.
Qed.

Lemma set_entries_app (l1 l2 : list (string * ref_metadata)) result :
  set_entries (l1 ++ l2) result = set_entries l2 (set_entries l1 result).
Proof. unfold set_entries. by rewrite foldl_app. Qed.

Lemma convert_loop_app l1 l2 result w :
  convert_loop (l1 ++ l2) result w
  = (let* r1 := convert_loop l1 result in convert_loop l2 r1) w.
Proof.
  revert result w. induction l1 as [|ref rest IH]; intros result w.
  - done.
  - cbn [app convert_loop]. unfold World.bind.
    destruct (convert_reference ref result w) as [[e|acc] w1]; [done|].
    rewrite IH. done.
Qed.

(** X17.  Converting a list of references amounts to converting its parts
    and letting the later part win: when two lists are converted
    without an exception, the concatenation gives the union of the two
    mappings in which, for a key present in both, the entry of the
    second list is kept. *)
Theorem convert_references_app (l1 l2 : list json) (w : world)
    (r1 r2 : gmap string ref_metadata) :
  (convert_to_references_dict l1 w).1 = inr r1 →
  (convert_to_references_dict l2 w).1 = inr r2 →
  convert_to_references_dict (l1 ++ l2) w = (inr (r2 ∪ r1), w)
  ∧ ∀ key, (r2 ∪ r1) !! key
           = match r2 !! key with Some md => Some md | None => r1 !! key end.
Proof.
  unfold convert_to_references_dict. intros H1 H2. split.
  - destruct (convert_loop_shape l1 w) as [o1 S1].
    destruct (convert_loop_shape l2 w) as [o2 S2].
    rewrite convert_loop_app. unfold World.bind.
    rewrite S1 in H1 |- *. rewrite S2 in H2. cbn [fst] in H1, H2.
    destruct o1 as [e|entries1]; [done|].
    destruct o2 as [e|entries2]; [done|].
    rewrite S2. simplify_eq. by rewrite set_entries_union.
  - intros key. rewrite lookup_union.
    destruct (r2 !! key), (r1 !! key); done.
Qed.

Lemma convert_references_app_witness :
  (convert_to_references_dict [Sample.reference_2304_07856]
     World.start).1
  = inr {[ "2304-07856" := Sample.entry_2304_07856 ]}
  ∧ (convert_to_references_dict [Cases.reference_again] World.start).1
    = inr {[ "2304-07856" := Cases.entry_again ]}
  ∧ convert_to_references_dict
      ([Sample.reference_2304_07856] ++ [Cases.reference_again])
      World.start
    = (inr ({[ "2304-07856" := Cases.entry_again ]}
            ∪ {[ "2304-07856" := Sample.entry_2304_07856 ]}),
       World.start)
    ∧ ∀ key,
        (({[ "2304-07856" := Cases.entry_again ]}
            : gmap string ref_metadata)
         ∪ {[ "2304-07856" := Sample.entry_2304_07856 ]}) !! key
        = match ({[ "2304-07856" := Cases.entry_again ]}
                   : gmap string ref_metadata) !! key with
          | Some md => Some md
          | None =>
              ({[ "2304-07856" := Sample.entry_2304_07856 ]}
                 : gmap string ref_metadata) !! key
          end.
Proof.
  assert ((convert_to_references_dict [Sample.reference_2304_07856]
             World.start).1
          = inr {[ "2304-07856" := Sample.entry_2304_07856 ]}) as H1
    by (vm_compute; reflexivity).
  assert ((convert_to_references_dict [Cases.reference_again]
             World.start).1
          = inr {[ "2304-07856" := Cases.entry_again ]}) as H2
    by (vm_compute; reflexivity).
  split; [exact H1|]. split; [exact H2|].
  apply (convert_references_app [Sample.reference_2304_07856]
           [Cases.reference_again] World.start); [exact H1|exact H2].
Defined.

(** On the references of a well-formed answer the conversion does not
    raise. *)
Lemma author_names_dicts items w :
  forallb is_dict items = true →
  ∃ names, author_names items w = (inr names, w).
Proof.
  induction items as [|author rest IH]; [by exists []|].
  cbn [forallb]. intros [Ha Hrest]%andb_prop.
  destruct (IH Hrest) as [names Hnames].
  destruct author as [| | | | |ad]; try discriminate.
  cbn [author_names]. unfold World.bind, dict_get, World.ret.
  destruct (truthy _); rewrite Hnames; eauto.
Qed.

Lemma truthy_dict_lookup (d : gmap string json) key v :
  d !! key = Some v → truthy (JDict d) = true.
Proof.
  intros H. cbn. destruct (map_to_list d) as [|kv l] eqn:Hl; [|done].
  apply map_to_list_empty_iff in Hl. subst. by rewrite lookup_empty in H.
Qed.

Lemma convert_reference_well_formed ref w :
  well_formed_reference ref = true →
  ∃ o : option (string * ref_metadata),
    (∀ result,
       convert_reference ref result w
       = (inr match o with
              | None => result
              | Some (key, md) => <[key := md]> result
              end, w))
    ∧ (∀ s, has_arxiv_id ref s →
            ∃ md, o = Some (Downloader.format_yymm_id s, md))
    ∧ (∀ key md, o = Some (key, md) →
                 ∃ s, has_arxiv_id ref s
                      ∧ key = Downloader.format_yymm_id s).
Proof.
  intros Hwf. destruct ref as [| | | | |d]; try discriminate.
  cbn [well_formed_reference] in Hwf.
  apply andb_prop in Hwf as [Hext Hauth].
  unfold convert_reference.
  destruct (truthy (JDict d)) eqn:Ht; cbn [negb].
  2:{ exists None. split; [done|]. split; [|done].
      intros s (d' & ids & [= <-] & Hd & _).
      by rewrite (truthy_dict_lookup _ _ _ Hd) in Ht. }
  assert (∃ items names,
            iterate (default (JList []) (d !! "authors")) w = (inr items, w)
            ∧ author_names items w = (inr names, w))
    as (items & names & Hit & Han).
  { destruct (d !! "authors") as [[| | | |authors|]|]; try discriminate.
    - destruct (author_names_dicts authors w Hauth) as [names Hn].
      by exists authors, names.
    - by exists [], []. }
  unfold World.bind at 1. cbn [dict_get World.ret].
  destruct (d !! "externalIds") as [[| | | | |ids]|] eqn:Hd;
    try discriminate; cbn [default from_option id].
  - exists None.
    split; [|split; [intros s (d' & ids & [= <-] & ? & _); congruence
                    |done]].
    intros result. unfold World.bind, dict_get, World.ret.
    by rewrite !lookup_empty.
  - destruct (ids !! "ArXiv") as [[| | |s| |]|] eqn:Hids; try discriminate.
    + exists None.
      split; [|split; [intros s (d' & ids' & [= <-] & ? & ? & _); congruence
                      |done]].
      intros result. unfold World.bind, dict_get, World.ret.
      by rewrite Hids.
    + destruct (decide (s = "")) as [->|Hne].
      * exists None.
        split; [|split; [intros s (d' & ids' & [= <-] & ? & ? & ?);
                         congruence|done]].
        intros result. unfold World.bind, dict_get, World.ret.
        by rewrite Hids.
      * eexists (Some (Downloader.format_yymm_id s, _)). split; [|split].
        -- intros result. unfold World.bind at 1. cbn [dict_get World.ret].
           unfold World.bind at 1. cbn [dict_get World.ret].
           rewrite Hids. cbn [default from_option id].
           assert (truthy (JStr s) = true) as -> by (by destruct s).
           cbn [negb]. unfold World.bind at 1. cbn [World.ret].
           unfold World.bind at 1. cbn [dict_get World.ret].
           unfold World.bind at 1. rewrite Hit.
           unfold World.bind at 1. rewrite Han.
           unfold World.bind, dict_get, World.ret. reflexivity.
        -- intros s' (d' & ids' & [= <-] & ? & ? & ?). simplify_eq. eauto.
        -- intros key md [= <- <-]. exists s. split; [|done].
           by exists d, ids.
    + exists None.
      split; [|split; [intros s (d' & ids' & [= <-] & ? & ? & _); congruence
                      |done]].
      intros result. unfold World.bind, dict_get, World.ret.
      by rewrite Hids.
  - exists None.
    split; [|split; [intros s (d' & ids & [= <-] & ? & _); congruence
                    |done]].
    intros result. unfold World.bind, dict_get, World.ret.
    by rewrite !lookup_empty.
Qed.

Lemma size_set_entry (key : string) (md : ref_metadata)
    (result : gmap string ref_metadata) :
  (size (<[key := md]> result) ≤ S (size result))%nat.
Proof.
  destruct (result !! key) eqn:H.
  - rewrite <- (insert_delete_id result key r) at 1 by done.
    rewrite insert_insert_eq, map_size_insert_None by apply lookup_delete_eq.
    rewrite map_size_delete, H. lia.
  - rewrite map_size_insert_None by done. lia.
Qed.

(** X18.  On a well-formed list of references the conversion returns
    without raising; the keys of the mapping are exactly
    [format_yymm_id] of the archive identifiers that occur in the list,
    so that no more entries are made than there are references. *)
Theorem convert_references_well_formed (references : list json)
    (w : world) :
  forallb well_formed_reference references = true →
  ∃ result,
    convert_to_references_dict references w = (inr result, w)
    ∧ (∀ key,
         is_Some (result !! key)
         ↔ ∃ ref s, ref ∈ references ∧ has_arxiv_id ref s
                    ∧ key = Downloader.format_yymm_id s)
    ∧ (size result ≤ length references)%nat.
Proof.
  intros Hwf. unfold convert_to_references_dict.
  assert (∀ acc,
    ∃ result,
      convert_loop references acc w = (inr result, w)
      ∧ (∀ key,
           is_Some (result !! key)
           ↔ is_Some (acc !! key)
             ∨ ∃ ref s, ref ∈ references ∧ has_arxiv_id ref s
                        ∧ key = Downloader.format_yymm_id s)
      ∧ (size result ≤ size acc + length references)%nat) as Hgen.
  { induction references as [|ref rest IH]; intros acc.
    - exists acc. split; [done|]. split; [|cbn; lia].
      intros key. split; [by left|].
      intros [?|(ref & s & Hin & _)]; [done|by apply elem_of_nil in Hin].
    - cbn [forallb] in Hwf. apply andb_prop in Hwf as [Hr Hrest].
      destruct (convert_reference_well_formed ref w Hr)
        as (o & Ho & Hid & Hkey).
      cbn [convert_loop]. unfold World.bind. rewrite Ho.
      destruct (IH Hrest (match o with
                          | None => acc
                          | Some (key, md) => <[key := md]> acc
                          end)) as (result & Hres & Hkeys & Hsize).
      exists result. split; [done|]. split.
      + intros key. rewrite Hkeys. split.
        * intros [Hacc|(r & s & Hin & Hs & ->)].
          -- destruct o as [[k md]|]; [|by left].
             destruct (decide (k = key)) as [->|Hne].
             ++ right. destruct (Hkey _ _ eq_refl) as (s & Hs & ->).
                exists ref, s. split; [apply elem_of_cons; by left|done].
             ++ left. by rewrite lookup_insert_ne in Hacc.
          -- right. exists r, s. split; [apply elem_of_cons; by right|done].
        * intros [Hacc|(r & s & [->|Hin]%elem_of_cons & Hs & ->)].
          -- left. destruct o as [[k md]|]; [|done].
             destruct (decide (k = key)) as [->|Hne].
             ++ by rewrite lookup_insert_eq.
             ++ by rewrite lookup_insert_ne.
          -- left. destruct (Hid s Hs) as [md ->].
             by rewrite lookup_insert_eq.
          -- right. by exists r, s.
      + cbn [length]. destruct o as [[k md]|]; [|lia].
        pose proof (size_set_entry k md acc). lia. }
  destruct (Hgen ∅) as (result & Hres & Hkeys & Hsize).
  exists result. split; [done|]. split.
  - intros key. rewrite Hkeys. split; [|by right].
    intros [Hempty|?]; [|done]. rewrite lookup_empty in Hempty.
    by destruct Hempty.
  - by rewrite map_size_empty in Hsize.
Qed.

Lemma convert_references_well_formed_witness :
  forallb well_formed_reference
    [Sample.reference_2304_07856; Cases.reference_again] = true
  ∧ ∃ result,
      convert_to_references_dict
        [Sample.reference_2304_07856; Cases.reference_again] World.start
      = (inr result, World.start)
      ∧ (∀ key,
           is_Some (result !! key)
           ↔ ∃ ref s,
               ref ∈ [Sample.reference_2304_07856; Cases.reference_again]
               ∧ has_arxiv_id ref s
               ∧ key = Downloader.format_yymm_id s)
      ∧ (size result
         ≤ length [Sample.reference_2304_07856; Cases.reference_again])%nat.
Proof.
  split; [vm_compute; reflexivity|].
  apply convert_references_well_formed. vm_compute. reflexivity.
Defined.

(** A reference with an archive identifier whose [authors] is [null]
    cannot be iterated over. *)
Lemma convert_reference_authors_null d s result w :
  has_arxiv_id (JDict d) s → d !! "authors" = Some JNull →
  convert_reference (JDict d) result w
  = (inl (Exn TypeError "object is not iterable"), w).
Proof.
  intros (d' & ids & [= <-] & Hd & Hids & Hs) Hauth.
  unfold convert_reference.
  rewrite (truthy_dict_lookup _ _ _ Hd). cbn [negb].
  unfold World.bind at 1. cbn [dict_get World.ret].
  rewrite Hd. cbn [default from_option id].
  unfold World.bind at 1. cbn [dict_get World.ret].
  unfold World.bind at 1. cbn [dict_get World.ret].
  rewrite Hids. cbn [default from_option id].
  assert (truthy (JStr s) = true) as -> by (by destruct s).
  cbn [negb]. unfold World.bind at 1. cbn [World.ret].
  unfold World.bind at 1. cbn [dict_get World.ret].
  rewrite Hauth. cbn [default from_option id].
  unfold World.bind at 1. reflexivity.
Qed.

(** X19.  One reference that carries an archive identifier and whose
    [authors] is [null] makes the conversion of the whole list raise:
    no mapping is returned, whatever the other references are. *)
Theorem convert_references_authors_null (references : list json)
    (d : gmap string json) (s : string) (w : world) :
  JDict d ∈ references →
  has_arxiv_id (JDict d) s →
  d !! "authors" = Some JNull →
  ∃ e, (convert_to_references_dict references w).1 = inl e.
Proof.
  intros Hin Hs Hauth. unfold convert_to_references_dict.
  generalize (∅ : gmap string ref_metadata). revert w.
  induction references as [|ref rest IH]; intros w acc;
    [by apply elem_of_nil in Hin|].
  cbn [convert_loop]. unfold World.bind.
  apply elem_of_cons in Hin as [<-|Hin].
  - rewrite (convert_reference_authors_null d s) by done. by eexists.
  - destruct (convert_reference ref acc w) as [[e|acc'] w1];
      [by eexists|].
    by apply IH.
Qed.

Lemma convert_references_authors_null_witness :
  let d : gmap string json :=
    {[ "externalIds" := JDict {[ "ArXiv" := JStr "2304.07856" ]};
       "authors" := JNull ]} in
  JDict d ∈ [Sample.reference_2304_07856; JDict d]
  ∧ has_arxiv_id (JDict d) "2304.07856"
  ∧ d !! "authors" = Some JNull
  ∧ ∃ e, (convert_to_references_dict [Sample.reference_2304_07856; JDict d]
            World.start).1 = inl e.
Proof.
  intros d.
  assert (JDict d ∈ [Sample.reference_2304_07856; JDict d]) as Hin
    by (apply elem_of_cons; right; apply elem_of_cons; by left).
  assert (has_arxiv_id (JDict d) "2304.07856") as Hs.
  { exists d, {[ "ArXiv" := JStr "2304.07856" ]}.
    split; [done|]. split; [by vm_compute|]. split; [by vm_compute|done]. }
  assert (d !! "authors" = Some JNull) as Hauth by (by vm_compute).
  split; [exact Hin|]. split; [exact Hs|]. split; [exact Hauth|].
  exact (convert_references_authors_null _ d "2304.07856" World.start
           Hin Hs Hauth).
Defined.

End ReferenceContribution.

(* ===================================================================== *)
(** * Asking for the references of a paper *)
(* ===================================================================== *)

Section VersionSuffix.

Import Scholar.

Lemma match_version_suffix_other c r :
  negb (Ascii.eqb c "v") = true → match_version_suffix (String c r) = None.
Proof.
  destruct c as [[] [] [] [] [] [] [] []]; try discriminate; reflexivity.
Qed.

Lemma after_digits_all s :
  Py.all_chars Py.is_digit s = true → after_digits s = "".
Proof.
  induction s as [|c r IH]; [done|]. cbn [Py.all_chars after_digits].
  intros [-> Hr]%andb_prop. auto.
Qed.

Lemma strip_version_unversioned s : no_v s = true → strip_version s = s.
Proof.
  unfold no_v. induction s as [|c r IH]; [done|]. cbn [Py.all_chars].
  intros [Hc Hr]%andb_prop. cbn [strip_version].
  rewrite match_version_suffix_other by done. by rewrite IH.
Qed.

Lemma strip_version_digits s digits :
  no_v s = true → digits ≠ "" → Py.all_chars Py.is_digit digits = true →
  strip_version (s +:+ "v" +:+ digits) = s.
Proof.
  unfold no_v. intros Hs Hne Hd. induction s as [|c r IH].
  - destruct digits as [|d ds]; [done|]. cbn [Py.all_chars] in Hd.
    apply andb_prop in Hd as [Hd Hds].
    change ("" +:+ "v" +:+ String d ds) with (String "v" (String d ds)).
    cbn [strip_version match_version_suffix].
    rewrite Hd, (after_digits_all ds Hds). done.
  - cbn [Py.all_chars] in Hs. apply andb_prop in Hs as [Hc Hr].
    change (String c r +:+ "v" +:+ digits)
      with (String c (r +:+ "v" +:+ digits)).
    cbn [strip_version]. rewrite match_version_suffix_other by done.
    by rewrite IH.
Qed.

End VersionSuffix.

(** X20.  The version suffix is taken off before the bibliographic API is
    asked: for an identifier without a [v], with or without a version
    number behind it, the address asked is the one of the bare
    identifier. *)
Theorem strip_version_versioned (paper_id : string) (v : Z) :
  no_v paper_id = true → 0 ≤ v →
  Scholar.strip_version (Spec.versioned paper_id v) = paper_id
  ∧ Scholar.strip_version paper_id = paper_id
  ∧ Scholar.api_url (Scholar.strip_version (Spec.versioned paper_id v))
    = "https://api.semanticscholar.org/graph/v1/paper/arXiv:" +:+ paper_id.
Proof.
  intros Hid Hv.
  assert (Scholar.strip_version (Spec.versioned paper_id v) = paper_id) as H.
  { unfold Spec.versioned, Py.str_Z.
    destruct (v <? 0) eqn:Hneg; [lia|].
    apply strip_version_digits; [done|apply str_N_nonempty|apply str_N_digits]. }
  split; [done|]. split; [by apply strip_version_unversioned|].
  by rewrite H.
Qed.

Lemma strip_version_versioned_witness :
  no_v "2304.07856" = true ∧ 0 ≤ 12
  ∧ Scholar.strip_version (Spec.versioned "2304.07856" 12) = "2304.07856"
  ∧ Scholar.strip_version "2304.07856" = "2304.07856"
  ∧ Scholar.api_url (Scholar.strip_version (Spec.versioned "2304.07856" 12))
    = "https://api.semanticscholar.org/graph/v1/paper/arXiv:"
      +:+ "2304.07856".
Proof.
  split; [reflexivity|]. split; [lia|].
  apply (strip_version_versioned "2304.07856" 12); [reflexivity|lia].
Defined.

Section Polling.

Import Scholar ReferenceExtractor.

Variable S : services.

Lemma retried_attempt answer :
  retried answer = true →
  attempt answer = inr None
  ∨ ∃ e, attempt answer = inl e ∧ exn_class_of e = RequestException.
Proof.
  destruct answer as [code body|e]; cbn [retried attempt].
  - destruct (code =? 200).
    + destruct body as [e|data]; [|done].
      intros He%bool_decide_eq_true. right. by exists e.
    + destruct (code =? 429); [by left|].
      destruct (code =? 404); [done|by left].
  - intros He%bool_decide_eq_true. right. by exists e.
Qed.

(** One round of the loop after an answer that is retried. *)
Lemma poll_retried fuel url delay s :
  retried (api_get S (asked s) url) = true →
  poll S (Datatypes.S fuel) url delay s
  = poll S fuel url delay
      {| asked := Datatypes.S (asked s); touched := touched s;
         naps := naps s ++ [delay]; made := made s; saved := saved s |}.
Proof.
  intros Hr. cbn [poll]. unfold bind at 1, ask.
  destruct (retried_attempt _ Hr) as [->|(e & -> & He)].
  - unfold bind, time_sleep. done.
  - rewrite bool_decide_eq_true_2 by done. unfold bind, time_sleep. done.
Qed.

Lemma poll_decided fuel url delay s v :
  attempt (api_get S (asked s) url) = inr (Some v) →
  poll S (Datatypes.S fuel) url delay s
  = Some (inr v, after_requests 0 delay s).
Proof.
  intros Ha. cbn [poll]. unfold bind at 1, ask. rewrite Ha.
  unfold ret, after_requests. cbn [replicate].
  by rewrite Nat.add_0_r, Nat.add_1_r, app_nil_r.
Qed.

Lemma poll_waits (k : nat) fuel url delay s v :
  (∀ i, (i < k)%nat → retried (api_get S (asked s + i) url) = true) →
  attempt (api_get S (asked s + k) url) = inr (Some v) →
  (k < fuel)%nat →
  poll S fuel url delay s = Some (inr v, after_requests k delay s).
Proof.
  revert fuel s. induction k as [|k IH]; intros fuel s Hre Hat Hf.
  - destruct fuel as [|fuel]; [lia|]. rewrite Nat.add_0_r in Hat.
    by apply poll_decided.
  - destruct fuel as [|fuel]; [lia|].
    rewrite poll_retried
      by (specialize (Hre 0%nat ltac:(lia)); by rewrite Nat.add_0_r in Hre).
    rewrite (IH fuel _); cbn [asked].
    + unfold after_requests. cbn [asked touched naps made saved replicate].
      rewrite <- app_assoc. cbn [app].
      by replace (Datatypes.S (asked s) + k + 1)%nat
        with (asked s + Datatypes.S k + 1)%nat by lia.
    + intros i Hi. specialize (Hre (Datatypes.S i) ltac:(lia)).
      by replace (Datatypes.S (asked s) + i)%nat
        with (asked s + Datatypes.S i)%nat by lia.
    + by replace (Datatypes.S (asked s) + k)%nat
        with (asked s + Datatypes.S k)%nat by lia.
    + lia.
Qed.

Lemma poll_never_gives_up fuel url delay s :
  (∀ i, retried (api_get S (asked s + i) url) = true) →
  poll S fuel url delay s = None.
Proof.
  revert s. induction fuel as [|fuel IH]; intros s Hre; [done|].
  rewrite poll_retried
    by (specialize (Hre 0%nat); by rewrite Nat.add_0_r in Hre).
  apply IH. cbn [asked]. intros i. specialize (Hre (Datatypes.S i)).
  by replace (Datatypes.S (asked s) + i)%nat
    with (asked s + Datatypes.S i)%nat by lia.
Qed.

End Polling.

(** X21.  [get_paper_references] asks until it gets a decisive answer, with
    a pause of [delay] seconds after every other answer and no bound on
    the number of requests.  After [k] answers that are retried (a status
    other than 200 and 404, or a [requests.RequestException]), a status
    404 gives the empty list and a status 200 with an object as body
    gives the value under ["references"], the empty list when the key is
    absent; when every answer is retried the function never returns. *)
Theorem get_paper_references_polls (S : Scholar.services)
    (arxiv_id : string) (delay : Q) (s : Scholar.shelf) (k : nat) :
  let url := Scholar.api_url (Scholar.strip_version arxiv_id) in
  (∀ i, (i < k)%nat →
     retried (Scholar.api_get S (Scholar.asked s + i) url) = true) →
  (∀ fuel body,
     (k < fuel)%nat →
     Scholar.api_get S (Scholar.asked s + k) url = Scholar.Response 404 body →
     Scholar.get_paper_references S fuel arxiv_id delay s
     = Some (inr (ReferenceExtractor.JList []), after_requests k delay s))
  ∧ (∀ fuel data,
       (k < fuel)%nat →
       Scholar.api_get S (Scholar.asked s + k) url
       = Scholar.Response 200 (inr (ReferenceExtractor.JDict data)) →
       Scholar.get_paper_references S fuel arxiv_id delay s
       = Some (inr (default (ReferenceExtractor.JList [])
                      (data !! "references")),
               after_requests k delay s))
  ∧ ((∀ i, retried (Scholar.api_get S (Scholar.asked s + i) url) = true) →
     ∀ fuel, Scholar.get_paper_references S fuel arxiv_id delay s = None).
Proof.
  intros url Hre. unfold Scholar.get_paper_references. fold url.
  split; [|split].
  - intros fuel body Hf Hk. apply poll_waits; [done| |done].
    by rewrite Hk.
  - intros fuel data Hf Hk. apply poll_waits; [done| |done].
    by rewrite Hk.
  - intros Hall fuel. by apply poll_never_gives_up.
Qed.

Lemma get_paper_references_polls_witness :
  let S := Cases.throttled_twice in
  let s := Scholar.empty_shelf in
  let url := Scholar.api_url (Scholar.strip_version "2304.07856v2") in
  (∀ i, (i < 2)%nat →
     retried (Scholar.api_get S (Scholar.asked s + i) url) = true)
  ∧ (∀ fuel body,
       (2 < fuel)%nat →
       Scholar.api_get S (Scholar.asked s + 2) url
       = Scholar.Response 404 body →
       Scholar.get_paper_references S fuel "2304.07856v2" 2 s
       = Some (inr (ReferenceExtractor.JList []), after_requests 2 2 s))
  ∧ (∀ fuel data,
       (2 < fuel)%nat →
       Scholar.api_get S (Scholar.asked s + 2) url
       = Scholar.Response 200 (inr (ReferenceExtractor.JDict data)) →
       Scholar.get_paper_references S fuel "2304.07856v2" 2 s
       = Some (inr (default (ReferenceExtractor.JList [])
                      (data !! "references")),
               after_requests 2 2 s))
  ∧ ((∀ i, retried (Scholar.api_get S (Scholar.asked s + i) url) = true) →
     ∀ fuel, Scholar.get_paper_references S fuel "2304.07856v2" 2 s = None).
Proof.
  intros S s url.
  assert (∀ i, (i < 2)%nat →
            retried (Scholar.api_get S (Scholar.asked s + i) url) = true)
    as H by (intros [|[|i]] Hi; [reflexivity|reflexivity|lia]).
  split; [exact H|].
  exact (get_paper_references_polls S "2304.07856v2" 2 s 2 H).
Defined.

(* ===================================================================== *)
(** * Saving the references of a paper *)
(* ===================================================================== *)

Section SavingReferences.

Import Scholar ReferenceExtractor.

Lemma shelf_bind_inv {A B} (c : R A) (k : A → R B) s r s' :
  bind c k s = Some (r, s') →
  (∃ e, c s = Some (inl e, s') ∧ r = inl e)
  ∨ (∃ a s1, c s = Some (inr a, s1) ∧ k a s1 = Some (r, s')).
Proof.
  unfold bind. destruct (c s) as [[[e|a] s1]|]; intros H; [| |done].
  - left. exists e. by simplify_eq.
  - right. by exists a, s1.
Qed.

Variable S : services.

Lemma poll_saved fuel url delay s r s' :
  poll S fuel url delay s = Some (r, s') → saved s' = saved s.
Proof.
  revert s. induction fuel as [|fuel IH]; intros s; [done|].
  cbn [poll]. unfold bind at 1, ask.
  destruct (attempt _) as [e|[v|]].
  - destruct (bool_decide _).
    + unfold bind, time_sleep. intros H%IH. done.
    + by intros [= <- <-].
  - by intros [= <- <-].
  - unfold bind, time_sleep. intros H%IH. done.
Qed.

Lemma makedirs_saved path s r s' :
  makedirs S path s = Some (r, s') → saved s' = saved s.
Proof.
  unfold makedirs, bind, touch, lift, ret, raise.
  destruct (makedirs_fails S _ _); by intros [= <- <-].
Qed.

Lemma dump_saved json_path content s r s' :
  dump S json_path content s = Some (r, s') →
  (r = inr tt ∧ saved s' = saved s ++ [(json_path, content)])
  ∨ (∃ e, r = inl e ∧ saved s' = saved s).
Proof.
  unfold dump, bind, touch, lift, ret, raise.
  destruct (dump_fails S _ _); intros [= <- <-]; eauto.
Qed.

(** What [save_references] has written when it returns. *)
Lemma save_references_saved fuel arxiv_id paper_folder s v s' :
  save_references S fuel arxiv_id paper_folder s = Some (inr v, s') →
  let json_path := Py.path_join paper_folder "references.json" in
  (v = Some false
   ∧ (saved s' = saved s ∨ saved s' = saved s ++ [(json_path, ∅)]))
  ∨ (v = None
     ∧ ∃ s0 s1 references items references_dict,
         get_paper_references S fuel arxiv_id 2 s0
         = Some (inr references, s1)
         ∧ truthy references = true
         ∧ pure (iterate references) = inr items
         ∧ pure (convert_to_references_dict items) = inr references_dict
         ∧ saved s' = saved s ++ [(json_path, references_dict)]).
Proof.
  intros H json_path. subst json_path. unfold save_references in H.
  apply shelf_bind_inv in H as [(e & _ & [=])|(n & s1 & H1 & H)].
  assert (saved s1 = saved s) as Hs1
    by (unfold touch in H1; by simplify_eq).
  apply shelf_bind_inv in H as [(e & _ & [=])|([] & s2 & H2 & H)].
  assert (saved s2 = saved s1) as Hs2.
  { destruct (negb _); [by eapply makedirs_saved|].
    unfold ret in H2. by simplify_eq. }
  apply shelf_bind_inv in H as [(e & _ & [=])|(references & s3 & H3 & H)].
  assert (saved s3 = saved s2) as Hs3 by (by eapply poll_saved).
  destruct (truthy references) eqn:Ht; cbn [negb] in H.
  - apply shelf_bind_inv in H as [(e & _ & [=])|(items & s4 & H4 & H)].
    apply shelf_bind_inv in H as [(e & _ & [=])|(dict & s5 & H5 & H)].
    assert (pure (iterate references) = inr items ∧ s4 = s3) as [Hit ->].
    { unfold lift in H4. destruct (pure (iterate references));
        unfold ret, raise in H4; by simplify_eq. }
    assert (pure (convert_to_references_dict items) = inr dict ∧ s5 = s3)
      as [Hcv ->].
    { unfold lift in H5.
      destruct (pure (convert_to_references_dict items));
        unfold ret, raise in H5; by simplify_eq. }
    unfold try_except in H.
    destruct (bind (dump S (Py.path_join paper_folder "references.json")
                      dict) (λ _, ret None) s3)
      as [[[e|v'] s6]|] eqn:Hd; [| |done].
    + apply shelf_bind_inv in Hd as [(e' & Hd & _)|([] & s7 & Hd & Hr)];
        [|unfold ret in Hr; by simplify_eq].
      cbv [ret] in H. injection H as <- <-. left. split; [done|]. left.
      apply dump_saved in Hd as [[[=] _]|(e'' & _ & Hd)]. congruence.
    + right. simplify_eq.
      apply shelf_bind_inv in Hd as [(e' & _ & [=])|([] & s7 & Hd & Hr)].
      unfold ret in Hr. simplify_eq.
      apply dump_saved in Hd as [[_ Hd]|(e'' & [=] & _)].
      split; [done|]. exists s2, s3, references, items, dict.
      split; [done|]. split; [done|]. split; [done|]. split; [done|].
      rewrite Hd. congruence.
  - left.
    apply shelf_bind_inv in H as [(e & _ & [=])|([] & s4 & H4 & H)].
    unfold ret in H. simplify_eq. split; [done|].
    apply dump_saved in H4 as [[_ Hd]|(e'' & [=] & _)].
    right. rewrite Hd. congruence.
Qed.

Lemma writes_only_unchanged path {A} (c : R A) :
  (∀ s r s', c s = Some (r, s') → saved s' = saved s) →
  writes_only path c.
Proof.
  intros Hc s r s' H. exists []. rewrite app_nil_r. eauto.
Qed.

Lemma writes_only_bind path {A B} (c : R A) (k : A → R B) :
  writes_only path c → (∀ a, writes_only path (k a)) →
  writes_only path (bind c k).
Proof.
  intros Hc Hk s r s' [(e & H & ->)|(a & s1 & H & H')]%shelf_bind_inv.
  - eauto.
  - destruct (Hc _ _ _ H) as (f1 & Hs1 & Hf1).
    destruct (Hk _ _ _ _ H') as (f2 & Hs2 & Hf2).
    exists (f1 ++ f2). rewrite Hs2, Hs1, app_assoc.
    split; [done|]. by apply Forall_app.
Qed.

Lemma writes_only_try_except path {A} (c : R A) (h : exn → R A) :
  writes_only path c → (∀ e, writes_only path (h e)) →
  writes_only path (try_except c h).
Proof.
  intros Hc Hh s r s'. unfold try_except.
  destruct (c s) as [[[e|a] s1]|] eqn:H; [| |done].
  - intros H'. destruct (Hc _ _ _ H) as (f1 & Hs1 & Hf1).
    destruct (Hh _ _ _ _ H') as (f2 & Hs2 & Hf2).
    exists (f1 ++ f2). rewrite Hs2, Hs1, app_assoc.
    split; [done|]. by apply Forall_app.
  - intros [= <- <-]. eauto.
Qed.

Lemma writes_only_ret path {A} (a : A) : writes_only path (ret a).
Proof. apply writes_only_unchanged. by intros s r s' [= <- <-]. Qed.

Lemma writes_only_lift path {A} (r : exn + A) : writes_only path (lift r).
Proof.
  apply writes_only_unchanged. destruct r; by intros s r' s' [= <- <-].
Qed.

Lemma writes_only_dump path content : writes_only path (dump S path content).
Proof.
  intros s r s' [[_ ->]|(e & _ & ->)]%dump_saved.
  - exists [(path, content)]. split; [done|]. by apply Forall_singleton.
  - exists []. by rewrite app_nil_r.
Qed.

Lemma writes_only_save_references fuel arxiv_id paper_folder :
  writes_only (Py.path_join paper_folder "references.json")
    (save_references S fuel arxiv_id paper_folder).
Proof.
  unfold save_references.
  apply writes_only_bind.
  { apply writes_only_unchanged. by intros s r s' [= <- <-]. }
  intros n. apply writes_only_bind.
  { destruct (negb _); [|apply writes_only_ret].
    apply writes_only_unchanged. apply makedirs_saved. }
  intros _. apply writes_only_bind.
  { apply writes_only_unchanged. apply poll_saved. }
  intros references. destruct (negb _).
  - apply writes_only_bind; [apply writes_only_dump|intros _].
    apply writes_only_ret.
  - apply writes_only_bind; [apply writes_only_lift|intros items].
    apply writes_only_bind; [apply writes_only_lift|intros dict].
    apply writes_only_try_except; [|intros; apply writes_only_ret].
    apply writes_only_bind; [apply writes_only_dump|intros _].
    apply writes_only_ret.
Qed.

End SavingReferences.

(** X22.  [save_references] never returns [True]: it returns [False] when
    no reference was found (an empty mapping is then written) or when the
    mapping could not be written, and ends without a [return] after it
    has written the converted references to [references.json] in the
    paper folder. *)
Theorem save_references_never_true (S : Scholar.services) (fuel : nat)
    (arxiv_id paper_folder : string) (s s' : Scholar.shelf)
    (v : option bool) :
  Scholar.save_references S fuel arxiv_id paper_folder s
  = Some (inr v, s') →
  let json_path := Py.path_join paper_folder "references.json" in
  v ≠ Some true
  ∧ ((v = Some false
      ∧ (Scholar.saved s' = Scholar.saved s
         ∨ Scholar.saved s' = Scholar.saved s ++ [(json_path, ∅)]))
     ∨ (v = None
        ∧ ∃ s0 s1 references items references_dict,
            Scholar.get_paper_references S fuel arxiv_id 2 s0
            = Some (inr references, s1)
            ∧ ReferenceExtractor.truthy references = true
            ∧ Scholar.pure (ReferenceExtractor.iterate references)
              = inr items
            ∧ Scholar.pure
                (ReferenceExtractor.convert_to_references_dict items)
              = inr references_dict
            ∧ Scholar.saved s'
              = Scholar.saved s ++ [(json_path, references_dict)])).
Proof.
  intros H json_path.
  pose proof (save_references_saved S fuel arxiv_id paper_folder s v s' H)
    as Hsaved.
  split; [|exact Hsaved].
  destruct Hsaved as [[-> _]|[-> _]]; discriminate.
Qed.

Lemma save_references_never_true_witness :
  let S := Cases.one_reference in
  let s' :=
    {| Scholar.asked := 1; Scholar.touched := 2; Scholar.naps := [];
       Scholar.made := [];
       Scholar.saved :=
         [("/data/2304-07856/references.json",
           {[ "2304-07856" := Sample.entry_2304_07856 ]})] |} in
  let json_path := Py.path_join "/data/2304-07856" "references.json" in
  Scholar.save_references S 1 "2304.07856v1" "/data/2304-07856"
    Scholar.empty_shelf = Some (inr None, s')
  ∧ None ≠ Some true
  ∧ (((None : option bool) = Some false
      ∧ (Scholar.saved s' = Scholar.saved Scholar.empty_shelf
         ∨ Scholar.saved s'
           = Scholar.saved Scholar.empty_shelf ++ [(json_path, ∅)]))
     ∨ ((None : option bool) = None
        ∧ ∃ s0 s1 references items references_dict,
            Scholar.get_paper_references S 1 "2304.07856v1" 2 s0
            = Some (inr references, s1)
            ∧ ReferenceExtractor.truthy references = true
            ∧ Scholar.pure (ReferenceExtractor.iterate references)
              = inr items
            ∧ Scholar.pure
                (ReferenceExtractor.convert_to_references_dict items)
              = inr references_dict
            ∧ Scholar.saved s'
              = Scholar.saved Scholar.empty_shelf
                ++ [(json_path, references_dict)])).
Proof.
  intros S s' json_path.
  assert (Scholar.save_references S 1 "2304.07856v1" "/data/2304-07856"
            Scholar.empty_shelf = Some (inr None, s')) as H
    by (vm_compute; reflexivity).
  split; [exact H|].
  exact (save_references_never_true S 1 "2304.07856v1" "/data/2304-07856"
           Scholar.empty_shelf s' None H).
Defined.

(* ===================================================================== *)
(** * One folder per paper *)
(* ===================================================================== *)

Section PaperFolder.

Import Downloader MetadataCollector Main.

Variable E : env.

Lemma local_metadata_at path e :
  local_event e = true → metadata_at path e = true.
Proof. by destruct e. Qed.

Lemma fetch_metadata_at path e :
  fetch_event e = true → metadata_at path e = true.
Proof. by destruct e. Qed.

Lemma download_version_metadata path tex_root result :
  quiet (metadata_at path) (download_version E tex_root result).
Proof.
  unfold download_version.
  apply quiet_bind; [by apply quiet_makedirs|intros _].
  apply quiet_bind.
  { unfold download_url. quiet. }
  intros fetched.
  apply (quiet_weaken local_event); [apply local_metadata_at|].
  apply local_after_request.
Qed.

Lemma download_versions_metadata path tex_root list_download result :
  quiet (metadata_at path)
    (download_versions E tex_root list_download result).
Proof.
  revert result.
  induction list_download as [|r rest IH]; intros result;
    cbn [download_versions]; [apply quiet_ret|].
  apply quiet_bind; [apply download_version_metadata|intros _; apply IH].
Qed.

Lemma download_metadata first rest arxiv_id base_dir :
  match_base_id (short_id first) = Some arxiv_id →
  quiet
    (metadata_at
       (Py.path_join (Py.path_join base_dir (format_yymm_id arxiv_id))
          "metadata.json"))
    (download E (first :: rest) base_dir).
Proof.
  intros Hid. unfold download. rewrite Hid.
  apply quiet_bind; [by apply quiet_makedirs|intros _].
  apply quiet_bind; [by apply quiet_makedirs|intros _].
  apply quiet_bind; [apply download_versions_metadata|intros result].
  apply quiet_try_except; [|intros; apply quiet_ret].
  apply quiet_bind; [|intros; apply quiet_ret].
  unfold save_metadata.
  apply quiet_bind; [apply quiet_create_metadata|intros md].
  apply quiet_bind; [by apply quiet_makedirs|intros _].
  apply quiet_bind; [apply quiet_tick_io|intros n].
  apply quiet_bind; [apply quiet_lift_failure|intros _].
  apply quiet_bind; [|intros; apply quiet_ret].
  apply quiet_emit. cbn. apply String.eqb_refl.
Qed.

End PaperFolder.

(** X23.  The two halves of the pipeline meet in one folder: for a paper
    that the metadata service knows, whatever [download] saves as
    metadata goes to [metadata.json] in
    [<base_data_dir>/<YYMM-NNNNN>], and whatever
    [extract_references_for_paper] writes goes to [references.json] in
    the same folder. *)
Theorem references_beside_metadata (E : env) (S : Scholar.services)
    (paper_id : string) (latest : Z) (records : Z → arxiv_result)
    (base_data_dir : string) (w : world) (fuel : nat) (s : Scholar.shelf) :
  Spec.new_style paper_id → 1 ≤ latest →
  Spec.serves E paper_id latest records →
  let folder :=
    Py.path_join base_data_dir (Downloader.format_yymm_id paper_id) in
  (∃ evs,
     trace (Main.download_paper E paper_id base_data_dir w).2 = trace w ++ evs
     ∧ ∀ path md,
         EvSaveMetadata path md ∈ evs →
         path = Py.path_join folder "metadata.json")
  ∧ (∀ r s',
       Scholar.extract_references_for_paper S fuel paper_id base_data_dir s
       = Some (r, s') →
       ∃ files,
         Scholar.saved s' = Scholar.saved s ++ files
         ∧ ∀ path references_dict,
             (path, references_dict) ∈ files →
             path = Py.path_join folder "references.json").
Proof.
  intros Hn Hl Hs folder. split.
  - destruct (download_paper_served E paper_id latest records base_data_dir w
                Hn Hl Hs) as (w1 & Ht1 & Heq).
    rewrite Heq.
    destruct (Downloader.download E _ base_data_dir w1) as [r w'] eqn:Hd.
    destruct Hs as (_ & _ & Hids).
    eapply (download_metadata E) in Hd as (evs & Ht & Hevs).
    2:{ rewrite Hids by lia. by apply match_base_id_versioned. }
    eexists. cbn [snd]. split; [by rewrite Ht, Ht1, <- app_assoc|].
    intros path md [Hin|Hin]%elem_of_app.
    + apply list_elem_of_fmap in Hin as (? & [=] & _).
    + rewrite forallb_forall in Hevs.
      apply list_elem_of_In, Hevs in Hin. cbn in Hin.
      by apply String.eqb_eq in Hin.
  - intros r s' H. unfold Scholar.extract_references_for_paper in H.
    assert (writes_only (Py.path_join folder "references.json")
              (Scholar.bind
                 (Scholar.save_references S fuel paper_id folder)
                 (λ _, Scholar.ret tt))) as Hw.
    { apply writes_only_bind; [apply writes_only_save_references|].
      intros _. apply writes_only_ret. }
    destruct (Hw _ _ _ H) as (files & Hfiles & Hall).
    exists files. split; [done|]. intros path dict Hin.
    rewrite Forall_forall in Hall. by apply (Hall (path, dict)).
Qed.

Lemma references_beside_metadata_witness :
  let E := Sample.calm 2 Sample.two_files in
  let folder :=
    Py.path_join "/data" (Downloader.format_yymm_id "2304.07856") in
  Spec.new_style "2304.07856" ∧ 1 ≤ 2
  ∧ Spec.serves E "2304.07856" 2 (Sample.record "2304.07856")
  ∧ (∃ evs,
       trace (Main.download_paper E "2304.07856" "/data" World.start).2
       = trace World.start ++ evs
       ∧ ∀ path md,
           EvSaveMetadata path md ∈ evs →
           path = Py.path_join folder "metadata.json")
    ∧ (∀ r s',
         Scholar.extract_references_for_paper Cases.one_reference 1
           "2304.07856" "/data" Scholar.empty_shelf
         = Some (r, s') →
         ∃ files,
           Scholar.saved s' = Scholar.saved Scholar.empty_shelf ++ files
           ∧ ∀ path references_dict,
               (path, references_dict) ∈ files →
               path = Py.path_join folder "references.json").
Proof.
  intros E folder.
  assert (Spec.serves E "2304.07856" 2 (Sample.record "2304.07856")) as Hs
    by (apply calm_serves; lia).
  split; [reflexivity|]. split; [lia|]. split; [exact Hs|].
  apply (references_beside_metadata E Cases.one_reference "2304.07856" 2
           (Sample.record "2304.07856") "/data" World.start 1
           Scholar.empty_shelf); [reflexivity|lia|exact Hs].
Defined.

(* ===================================================================== *)
(** * The reference worker *)
(* ===================================================================== *)

Lemma reference_worker_step (S : Scholar.services) (fuel : nat)
    (arxiv_id : string) (items : list (option string))
    (base_data_dir : string) (delay : Q) (processed : nat)
    (s : Scholar.shelf) :
  Scholar.reference_worker S fuel (Some arxiv_id :: items) base_data_dir
    delay processed s
  = match Scholar.try_except
            (Scholar.bind
               (Scholar.extract_references_for_paper S fuel arxiv_id
                  base_data_dir)
               (λ _, Scholar.bind (Scholar.time_sleep delay)
                       (λ _, Scholar.ret (Datatypes.S processed))))
            (λ _, Scholar.ret processed) s with
    | Some (inr processed', s1) =>
        Scholar.reference_worker S fuel items base_data_dir delay
          processed' s1
    | Some (inl e, s1) => Some (inl e, s1)
    | None => None
    end.
Proof. reflexivity. Qed.

Lemma turns_length (S : Scholar.services) (fuel : nat)
    (base_data_dir : string) (delay : Q) (ids : list string)
    (s : Scholar.shelf) (outcomes : list (exn + unit))
    (s' : Scholar.shelf) :
  turns S fuel base_data_dir delay ids s outcomes s' →
  length outcomes = length ids.
Proof. induction 1; cbn [length]; congruence. Qed.

(** A run of turns is a run of the worker. *)
Lemma turns_worker (S : Scholar.services) (fuel : nat)
    (base_data_dir : string) (delay : Q) (ids : list string)
    (s : Scholar.shelf) (outcomes : list (exn + unit))
    (s' : Scholar.shelf) :
  turns S fuel base_data_dir delay ids s outcomes s' →
  ∀ processed,
    Scholar.reference_worker S fuel (Some <$> ids) base_data_dir delay
      processed s
    = Some (inr (processed + Main.count handled_well outcomes)%nat, s').
Proof.
  induction 1 as [s|arxiv_id ids s s1 s2 outcomes s' Hpaper Hnap _ IH
                 |arxiv_id ids s e s1 outcomes s' Hpaper _ IH];
    intros processed.
  - cbn. by rewrite Nat.add_0_r.
  - cbn [fmap list_fmap]. rewrite reference_worker_step.
    unfold Scholar.try_except, Scholar.bind at 1. rewrite Hpaper.
    unfold Scholar.bind at 1. rewrite Hnap. unfold Scholar.ret at 1.
    rewrite IH. cbn [Main.count handled_well]. do 3 f_equal. lia.
  - cbn [fmap list_fmap]. rewrite reference_worker_step.
    unfold Scholar.try_except, Scholar.bind at 1. rewrite Hpaper.
    unfold Scholar.ret at 1. rewrite IH. done.
Qed.

(** X24.  A reference worker leaves its loop at the first [None], without
    looking at what follows it.  It comes back exactly when the handling
    of every paper before comes back, and then it has not raised: its
    counter has grown by one for each paper that
    [extract_references_for_paper] handled without an exception, each
    followed by the pause, and by nothing for a paper whose handling
    raised. *)
Theorem reference_worker_counts (S : Scholar.services) (fuel : nat)
    (ids : list string) (rest : list (option string))
    (base_data_dir : string) (delay : Q) (processed : nat)
    (s : Scholar.shelf) :
  Scholar.reference_worker S fuel ((Some <$> ids) ++ None :: rest)
    base_data_dir delay processed s
  = Scholar.reference_worker S fuel (Some <$> ids) base_data_dir delay
      processed s
  ∧ ∀ r s',
      Scholar.reference_worker S fuel (Some <$> ids) base_data_dir delay
        processed s = Some (r, s')
      ↔ ∃ outcomes,
          turns S fuel base_data_dir delay ids s outcomes s'
          ∧ length outcomes = length ids
          ∧ r = inr (processed + Main.count handled_well outcomes)%nat.
Proof.
  split.
  { revert processed s. induction ids as [|arxiv_id ids IH];
      intros processed s; [done|].
    cbn [fmap list_fmap app]. rewrite !reference_worker_step.
    destruct (Scholar.try_except _ _ s) as [[[e|processed'] s1]|];
      [done| |done].
    apply IH. }
  intros r s'. split.
  - revert processed s. induction ids as [|arxiv_id ids IH];
      intros processed s.
    { intros [= <- <-]. exists []. split; [constructor|]. split; [done|].
      cbn. by rewrite Nat.add_0_r. }
    cbn [fmap list_fmap]. rewrite reference_worker_step.
    destruct (Scholar.try_except _ _ s) as [[[e|processed'] s1]|] eqn:Htry;
      [| |done].
    { exfalso. unfold Scholar.try_except in Htry.
      destruct (Scholar.bind _ _ s) as [[[e'|a] s2]|]; [| |done].
      - unfold Scholar.ret in Htry. discriminate.
      - discriminate. }
    intros (outcomes & Hturns & Hlen & ->)%IH.
    unfold Scholar.try_except in Htry.
    destruct (Scholar.bind _ _ s) as [[[e'|a] s2]|] eqn:Hb; [| |done].
    + unfold Scholar.ret in Htry. simplify_eq.
      apply shelf_bind_inv in Hb as [(? & Hpaper & [= <-])|([] & s3 & _ & Hb)].
      * exists (inl e' :: outcomes).
        split; [by eapply turns_failed|]. split; [cbn; by rewrite Hlen|].
        done.
      * exfalso.
        apply shelf_bind_inv in Hb as [(? & [=] & _)|([] & s4 & _ & Hb)].
        unfold Scholar.ret in Hb. discriminate.
    + simplify_eq.
      apply shelf_bind_inv in Hb as [(? & _ & [=])|([] & s3 & Hpaper & Hb)].
      apply shelf_bind_inv in Hb as [(? & _ & [=])|([] & s4 & Hnap & Hb)].
      unfold Scholar.ret in Hb. simplify_eq.
      exists (inr tt :: outcomes).
      split; [by eapply turns_counted|]. split; [cbn; by rewrite Hlen|].
      cbn [Main.count handled_well]. f_equal. lia.
  - intros (outcomes & Hturns & _ & ->). by apply turns_worker.
Qed.

(* ===================================================================== *)
(** * What the resolver selects and what a download worker forwards *)
(* ===================================================================== *)

Section Selection.

Lemma slice_from {A} (l : list A) (lo n : Z) :
  0 ≤ lo → 0 ≤ n →
  Py.slice l lo (lo + n) = take (Z.to_nat n) (drop (Z.to_nat lo) l).
Proof.
  intros Hlo Hn. unfold Py.slice, Py.slice_bound.
  destruct (lo <? 0) eqn:H1; [lia|].
  destruct (lo + n <? 0) eqn:H2; [lia|].
  destruct (decide (Z.of_nat (length l) ≤ lo)) as [Hge|Hlt].
  - rewrite !Z.min_r by lia. rewrite Z.sub_diag. cbn [Z.to_nat firstn].
    rewrite (drop_ge l (Z.to_nat lo)) by lia. by rewrite take_nil.
  - rewrite (Z.min_l lo) by lia.
    destruct (decide (lo + n ≤ Z.of_nat (length l))) as [Hin|Hout].
    + rewrite Z.min_l by lia. do 2 f_equal. lia.
    + rewrite Z.min_r by lia.
      change (firstn ?k ?x) with (take k x).
      change (skipn ?k ?x) with (drop k x).
      rewrite !take_ge; [done|rewrite length_drop; lia..].
Qed.

End Selection.

(** X25.  With a start index and a number of papers that are not negative,
    [fetch_ids_worker] puts on the identifier queue the [num_papers]
    identifiers that follow the first [start_index] ones of the
    enumeration (fewer when the enumeration ends before), in their order,
    and then one [None] for each download thread. *)
Theorem fetch_ids_worker_selection (fuel DOWNLOAD_THREAD_COUNT : nat)
    (start_month start_year start_ID end_month end_year end_ID total_paper
       start_index num_papers : Z) (todo : list (option string)) :
  0 ≤ start_index → 0 ≤ num_papers →
  Main.fetch_ids_worker fuel DOWNLOAD_THREAD_COUNT start_month start_year
    start_ID end_month end_year end_ID total_paper start_index num_papers
  = Some todo →
  ∃ ids selected_ids,
    ArxivHandler.get_IDs_network fuel start_month start_year start_ID
      end_month end_year end_ID total_paper = Some ids
    ∧ selected_ids
      = take (Z.to_nat num_papers) (drop (Z.to_nat start_index) ids)
    ∧ todo = (Some <$> selected_ids) ++ replicate DOWNLOAD_THREAD_COUNT None
    ∧ Z.of_nat (length selected_ids) ≤ num_papers
    ∧ before_sentinel todo = selected_ids.
Proof.
  intros Hs Hn. unfold Main.fetch_ids_worker.
  destruct (ArxivHandler.get_IDs_network _ _ _ _ _ _ _ _) as [ids|];
    [|done].
  cbn [mbind option_bind]. intros [= <-].
  exists ids, (take (Z.to_nat num_papers) (drop (Z.to_nat start_index) ids)).
  split; [done|]. split; [done|]. rewrite slice_from by done.
  split; [done|]. split; [rewrite length_take; lia|].
  generalize (take (Z.to_nat num_papers) (drop (Z.to_nat start_index) ids)).
  intros l. induction l as [|x l IH]; cbn.
  - by destruct DOWNLOAD_THREAD_COUNT.
  - by rewrite IH.
Qed.

Lemma fetch_ids_worker_selection_witness :
  0 ≤ 1 ∧ 0 ≤ 2
  ∧ Main.fetch_ids_worker 2 3 3 2023 7856 4 2023 2 5 1 2
    = Some [Some "2303.07857"; Some "2303.07858"; None; None; None]
  ∧ ∃ ids selected_ids,
      ArxivHandler.get_IDs_network 2 3 2023 7856 4 2023 2 5 = Some ids
      ∧ selected_ids = take (Z.to_nat 2) (drop (Z.to_nat 1) ids)
      ∧ [Some "2303.07857"; Some "2303.07858"; None; None; None]
        = (Some <$> selected_ids) ++ replicate 3 None
      ∧ Z.of_nat (length selected_ids) ≤ 2
      ∧ before_sentinel
          [Some "2303.07857"; Some "2303.07858"; None; None; None]
        = selected_ids.
Proof.
  assert (Main.fetch_ids_worker 2 3 3 2023 7856 4 2023 2 5 1 2
          = Some [Some "2303.07857"; Some "2303.07858"; None; None; None])
    as H by (vm_compute; reflexivity).
  split; [lia|]. split; [lia|]. split; [exact H|].
  apply (fetch_ids_worker_selection 2 3 3 2023 7856 4 2023 2 5 1 2);
    [lia|lia|exact H].
Defined.

Section WorkerRun.

Import Main.

Variable E : env.

(** One paper of the loop of [download_worker]. *)
Lemma download_worker_paper arxiv_id rest base_data_dir delay processed w :
  ∃ evs w1 (forwarded : bool),
    download_worker E (Some arxiv_id :: rest) base_data_dir delay
      processed w
    = download_worker E rest base_data_dir delay
        (if forwarded then S processed else processed) w1
    ∧ trace w1 = trace w ++ evs
    ∧ Spec.result_puts evs = if forwarded then [Some arxiv_id] else [].
Proof.
  destruct (download_paper E arxiv_id base_data_dir w) as [r1 w1] eqn:H1.
  pose proof (no_put_download_paper E arxiv_id base_data_dir _ _ _ H1)
    as (evs & Ht & Hq).
  apply result_puts_no_put in Hq.
  cbn [download_worker]. unfold World.bind at 1, try_except.
  unfold World.bind at 1, download_job. unfold World.bind at 1.
  rewrite H1. destruct r1 as [e|[]].
  - exists evs, w1, false. unfold World.ret. done.
  - unfold World.bind, emit, time_sleep, emit, World.ret. cbn.
    eexists. eexists. exists true. split; [reflexivity|]. cbn.
    rewrite Ht, <- !app_assoc. split; [reflexivity|].
    rewrite result_puts_app, Hq. done.
Qed.

End WorkerRun.

(** X26.  A download worker never raises.  Of the identifiers it is handed
    before its first [None] it forwards some to the result queue, in
    their order, and counts them; at the [None] it puts one [None] on the
    result queue and stops, so that what follows is never taken. *)
Theorem download_worker_run (E : env) (items : list (option string))
    (base_data_dir : string) (delay : Q) (processed : nat) (w : world) :
  let r := (Main.download_worker E items base_data_dir delay processed w).1 in
  let w' := (Main.download_worker E items base_data_dir delay processed w).2 in
  ∃ forwarded evs,
    trace w' = trace w ++ evs
    ∧ r = inr (processed + length forwarded)%nat
    ∧ sublist forwarded (before_sentinel items)
    ∧ Spec.result_puts evs
      = (Some <$> forwarded)
        ++ (if existsb Main.is_sentinel items then [None] else []).
Proof.
  cbn zeta. revert processed w.
  induction items as [|[arxiv_id|] rest IH]; intros processed w.
  - exists [], []. cbn. rewrite app_nil_r, Nat.add_0_r. done.
  - destruct (download_worker_paper E arxiv_id rest base_data_dir delay
                processed w) as (evs1 & w1 & fwd & -> & Ht1 & Hp1).
    destruct (IH (if fwd then S processed else processed) w1)
      as (forwarded & evs & Ht & Hr & Hsub & Hp).
    exists (if fwd then arxiv_id :: forwarded else forwarded), (evs1 ++ evs).
    rewrite Ht, Ht1, app_assoc. split; [done|]. split; [|split].
    + rewrite Hr. destruct fwd; cbn [length]; f_equal; lia.
    + cbn [before_sentinel].
      destruct fwd; [by apply sublist_skip|by apply sublist_cons].
    + rewrite result_puts_app, Hp1, Hp. cbn [existsb Main.is_sentinel orb].
      by destruct fwd.
  - exists [], [EvPut DownloadQueue None]. cbn.
    rewrite Nat.add_0_r. split; [done|]. split; [done|].
    split; [constructor|done].
Qed.

(* ===================================================================== *)
(** * How long a fetch can wait *)
(* ===================================================================== *)

Section Waiting.

Lemma total_sleep_app evs evs' :
  (total_sleep (evs ++ evs') == total_sleep evs + total_sleep evs')%Q.
Proof.
  induction evs as [|e evs IH]; cbn [app total_sleep]; [lra|].
  destruct e; try done. rewrite IH. lra.
Qed.

Lemma total_sleep_retry_events paper_id sleeps :
  (total_sleep (Spec.retry_events paper_id sleeps)
   == foldr Qplus 0 sleeps)%Q.
Proof.
  unfold Spec.retry_events.
  induction sleeps as [|s sleeps IH];
    cbn [flat_map app total_sleep foldr]; [reflexivity|].
  by rewrite IH.
Qed.

Lemma requests_retry_events paper_id sleeps :
  length (Spec.metadata_requests (Spec.retry_events paper_id sleeps))
  = length sleeps.
Proof.
  induction sleeps as [|s sleeps IH]; [done|]. cbn.
  unfold Spec.retry_events, Spec.metadata_requests in IH. by rewrite IH.
Qed.

Lemma backoff_sleeps_length attempt jitters :
  length (Spec.backoff_sleeps attempt jitters) = length jitters.
Proof.
  revert attempt. induction jitters as [|j js IH]; intros attempt; [done|].
  cbn. by rewrite IH.
Qed.

(** The pauses of at most five retries add up to less than
    60 + 120 + 240 + 480 + 600 seconds and five jitters. *)
Lemma backoff_sleeps_bound jitters :
  (length jitters ≤ 5)%nat → Forall (λ j, 0 <= j < 5)%Q jitters →
  (0 <= foldr Qplus 0 (Spec.backoff_sleeps 0 jitters) < 1525)%Q.
Proof.
  intros Hlen Hall.
  destruct jitters as [|j0 [|j1 [|j2 [|j3 [|j4 [|j5 js]]]]]];
    cbn [length] in Hlen; try lia;
    repeat match goal with
           | H : Forall _ (_ :: _) |- _ =>
               apply Forall_cons in H as [? H]
           end;
    cbn [Spec.backoff_sleeps foldr];
    change (Z.min (60 * 2 ^ Z.of_nat 0) 600) with 60%Z;
    change (Z.min (60 * 2 ^ Z.of_nat 1) 600) with 120%Z;
    change (Z.min (60 * 2 ^ Z.of_nat 2) 600) with 240%Z;
    change (Z.min (60 * 2 ^ Z.of_nat 3) 600) with 480%Z;
    change (Z.min (60 * 2 ^ Z.of_nat 4) 600) with 600%Z;
    change (inject_Z 60) with 60%Q; change (inject_Z 120) with 120%Q;
    change (inject_Z 240) with 240%Q; change (inject_Z 480) with 480%Q;
    change (inject_Z 600) with 600%Q;
    cbn beta in *; split; lra.
Qed.

End Waiting.

(** X27.  One call of [download_with_retries] sends at most five requests
    and spends less than 1525 seconds in [time.sleep]: the pauses
    60, 120, 240, 480 and 600 seconds, each with a jitter below 5
    seconds. *)
Theorem download_with_retries_total_wait (E : env) (arxiv_id : string)
    (w : world) :
  (∀ n, (0 <= random_random E n < 1)%Q) →
  ∃ evs,
    trace (Main.download_with_retries E arxiv_id 5 w).2 = trace w ++ evs
    ∧ (length (Spec.metadata_requests evs) ≤ 5)%nat
    ∧ (0 <= total_sleep evs < 1525)%Q.
Proof.
  intros Hrandom. unfold Main.download_with_retries.
  destruct (Main.retry_loop E arxiv_id 5 (seq 0 (Z.to_nat 5)) w)
    as [r w'] eqn:Hrun.
  apply (retry_loop_spec E Hrandom) in Hrun
    as (jitters & Hlen & Hall & _ & _ & _ & Hcases).
  cbn zeta in *. change (Z.to_nat 5) with 5%nat in *.
  pose proof (backoff_sleeps_bound jitters Hlen Hall) as Hbound.
  destruct Hcases as [(Hk & _ & _ & _ & Ht)|(Hk & _ & _ & Ht)];
    cbn [snd]; rewrite Ht; eexists; (split; [reflexivity|]).
  - split.
    + unfold Spec.metadata_requests. rewrite omap_app, length_app.
      fold (Spec.metadata_requests
              (Spec.retry_events arxiv_id (Spec.backoff_sleeps 0 jitters))).
      rewrite requests_retry_events, backoff_sleeps_length. cbn. lia.
    + rewrite total_sleep_app, total_sleep_retry_events. cbn [total_sleep].
      lra.
  - split.
    + rewrite requests_retry_events, backoff_sleeps_length. lia.
    + rewrite total_sleep_retry_events. lra.
Qed.

Lemma download_with_retries_total_wait_witness :
  (∀ n, (0 <= random_random Sample.busy n < 1)%Q)
  ∧ ∃ evs,
      trace (Main.download_with_retries Sample.busy "2304.07856" 5
               World.start).2
      = trace World.start ++ evs
      ∧ (length (Spec.metadata_requests evs) ≤ 5)%nat
      ∧ (0 <= total_sleep evs < 1525)%Q.
Proof.
  assert (∀ n, (0 <= random_random Sample.busy n < 1)%Q) as H
    by (intros n; cbn; split; lra).
  split; [exact H|].
  exact (download_with_retries_total_wait Sample.busy "2304.07856"
           World.start H).
Defined.

(* ===================================================================== *)
(** * The end of the line *)
(* ===================================================================== *)

Section EndOfLine.

Import Main Plant.

Variable E : env.
Variables (id_maxsize download_maxsize : nat).
Variable base_data_dir : string.
Variable delay : Q.

Abbreviation main_step :=
  (Main.step E id_maxsize download_maxsize base_data_dir delay).
Abbreviation plant_step :=
  (Plant.step E id_maxsize download_maxsize base_data_dir delay).
Abbreviation plant_run :=
  (Plant.run E id_maxsize download_maxsize base_data_dir delay).

(** What one action does to the result queue and to the log of puts. *)
Lemma main_step_queue a s s' :
  main_step a s = Some s' →
  match a with
  | WorkerPut i =>
      ∃ x, download_queue s' = download_queue s ++ [x]
           ∧ put s' = put s ++ [(i, x)]
  | ReferenceGet =>
      ∃ x, download_queue s = x :: download_queue s' ∧ put s' = put s
  | _ => download_queue s' = download_queue s ∧ put s' = put s
  end.
Proof.
  destruct a as [|i|i|]; unfold Main.step; intros Hstep.
  - destruct (resolver_todo s); [done|].
    destruct (has_room _ _); [|done]. by simplify_eq.
  - destruct (workers s !! i) as [[| |]|]; try done.
    destruct (id_queue s) as [|[arxiv_id|] q]; [done| |by simplify_eq].
    destruct (download_paper _ _ _ _). by simplify_eq.
  - destruct (workers s !! i) as [[|x|]|]; try done.
    destruct (has_room _ _); [|done]. simplify_eq. by exists x.
  - destruct (download_queue s) as [|x q]; [done|]. simplify_eq.
    by exists x.
Qed.

Lemma plant_run_line schedule p p' :
  plant_run schedule p = Some p' →
  Main.reachable E id_maxsize download_maxsize base_data_dir delay
    (line p) (line p').
Proof.
  revert p. induction schedule as [|m rest IH]; intros p.
  - intros [= <-]. by exists [].
  - cbn [Plant.run]. destruct (plant_step m p) as [p1|] eqn:Hm; [|done].
    cbn [mbind option_bind]. intros [sched Hs]%IH.
    assert (∃ a, main_step a (line p) = Some (line p1)) as [a Ha].
    { destruct m as [a|j]; cbn [Plant.step] in Hm.
      - exists a. destruct a;
          destruct (main_step _ (line p)) as [s1|] eqn:H1;
          try done; cbn in Hm; by simplify_eq.
      - exists ReferenceGet.
        destruct (readers p !! j) as [[|]|]; try done.
        destruct (download_queue (line p)) as [|x q] eqn:Hq; [done|].
        destruct (main_step ReferenceGet (line p)) as [s1|]; [|done].
        cbn in Hm. by simplify_eq. }
    exists (a :: sched). cbn [Main.run]. by rewrite Ha.
Qed.

Lemma accounted_initial todo n k : accounted k (Plant.initial todo n k).
Proof.
  split; [by cbn; rewrite length_replicate|]. split; [|split].
  - cbn. by rewrite count_replicate.
  - intros x Hx. by apply elem_of_nil in Hx.
  - intros j arxiv_id Hx. by apply elem_of_nil in Hx.
Qed.

Lemma accounted_step k m p p' :
  accounted k p → plant_step m p = Some p' → accounted k p'.
Proof.
  intros (Hlen & Hcount & Hqueue & Hhandled) Hm.
  destruct m as [a|j]; cbn [Plant.step] in Hm.
  - assert (∃ s1, main_step a (line p) = Some s1
                  ∧ a ≠ ReferenceGet
                  ∧ p' = {| line := s1; readers := readers p;
                            handled := handled p |})
      as (s1 & Hs1 & Hne & ->).
    { destruct a; try done;
        (destruct (main_step _ (line p)) as [s1|] eqn:H1; [|done]);
        cbn in Hm; simplify_eq; by exists s1. }
    apply main_step_queue in Hs1.
    split; [done|]. cbn [line readers handled].
    destruct a as [|i|i|]; [| | |done].
    + destruct Hs1 as [-> ->]. done.
    + destruct Hs1 as [-> ->]. done.
    + destruct Hs1 as (x & -> & ->). split; [|split].
      * rewrite sentinels_snoc, count_app, Hcount. cbn [count]. lia.
      * intros y [Hy|Hy]%elem_of_app.
        -- destruct (Hqueue y Hy) as [i' Hi']. exists i'.
           apply elem_of_app. by left.
        -- apply list_elem_of_singleton in Hy as ->. exists i.
           apply elem_of_app. right. by apply list_elem_of_singleton.
      * intros j arxiv_id Hj. destruct (Hhandled j arxiv_id Hj) as [i' Hi'].
        exists i'. apply elem_of_app. by left.
  - destruct (readers p !! j) as [[|]|] eqn:Hj; try done.
    destruct (download_queue (line p)) as [|x q] eqn:Hq; [done|].
    destruct (main_step ReferenceGet (line p)) as [s1|] eqn:Hs1; [|done].
    cbn in Hm. simplify_eq.
    apply main_step_queue in Hs1 as (y & Hy & Hput).
    rewrite Hq in Hy. injection Hy as <- ->.
    unfold accounted. cbn [line readers handled]. rewrite Hput.
    assert (∀ z, z ∈ download_queue s1 →
                 ∃ i, (i, z) ∈ put (line p)) as Hq'.
    { intros z Hz. apply Hqueue. apply elem_of_cons. by right. }
    destruct x as [arxiv_id|].
    + split; [done|]. split; [|split; [done|]].
      * rewrite Hcount. cbn [count is_sentinel]. lia.
      * intros j' id' [Hin|Hin]%elem_of_app; [by eapply Hhandled|].
        apply list_elem_of_singleton in Hin. injection Hin as -> ->.
        apply Hqueue. apply elem_of_cons. by left.
    + split; [by rewrite length_insert|]. split; [|split; [done|done]].
      rewrite Hcount. cbn [count is_sentinel].
      pose proof (count_insert is_done _ _ _ Done Hj) as Hc.
      cbn [is_done] in Hc. lia.
Qed.

Lemma accounted_run k schedule p p' :
  accounted k p → plant_run schedule p = Some p' → accounted k p'.
Proof.
  revert p. induction schedule as [|m rest IH]; intros p Hp.
  - by intros [= <-].
  - cbn [Plant.run]. destruct (plant_step m p) as [p1|] eqn:Hm; [|done].
    cbn [mbind option_bind]. apply IH. by eapply accounted_step.
Qed.

End EndOfLine.

(** X28.  In every state that the threads of [main.py] can reach, each
    sentinel that a download worker has put is either still on the result
    queue or has made one reference worker leave its loop, and every
    paper that a reference worker has taken was put by a download worker.
    Hence, once all threads have left their loops, the result queue
    still holds as many sentinels as there are more download threads than
    reference threads (one, for three and two). *)
Theorem plant_sentinels (E : env) (id_maxsize download_maxsize : nat)
    (base_data_dir : string) (delay : Q)
    (selected_ids : list string)
    (DOWNLOAD_THREAD_COUNT REFERENCE_THREAD_COUNT : nat) (p : Plant.plant) :
  Plant.reachable E id_maxsize download_maxsize base_data_dir delay
    (Plant.initial
       ((Some <$> selected_ids) ++ replicate DOWNLOAD_THREAD_COUNT None)
       DOWNLOAD_THREAD_COUNT REFERENCE_THREAD_COUNT) p →
  Main.sentinels (Main.put (Plant.line p))
  = (Main.count Main.is_sentinel (Main.download_queue (Plant.line p))
     + Main.count Plant.is_done (Plant.readers p))%nat
  ∧ (∀ j arxiv_id, (j, arxiv_id) ∈ Plant.handled p →
                   ∃ i, (i, Some arxiv_id) ∈ Main.put (Plant.line p))
  ∧ (Plant.all_finished p →
     (Main.count Main.is_sentinel (Main.download_queue (Plant.line p))
      + REFERENCE_THREAD_COUNT = DOWNLOAD_THREAD_COUNT)%nat).
Proof.
  intros [schedule Hrun].
  pose proof (accounted_run E _ _ _ _ REFERENCE_THREAD_COUNT _ _ _
                (accounted_initial _ _ _) Hrun)
    as (Hlen & Hcount & _ & Hhandled).
  split; [done|]. split; [done|].
  intros (_ & Hworkers & Hreaders).
  apply plant_run_line in Hrun. cbn [Plant.initial Plant.line] in Hrun.
  pose proof (invariant_reachable E _ _ _ _ _ _ (invariant_initial _ _) Hrun)
    as [_ Hfinished].
  pose proof (balanced_reachable E _ _ _ _ _ _ _ (balanced_initial _ _) Hrun)
    as [Hwlen _].
  rewrite (count_all Main.is_finished) in Hfinished
    by (intros i ws Hi; by rewrite (Hworkers i ws Hi)).
  rewrite (count_all Plant.is_done) in Hcount
    by (intros j r Hj; by rewrite (Hreaders j r Hj)).
  lia.
Qed.

Lemma plant_sentinels_witness :
  let E := Sample.calm 1 Sample.two_files in
  let p0 :=
    Plant.initial ((Some <$> ["2304.07856"]) ++ replicate 3 None) 3 2 in
  let p :=
    default p0 (Plant.run E 6 4 "/data" 2 Plant.late_paper p0) in
  Plant.reachable E 6 4 "/data" 2 p0 p
  ∧ Main.sentinels (Main.put (Plant.line p))
    = (Main.count Main.is_sentinel (Main.download_queue (Plant.line p))
       + Main.count Plant.is_done (Plant.readers p))%nat
  ∧ (∀ j arxiv_id, (j, arxiv_id) ∈ Plant.handled p →
                   ∃ i, (i, Some arxiv_id) ∈ Main.put (Plant.line p))
  ∧ (Plant.all_finished p →
     (Main.count Main.is_sentinel (Main.download_queue (Plant.line p))
      + 2 = 3)%nat).
Proof.
  intros E p0 p.
  assert (Plant.reachable E 6 4 "/data" 2 p0 p) as H
    by (exists Plant.late_paper; vm_compute; reflexivity).
  split; [exact H|].
  exact (plant_sentinels E 6 4 "/data" 2 ["2304.07856"] 3 2 p H).
Defined.

Lemma plant_run_cons (E : env) (id_maxsize download_maxsize : nat)
    (base_data_dir : string) (delay : Q) (m : Plant.move)
    (rest : list Plant.move) (p p1 : Plant.plant) :
  Plant.step E id_maxsize download_maxsize base_data_dir delay m p = Some p1 →
  Plant.run E id_maxsize download_maxsize base_data_dir delay (m :: rest) p
  = Plant.run E id_maxsize download_maxsize base_data_dir delay rest p1.
Proof. intros H. cbn [Plant.run]. by rewrite H. Qed.

(** One move from a state that is known. *)
Ltac plant_move Hd :=
  erewrite plant_run_cons;
  [|cbn [Plant.step Main.step mbind option_bind
         Main.resolver_todo Main.id_queue Main.download_queue Main.workers
         Main.taken Main.put Main.outside Plant.line Plant.readers
         Plant.handled Main.has_room length Nat.eqb Nat.ltb Nat.leb orb
         lookup list_lookup insert list_insert app];
    try rewrite Hd; reflexivity].

(** X29.  With the three download threads, the two reference threads and
    the queue sizes of [main.py], a paper can be downloaded and never
    have its references extracted: when the worker that holds the last
    paper is still busy while the two others pass their sentinels on,
    both reference workers leave, the paper is put on the result queue
    after that, every thread ends, and the paper stays on the queue. *)
Theorem late_paper_is_left_over (E : env) (arxiv_id base_data_dir : string)
    (delay : Q) :
  (Main.download_paper E arxiv_id base_data_dir World.start).1 = inr tt →
  ∃ p,
    Plant.run E 6 4 base_data_dir delay Plant.late_paper
      (Plant.initial ((Some <$> [arxiv_id]) ++ replicate 3 None) 3 2)
    = Some p
    ∧ Plant.all_finished p
    ∧ Main.id_queue (Plant.line p) = []
    ∧ Main.download_queue (Plant.line p) = [Some arxiv_id; None]
    ∧ Plant.handled p = []
    ∧ ∀ m, Plant.step E 6 4 base_data_dir delay m p = None.
Proof.
  intros Hok.
  destruct (Main.download_paper E arxiv_id base_data_dir World.start)
    as [r w1] eqn:Hd.
  cbn [fst] in Hok. subst r.
  eexists. split.
  { unfold Plant.late_paper, Plant.initial, Main.initial.
    cbn [fmap list_fmap replicate app].
    do 14 plant_move Hd. reflexivity. }
  cbn [Plant.line Plant.readers Plant.handled Main.resolver_todo
       Main.id_queue Main.download_queue Main.workers].
  split; [|split; [done|split; [done|split; [done|]]]].
  - split; [done|]. split.
    + intros [|[|[|i]]] ws; cbn; intros [= <-]; done.
    + intros [|[|j]] r; cbn; intros [= <-]; done.
  - intros [[|i|i|]|j]; cbn [Plant.step Main.step Main.resolver_todo
                              Main.workers Plant.line Plant.readers
                              mbind option_bind]; try done.
    + by destruct i as [|[|[|i]]].
    + by destruct i as [|[|[|i]]].
    + by destruct j as [|[|j]].
Qed.

Lemma late_paper_is_left_over_witness :
  let E := Sample.calm 1 Sample.two_files in
  (Main.download_paper E "2304.07856" "/data" World.start).1 = inr tt
  ∧ ∃ p,
      Plant.run E 6 4 "/data" 2 Plant.late_paper
        (Plant.initial ((Some <$> ["2304.07856"]) ++ replicate 3 None) 3 2)
      = Some p
      ∧ Plant.all_finished p
      ∧ Main.id_queue (Plant.line p) = []
      ∧ Main.download_queue (Plant.line p) = [Some "2304.07856"; None]
      ∧ Plant.handled p = []
      ∧ ∀ m, Plant.step E 6 4 "/data" 2 m p = None.
Proof.
  intros E.
  assert ((Main.download_paper E "2304.07856" "/data" World.start).1
          = inr tt) as H by (vm_compute; reflexivity).
  split; [exact H|].
  exact (late_paper_is_left_over E "2304.07856" "/data" 2 H).
Defined.

(* ===================================================================== *)
(** * The threads never block each other for good *)
(* ===================================================================== *)

Section NoDeadlock.

Import Main Plant.

Variable E : env.
Variables (id_maxsize download_maxsize : nat).
Variable base_data_dir : string.
Variable delay : Q.

Abbreviation line_step :=
  (Main.step E id_maxsize download_maxsize base_data_dir delay).
Abbreviation thread_step :=
  (Plant.step E id_maxsize download_maxsize base_data_dir delay).

(** What one action does to the queues, the workers and the log. *)
Lemma line_step_effect a s s' :
  line_step a s = Some s' →
  match a with
  | ResolverPut =>
      ∃ x, resolver_todo s = x :: resolver_todo s'
           ∧ id_queue s' = id_queue s ++ [x]
           ∧ workers s' = workers s
           ∧ download_queue s' = download_queue s ∧ put s' = put s
  | WorkerGet i =>
      ∃ x w, id_queue s = x :: id_queue s'
             ∧ resolver_todo s' = resolver_todo s
             ∧ workers s !! i = Some Taking
             ∧ workers s' = <[i:=w]> (workers s)
             ∧ match x with
               | None => w = Putting None
               | Some arxiv_id => w = Taking ∨ w = Putting (Some arxiv_id)
               end
             ∧ download_queue s' = download_queue s ∧ put s' = put s
  | WorkerPut i =>
      ∃ x, workers s !! i = Some (Putting x)
           ∧ workers s'
             = <[i:=match x with None => Finished | Some _ => Taking end]>
                 (workers s)
           ∧ id_queue s' = id_queue s
           ∧ resolver_todo s' = resolver_todo s
           ∧ download_queue s' = download_queue s ++ [x]
           ∧ put s' = put s ++ [(i, x)]
  | ReferenceGet =>
      ∃ x, download_queue s = x :: download_queue s'
           ∧ put s' = put s ∧ workers s' = workers s
           ∧ id_queue s' = id_queue s
           ∧ resolver_todo s' = resolver_todo s
  end.
Proof.
  destruct a as [|i|i|]; unfold Main.step; intros Hstep.
  - destruct (resolver_todo s) as [|x todo]; [done|].
    destruct (has_room _ _); [|done]. simplify_eq. by exists x.
  - destruct (workers s !! i) as [[| |]|]; try done.
    destruct (id_queue s) as [|[arxiv_id|] q]; [done| |].
    + destruct (download_paper _ _ _ _) as [[e|[]] w1]; simplify_eq.
      * exists (Some arxiv_id), Taking. cbn. auto 10.
      * exists (Some arxiv_id), (Putting (Some arxiv_id)). cbn. auto 10.
    + simplify_eq. exists None, (Putting None). cbn. auto 10.
  - destruct (workers s !! i) as [[|x|]|]; try done.
    destruct (has_room _ _); [|done]. simplify_eq. by exists x.
  - destruct (download_queue s) as [|x q]; [done|]. simplify_eq.
    by exists x.
Qed.

(** A move of the threads is an action on the line. *)
Lemma thread_step_line m p p' :
  thread_step m p = Some p' →
  ∃ a, line_step a (line p) = Some (line p')
       ∧ match m with
         | Upstream a' => a = a' ∧ a ≠ ReferenceGet
                          ∧ readers p' = readers p
         | ReaderGet j =>
             a = ReferenceGet ∧ readers p !! j = Some Reading
             ∧ ∃ x, head (download_queue (line p)) = Some x
                    ∧ readers p'
                      = match x with
                        | None => <[j:=Done]> (readers p)
                        | Some _ => readers p
                        end
         end.
Proof.
  intros Hm. destruct m as [a|j]; cbn [Plant.step] in Hm.
  - exists a. destruct a;
      destruct (line_step _ (line p)) as [s1|] eqn:H1;
      try done; cbn in Hm; by simplify_eq.
  - exists ReferenceGet.
    destruct (readers p !! j) as [[|]|]; try done.
    destruct (download_queue (line p)) as [|x q] eqn:Hq; [done|].
    destruct (line_step ReferenceGet (line p)) as [s1|]; [|done].
    cbn in Hm. simplify_eq. cbn. split; [done|]. split; [done|].
    split; [done|]. by exists x.
Qed.

Lemma total_pending_insert ws i x y :
  ws !! i = Some x →
  (total_pending (<[i:=y]> ws) + pending x
   = total_pending ws + pending y)%nat.
Proof.
  revert i. induction ws as [|z ws IH]; intros [|i] Hi; try done.
  - injection Hi as ->. change (<[0%nat:=y]> (x :: ws)) with (y :: ws).
    cbn [total_pending]. lia.
  - cbn in Hi. specialize (IH i Hi).
    change (<[S i:=y]> (z :: ws)) with (z :: <[i:=y]> ws).
    cbn [total_pending]. lia.
Qed.

Lemma total_pending_bound ws :
  (total_pending ws + 2 * count is_finished ws ≤ 2 * length ws)%nat.
Proof.
  induction ws as [|[|[x|]|] ws IH]; cbn [total_pending pending count
    is_finished length]; lia.
Qed.

Lemma finished_or_waiting ws :
  (count is_finished ws + count awaits_sentinel ws ≤ length ws)%nat.
Proof.
  induction ws as [|[|[x|]|] ws IH]; cbn [count is_finished
    awaits_sentinel length]; lia.
Qed.

Lemma sentinels_items log :
  sentinels log = count is_sentinel (snd <$> log).
Proof.
  unfold sentinels. induction log as [|[i x] log IH]; [done|].
  cbn [fmap list_fmap count snd]. cbn in IH. by rewrite IH.
Qed.

Lemma after_sentinels_app k items more :
  (k ≤ count is_sentinel items)%nat →
  after_sentinels k (items ++ more) = after_sentinels k items ++ more.
Proof.
  revert k. induction items as [|[x|] items IH]; intros k Hk.
  - cbn in Hk. assert (k = 0%nat) as -> by lia. by destruct more.
  - destruct k as [|k]; [done|]. cbn [app after_sentinels].
    apply IH. cbn in Hk. lia.
  - destruct k as [|k]; [done|]. cbn [app after_sentinels].
    apply IH. cbn in Hk. lia.
Qed.

Lemma after_sentinels_last k items :
  count is_sentinel items = k →
  after_sentinels (S k) (items ++ [None]) = [].
Proof.
  revert k. induction items as [|[x|] items IH]; intros k Hk.
  - cbn in Hk. by subst k.
  - cbn [app after_sentinels]. apply IH. cbn in Hk. lia.
  - cbn in Hk. destruct k as [|k]; [lia|]. cbn [app after_sentinels].
    apply IH. lia.
Qed.

Lemma orderly_initial selected_ids n k :
  orderly n k
    (Plant.initial ((Some <$> selected_ids) ++ replicate n None) n k).
Proof.
  split; [apply balanced_initial|]. split; [apply invariant_initial|].
  split; [apply accounted_initial|]. split; [by exists []|]. split.
  - exists selected_ids, n. split; [done|]. cbn.
    rewrite count_replicate, length_replicate. cbn. lia.
  - cbn. destruct k; cbn; [|lia]. intros _.
    assert (total_pending (replicate n Taking) = n) as ->; [|lia].
    induction n as [|n IH]; cbn; [done|]. by rewrite IH.
Qed.

Lemma orderly_step n k m p p' :
  (1 ≤ k)%nat →
  orderly n k p → thread_step m p = Some p' → orderly n k p'.
Proof.
  intros Hk (Hbal & Hinv & Hacc & Hfifo & Hids & Hend) Hm.
  pose proof (accounted_step E _ _ _ _ _ _ _ _ Hacc Hm) as Hacc'.
  destruct (thread_step_line _ _ _ Hm) as (a & Ha & Hkind).
  pose proof (balanced_step E _ _ _ _ _ _ _ _ Hbal Ha) as Hbal'.
  pose proof (invariant_step E _ _ _ _ _ _ _ Hinv Ha) as Hinv'.
  split; [done|]. split; [done|]. split; [done|].
  pose proof (line_step_effect _ _ _ Ha) as Heff.
  destruct Hfifo as [consumed Hfifo].
  destruct Hids as (ids & m0 & Hqueue & Hgone).
  destruct a as [|i|i|].
  - (* the resolver puts *)
    destruct Heff as (x & Htodo & Hq & Hw & Hdq & Hput).
    rewrite Hdq, Hput, Hw, Hq. split; [by exists consumed|].
    split; [|done]. exists ids, m0. split; [|done].
    rewrite <- Hqueue, Htodo. by rewrite <- app_assoc.
  - (* a worker takes *)
    destruct Heff as (x & w & Hq & Htodo & Hi & Hw & Hx & Hdq & Hput).
    rewrite Hdq, Hput. split; [by exists consumed|].
    rewrite Hq in Hqueue. rewrite Htodo, Hw, length_insert.
    split.
    + destruct ids as [|arxiv_id ids].
      * destruct m0 as [|m0]; [done|]. cbn in Hqueue.
        injection Hqueue as -> Hqueue. exists [], m0. by split.
      * cbn in Hqueue. injection Hqueue as -> Hqueue.
        exists ids, m0. split; [done|]. intros Hlt. exfalso.
        pose proof (count_insert awaits_sentinel _ _ _ w Hi) as Hc.
        assert (awaits_sentinel w = true) as Hwaits
          by (by destruct Hx as [-> | ->]).
        rewrite Hwaits in Hc. cbn [awaits_sentinel] in Hc.
        assert ([] = arxiv_id :: ids) as Habs; [|done].
        symmetry. apply Hgone. lia.
    + intros Hsent. specialize (Hend Hsent).
      assert (ids = []) as ->.
      { apply Hgone. destruct Hinv as [_ Hfin].
        pose proof (finished_or_waiting (workers (line p))). lia. }
      destruct m0 as [|m0]; [done|]. cbn in Hqueue.
      injection Hqueue as -> Hqueue. subst w.
      pose proof (total_pending_insert _ _ _ (Putting None) Hi) as Hp.
      cbn [pending] in Hp. lia.
  - (* a worker puts *)
    destruct Heff as (x & Hi & Hw & Hq & Htodo & Hdq & Hput).
    split.
    { exists consumed. rewrite Hput, Hdq, fmap_app, Hfifo.
      by rewrite <- app_assoc. }
    split.
    { exists ids, m0. rewrite Hq, Htodo. split; [done|].
      rewrite Hw, length_insert. intros Hlt. apply Hgone.
      pose proof (count_insert awaits_sentinel _ _ _
                    (match x with None => Finished | Some _ => Taking end)
                    Hi) as Hc.
      destruct x; cbn [awaits_sentinel] in Hc; lia. }
    intros Hsent. rewrite Hput, fmap_app. cbn [fmap list_fmap snd].
    destruct (decide (k ≤ sentinels (put (line p)))%nat) as [Hold|Hnew].
    + specialize (Hend Hold).
      rewrite after_sentinels_app by (by rewrite <- sentinels_items).
      rewrite length_app. cbn [length]. rewrite Hw.
      pose proof (total_pending_insert _ _ _
                    (match x with None => Finished | Some _ => Taking end)
                    Hi) as Hp.
      destruct x; cbn [pending] in Hp; lia.
    + rewrite Hput, sentinels_snoc in Hsent.
      destruct x as [arxiv_id|]; cbn [is_sentinel] in Hsent; [lia|].
      destruct k as [|k]; [lia|].
      rewrite after_sentinels_last
        by (rewrite <- sentinels_items; lia).
      cbn [length]. destruct Hinv' as [_ Hfin'].
      destruct Hbal' as [Hlen' _].
      pose proof (total_pending_bound (workers (line p'))) as Hb.
      rewrite Hput, sentinels_snoc in Hfin'. cbn [is_sentinel] in Hfin'.
      lia.
  - (* a reference worker takes *)
    destruct Heff as (x & Hdq & Hput & Hw & Hq & Htodo).
    rewrite Hput, Hw, Hq, Htodo. split; [|split; [|done]].
    + exists (consumed ++ [x]). rewrite Hfifo, Hdq.
      by rewrite <- app_assoc.
    + by exists ids, m0.
Qed.

Lemma orderly_run n k schedule p p' :
  (1 ≤ k)%nat → orderly n k p →
  Plant.run E id_maxsize download_maxsize base_data_dir delay schedule p
  = Some p' →
  orderly n k p'.
Proof.
  intros Hk. revert p. induction schedule as [|m rest IH]; intros p Hp.
  - by intros [= <-].
  - cbn [Plant.run]. destruct (thread_step m p) as [p1|] eqn:Hm; [|done].
    cbn [mbind option_bind]. apply IH. by eapply orderly_step.
Qed.

Lemma count_none {A} (f : A → bool) (l : list A) :
  count f l = 0%nat → ∀ i x, l !! i = Some x → f x = false.
Proof.
  induction l as [|y l IH]; intros Hc [|i] x Hi; try done.
  - injection Hi as ->. cbn in Hc. destruct (f x); [lia|done].
  - cbn in Hi. cbn in Hc. apply (IH ltac:(destruct (f y); lia) i x Hi).
Qed.

Lemma some_not {A} (f : A → bool) (l : list A) :
  (count f l < length l)%nat → ∃ i x, l !! i = Some x ∧ f x = false.
Proof.
  induction l as [|y l IH]; cbn [count length]; [lia|]. intros Hc.
  destruct (f y) eqn:Hy.
  - destruct IH as (i & x & Hi & Hx); [lia|]. by exists (S i), x.
  - by exists 0%nat, y.
Qed.

(** From an orderly state some thread can move, unless all have left
    their loops. *)
Lemma orderly_progress n k p :
  (1 ≤ k ≤ n)%nat →
  (download_maxsize = 0 ∨ 2 * (n - k) ≤ download_maxsize)%nat →
  orderly n k p →
  Plant.all_finished p ∨ ∃ m p', thread_step m p = Some p'.
Proof.
  intros Hkn Hsize (Hbal & Hinv & Hacc & Hfifo & Hids & Hend).
  destruct Hbal as [Hlen Hbal]. destruct Hinv as [_ Hfin].
  destruct Hacc as (Hrlen & Hcount & _ & _).
  (* a reference worker that is in its loop takes what is there *)
  assert (∀ j x q, readers p !! j = Some Reading →
                   download_queue (line p) = x :: q →
                   ∃ m p', thread_step m p = Some p') as Hreader.
  { intros j x q Hj Hq. exists (ReaderGet j). cbn [Plant.step].
    rewrite Hj, Hq. cbn [Main.step]. rewrite Hq. cbn. eauto. }
  destruct (decide (count is_finished (workers (line p))
                    = length (workers (line p)))) as [Hall|Hsome].
  - (* every download worker has left *)
    destruct (decide (count is_done (readers p) = length (readers p)))
      as [Hrall|Hrsome].
    + left. pose proof (finished_or_waiting (workers (line p))) as Hfw.
      destruct Hids as (ids & m0 & Hqueue & Hgone).
      rewrite Hgone in Hqueue by lia. cbn in Hqueue.
      assert (m0 = 0%nat) as ->.
      { assert (count is_sentinel
                  (resolver_todo (line p) ++ id_queue (line p)) = m0)
          as Hm0.
        { rewrite count_app, Nat.add_comm, <- count_app, Hqueue.
          by rewrite count_replicate. }
        lia. }
      apply app_eq_nil in Hqueue as [_ Htodo].
      split; [done|]. split.
      * intros i w Hi. destruct w; [| |done]; exfalso.
        -- pose proof (count_pos awaits_sentinel _ _ _ Hi eq_refl). lia.
        -- assert (count is_finished (workers (line p))
                   < length (workers (line p)))%nat; [|lia].
           clear -Hi. revert i Hi.
           induction (workers (line p)) as [|y l IH]; intros [|i] Hi;
             try done.
           ++ injection Hi as ->. cbn.
              pose proof (count_le_length is_finished l). lia.
           ++ cbn in Hi. specialize (IH i Hi). cbn [count length].
              destruct (is_finished y); lia.
      * intros j r Hj. destruct r; [|done]. exfalso.
        assert (count is_done (readers p) < length (readers p))%nat;
          [|lia].
        clear -Hj. revert j Hj.
        induction (readers p) as [|y l IH]; intros [|j] Hj; try done.
        -- injection Hj as ->. cbn.
           pose proof (count_le_length is_done l). lia.
        -- cbn in Hj. specialize (IH j Hj). cbn [count length].
           destruct (is_done y); lia.
    + right.
      pose proof (count_le_length is_done (readers p)) as Hle.
      destruct (some_not is_done (readers p)) as (j & r & Hj & Hr);
        [lia|].
      destruct r; [|done].
      destruct (download_queue (line p)) as [|x q] eqn:Hq.
      * exfalso. cbn in Hcount. lia.
      * by eapply Hreader.
  - (* some download worker is still in its loop *)
    right.
    pose proof (count_le_length is_finished (workers (line p))) as Hle.
    destruct (some_not is_finished (workers (line p)))
      as (i & w & Hi & Hw); [lia|].
    destruct (has_room download_maxsize (download_queue (line p)))
      eqn:Hroom.
    + destruct (balanced_progress E id_maxsize download_maxsize
                  base_data_dir delay n (line p) i w)
        as (a & s' & Hne & Hstep); [done|done|by destruct w|done|].
      exists (Upstream a). cbn [Plant.step].
      destruct a; [| | |done]; rewrite Hstep; cbn; eauto.
    + unfold has_room in Hroom. apply orb_false_iff in Hroom as [Hz Hfull].
      apply Nat.eqb_neq in Hz. apply Nat.ltb_ge in Hfull.
      destruct (download_queue (line p)) as [|x q] eqn:Hq;
        [cbn in Hfull; lia|].
      destruct (decide (count is_done (readers p) = length (readers p)))
        as [Hrall|Hrsome].
      * (* no reference worker is left: the queue cannot be full *)
        destruct w as [|y|]; [| |done].
        -- destruct (id_queue (line p)) as [|z q'] eqn:Hq'.
           ++ destruct (resolver_todo (line p)) as [|z todo] eqn:Htodo.
              ** exfalso. cbn in Hbal.
                 pose proof (count_pos awaits_sentinel _ _ _ Hi eq_refl).
                 lia.
              ** exists (Upstream ResolverPut). cbn [Plant.step Main.step].
                 rewrite Htodo, Hq', has_room_empty. cbn. eauto.
           ++ exists (Upstream (WorkerGet i)). cbn [Plant.step Main.step].
              rewrite Hi, Hq'. destruct z as [arxiv_id|]; [|cbn; eauto].
              destruct (download_paper _ _ _ _). cbn. eauto.
        -- exfalso. destruct Hfifo as [consumed Hfifo].
           assert (k ≤ count is_sentinel consumed)%nat as Hcons.
           { rewrite sentinels_items, Hfifo, count_app in Hcount. lia. }
           assert (k ≤ sentinels (put (line p)))%nat as Hsent.
           { rewrite sentinels_items, Hfifo, count_app. lia. }
           specialize (Hend Hsent).
           rewrite Hfifo, after_sentinels_app, length_app in Hend
             by done.
           assert (1 ≤ total_pending (workers (line p)))%nat.
           { clear -Hi. revert i Hi.
             induction (workers (line p)) as [|z l IH]; intros [|i] Hi;
               try done.
             - injection Hi as ->. cbn. destruct y; lia.
             - cbn in Hi. specialize (IH i Hi). cbn. lia. }
           destruct Hsize as [Hs|Hs]; lia.
      * pose proof (count_le_length is_done (readers p)) as Hrle.
        destruct (some_not is_done (readers p)) as (j & r & Hj & Hr);
          [lia|].
        destruct r; [|done]. by eapply Hreader.
Qed.

End NoDeadlock.

(** X30.  The threads of [main.py] never block each other for good: with
    at least one reference thread, no more reference threads than
    download threads, and a result queue that is unbounded or holds
    twice the difference of the two counts (the constants of [main.py]
    are 3, 2 and 4), in every state that can be reached some thread can
    take its next step unless every thread has left its loop. *)
Theorem pipeline_never_deadlocks (E : env) (id_maxsize download_maxsize : nat)
    (base_data_dir : string) (delay : Q) (selected_ids : list string)
    (DOWNLOAD_THREAD_COUNT REFERENCE_THREAD_COUNT : nat) (p : Plant.plant) :
  (1 ≤ REFERENCE_THREAD_COUNT ≤ DOWNLOAD_THREAD_COUNT)%nat →
  (download_maxsize = 0
   ∨ 2 * (DOWNLOAD_THREAD_COUNT - REFERENCE_THREAD_COUNT)
     ≤ download_maxsize)%nat →
  Plant.reachable E id_maxsize download_maxsize base_data_dir delay
    (Plant.initial
       ((Some <$> selected_ids) ++ replicate DOWNLOAD_THREAD_COUNT None)
       DOWNLOAD_THREAD_COUNT REFERENCE_THREAD_COUNT) p →
  Plant.all_finished p
  ∨ ∃ m p',
      Plant.step E id_maxsize download_maxsize base_data_dir delay m p
      = Some p'.
Proof.
  intros Hcounts Hsize [schedule Hrun].
  eapply orderly_progress; [exact Hcounts|exact Hsize|].
  eapply orderly_run; [lia| |exact Hrun].
  apply orderly_initial.
Qed.

Lemma pipeline_never_deadlocks_witness :
  let E := Sample.calm 1 Sample.two_files in
  let p0 :=
    Plant.initial ((Some <$> ["2304.07856"]) ++ replicate 3 None) 3 2 in
  let p :=
    default p0
      (Plant.run E 6 4 "/data" 2
         [Plant.Upstream Main.ResolverPut; Plant.Upstream (Main.WorkerGet 0)]
         p0) in
  (1 ≤ 2 ≤ 3)%nat
  ∧ (4 = 0 ∨ 2 * (3 - 2) ≤ 4)%nat
  ∧ Plant.reachable E 6 4 "/data" 2 p0 p
  ∧ (Plant.all_finished p
     ∨ ∃ m p', Plant.step E 6 4 "/data" 2 m p = Some p').
Proof.
  intros E p0 p.
  assert (1 ≤ 2 ≤ 3)%nat as H1 by lia.
  assert (4 = 0 ∨ 2 * (3 - 2) ≤ 4)%nat as H2 by (right; cbn; lia).
  assert (Plant.reachable E 6 4 "/data" 2 p0 p) as H3
    by (exists [Plant.Upstream Main.ResolverPut;
                Plant.Upstream (Main.WorkerGet 0)];
        vm_compute; reflexivity).
  split; [exact H1|]. split; [exact H2|]. split; [exact H3|].
  exact (pipeline_never_deadlocks E 6 4 "/data" 2 ["2304.07856"] 3 2 p
           H1 H2 H3).
Defined.
